(** * The Janus gateway core (janus.c): sessions, the HTTP/JSON router,
      the long-poll responder and the plugin callback [janus_push_event];
      and the VideoCall plugin (plugins/janus_videocall.c).

    The C program is embedded shallowly.  Global variables of janus.c
    ([sessions], [plugins], [stop], [ws_path]) are fields of a [world]
    record that every function takes and returns.  Objects reached through
    pointers (sessions, ICE handles) live in heaps indexed by addresses, so
    that a session removed from the table still exists for whoever holds a
    pointer to it.  What the environment decides (random draws, whether
    [calloc] succeeds, what a plugin answers, what other threads do while
    the caller sleeps) is read from oracle lists kept in the world.
    External libraries (Jansson, the SDP and ICE subsystems, libc's
    [vsprintf], the numeric values of apierror.h) are taken as parameters. *)

From stdpp Require Import gmap strings list pretty.
From Stdlib Require Import ZArith Lia Ascii String.

Local Open Scope string_scope.
Local Open Scope Z_scope.

(** ** Machine integers *)

Definition G_MAXINT64 : Z := 2 ^ 63 - 1.
Definition G_MININT64 : Z := - 2 ^ 63.

(** Conversion of an integer to [guint64]. *)
Definition to_guint64 (z : Z) : Z := z mod 2 ^ 64.

(** Conversion of an integer to [guint32] (what [g_random_int] returns). *)
Definition to_guint32 (z : Z) : Z := z mod 2 ^ 32.

(** Conversion to Jansson's [json_int_t] (a signed 64-bit integer). *)
Definition to_json_int (z : Z) : Z := (z + 2 ^ 63) mod 2 ^ 64 - 2 ^ 63.

(** ** C strings and the GLib string helpers used by the router *)

Definition dquote : string := String (ascii_of_nat 34) EmptyString.

Definition tolower (c : ascii) : ascii :=
  let n := N_of_ascii c in
  if ((65 <=? n) && (n <=? 90))%N then ascii_of_N (n + 32) else c.

Definition char_code (c : ascii) : Z := Z.of_N (N_of_ascii c).

(** [strcasecmp]: zero exactly when the two strings are equal up to the
    case of ASCII letters. *)
Fixpoint strcasecmp (a b : string) : Z :=
  match a, b with
  | EmptyString, EmptyString => 0
  | EmptyString, String d _ => 0 - char_code (tolower d)
  | String c _, EmptyString => char_code (tolower c)
  | String c a', String d b' =>
      if char_code (tolower c) =? char_code (tolower d)
      then strcasecmp a' b'
      else char_code (tolower c) - char_code (tolower d)
  end.

(** [prefix_rest d s]: when [d] is a prefix of [s], what follows it. *)
Fixpoint prefix_rest (d s : string) : option string :=
  match d, s with
  | EmptyString, _ => Some s
  | String c d', String c' s' =>
      if Ascii.eqb c c' then prefix_rest d' s' else None
  | String _ _, EmptyString => None
  end.

(** The tokens of [s] between occurrences of the non-empty delimiter [d].
    [cur] holds, reversed, the characters of the token being read; [skip]
    counts the characters of a matched delimiter still to step over. *)
Fixpoint split_on (d : string) (cur : string) (skip : nat) (s : string)
  : list string :=
  match s with
  | EmptyString => [String.rev cur]
  | String c s' =>
      match skip with
      | S k => split_on d cur k s'
      | O =>
          match prefix_rest d s with
          | Some _ =>
              String.rev cur ::
                split_on d EmptyString (Nat.pred (String.length d)) s'
          | None => split_on d (String c cur) O s'
          end
      end
  end.

(** [g_strsplit string delimiter -1].  [None] is the NULL that GLib
    returns for an empty delimiter; an empty [string] gives the empty
    vector. *)
Definition g_strsplit (s d : string) : option (list string) :=
  match d with
  | EmptyString => None
  | _ => match s with
         | EmptyString => Some []
         | _ => Some (split_on d EmptyString O s)
         end
  end.

Definition g_ascii_isspace (c : ascii) : bool :=
  let n := N_of_ascii c in
  ((n =? 32) || ((9 <=? n) && (n <=? 13)))%N.

Definition digit_value (c : ascii) : option Z :=
  let n := N_of_ascii c in
  if ((48 <=? n) && (n <=? 57))%N then Some (Z.of_N n - 48) else None.

Fixpoint skip_spaces (s : string) : string :=
  match s with
  | String c s' => if g_ascii_isspace c then skip_spaces s' else s
  | EmptyString => s
  end.

Fixpoint parse_digits (s : string) (acc : Z) : Z :=
  match s with
  | String c s' =>
      match digit_value c with
      | Some d => parse_digits s' (acc * 10 + d)
      | None => acc
      end
  | EmptyString => acc
  end.

(** [g_ascii_strtoll nptr NULL 10]: leading white space, an optional sign,
    then decimal digits; the value saturates at the bounds of [gint64]. *)
Definition g_ascii_strtoll (s : string) : Z :=
  match skip_spaces s with
  | String "-"%char r => Z.max G_MININT64 (- parse_digits r 0)
  | String "+"%char r => Z.min G_MAXINT64 (parse_digits r 0)
  | r => Z.min G_MAXINT64 (parse_digits r 0)
  end.

(** A NULL-terminated string vector read at index [i]: an element, the
    terminating NULL ([Some None]), or a read past the terminator
    ([None]). *)
Definition strv_get (v : list string) (i : nat) : option (option string) :=
  match v !! i with
  | Some s => Some (Some s)
  | None => if (i =? List.length v)%nat then Some None else None
  end.

(** ** Jansson values *)

Set Warnings "-register-all".

Inductive json_t : Type :=
  | JNull
  | JTrue
  | JFalse
  | JInteger (n : Z)
  | JString (s : string)
  | JArray (items : list json_t)
  | JObject (members : list (string * json_t)).

Record json_error_t := { line : Z; text : string }.

Definition json_object : json_t := JObject [].
Definition json_string (s : string) : json_t := JString s.
Definition json_integer (v : Z) : json_t := JInteger (to_json_int v).

Definition json_is_object (j : json_t) : bool :=
  match j with JObject _ => true | _ => false end.

Definition json_is_string (j : json_t) : bool :=
  match j with JString _ => true | _ => false end.

Definition json_string_value (j : json_t) : option string :=
  match j with JString s => Some s | _ => None end.

Fixpoint set_member (key : string) (v : json_t) (ms : list (string * json_t))
  : list (string * json_t) :=
  match ms with
  | [] => [(key, v)]
  | (k, v') :: rest =>
      if String.eqb k key then (key, v) :: rest
      else (k, v') :: set_member key v rest
  end.

Fixpoint get_member (key : string) (ms : list (string * json_t))
  : option json_t :=
  match ms with
  | [] => None
  | (k, v) :: rest => if String.eqb k key then Some v else get_member key rest
  end.

(** [json_object_set]: the member is replaced when the key exists, added
    otherwise; a value that is not an object is left alone. *)
Definition json_object_set (o : json_t) (key : string) (v : json_t) : json_t :=
  match o with JObject ms => JObject (set_member key v ms) | _ => o end.

(** [json_object_get]: [None] is the NULL returned for a missing key or for
    a value that is not an object. *)
Definition json_object_get (o : json_t) (key : string) : option json_t :=
  match o with JObject ms => get_member key ms | _ => None end.

(** ** Error codes of apierror.h *)

Inductive janus_error : Type :=
  | JANUS_OK
  | JANUS_ERROR_UNKNOWN
  | JANUS_ERROR_USE_POST
  | JANUS_ERROR_MISSING_REQUEST
  | JANUS_ERROR_UNKNOWN_REQUEST
  | JANUS_ERROR_INVALID_JSON
  | JANUS_ERROR_INVALID_JSON_OBJECT
  | JANUS_ERROR_MISSING_MANDATORY_ELEMENT
  | JANUS_ERROR_INVALID_REQUEST_PATH
  | JANUS_ERROR_SESSION_NOT_FOUND
  | JANUS_ERROR_HANDLE_NOT_FOUND
  | JANUS_ERROR_PLUGIN_NOT_FOUND
  | JANUS_ERROR_PLUGIN_ATTACH
  | JANUS_ERROR_PLUGIN_MESSAGE
  | JANUS_ERROR_PLUGIN_DETACH
  | JANUS_ERROR_JSEP_UNKNOWN_TYPE
  | JANUS_ERROR_JSEP_INVALID_SDP.

(** ** libmicrohttpd constants *)

Definition MHD_YES : Z := 1.
Definition MHD_NO : Z := 0.
Definition MHD_HTTP_OK : Z := 200.
Definition MHD_HTTP_FOUND : Z := 302.
Definition MHD_HTTP_NOT_FOUND : Z := 404.
Definition MHD_HTTP_INTERNAL_SERVER_ERROR : Z := 500.
Definition MHD_HTTP_NOT_IMPLEMENTED : Z := 501.
Definition G_USEC_PER_SEC : Z := 1000000.

(** ** Records of janus.h *)

(** Addresses of heap objects; [option ptr] is a pointer that may be NULL. *)
Abbreviation ptr := positive.

Record janus_plugin := {
  get_name : string;
  get_package : string
}.

(** The plugin-side view of a handle (the type is spelt this way in the
    source). *)
Record janus_pluginession := {
  gateway_handle : option ptr;
  plugin_handle : option ptr
}.

Record janus_ice_handle := {
  session : option ptr;
  handle_id : Z;
  app : option janus_plugin;
  app_handle : option janus_pluginession;
  streams_num : Z;
  cdone : Z;
  audio_id : Z;
  video_id : Z
}.

(** The part of a handle that the ICE and SDP subsystems write: the
    media context. *)
Record ice_media := {
  media_streams_num : Z;
  media_cdone : Z;
  media_audio_id : Z;
  media_video_id : Z
}.

Definition set_media (m : ice_media) (h : janus_ice_handle) : janus_ice_handle :=
  {| session := session h; handle_id := handle_id h; app := app h;
     app_handle := app_handle h; streams_num := media_streams_num m;
     cdone := media_cdone m; audio_id := media_audio_id m;
     video_id := media_video_id m |}.

Record janus_http_event := {
  code : Z;
  payload : option string;
  allocated : Z
}.

Record janus_session := {
  session_id : Z;
  messages : list janus_http_event;
  ice_handles : gmap Z ptr;
  destroy : Z
}.

Record janus_http_msg := {
  contenttype : option string;
  acrh : option string;
  acrm : option string;
  msg_payload : option string;
  msg_len : Z;
  msg_session_id : Z
}.

Record MHD_Response := {
  headers : list (string * string);
  data : string
}.

Record MHD_Connection := {
  request_headers : list (string * string);
  con_cls : option janus_http_msg;
  queued : option (Z * MHD_Response)
}.

(** ** What the gateway calls outside janus.c *)

Inductive fmt_arg : Type :=
  | ArgStr (s : string)
  | ArgInt (n : Z).

Record externals := {
  (* Jansson *)
  json_loads : option string -> json_error_t + json_t;
  json_dumps : json_t -> string;
  (* libc *)
  vsprintf : string -> list fmt_arg -> string;
  (* apierror.h *)
  api_code : janus_error -> Z;
  janus_get_api_error : janus_error -> string;
  (* sdp.h *)
  janus_sdp_preparse : string -> option (Z * Z);
  janus_sdp_parse : janus_ice_handle -> string -> ice_media;
  janus_sdp_anonymize : string -> option string;
  janus_sdp_merge : janus_ice_handle -> string -> option string;
  (* ice.h *)
  janus_ice_setup_local : janus_ice_handle -> Z -> Z -> Z -> ice_media;
  janus_ice_setup_remote_candidate : janus_ice_handle -> Z -> Z -> ice_media
}.

(** Calls that leave the core, in the order they are made. *)
Inductive call : Type :=
  | Call_create_session (p : janus_plugin) (token : janus_pluginession)
  | Call_destroy_session (p : janus_plugin) (token : janus_pluginession)
  | Call_handle_message (p : janus_plugin) (token : option janus_pluginession)
      (transaction message : string) (sdp_type sdp : option string)
  | Call_ice_setup_local (h : ptr) (offer audio video : Z)
  | Call_ice_setup_remote_candidate (h : ptr) (stream_id component_id : Z)
  | Call_sdp_parse (h : ptr) (sdp : string).

(** What another thread may do while the caller sleeps. *)
Inductive async_event : Type :=
  | SIGINT
  | ENQUEUE (s : ptr) (e : janus_http_event)
  | CDONE (h : ptr) (v : Z).

(** ** The world *)

Record world := {
  (* globals of janus.c *)
  ws_path : string;
  plugins : option (gmap string janus_plugin);
  sessions : gmap Z ptr;
  stop : Z;
  (* heaps *)
  session_heap : gmap ptr janus_session;
  handle_heap : gmap ptr janus_ice_handle;
  connections : gmap ptr MHD_Connection;
  (* time and observable calls *)
  clock : Z;
  trace : list call;
  (* oracles *)
  random_ints : list Z;
  calloc_results : list bool;
  plugin_errors : list Z;
  sleeps : list (list async_event)
}.

(** Field updates. *)

Definition set_sessions (v : gmap Z ptr) (w : world) : world :=
  {| ws_path := ws_path w;
     plugins := plugins w;
     sessions := v;
     stop := stop w;
     session_heap := session_heap w;
     handle_heap := handle_heap w;
     connections := connections w;
     clock := clock w;
     trace := trace w;
     random_ints := random_ints w;
     calloc_results := calloc_results w;
     plugin_errors := plugin_errors w;
     sleeps := sleeps w |}.

Definition set_stop (v : Z) (w : world) : world :=
  {| ws_path := ws_path w;
     plugins := plugins w;
     sessions := sessions w;
     stop := v;
     session_heap := session_heap w;
     handle_heap := handle_heap w;
     connections := connections w;
     clock := clock w;
     trace := trace w;
     random_ints := random_ints w;
     calloc_results := calloc_results w;
     plugin_errors := plugin_errors w;
     sleeps := sleeps w |}.

Definition set_session_heap (v : gmap ptr janus_session) (w : world) : world :=
  {| ws_path := ws_path w;
     plugins := plugins w;
     sessions := sessions w;
     stop := stop w;
     session_heap := v;
     handle_heap := handle_heap w;
     connections := connections w;
     clock := clock w;
     trace := trace w;
     random_ints := random_ints w;
     calloc_results := calloc_results w;
     plugin_errors := plugin_errors w;
     sleeps := sleeps w |}.

Definition set_handle_heap (v : gmap ptr janus_ice_handle) (w : world) : world :=
  {| ws_path := ws_path w;
     plugins := plugins w;
     sessions := sessions w;
     stop := stop w;
     session_heap := session_heap w;
     handle_heap := v;
     connections := connections w;
     clock := clock w;
     trace := trace w;
     random_ints := random_ints w;
     calloc_results := calloc_results w;
     plugin_errors := plugin_errors w;
     sleeps := sleeps w |}.

Definition set_connections (v : gmap ptr MHD_Connection) (w : world) : world :=
  {| ws_path := ws_path w;
     plugins := plugins w;
     sessions := sessions w;
     stop := stop w;
     session_heap := session_heap w;
     handle_heap := handle_heap w;
     connections := v;
     clock := clock w;
     trace := trace w;
     random_ints := random_ints w;
     calloc_results := calloc_results w;
     plugin_errors := plugin_errors w;
     sleeps := sleeps w |}.

Definition set_clock (v : Z) (w : world) : world :=
  {| ws_path := ws_path w;
     plugins := plugins w;
     sessions := sessions w;
     stop := stop w;
     session_heap := session_heap w;
     handle_heap := handle_heap w;
     connections := connections w;
     clock := v;
     trace := trace w;
     random_ints := random_ints w;
     calloc_results := calloc_results w;
     plugin_errors := plugin_errors w;
     sleeps := sleeps w |}.

Definition set_trace (v : list call) (w : world) : world :=
  {| ws_path := ws_path w;
     plugins := plugins w;
     sessions := sessions w;
     stop := stop w;
     session_heap := session_heap w;
     handle_heap := handle_heap w;
     connections := connections w;
     clock := clock w;
     trace := v;
     random_ints := random_ints w;
     calloc_results := calloc_results w;
     plugin_errors := plugin_errors w;
     sleeps := sleeps w |}.

Definition set_random_ints (v : list Z) (w : world) : world :=
  {| ws_path := ws_path w;
     plugins := plugins w;
     sessions := sessions w;
     stop := stop w;
     session_heap := session_heap w;
     handle_heap := handle_heap w;
     connections := connections w;
     clock := clock w;
     trace := trace w;
     random_ints := v;
     calloc_results := calloc_results w;
     plugin_errors := plugin_errors w;
     sleeps := sleeps w |}.

Definition set_calloc_results (v : list bool) (w : world) : world :=
  {| ws_path := ws_path w;
     plugins := plugins w;
     sessions := sessions w;
     stop := stop w;
     session_heap := session_heap w;
     handle_heap := handle_heap w;
     connections := connections w;
     clock := clock w;
     trace := trace w;
     random_ints := random_ints w;
     calloc_results := v;
     plugin_errors := plugin_errors w;
     sleeps := sleeps w |}.

Definition set_plugin_errors (v : list Z) (w : world) : world :=
  {| ws_path := ws_path w;
     plugins := plugins w;
     sessions := sessions w;
     stop := stop w;
     session_heap := session_heap w;
     handle_heap := handle_heap w;
     connections := connections w;
     clock := clock w;
     trace := trace w;
     random_ints := random_ints w;
     calloc_results := calloc_results w;
     plugin_errors := v;
     sleeps := sleeps w |}.

Definition set_sleeps (v : list (list async_event)) (w : world) : world :=
  {| ws_path := ws_path w;
     plugins := plugins w;
     sessions := sessions w;
     stop := stop w;
     session_heap := session_heap w;
     handle_heap := handle_heap w;
     connections := connections w;
     clock := clock w;
     trace := trace w;
     random_ints := random_ints w;
     calloc_results := calloc_results w;
     plugin_errors := plugin_errors w;
     sleeps := v |}.

(** ** Outcomes and the monad of the core

    A call returns, dereferences an invalid pointer ([Faults]), waits for
    something its oracle never delivers ([Diverges]), or ends the process
    through [exit] ([Exits]). *)

Inductive outcome (A : Type) : Type :=
  | Returns (a : A)
  | Faults
  | Diverges
  | Exits (status : Z).

Arguments Returns {A} a.
Arguments Faults {A}.
Arguments Diverges {A}.
Arguments Exits {A} status.

Definition M (A : Type) : Type := world -> outcome (A * world).

Definition ret {A : Type} (a : A) : M A := fun w => Returns (a, w).

Definition bind {A B : Type} (m : M A) (k : A -> M B) : M B :=
  fun w =>
    match m w with
    | Returns (a, w') => k a w'
    | Faults => Faults
    | Diverges => Diverges
    | Exits st => Exits st
    end.

Notation "'let*' x := m 'in' k" := (bind m (fun x => k))
  (at level 10, x pattern, m at level 100, k at level 200, only parsing).

Definition get : M world := fun w => Returns (w, w).
Definition modify (f : world -> world) : M unit := fun w => Returns (tt, f w).
Definition fault {A : Type} : M A := fun _ => Faults.
Definition diverge {A : Type} : M A := fun _ => Diverges.

(** Dereference of a pointer that must not be NULL or dangling. *)
Definition deref {A : Type} (o : option A) : M A :=
  match o with Some a => ret a | None => fault end.

Definition log (c : call) : M unit :=
  modify (fun w => set_trace (trace w ++ [c]) w).

(** ** Oracles *)

(** A checked [calloc]/[realloc]: [true] when memory was obtained.  An
    exhausted oracle means memory is available. *)
Definition calloc : M bool := fun w =>
  match calloc_results w with
  | [] => Returns (true, w)
  | b :: rest => Returns (b, set_calloc_results rest w)
  end.

(** What a plugin writes to [*error] in [create_session] and
    [destroy_session]; an exhausted oracle means no error. *)
Definition plugin_error : M Z := fun w =>
  match plugin_errors w with
  | [] => Returns (0, w)
  | e :: rest => Returns (e, set_plugin_errors rest w)
  end.

(** [janus_handle_signal] (lines 79-85). *)
Definition janus_handle_signal : M unit := fun w =>
  let w' := set_stop (stop w + 1) w in
  if 2 <? stop w' then Exits 1 else Returns (tt, w').

Definition run_async (e : async_event) : M unit :=
  match e with
  | SIGINT => janus_handle_signal
  | ENQUEUE s ev =>
      modify (fun w =>
        set_session_heap
          (alter (fun ss => {| session_id := session_id ss;
                               messages := messages ss ++ [ev];
                               ice_handles := ice_handles ss;
                               destroy := destroy ss |}) s (session_heap w)) w)
  | CDONE h v =>
      modify (fun w =>
        set_handle_heap
          (alter (fun ih => {| session := session ih;
                               handle_id := handle_id ih;
                               app := app ih;
                               app_handle := app_handle ih;
                               streams_num := streams_num ih;
                               cdone := v;
                               audio_id := audio_id ih;
                               video_id := video_id ih |}) h (handle_heap w)) w)
  end.

Fixpoint run_asyncs (es : list async_event) : M unit :=
  match es with
  | [] => ret tt
  | e :: rest => let* _ := run_async e in run_asyncs rest
  end.

(** [g_usleep]: the clock advances by the time asked for, and the other
    threads do what the oracle says they do meanwhile. *)
Definition g_usleep (usec : Z) : M unit :=
  let* _ := modify (fun w => set_clock (clock w + usec) w) in
  let* w := get in
  match sleeps w with
  | [] => ret tt
  | es :: rest => let* _ := modify (set_sleeps rest) in run_asyncs es
  end.

Definition janus_get_monotonic_time : M Z := fun w => Returns (clock w, w).

(** ** Record updates used by the core *)

Definition set_messages (q : list janus_http_event) (s : janus_session)
  : janus_session :=
  {| session_id := session_id s; messages := q;
     ice_handles := ice_handles s; destroy := destroy s |}.

Definition set_destroy (v : Z) (s : janus_session) : janus_session :=
  {| session_id := session_id s; messages := messages s;
     ice_handles := ice_handles s; destroy := v |}.

Definition set_ice_handles (t : gmap Z ptr) (s : janus_session)
  : janus_session :=
  {| session_id := session_id s; messages := messages s;
     ice_handles := t; destroy := destroy s |}.

Definition set_app (p : option janus_plugin) (t : option janus_pluginession)
  (h : janus_ice_handle) : janus_ice_handle :=
  {| session := session h; handle_id := handle_id h; app := p;
     app_handle := t; streams_num := streams_num h; cdone := cdone h;
     audio_id := audio_id h; video_id := video_id h |}.

Definition set_msg_payload (p : option string) (n : Z) (m : janus_http_msg)
  : janus_http_msg :=
  {| contenttype := contenttype m; acrh := acrh m; acrm := acrm m;
     msg_payload := p; msg_len := n; msg_session_id := msg_session_id m |}.

Definition set_msg_session_id (v : Z) (m : janus_http_msg) : janus_http_msg :=
  {| contenttype := contenttype m; acrh := acrh m; acrm := acrm m;
     msg_payload := msg_payload m; msg_len := msg_len m;
     msg_session_id := v |}.

Definition set_con_cls (m : option janus_http_msg) (c : MHD_Connection)
  : MHD_Connection :=
  {| request_headers := request_headers c; con_cls := m; queued := queued c |}.

Definition set_queued (q : option (Z * MHD_Response)) (c : MHD_Connection)
  : MHD_Connection :=
  {| request_headers := request_headers c; con_cls := con_cls c; queued := q |}.

(** ** libmicrohttpd and GLib primitives on the world *)

(** [MHD_queue_response]: refused ([MHD_NO]) for a NULL response and for a
    connection that already has one. *)
Definition MHD_queue_response (connection : ptr) (status : Z)
  (response : option MHD_Response) : M Z :=
  let* w := get in
  let* c := deref (connections w !! connection) in
  match response, queued c with
  | Some r, None =>
      let* _ := modify (set_connections
                  (<[connection := set_queued (Some (status, r)) c]>
                     (connections w))) in
      ret MHD_YES
  | _, _ => ret MHD_NO
  end.

Definition g_queue_pop_head (s : ptr) : M (option janus_http_event) :=
  let* w := get in
  let* ss := deref (session_heap w !! s) in
  match messages ss with
  | [] => ret None
  | e :: rest =>
      let* _ := modify (set_session_heap
                  (<[s := set_messages rest ss]> (session_heap w))) in
      ret (Some e)
  end.

Definition g_queue_push_tail (s : ptr) (e : janus_http_event) : M unit :=
  let* w := get in
  let* ss := deref (session_heap w !! s) in
  modify (set_session_heap
            (<[s := set_messages (messages ss ++ [e]) ss]> (session_heap w))).

(** [g_random_int]: the next draw, as a [guint32]. *)
Definition g_random_int : M Z := fun w =>
  match random_ints w with
  | [] => Diverges
  | x :: rest => Returns (to_guint32 x, set_random_ints rest w)
  end.

(** The cross-origin headers every hand-built response gets. *)
Definition cors_headers (msg : janus_http_msg) : list (string * string) :=
  [("Access-Control-Allow-Origin", "*")]
  ++ match acrm msg with
     | Some m => [("Access-Control-Allow-Methods", m)]
     | None => []
     end
  ++ match acrh msg with
     | Some h => [("Access-Control-Allow-Headers", h)]
     | None => []
     end.

(** The block repeated throughout [janus_ws_handler]: an empty response
    with the cross-origin headers, queued with [status]. *)
Definition queue_empty_response (connection : ptr) (msg : janus_http_msg)
  (status : Z) : M Z :=
  MHD_queue_response connection status
    (Some {| headers := cors_headers msg; data := "" |}).

Definition keepalive : string :=
  "{" +:+ dquote +:+ "janus" +:+ dquote +:+ " : "
      +:+ dquote +:+ "keepalive" +:+ dquote +:+ "}".

Section Core.

Variable X : externals.

(** ** Gateway sessions (janus.c, lines 107-161) *)

Definition janus_session_find (session_id : Z) : M (option ptr) :=
  let* w := get in ret (sessions w !! session_id).

(** The loop of [janus_session_create] (lines 111-117); each turn takes
    one draw. *)
Fixpoint session_id_loop (fuel : nat) : M Z :=
  match fuel with
  | O => diverge
  | S n =>
      let* drawn := g_random_int in
      let* found := janus_session_find drawn in
      let session_id := match found with Some _ => 0 | None => drawn end in
      if session_id =? 0 then session_id_loop n else ret session_id
  end.

Definition janus_session_create : M (option ptr) :=
  let* w := get in
  let* session_id := session_id_loop (S (List.length (random_ints w))) in
  let* ok := calloc in
  if negb ok then ret None
  else
    let* w := get in
    let p := fresh (dom (session_heap w)) in
    let* _ := modify (set_session_heap
                (<[p := {| session_id := session_id; messages := [];
                           ice_handles := ∅; destroy := 0 |}]>
                   (session_heap w))) in
    let* _ := modify (fun w =>
                set_sessions (<[session_id := p]> (sessions w)) w) in
    ret (Some p).

Definition janus_session_destroy (session_id : Z) : M Z :=
  let* found := janus_session_find session_id in
  match found with
  | None => ret (-1)
  | Some p =>
      let* w := get in
      let* s := deref (session_heap w !! p) in
      let* _ := modify (set_session_heap
                  (<[p := set_destroy 1 s]> (session_heap w))) in
      (* TODO Remove all handles *)
      let* _ := modify (fun w =>
                  set_sessions (delete session_id (sessions w)) w) in
      (* TODO Actually destroy session *)
      ret 0
  end.

(** ** Replies (lines 821-897) *)

Definition janus_ws_success (connection : ptr) (msg : janus_http_msg)
  (transaction : option string) (payload : option string) : M Z :=
  match payload with
  | None => ret MHD_NO
  | Some text =>
      MHD_queue_response connection MHD_HTTP_OK
        (Some {| headers := ("Content-Type", "application/json")
                              :: cors_headers msg;
                 data := text |})
  end.

Definition error_reply (transaction : option string) (error : janus_error)
  (error_string : string) : json_t :=
  let reply := json_object in
  let reply := json_object_set reply "janus" (json_string "error") in
  let reply := match transaction with
               | Some t => json_object_set reply "transaction" (json_string t)
               | None => reply
               end in
  let error_data := json_object in
  let error_data :=
    json_object_set error_data "code" (json_integer (api_code X error)) in
  let error_data :=
    json_object_set error_data "reason" (json_string error_string) in
  json_object_set reply "error" error_data.

Definition janus_ws_error (connection : ptr) (msg : janus_http_msg)
  (transaction : option string) (error : janus_error)
  (format : option string) (args : list fmt_arg) : M Z :=
  let send (error_string : string) : M Z :=
    let reply_text := json_dumps X (error_reply transaction error error_string) in
    MHD_queue_response connection MHD_HTTP_OK
      (Some {| headers := ("Content-Type", "application/json")
                            :: cors_headers msg;
               data := reply_text |}) in
  match format with
  | None => send (janus_get_api_error X error)
  | Some f =>
      let* ok := calloc in
      if negb ok then
        MHD_queue_response connection MHD_HTTP_INTERNAL_SERVER_ERROR
          (Some {| headers := []; data := "" |})
      else
        let error_string := vsprintf X f args in
        (* the buffer holds 512 bytes *)
        if 512 <=? Z.of_nat (String.length error_string) then fault
        else send error_string
  end.

(** ** The long-poll worker (lines 749-819) *)

Fixpoint long_poll (fuel : nat) (s : ptr) (start end_ : Z)
  : M (option janus_http_event) :=
  if negb (end_ - start <? 30 * G_USEC_PER_SEC) then ret None
  else
    match fuel with
    | O => diverge
    | S n =>
        let* event := g_queue_pop_head s in
        let* w := get in
        if negb (stop w =? 0) || bool_decide (is_Some event) then ret event
        else
          let* _ := g_usleep 100000 in
          let* end_ := janus_get_monotonic_time in
          long_poll n s start end_
    end.

Definition janus_ws_notifier (connection : ptr) (msg : janus_http_msg)
  : M Z :=
  let session_id := msg_session_id msg in
  let* found := janus_session_find session_id in
  match found with
  | None => queue_empty_response connection msg MHD_HTTP_NOT_FOUND
  | Some s =>
      let* start := janus_get_monotonic_time in
      let* event := long_poll 300 s start 0 in
      (* lines 783-796: no event, or an event without a payload, is
         replaced by a keep-alive *)
      let* served :=
        match event with
        | Some {| payload := Some text |} => ret (Some text)
        | _ =>
            let* ok := calloc in
            if negb ok then ret None else ret (Some keepalive)
        end in
      match served with
      | None =>
          MHD_queue_response connection MHD_HTTP_INTERNAL_SERVER_ERROR None
      | Some text => janus_ws_success connection msg None (Some text)
      end
  end.

(** ** Handles of a session

    ice.c, which defines the four functions on handles that janus.c
    calls, is not among the sources.  The handle record itself is left in
    the heap: the spec defers reclamation until no borrow remains. *)

(** Modelled from the spec: the loop of ice.c's [janus_ice_handle_create]
    that picks the id is missing; spec 4.2 says attach "allocates a handle
    with a fresh id unique within the session".  Drawn like the session id
    in janus.c. *)
Fixpoint handle_id_loop (fuel : nat) (taken : gmap Z ptr) : M Z :=
  match fuel with
  | O => diverge
  | S n =>
      let* drawn := g_random_int in
      if (drawn =? 0) || bool_decide (is_Some (taken !! drawn))
      then handle_id_loop n taken
      else ret drawn
  end.

(** Modelled from the spec: ice.c's [janus_ice_handle_create] is missing;
    spec 4.2: attach "allocates a handle with a fresh id unique within
    the session", and the allocation can fail. *)
Definition janus_ice_handle_create (s : ptr) : M (option ptr) :=
  let* w := get in
  let* ss := deref (session_heap w !! s) in
  let* id := handle_id_loop (S (List.length (random_ints w))) (ice_handles ss) in
  let* ok := calloc in
  if negb ok then ret None
  else
    let* w := get in
    let p := fresh (dom (handle_heap w)) in
    let* _ := modify (set_handle_heap
                (<[p := {| session := Some s; handle_id := id; app := None;
                           app_handle := None; streams_num := 0; cdone := 0;
                           audio_id := 0; video_id := 0 |}]>
                   (handle_heap w))) in
    let* _ := modify (fun w => set_session_heap
                (<[s := set_ice_handles (<[id := p]> (ice_handles ss)) ss]>
                   (session_heap w)) w) in
    ret (Some p).

(** Modelled from the spec: ice.c's [janus_ice_handle_find] is missing;
    spec 3: the session's table maps a handle id to its handle. *)
Definition janus_ice_handle_find (s : ptr) (handle_id : Z) : M (option ptr) :=
  let* w := get in
  let* ss := deref (session_heap w !! s) in
  ret (ice_handles ss !! handle_id).

(** Modelled from the spec: ice.c's [janus_ice_handle_attach_plugin] is
    missing; spec 4.2: attach "invokes plugin.create_session(handle_token)",
    whose error is handed back to the router. *)
Definition janus_ice_handle_attach_plugin (s : ptr) (handle_id : Z)
  (plugin : janus_plugin) : M Z :=
  let* found := janus_ice_handle_find s handle_id in
  match found with
  | None => ret (api_code X JANUS_ERROR_HANDLE_NOT_FOUND)
  | Some p =>
      let* w := get in
      let* h := deref (handle_heap w !! p) in
      let token := {| gateway_handle := Some p; plugin_handle := None |} in
      let* _ := log (Call_create_session plugin token) in
      let* error := plugin_error in
      if negb (error =? 0) then ret error
      else
        let* _ := modify (fun w => set_handle_heap
                    (<[p := set_app (Some plugin) (Some token) h]>
                       (handle_heap w)) w) in
        ret 0
  end.

(** Modelled from the spec: ice.c's [janus_ice_handle_destroy] is missing;
    spec 4.2: detach "invokes plugin.destroy_session(handle_token); whether
    or not that succeeds, the handle is removed from the session table";
    spec 7: "a failed destroy_session still removes the handle from gateway
    tables". *)
Definition janus_ice_handle_destroy (s : ptr) (handle_id : Z) : M Z :=
  let* found := janus_ice_handle_find s handle_id in
  match found with
  | None => ret (api_code X JANUS_ERROR_HANDLE_NOT_FOUND)
  | Some p =>
      let* w := get in
      let* h := deref (handle_heap w !! p) in
      let* error :=
        match app h, app_handle h with
        | Some plugin, Some token =>
            let* _ := log (Call_destroy_session plugin token) in plugin_error
        | _, _ => ret 0
        end in
      let* w := get in
      let* ss := deref (session_heap w !! s) in
      let* _ := modify (set_session_heap
                  (<[s := set_ice_handles (delete handle_id (ice_handles ss)) ss]>
                     (session_heap w))) in
      ret error
  end.

(** ** Calls into the ICE and SDP subsystems: the call is recorded and the
    media context of the handle becomes what the subsystem makes of it. *)

Definition call_ice_setup_local (h : ptr) (offer audio video : Z) : M unit :=
  let* w := get in
  let* ih := deref (handle_heap w !! h) in
  let* _ := log (Call_ice_setup_local h offer audio video) in
  modify (fun w => set_handle_heap
            (<[h := set_media (janus_ice_setup_local X ih offer audio video) ih]>
               (handle_heap w)) w).

Definition call_ice_setup_remote_candidate (h : ptr) (stream_id component_id : Z)
  : M unit :=
  let* w := get in
  let* ih := deref (handle_heap w !! h) in
  let* _ := log (Call_ice_setup_remote_candidate h stream_id component_id) in
  modify (fun w => set_handle_heap
            (<[h := set_media
                      (janus_ice_setup_remote_candidate X ih stream_id component_id)
                      ih]>
               (handle_heap w)) w).

Definition call_sdp_parse (h : ptr) (sdp : string) : M unit :=
  let* w := get in
  let* ih := deref (handle_heap w !! h) in
  let* _ := log (Call_sdp_parse h sdp) in
  modify (fun w => set_handle_heap
            (<[h := set_media (janus_sdp_parse X ih sdp) ih]> (handle_heap w)) w).

(** The block at lines 668-675 and 1039-1046. *)
Definition setup_remote_candidates (h : ptr) : M unit :=
  let* w := get in
  let* ih := deref (handle_heap w !! h) in
  let* _ := if 0 <? audio_id ih then
              let* _ := call_ice_setup_remote_candidate h (audio_id ih) 1 in
              call_ice_setup_remote_candidate h (audio_id ih) 2
            else ret tt in
  let* w := get in
  let* ih := deref (handle_heap w !! h) in
  if 0 <? video_id ih then
    let* _ := call_ice_setup_remote_candidate h (video_id ih) 1 in
    call_ice_setup_remote_candidate h (video_id ih) 2
  else ret tt.

(** ** Plugins (lines 915-919) *)

Definition janus_plugin_find (package : option string)
  : M (option janus_plugin) :=
  let* w := get in
  match package, plugins w with
  | Some name, Some registry => ret (registry !! name)
  | _, _ => ret None
  end.

(** ** The plugin callback interface (lines 922-1056) *)

(** The wait at lines 1014-1021.  Each turn sleeps once; when the oracle
    of sleeps is used up nothing can change any more, so a wait that is
    still unsatisfied then never ends. *)
Fixpoint candidates_wait (fuel : nat) (h : ptr) : M bool :=
  let* w := get in
  let* ih := deref (handle_heap w !! h) in
  if cdone ih <? streams_num ih then
    match fuel with
    | O => diverge
    | S n =>
        let* _ := g_usleep 100000 in
        let* w := get in
        let* ih := deref (handle_heap w !! h) in
        if cdone ih <? 0 then ret false else candidates_wait n h
    end
  else ret true.

Definition janus_handle_sdp (handle : option janus_pluginession)
  (plugin : option janus_plugin) (sdp_type sdp : option string)
  : M (option json_t) :=
  match handle, plugin, sdp_type, sdp with
  | Some hd, Some _, Some ty, Some text =>
      let kind := if strcasecmp ty "offer" =? 0 then Some true
                  else if strcasecmp ty "answer" =? 0 then Some false
                  else None in
      match kind with
      | None => ret None
      | Some offer =>
          let* ice_handle := deref (gateway_handle hd) in
          (* line 1001 compares the pointer returned by the pre-parse
             with [< 0], which never holds: a failed pre-parse goes on
             with the counters it left at 0 *)
          let '(audio, video) :=
            match janus_sdp_preparse X text with
            | Some av => av
            | None => (0, 0)
            end in
          let* _ := if offer then call_ice_setup_local ice_handle 0 audio video
                    else ret tt in
          let* w := get in
          let* done := candidates_wait (S (List.length (sleeps w))) ice_handle in
          if negb done then ret None
          else
            match janus_sdp_anonymize X text with
            | None => ret None
            | Some sdp_stripped =>
                let* w := get in
                let* ih := deref (handle_heap w !! ice_handle) in
                match janus_sdp_merge X ih sdp_stripped with
                | None => ret None
                | Some sdp_merged =>
                    let* _ := if offer then ret tt
                              else setup_remote_candidates ice_handle in
                    let jsep := json_object in
                    let jsep := json_object_set jsep "type" (json_string ty) in
                    let jsep := json_object_set jsep "sdp" (json_string sdp_merged) in
                    ret (Some jsep)
                end
            end
      end
  | _, _, _, _ => ret None
  end.

(** The event envelope built at lines 953-963. *)
Definition event_reply (sender : Z) (transaction : option string)
  (package : string) (event : json_t) (jsep : option json_t) : json_t :=
  let reply := json_object in
  let reply := json_object_set reply "janus" (json_string "event") in
  let reply := json_object_set reply "sender" (json_integer sender) in
  let reply := match transaction with
               | Some t => json_object_set reply "transaction" (json_string t)
               | None => reply
               end in
  let plugin_data := json_object in
  let plugin_data := json_object_set plugin_data "plugin" (json_string package) in
  let plugin_data := json_object_set plugin_data "data" event in
  let reply := json_object_set reply "plugindata" plugin_data in
  match jsep with
  | Some j => json_object_set reply "jsep" j
  | None => reply
  end.

Definition janus_push_event (handle : option janus_pluginession)
  (plugin : option janus_plugin) (transaction message sdp_type sdp : option string)
  : M Z :=
  match handle, plugin, message with
  | Some hd, Some pl, Some text =>
      match gateway_handle hd with
      | None => ret (api_code X JANUS_ERROR_SESSION_NOT_FOUND)
      | Some ih =>
          let* w := get in
          let* ice_handle := deref (handle_heap w !! ih) in
          match session ice_handle with
          | None => ret (api_code X JANUS_ERROR_SESSION_NOT_FOUND)
          | Some s =>
              match json_loads X (Some text) with
              | inl _ => ret (api_code X JANUS_ERROR_INVALID_JSON)
              | inr event =>
                  if negb (json_is_object event)
                  then ret (api_code X JANUS_ERROR_INVALID_JSON_OBJECT)
                  else
                    let* jsep :=
                      match sdp_type, sdp with
                      | Some _, Some _ =>
                          let* j := janus_handle_sdp handle plugin sdp_type sdp in
                          ret (match j with
                               | Some j => inr (Some j)
                               | None => inl tt
                               end)
                      | _, _ => ret (inr None)
                      end in
                    match jsep with
                    | inl _ => ret (api_code X JANUS_ERROR_JSEP_INVALID_SDP)
                    | inr jsep =>
                        let* w := get in
                        let* ice_handle := deref (handle_heap w !! ih) in
                        let reply := event_reply (handle_id ice_handle) transaction
                                       (get_package pl) event jsep in
                        let reply_text := json_dumps X reply in
                        let* ok := calloc in
                        if negb ok then ret (api_code X JANUS_ERROR_UNKNOWN)
                        else
                          let* _ := g_queue_push_tail s
                                      {| code := 200; payload := Some reply_text;
                                         allocated := 1 |} in
                          ret (api_code X JANUS_OK)
                    end
              end
          end
      end
  | _, _, _ => ret (-1)
  end.

(** ** The web server request handler (lines 164-729) *)

(** [janus_ws_headers] (lines 715-729). *)
Definition janus_ws_headers (request : janus_http_msg) (key value : string)
  : janus_http_msg :=
  if strcasecmp key "Content-Type" =? 0 then
    {| contenttype := Some value; acrh := acrh request; acrm := acrm request;
       msg_payload := msg_payload request; msg_len := msg_len request;
       msg_session_id := msg_session_id request |}
  else if strcasecmp key "Access-Control-Request-Method" =? 0 then
    {| contenttype := contenttype request; acrh := acrh request;
       acrm := Some value;
       msg_payload := msg_payload request; msg_len := msg_len request;
       msg_session_id := msg_session_id request |}
  else if strcasecmp key "Access-Control-Request-Headers" =? 0 then
    {| contenttype := contenttype request; acrh := Some value;
       acrm := acrm request;
       msg_payload := msg_payload request; msg_len := msg_len request;
       msg_session_id := msg_session_id request |}
  else request.

(** [MHD_get_connection_values connection MHD_HEADER_KIND &janus_ws_headers msg]. *)
Definition MHD_get_connection_values (hs : list (string * string))
  (msg : janus_http_msg) : janus_http_msg :=
  fold_left (fun m kv => janus_ws_headers m (fst kv) (snd kv)) hs msg.

Definition update_msg (connection : ptr) (msg : janus_http_msg) : M unit :=
  let* w := get in
  let* c := deref (connections w !! connection) in
  modify (set_connections
            (<[connection := set_con_cls (Some msg) c]> (connections w))).

(** The success and ack envelopes (lines 365-370, 525-530, 545-547,
    571-573, 693-695). *)
Definition success_reply (kind : string) (transaction : string)
  (id : option Z) : json_t :=
  let reply := json_object in
  let reply := json_object_set reply "janus" (json_string kind) in
  let reply := json_object_set reply "transaction" (json_string transaction) in
  match id with
  | None => reply
  | Some n =>
      let data := json_object in
      let data := json_object_set data "id" (json_integer n) in
      json_object_set reply "data" data
  end.

Definition send_reply (connection : ptr) (msg : janus_http_msg)
  (reply : json_t) : M Z :=
  janus_ws_success connection msg (Some "application/json")
    (Some (json_dumps X reply)).

(** The string member [key] of [root], when present and a string. *)
Definition string_member (root : json_t) (key : string) : option string :=
  match json_object_get root key with
  | Some j => if json_is_string j then json_string_value j else None
  | None => None
  end.

(** Lines 317-379: a request on the base path. *)
Definition janus_ws_create (connection : ptr) (msg : janus_http_msg)
  (method : string) (payload : option string) : M Z :=
  if strcasecmp method "GET" =? 0 then
    janus_ws_error connection msg None JANUS_ERROR_USE_POST
      (Some "Use POST to create a session") []
  else if (strcasecmp method "POST" =? 0) && bool_decide (payload = None) then
    janus_ws_error connection msg None JANUS_ERROR_MISSING_REQUEST
      (Some "JSON error: missing request") []
  else
    match json_loads X payload with
    | inl error =>
        janus_ws_error connection msg None JANUS_ERROR_INVALID_JSON
          (Some "JSON error: on line %d: %s")
          [ArgInt (line error); ArgStr (text error)]
    | inr root =>
        if negb (json_is_object root) then
          janus_ws_error connection msg None JANUS_ERROR_INVALID_JSON_OBJECT
            (Some "JSON error: not an object") []
        else
          match string_member root "transaction" with
          | None =>
              janus_ws_error connection msg None
                JANUS_ERROR_MISSING_MANDATORY_ELEMENT
                (Some "JSON error: missing mandatory element (transaction)") []
          | Some transaction_text =>
              match string_member root "janus" with
              | None =>
                  janus_ws_error connection msg (Some transaction_text)
                    JANUS_ERROR_MISSING_MANDATORY_ELEMENT
                    (Some "JSON error: missing mandatory element (janus)") []
              | Some message_text =>
                  if negb (strcasecmp message_text "create" =? 0) then
                    janus_ws_error connection msg (Some transaction_text)
                      JANUS_ERROR_INVALID_REQUEST_PATH
                      (Some "Unhandled request '%s' at this path")
                      [ArgStr message_text]
                  else
                    let* created := janus_session_create in
                    match created with
                    | None =>
                        janus_ws_error connection msg (Some transaction_text)
                          JANUS_ERROR_UNKNOWN (Some "Memory error") []
                    | Some p =>
                        let* w := get in
                        let* session := deref (session_heap w !! p) in
                        send_reply connection msg
                          (success_reply "success" transaction_text
                             (Some (session_id session)))
                    end
              end
          end
    end.

(** Lines 410-449: a GET (or a request without a body) below the base
    path. *)
Definition janus_ws_get (connection : ptr) (msg : janus_http_msg)
  (session_id : Z) (session_path : string) (handle_path : option string)
  : M Z :=
  match handle_path with
  | Some _ =>
      let* w := get in
      let location := ws_path w +:+ "/" +:+ session_path in
      (* [location] is a buffer of 50 bytes *)
      if 50 <=? Z.of_nat (String.length location) then fault
      else
        MHD_queue_response connection MHD_HTTP_FOUND
          (Some {| headers := ("Location", location) :: cors_headers msg;
                   data := "" |})
  | None =>
      let* found := janus_session_find session_id in
      match found with
      | None => queue_empty_response connection msg MHD_HTTP_NOT_FOUND
      | Some s =>
          let* event := g_queue_pop_head s in
          match event with
          | Some e =>
              janus_ws_success connection msg (Some "application/json")
                (payload e)
          | None => janus_ws_notifier connection msg
          end
      end
  end.

(** Lines 492-536: [attach]. *)
Definition janus_ws_attach (connection : ptr) (msg : janus_http_msg)
  (root : json_t) (transaction_text message_text : string)
  (session : ptr) (handle : option ptr) : M Z :=
  match handle with
  | Some _ =>
      janus_ws_error connection msg (Some transaction_text)
        JANUS_ERROR_INVALID_REQUEST_PATH
        (Some "Unhandled request '%s' at this path") [ArgStr message_text]
  | None =>
      match string_member root "plugin" with
      | None =>
          janus_ws_error connection msg (Some transaction_text)
            JANUS_ERROR_MISSING_MANDATORY_ELEMENT
            (Some "JSON error: missing mandatory element (plugin)") []
      | Some plugin_text =>
          let* plugin_t := janus_plugin_find (Some plugin_text) in
          match plugin_t with
          | None =>
              janus_ws_error connection msg (Some transaction_text)
                JANUS_ERROR_PLUGIN_NOT_FOUND
                (Some "No such plugin '%s'") [ArgStr plugin_text]
          | Some plugin_t =>
              let* created := janus_ice_handle_create session in
              match created with
              | None =>
                  janus_ws_error connection msg (Some transaction_text)
                    JANUS_ERROR_UNKNOWN (Some "Memory error") []
              | Some h =>
                  let* w := get in
                  let* ih := deref (handle_heap w !! h) in
                  let handle_id := handle_id ih in
                  let* error :=
                    janus_ice_handle_attach_plugin session handle_id plugin_t in
                  if negb (error =? 0) then
                    let* _ := janus_ice_handle_destroy session handle_id in
                    janus_ws_error connection msg (Some transaction_text)
                      JANUS_ERROR_PLUGIN_ATTACH
                      (Some "Couldn't attach to plugin: error '%d'")
                      [ArgInt error]
                  else
                    send_reply connection msg
                      (success_reply "success" transaction_text (Some handle_id))
              end
          end
      end
  end.

(** Lines 537-552: [destroy]. *)
Definition janus_ws_destroy (connection : ptr) (msg : janus_http_msg)
  (transaction_text message_text : string)
  (session_id : Z) (handle : option ptr) : M Z :=
  match handle with
  | Some _ =>
      janus_ws_error connection msg (Some transaction_text)
        JANUS_ERROR_INVALID_REQUEST_PATH
        (Some "Unhandled request '%s' at this path") [ArgStr message_text]
  | None =>
      let* _ := janus_session_destroy session_id in
      send_reply connection msg (success_reply "success" transaction_text None)
  end.

(** Lines 553-578: [detach]. *)
Definition janus_ws_detach (connection : ptr) (msg : janus_http_msg)
  (transaction_text message_text : string)
  (session : ptr) (handle : option ptr) (handle_id : Z) : M Z :=
  match handle with
  | None =>
      janus_ws_error connection msg (Some transaction_text)
        JANUS_ERROR_INVALID_REQUEST_PATH
        (Some "Unhandled request '%s' at this path") [ArgStr message_text]
  | Some h =>
      let* w := get in
      let* ih := deref (handle_heap w !! h) in
      match app ih, app_handle ih with
      | Some _, Some _ =>
          let* error := janus_ice_handle_destroy session handle_id in
          if negb (error =? 0) then
            janus_ws_error connection msg (Some transaction_text)
              JANUS_ERROR_PLUGIN_DETACH
              (Some "Couldn't detach from plugin: error '%d'") [ArgInt error]
          else
            send_reply connection msg
              (success_reply "success" transaction_text None)
      | _, _ =>
          janus_ws_error connection msg (Some transaction_text)
            JANUS_ERROR_PLUGIN_DETACH (Some "No plugin to detach from") []
      end
  end.

(** Lines 602-688: the [jsep] member of a [message].  [inl] is a reply
    already sent; [inr] carries [jsep_type] and [jsep_sdp_stripped]. *)
Definition janus_ws_message_jsep (connection : ptr) (msg : janus_http_msg)
  (root : json_t) (transaction_text : string) (handle : ptr)
  : M (Z + option string * option string) :=
  let reply_error (error : janus_error) (format : string) (args : list fmt_arg)
    : M (Z + option string * option string) :=
    let* r := janus_ws_error connection msg (Some transaction_text) error
                (Some format) args in
    ret (inl r) in
  match json_object_get root "jsep" with
  | None => ret (inr (None, None))
  | Some jsep =>
      if negb (json_is_object jsep) then
        reply_error JANUS_ERROR_INVALID_JSON_OBJECT "Invalid jsep object" []
      else
        match string_member jsep "type" with
        | None =>
            reply_error JANUS_ERROR_MISSING_MANDATORY_ELEMENT
              "JSEP error: missing mandatory element (type)" []
        | Some jsep_type =>
            let kind := if strcasecmp jsep_type "offer" =? 0 then Some 1
                        else if strcasecmp jsep_type "answer" =? 0 then Some 0
                        else None in
            match kind with
            | None =>
                reply_error JANUS_ERROR_JSEP_UNKNOWN_TYPE
                  "JSEP error: unknown message type '%s'" [ArgStr jsep_type]
            | Some offer =>
                match string_member jsep "sdp" with
                | None =>
                    reply_error JANUS_ERROR_MISSING_MANDATORY_ELEMENT
                      "JSEP error: missing mandatory element (sdp)" []
                | Some jsep_sdp =>
                    match janus_sdp_preparse X jsep_sdp with
                    | None =>
                        reply_error JANUS_ERROR_JSEP_INVALID_SDP
                          "JSEP error: invalid SDP" []
                    | Some (audio, video) =>
                        let* _ := if negb (offer =? 0)
                                  then call_ice_setup_local handle offer audio video
                                  else ret tt in
                        let* _ := call_sdp_parse handle jsep_sdp in
                        let* _ := if offer =? 0
                                  then setup_remote_candidates handle
                                  else ret tt in
                        match janus_sdp_anonymize X jsep_sdp with
                        | None =>
                            reply_error JANUS_ERROR_JSEP_INVALID_SDP
                              "JSEP error: invalid SDP" []
                        | Some jsep_sdp_stripped =>
                            ret (inr (Some jsep_type, Some jsep_sdp_stripped))
                        end
                    end
                end
            end
        end
  end.

(** Lines 579-700: [message]. *)
Definition janus_ws_message (connection : ptr) (msg : janus_http_msg)
  (root : json_t) (transaction_text message_text : string)
  (handle : option ptr) : M Z :=
  match handle with
  | None =>
      janus_ws_error connection msg (Some transaction_text)
        JANUS_ERROR_INVALID_REQUEST_PATH
        (Some "Unhandled request '%s' at this path") [ArgStr message_text]
  | Some h =>
      let* w := get in
      let* ih := deref (handle_heap w !! h) in
      match app ih, app_handle ih with
      | Some plugin_t, Some _ =>
          match json_object_get root "body" with
          | None =>
              janus_ws_error connection msg (Some transaction_text)
                JANUS_ERROR_INVALID_JSON
                (Some "JSON error: missing mandatory element (body)") []
          | Some body =>
              if negb (json_is_object body) then
                janus_ws_error connection msg (Some transaction_text)
                  JANUS_ERROR_INVALID_JSON_OBJECT (Some "Invalid body object") []
              else
                let* jsep := janus_ws_message_jsep connection msg root
                               transaction_text h in
                match jsep with
                | inl r => ret r
                | inr (jsep_type, jsep_sdp_stripped) =>
                    let body_text := json_dumps X body in
                    let* w := get in
                    let* ih := deref (handle_heap w !! h) in
                    let* _ := log (Call_handle_message plugin_t (app_handle ih)
                                     transaction_text body_text
                                     jsep_type jsep_sdp_stripped) in
                    send_reply connection msg
                      (success_reply "ack" transaction_text None)
                end
          end
      | _, _ =>
          janus_ws_error connection msg (Some transaction_text)
            JANUS_ERROR_PLUGIN_MESSAGE
            (Some "No plugin to handle this message") []
      end
  end.

(** Lines 451-703: a POST below the base path. *)
Definition janus_ws_post (connection : ptr) (msg : janus_http_msg)
  (payload : option string) (session_id handle_id : Z) : M Z :=
  match json_loads X payload with
  | inl error =>
      janus_ws_error connection msg None JANUS_ERROR_INVALID_JSON
        (Some "JSON error: on line %d: %s")
        [ArgInt (line error); ArgStr (text error)]
  | inr root =>
      if negb (json_is_object root) then
        janus_ws_error connection msg None JANUS_ERROR_INVALID_JSON_OBJECT
          (Some "JSON error: not an object") []
      else
        match string_member root "transaction" with
        | None =>
            janus_ws_error connection msg None
              JANUS_ERROR_MISSING_MANDATORY_ELEMENT
              (Some "JSON error: missing mandatory element (transaction)") []
        | Some transaction_text =>
            match string_member root "janus" with
            | None =>
                janus_ws_error connection msg (Some transaction_text)
                  JANUS_ERROR_MISSING_MANDATORY_ELEMENT
                  (Some "JSON error: missing mandatory element (janus)") []
            | Some message_text =>
                let* found := janus_session_find session_id in
                match found with
                | None =>
                    janus_ws_error connection msg (Some transaction_text)
                      JANUS_ERROR_SESSION_NOT_FOUND
                      (Some "No such session %lu") [ArgInt session_id]
                | Some session =>
                    let* handle :=
                      if 0 <? handle_id
                      then janus_ice_handle_find session handle_id
                      else ret None in
                    if (0 <? handle_id) && bool_decide (handle = None) then
                      janus_ws_error connection msg (Some transaction_text)
                        JANUS_ERROR_HANDLE_NOT_FOUND
                        (Some "No such handle %lu in session %lu")
                        [ArgInt handle_id; ArgInt session_id]
                    else if strcasecmp message_text "attach" =? 0 then
                      janus_ws_attach connection msg root transaction_text
                        message_text session handle
                    else if strcasecmp message_text "destroy" =? 0 then
                      janus_ws_destroy connection msg transaction_text
                        message_text session_id handle
                    else if strcasecmp message_text "detach" =? 0 then
                      janus_ws_detach connection msg transaction_text
                        message_text session handle handle_id
                    else if strcasecmp message_text "message" =? 0 then
                      janus_ws_message connection msg root transaction_text
                        message_text handle
                    else
                      janus_ws_error connection msg (Some transaction_text)
                        JANUS_ERROR_UNKNOWN_REQUEST
                        (Some "Unknown request '%s'") [ArgStr message_text]
                end
            end
        end
  end.

(** A non-empty path component ([path[i] != NULL && strlen(path[i]) > 0]). *)
Definition component (path : option (list string)) (i : nat) : option string :=
  match path with
  | Some pv =>
      match pv !! i with
      | Some s => if (0 <? String.length s)%nat then Some s else None
      | None => None
      end
  | None => None
  end.

(** Lines 317-712: the request proper, once the session and handle
    components and the body are known. *)
Definition janus_ws_dispatch (connection : ptr) (msg : janus_http_msg)
  (method : string) (payload : option string)
  (session_path handle_path : option string) : M Z :=
  match session_path with
  | None => janus_ws_create connection msg method payload
  | Some sp =>
      let session_id := to_guint64 (g_ascii_strtoll sp) in
      if session_id <? 1 then
        queue_empty_response connection msg MHD_HTTP_NOT_FOUND
      else
        let msg := set_msg_session_id session_id msg in
        let* _ := update_msg connection msg in
        let handle_id := match handle_path with
                         | Some hp => to_guint64 (g_ascii_strtoll hp)
                         | None => 0
                         end in
        if bool_decide (is_Some handle_path) && (handle_id <? 1) then
          queue_empty_response connection msg MHD_HTTP_NOT_FOUND
        else if (strcasecmp method "GET" =? 0) || bool_decide (payload = None) then
          janus_ws_get connection msg session_id sp handle_path
        else
          janus_ws_post connection msg payload session_id handle_id
  end.

(** Lines 249-316, then the dispatch: path components, and the body of a
    POST, which arrives in pieces.  The result pairs the value returned
    with the new [*upload_data_size]. *)
Definition janus_ws_request (connection : ptr) (msg : janus_http_msg)
  (method : string) (path : option (list string))
  (upload_data : string) (upload_data_size : Z) : M (Z * Z) :=
  let session_path := component path 1 in
  let handle_path := match session_path with
                     | Some _ => component path 2
                     | None => None
                     end in
  if bool_decide (is_Some session_path) && bool_decide (is_Some handle_path)
     && bool_decide (is_Some (component path 3)) then
    let* r := queue_empty_response connection msg MHD_HTTP_NOT_FOUND in
    ret (r, upload_data_size)
  else if strcasecmp method "POST" =? 0 then
    if negb (upload_data_size =? 0) then
      let* ok := calloc in
      if negb ok then
        let* _ := update_msg connection (set_msg_payload None (msg_len msg) msg) in
        let* r := MHD_queue_response connection
                    MHD_HTTP_INTERNAL_SERVER_ERROR None in
        ret (r, upload_data_size)
      else
        let old := match msg_payload msg with Some p => p | None => "" end in
        let chunk := String.substring 0 (Z.to_nat upload_data_size) upload_data in
        let* _ := update_msg connection
                    (set_msg_payload (Some (old +:+ chunk))
                       (msg_len msg + upload_data_size) msg) in
        ret (MHD_YES, 0)
    else
      match msg_payload msg with
      | None => ret (MHD_NO, upload_data_size)
      | Some p =>
          let* r := janus_ws_dispatch connection msg method (Some p)
                      session_path handle_path in
          ret (r, upload_data_size)
      end
  else
    let* r := janus_ws_dispatch connection msg method None
                session_path handle_path in
    ret (r, upload_data_size).

Definition zero_msg : janus_http_msg :=
  {| contenttype := None; acrh := None; acrm := None; msg_payload := None;
     msg_len := 0; msg_session_id := 0 |}.

Definition starts_with_slash (s : option string) : bool :=
  match s with
  | Some (String c _) => Ascii.eqb c "/"%char
  | _ => false
  end.

(** [janus_ws_handler] (lines 165-713).  [*ptr] is the connection's
    [con_cls]. *)
Definition janus_ws_handler (connection : ptr) (url method : string)
  (upload_data : string) (upload_data_size : Z) : M (Z * Z) :=
  let* w := get in
  let* c := deref (connections w !! connection) in
  let* first :=
    match con_cls c with
    | Some msg => ret (false, msg, MHD_NO)
    | None =>
        let* ok := calloc in
        if negb ok then
          (* [goto done] from line 183 reaches [g_strfreev(path)] with
             [path] never initialised *)
          let* _ := MHD_queue_response connection
                      MHD_HTTP_INTERNAL_SERVER_ERROR None in
          fault
        else
          let msg := MHD_get_connection_values (request_headers c) zero_msg in
          let* _ := update_msg connection msg in
          ret (true, msg, MHD_YES)
    end in
  let '(firstround, msg, ret0) := first in
  if negb ((strcasecmp method "GET" =? 0) || (strcasecmp method "POST" =? 0)
           || (strcasecmp method "OPTIONS" =? 0)) then
    let* r := queue_empty_response connection msg MHD_HTTP_NOT_IMPLEMENTED in
    ret (r, upload_data_size)
  else
    let* ret1 := if strcasecmp method "OPTIONS" =? 0
                 then queue_empty_response connection msg MHD_HTTP_OK
                 else ret ret0 in
    let continue (path : option (list string)) (r : Z) : M (Z * Z) :=
      if firstround then ret (r, upload_data_size)
      else janus_ws_request connection msg method path
             upload_data upload_data_size in
    let* w := get in
    if negb (strcasecmp url (ws_path w) =? 0) then
      let* basepath := deref (g_strsplit url (ws_path w)) in
      let* b1 := deref (strv_get basepath 1) in
      let* ret2 := if negb (starts_with_slash b1)
                   then queue_empty_response connection msg MHD_HTTP_NOT_FOUND
                   else ret ret1 in
      if firstround then ret (ret2, upload_data_size)
      else
        (* [g_strsplit] of NULL is NULL, and line 236 then reads
           [path[1]] for its debug line *)
        let* path := deref (match b1 with
                            | Some s => g_strsplit s "/"
                            | None => None
                            end) in
        let* p1 := deref (strv_get path 1) in
        let* ret3 := if bool_decide (p1 = None)
                     then queue_empty_response connection msg MHD_HTTP_NOT_FOUND
                     else ret ret2 in
        continue (Some path) ret3
    else continue None ret1.

End Core.

(** ** Vocabulary of the properties *)

(** A draw that [janus_session_create] throws away: zero, or taken. *)
Definition rejected (taken : gmap Z ptr) (x : Z) : Prop :=
  to_guint32 x = 0 \/ is_Some (taken !! to_guint32 x).

(** The session record [janus_session_create] fills in (lines 119-127). *)
Definition new_session (id : Z) : janus_session :=
  {| session_id := id; messages := []; ice_handles := ∅; destroy := 0 |}.

(** The [path] vector [janus_ws_handler] computes from a URL (lines
    218-246) when it neither answers 404 nor reads through NULL:
    [Some None] for the base path itself. *)
Definition url_path (base url : string) : option (option (list string)) :=
  if strcasecmp url base =? 0 then Some None
  else
    match g_strsplit url base with
    | Some basepath =>
        match strv_get basepath 1 with
        | Some (Some b1) =>
            if starts_with_slash (Some b1) then
              match g_strsplit b1 "/" with
              | Some path =>
                  match strv_get path 1 with
                  | Some (Some _) => Some (Some path)
                  | _ => None
                  end
              | None => None
              end
            else None
        | _ => None
        end
    | None => None
    end.

(** The session and handle components of a URL (lines 250-282), when it
    has no fourth component. *)
Definition url_scope (base url : string)
  : option (option string * option string) :=
  match url_path base url with
  | None => None
  | Some path =>
      let session_path := component path 1 in
      let handle_path := match session_path with
                         | Some _ => component path 2
                         | None => None
                         end in
      if bool_decide (is_Some session_path) && bool_decide (is_Some handle_path)
         && bool_decide (is_Some (component path 3))
      then None
      else Some (session_path, handle_path)
  end.

(** The identifier a path component denotes (lines 380 and 396). *)
Definition path_id (component : string) : Z :=
  to_guint64 (g_ascii_strtoll component).

(** The response queued on a connection. *)
Definition response_of (w : world) (connection : ptr)
  : option (Z * MHD_Response) :=
  match connections w !! connection with
  | Some c => queued c
  | None => None
  end.

(** The pending events of a session object. *)
Definition queue_of (w : world) (s : ptr) : list janus_http_event :=
  match session_heap w !! s with
  | Some ss => messages ss
  | None => []
  end.

Definition has_cors (r : MHD_Response) : Prop :=
  In ("Access-Control-Allow-Origin", "*") (headers r).

Definition is_json (r : MHD_Response) : Prop :=
  In ("Content-Type", "application/json") (headers r).


(** What a reply leaves alone: everything but the connections and the
    allocation oracle. *)
Definition replied_only (w w' : world) : Prop :=
  sessions w' = sessions w
  /\ session_heap w' = session_heap w
  /\ handle_heap w' = handle_heap w
  /\ trace w' = trace w
  /\ stop w' = stop w
  /\ random_ints w' = random_ints w.

(** The body and headers of the replies built by [janus_ws_success] and
    [janus_ws_error]. *)
Definition json_response (msg : janus_http_msg) (text : string)
  : MHD_Response :=
  {| headers := ("Content-Type", "application/json") :: cors_headers msg;
     data := text |}.

(** The world once line 393 has stored the session id in the request
    context. *)
Definition with_session_id (connection : ptr) (c : MHD_Connection)
  (msg : janus_http_msg) (id : Z) (w : world) : world :=
  set_connections
    (<[connection := set_con_cls (Some (set_msg_session_id id msg)) c]>
       (connections w)) w.

(** The handle record a successful [janus_ice_handle_create] leaves in
    the heap. *)
Definition new_handle (s : ptr) (id : Z) : janus_ice_handle :=
  {| session := Some s; handle_id := id; app := None; app_handle := None;
     streams_num := 0; cdone := 0; audio_id := 0; video_id := 0 |}.

(** A handle that is still the same handle: only its media context may
    differ. *)
Definition same_identity (h h' : janus_ice_handle) : Prop :=
  session h' = session h /\ handle_id h' = handle_id h
  /\ app h' = app h /\ app_handle h' = app_handle h.

(** What SDP handling may change: the clock, the record of calls and the
    media context of handles. *)
Definition media_only (w w' : world) : Prop :=
  sessions w' = sessions w
  /\ session_heap w' = session_heap w
  /\ connections w' = connections w
  /\ sleeps w' = sleeps w
  /\ calloc_results w' = calloc_results w
  /\ stop w' = stop w
  /\ forall h ih, handle_heap w !! h = Some ih ->
       exists ih', handle_heap w' !! h = Some ih' /\ same_identity ih ih'.

(** The 500 that [janus_ws_error] queues when it cannot allocate the
    reason string. *)
Definition bare_500 : Z * MHD_Response :=
  (MHD_HTTP_INTERNAL_SERVER_ERROR, {| headers := []; data := "" |}).

(** Every response queued on a connection carries the cross-origin
    header, the bare 500 apart. *)
Definition responses_ok (w : world) : Prop :=
  forall c conn r,
    connections w !! c = Some conn -> queued conn = Some r ->
    has_cors (snd r) \/ r = bare_500.

(** [m] keeps [P] whenever it returns. *)
Definition preserves {A : Type} (P : world -> Prop) (m : M A) : Prop :=
  forall w a w', P w -> m w = Returns (a, w') -> P w'.

(** No other thread does anything during the next [n] sleeps. *)
Definition quiet (n : nat) (schedule : list (list async_event)) : Prop :=
  Forall (fun es => es = []) (take n schedule).

(** The next checked allocation succeeds. *)
Definition can_allocate (w : world) : Prop :=
  match calloc_results w with
  | false :: _ => False
  | _ => True
  end.

(** The formatted reason fits the 512 bytes [janus_ws_error] reserves. *)
Definition fits (X : externals) (format : string) (args : list fmt_arg)
  : Prop :=
  Z.of_nat (String.length (vsprintf X format args)) < 512.

(** The reply [janus_ws_error] sends for [error]. *)
Definition error_response (X : externals) (msg : janus_http_msg)
  (transaction : option string) (error : janus_error) (format : string)
  (args : list fmt_arg) : Z * MHD_Response :=
  (MHD_HTTP_OK,
   json_response msg
     (json_dumps X (error_reply X transaction error (vsprintf X format args)))).

(** ** Vocabulary of the further properties *)

(** The three methods [janus_ws_handler] serves (line 195). *)
Definition supported (method : string) : bool :=
  (strcasecmp method "GET" =? 0) || (strcasecmp method "POST" =? 0)
  || (strcasecmp method "OPTIONS" =? 0).

(** The request context of a call: the one kept from the first call, or
    the one the first call builds from the request headers (lines
    174-193). *)
Definition request_context (c : MHD_Connection) : janus_http_msg :=
  match con_cls c with
  | Some msg => msg
  | None => MHD_get_connection_values (request_headers c) zero_msg
  end.

(** The value of the last header called [name], whatever the case of its
    letters; [default] when there is none. *)
Definition header_value (name : string) (hs : list (string * string))
  (default : option string) : option string :=
  fold_left (fun acc kv => if strcasecmp (fst kv) name =? 0
                           then Some (snd kv) else acc) hs default.

(** An empty response with the cross-origin headers. *)
Definition empty_response (msg : janus_http_msg) : MHD_Response :=
  {| headers := cors_headers msg; data := "" |}.

(** No character of [s] is the NUL that ends a C string. *)
Fixpoint no_nul (s : string) : bool :=
  match s with
  | EmptyString => true
  | String c r => negb (char_code (tolower c) =? 0) && no_nul r
  end.

(** The part of the body received so far. *)
Definition body_so_far (msg : janus_http_msg) : string :=
  match msg_payload msg with Some p => p | None => "" end.

(** The request context after one more piece of the body arrived (lines
    289-301). *)
Definition with_chunk (msg : janus_http_msg) (chunk : string) : janus_http_msg :=
  set_msg_payload (Some (body_so_far msg +:+ chunk))
    (msg_len msg + Z.of_nat (String.length chunk)) msg.

(** The request context after the pieces [chunks] arrived in turn. *)
Definition received (msg : janus_http_msg) (chunks : list string)
  : janus_http_msg :=
  fold_left with_chunk chunks msg.

(** libmicrohttpd handing the pieces of a POST body to the handler, one
    call for each; the result lists what each call returned: its answer
    and the upload size it left. *)
Fixpoint deliver (X : externals) (connection : ptr) (url : string)
  (chunks : list string) : M (list (Z * Z)) :=
  match chunks with
  | [] => ret []
  | chunk :: rest =>
      let* r := janus_ws_handler X connection url "POST" chunk
                  (Z.of_nat (String.length chunk)) in
      let* rs := deliver X connection url rest in
      ret (r :: rs)
  end.

(** ** A concrete environment

    Stand-ins for the external libraries, used to run the model on
    concrete requests: a Jansson that knows the documents listed in
    [documents], a compact serializer, a [vsprintf] for the directives the
    core uses, one assignment of numbers to the error codes, and an SDP and
    ICE subsystem that accept any text starting with [v=0]. *)

Module Demo.

(** Writes a JSON text with apostrophes for the double quotes. *)
Fixpoint json_text (s : string) : string :=
  match s with
  | EmptyString => EmptyString
  | String c r =>
      String (if Ascii.eqb c "'"%char then ascii_of_nat 34 else c) (json_text r)
  end.

Fixpoint dumps (j : json_t) : string :=
  match j with
  | JNull => "null"
  | JTrue => "true"
  | JFalse => "false"
  | JInteger n => pretty n
  | JString s => dquote +:+ s +:+ dquote
  | JArray items =>
      "[" +:+ (fix go (l : list json_t) : string :=
                 match l with
                 | [] => ""
                 | x :: r =>
                     dumps x +:+ match r with [] => "" | _ => "," end +:+ go r
                 end) items +:+ "]"
  | JObject members =>
      "{" +:+ (fix go (l : list (string * json_t)) : string :=
                 match l with
                 | [] => ""
                 | (k, v) :: r =>
                     dquote +:+ k +:+ dquote +:+ ":" +:+ dumps v
                       +:+ match r with [] => "" | _ => "," end +:+ go r
                 end) members +:+ "}"
  end.

Definition create_text : string :=
  json_text "{'janus':'create','transaction':'t1'}".
Definition create_json : json_t :=
  JObject [("janus", JString "create"); ("transaction", JString "t1")].

Definition destroy_text : string :=
  json_text "{'janus':'destroy','transaction':'t2'}".
Definition destroy_json : json_t :=
  JObject [("janus", JString "destroy"); ("transaction", JString "t2")].

Definition attach_text : string :=
  json_text "{'janus':'attach','plugin':'janus.plugin.videocall','transaction':'t3'}".
Definition attach_json : json_t :=
  JObject [("janus", JString "attach");
           ("plugin", JString "janus.plugin.videocall");
           ("transaction", JString "t3")].

Definition message_text : string :=
  json_text "{'janus':'message','transaction':'t4'}".
Definition message_json : json_t :=
  JObject [("janus", JString "message"); ("transaction", JString "t4")].

Definition jsep_json : json_t :=
  JObject [("type", JString "offer"); ("sdp", JString "garbage")].
Definition offer_text : string :=
  json_text "{'janus':'message','transaction':'t5','body':{},'jsep':{'type':'offer','sdp':'garbage'}}".
Definition offer_json : json_t :=
  JObject [("janus", JString "message"); ("transaction", JString "t5");
           ("body", JObject []); ("jsep", jsep_json)].

Definition documents : list (string * json_t) :=
  [ (create_text, create_json);
    (destroy_text, destroy_json);
    (attach_text, attach_json);
    (message_text, message_json);
    (offer_text, offer_json);
    (json_text "{'n':1}", JObject [("n", JInteger 1)]);
    (json_text "{'n':2}", JObject [("n", JInteger 2)]);
    (json_text "{'n':3}", JObject [("n", JInteger 3)]);
    ("[1,2]", JArray [JInteger 1; JInteger 2]) ].

Fixpoint find_document (s : string) (l : list (string * json_t))
  : option json_t :=
  match l with
  | [] => None
  | (t, j) :: r => if String.eqb s t then Some j else find_document s r
  end.

Definition loads (payload : option string) : json_error_t + json_t :=
  match payload with
  | None => inl {| line := -1; text := "wrong arguments" |}
  | Some s =>
      match find_document s documents with
      | Some j => inr j
      | None => inl {| line := 1; text := "invalid token" |}
      end
  end.

Definition show_arg (a : option fmt_arg) : string :=
  match a with
  | Some (ArgStr s) => s
  | Some (ArgInt n) => pretty n
  | None => ""
  end.

(** The directives [%s], [%d] and [%lu]. *)
Fixpoint sprintf (format : string) (args : list fmt_arg) : string :=
  match format with
  | String "%"%char (String "l"%char (String "u"%char r)) =>
      show_arg (head args) +:+ sprintf r (tail args)
  | String "%"%char (String "s"%char r) =>
      show_arg (head args) +:+ sprintf r (tail args)
  | String "%"%char (String "d"%char r) =>
      show_arg (head args) +:+ sprintf r (tail args)
  | String c r => String c (sprintf r args)
  | EmptyString => EmptyString
  end.

Definition code_of (e : janus_error) : Z :=
  match e with
  | JANUS_OK => 0
  | JANUS_ERROR_UNKNOWN => 490
  | JANUS_ERROR_USE_POST => 451
  | JANUS_ERROR_MISSING_REQUEST => 452
  | JANUS_ERROR_UNKNOWN_REQUEST => 453
  | JANUS_ERROR_INVALID_JSON => 454
  | JANUS_ERROR_INVALID_JSON_OBJECT => 455
  | JANUS_ERROR_MISSING_MANDATORY_ELEMENT => 456
  | JANUS_ERROR_INVALID_REQUEST_PATH => 457
  | JANUS_ERROR_SESSION_NOT_FOUND => 458
  | JANUS_ERROR_HANDLE_NOT_FOUND => 459
  | JANUS_ERROR_PLUGIN_NOT_FOUND => 460
  | JANUS_ERROR_PLUGIN_ATTACH => 461
  | JANUS_ERROR_PLUGIN_MESSAGE => 462
  | JANUS_ERROR_PLUGIN_DETACH => 463
  | JANUS_ERROR_JSEP_UNKNOWN_TYPE => 464
  | JANUS_ERROR_JSEP_INVALID_SDP => 465
  end.

Definition preparse (sdp : string) : option (Z * Z) :=
  match prefix_rest "v=0" sdp with
  | Some _ => Some (1, 1)
  | None => None
  end.

Definition media_of (h : janus_ice_handle) : ice_media :=
  {| media_streams_num := streams_num h; media_cdone := cdone h;
     media_audio_id := audio_id h; media_video_id := video_id h |}.

(** Candidates are gathered at once. *)
Definition setup_local (h : janus_ice_handle) (offer audio video : Z)
  : ice_media :=
  {| media_streams_num := audio + video; media_cdone := audio + video;
     media_audio_id := audio; media_video_id := 2 * video |}.

Definition X : externals :=
  {| json_loads := loads;
     json_dumps := dumps;
     vsprintf := sprintf;
     api_code := code_of;
     janus_get_api_error := fun _ => "error";
     janus_sdp_preparse := preparse;
     janus_sdp_parse := fun h _ => media_of h;
     janus_sdp_anonymize := fun sdp => Some sdp;
     janus_sdp_merge := fun _ sdp => Some sdp;
     janus_ice_setup_local := setup_local;
     janus_ice_setup_remote_candidate := fun h _ _ => media_of h |}.

Definition videocall : janus_plugin :=
  {| get_name := "JANUS VideoCall plugin";
     get_package := "janus.plugin.videocall" |}.

(** The request context once the headers are read and [body] has
    arrived. *)
Definition request (body : option string) : janus_http_msg :=
  set_msg_payload body 0 zero_msg.

(** A connection on its last call into the handler, carrying [body] as
    the complete request body. *)
Definition connection_with (body : option string) : MHD_Connection :=
  {| request_headers := []; con_cls := Some (request body); queued := None |}.

Definition session42 (queue : list janus_http_event) : janus_session :=
  {| session_id := 42; messages := queue;
     ice_handles := {[ 7 := 1%positive ]}; destroy := 0 |}.

(** A running gateway with no session, and connection 1 carrying [body]. *)
Definition gateway (body : option string) (draws : list Z) : world :=
  {| ws_path := "/janus";
     plugins := Some {[ "janus.plugin.videocall" := videocall ]};
     sessions := ∅;
     stop := 0;
     session_heap := ∅;
     handle_heap := ∅;
     connections := {[ 1%positive := connection_with body ]};
     clock := 1000;
     trace := [];
     random_ints := draws;
     calloc_results := [];
     plugin_errors := [];
     sleeps := [] |}.

Definition token (h : ptr) : janus_pluginession :=
  {| gateway_handle := Some h; plugin_handle := None |}.

Definition attached_handle (s : ptr) (id : Z) (h : ptr) : janus_ice_handle :=
  {| session := Some s; handle_id := id; app := Some videocall;
     app_handle := Some (token h); streams_num := 0; cdone := 0;
     audio_id := 0; video_id := 0 |}.

(** The same gateway with session 42 (the object at address 1), whose
    queue holds [queue] and which owns handle 7 (the handle object at
    address 1), attached to the videocall plugin; connections 1, 2 and 3
    each carry [body]; [draws] and [errors] feed the random generator and
    the plugin. *)
Definition session_gateway (body : option string)
  (queue : list janus_http_event) (draws errors : list Z) : world :=
  {| ws_path := "/janus";
     plugins := Some {[ "janus.plugin.videocall" := videocall ]};
     sessions := {[ 42 := 1%positive ]};
     stop := 0;
     session_heap := {[ 1%positive := session42 queue ]};
     handle_heap := {[ 1%positive := attached_handle 1 7 1 ]};
     connections := {[ 1%positive := connection_with body;
                       2%positive := connection_with body;
                       3%positive := connection_with body ]};
     clock := 1000;
     trace := [];
     random_ints := draws;
     calloc_results := [];
     plugin_errors := errors;
     sleeps := [] |}.

Definition gateway_with_handle (body : option string)
  (queue : list janus_http_event) : world :=
  session_gateway body queue [] [].

(** The world a call leaves behind ([w] itself when it does not return). *)
Definition after {A : Type} (m : M A) (w : world) : world :=
  match m w with
  | Returns (_, w') => w'
  | _ => w
  end.

(** A plugin pushing the message [text] for handle 7, without SDP. *)
Definition push (text : string) : M Z :=
  janus_push_event X (Some (token 1)) (Some videocall) None
    (Some (json_text text)) None None.

End Demo.


(** * The VideoCall plugin (plugins/janus_videocall.c)

    The plugin keeps its own globals ([initialized], [stopping],
    [gateway], the queue [messages] and the table [sessions] of
    registered users) and its own heap of [janus_videocall_session]
    objects; [g_free] takes an object out of the heap, so that a pointer
    kept to it dangles.  The handles it is given point to the gateway's
    [janus_pluginession] objects, whose [plugin_handle] field it writes.
    What it asks of the gateway through the [janus_callbacks] it received
    ([push_event], [relay_rtp], [relay_rtcp]) is recorded in the order of
    the calls: the plugin only prints what [push_event] returns. *)

(** ** More of Jansson *)

Definition json_is_boolean (j : json_t) : bool :=
  match j with JTrue | JFalse => true | _ => false end.

Definition json_is_true (j : json_t) : bool :=
  match j with JTrue => true | _ => false end.

Definition json_is_integer (j : json_t) : bool :=
  match j with JInteger _ => true | _ => false end.

Definition json_integer_value (j : json_t) : Z :=
  match j with JInteger n => n | _ => 0 end.

Definition json_array : json_t := JArray [].

Definition json_array_append_new (a : json_t) (v : option json_t) : json_t :=
  match a, v with
  | JArray items, Some x => JArray (items ++ [x])
  | _, _ => a
  end.

(** [json_string] of a pointer that may be NULL: NULL for NULL. *)
Definition json_string_of (s : option string) : option json_t :=
  match s with Some text => Some (json_string text) | None => None end.

(** [json_object_set_new]: as [json_object_set]; a NULL value is refused
    and the object left alone. *)
Definition json_object_set_new (o : json_t) (key : string) (v : option json_t)
  : json_t :=
  match v with Some x => json_object_set o key x | None => o end.

(** What the plugin calls in rtcp.h: both rewrite the packet in [buf]. *)
Record rtcp_externals := {
  janus_rtcp_remb : string -> Z -> Z -> string;
  janus_rtcp_cap_remb : string -> Z -> Z -> string
}.

Module Videocall.

Local Open Scope list_scope.

Definition JANUS_VIDEOCALL_VERSION : Z := 1.
Definition JANUS_VIDEOCALL_VERSION_STRING : string := "0.0.1".
Definition JANUS_VIDEOCALL_DESCRIPTION : string :=
  "This is a simple video call plugin for Janus, allowing two WebRTC peers to call each other through the gateway.".
Definition JANUS_VIDEOCALL_NAME : string := "JANUS VideoCall plugin".
Definition JANUS_VIDEOCALL_PACKAGE : string := "janus.plugin.videocall".

(** The plugin as the core sees it (lines 60-84). *)
Definition janus_videocall_plugin : janus_plugin :=
  {| get_name := JANUS_VIDEOCALL_NAME; get_package := JANUS_VIDEOCALL_PACKAGE |}.

Definition create : janus_plugin := janus_videocall_plugin.

Definition janus_videocall_get_version : Z := JANUS_VIDEOCALL_VERSION.
Definition janus_videocall_get_version_string : string :=
  JANUS_VIDEOCALL_VERSION_STRING.
Definition janus_videocall_get_description : string :=
  JANUS_VIDEOCALL_DESCRIPTION.
Definition janus_videocall_get_name : string := JANUS_VIDEOCALL_NAME.
Definition janus_videocall_get_package : string := JANUS_VIDEOCALL_PACKAGE.

(** ** Records (lines 93-111) *)

Record janus_videocall_message := {
  message_handle : ptr;
  transaction : option string;
  message : option string;
  sdp_type : option string;
  sdp : option string
}.

Record janus_videocall_session := {
  handle : ptr;
  username : option string;
  audio_active : bool;
  video_active : bool;
  bitrate : Z;
  peer : option ptr;
  destroy : bool
}.

(** The queue [messages]: NULL before [janus_videocall_init], and left
    dangling by [janus_videocall_destroy]. *)
Inductive queue_pointer : Type :=
  | No_queue
  | Queue (pending : list janus_videocall_message)
  | Freed_queue.

(** Calls through [gateway]; the plugin argument of [push_event] is
    always [&janus_videocall_plugin]. *)
Inductive gateway_call : Type :=
  | push_event (handle : ptr) (transaction message sdp_type sdp : option string)
  | relay_rtp (handle : ptr) (video : Z) (buf : string) (len : Z)
  | relay_rtcp (handle : ptr) (video : Z) (buf : string) (len : Z).

Record state := {
  (* globals of janus_videocall.c *)
  initialized : Z;
  stopping : Z;
  gateway : bool;
  handler_thread : bool;
  messages : queue_pointer;
  sessions : option (gmap string ptr);
  (* heaps *)
  session_heap : gmap ptr janus_videocall_session;
  handles : gmap ptr janus_pluginession;
  (* calls made through the gateway's callbacks *)
  calls : list gateway_call;
  (* oracles: [calloc], and whether [g_thread_try_new] fails *)
  calloc_results : list bool;
  thread_errors : list bool
}.

Definition set_initialized (v : Z) (st : state) : state :=
  {| initialized := v; stopping := stopping st; gateway := gateway st;
     handler_thread := handler_thread st; messages := messages st;
     sessions := sessions st; session_heap := session_heap st;
     handles := handles st; calls := calls st;
     calloc_results := calloc_results st; thread_errors := thread_errors st |}.

Definition set_stopping (v : Z) (st : state) : state :=
  {| initialized := initialized st; stopping := v; gateway := gateway st;
     handler_thread := handler_thread st; messages := messages st;
     sessions := sessions st; session_heap := session_heap st;
     handles := handles st; calls := calls st;
     calloc_results := calloc_results st; thread_errors := thread_errors st |}.

Definition set_gateway (v : bool) (st : state) : state :=
  {| initialized := initialized st; stopping := stopping st; gateway := v;
     handler_thread := handler_thread st; messages := messages st;
     sessions := sessions st; session_heap := session_heap st;
     handles := handles st; calls := calls st;
     calloc_results := calloc_results st; thread_errors := thread_errors st |}.

Definition set_handler_thread (v : bool) (st : state) : state :=
  {| initialized := initialized st; stopping := stopping st;
     gateway := gateway st; handler_thread := v; messages := messages st;
     sessions := sessions st; session_heap := session_heap st;
     handles := handles st; calls := calls st;
     calloc_results := calloc_results st; thread_errors := thread_errors st |}.

Definition set_messages (v : queue_pointer) (st : state) : state :=
  {| initialized := initialized st; stopping := stopping st;
     gateway := gateway st; handler_thread := handler_thread st;
     messages := v; sessions := sessions st; session_heap := session_heap st;
     handles := handles st; calls := calls st;
     calloc_results := calloc_results st; thread_errors := thread_errors st |}.

Definition set_sessions (v : option (gmap string ptr)) (st : state) : state :=
  {| initialized := initialized st; stopping := stopping st;
     gateway := gateway st; handler_thread := handler_thread st;
     messages := messages st; sessions := v; session_heap := session_heap st;
     handles := handles st; calls := calls st;
     calloc_results := calloc_results st; thread_errors := thread_errors st |}.

Definition set_session_heap (v : gmap ptr janus_videocall_session)
  (st : state) : state :=
  {| initialized := initialized st; stopping := stopping st;
     gateway := gateway st; handler_thread := handler_thread st;
     messages := messages st; sessions := sessions st; session_heap := v;
     handles := handles st; calls := calls st;
     calloc_results := calloc_results st; thread_errors := thread_errors st |}.

Definition set_handles (v : gmap ptr janus_pluginession) (st : state) : state :=
  {| initialized := initialized st; stopping := stopping st;
     gateway := gateway st; handler_thread := handler_thread st;
     messages := messages st; sessions := sessions st;
     session_heap := session_heap st; handles := v; calls := calls st;
     calloc_results := calloc_results st; thread_errors := thread_errors st |}.

Definition set_calls (v : list gateway_call) (st : state) : state :=
  {| initialized := initialized st; stopping := stopping st;
     gateway := gateway st; handler_thread := handler_thread st;
     messages := messages st; sessions := sessions st;
     session_heap := session_heap st; handles := handles st; calls := v;
     calloc_results := calloc_results st; thread_errors := thread_errors st |}.

Definition set_calloc_results (v : list bool) (st : state) : state :=
  {| initialized := initialized st; stopping := stopping st;
     gateway := gateway st; handler_thread := handler_thread st;
     messages := messages st; sessions := sessions st;
     session_heap := session_heap st; handles := handles st;
     calls := calls st; calloc_results := v;
     thread_errors := thread_errors st |}.

Definition set_thread_errors (v : list bool) (st : state) : state :=
  {| initialized := initialized st; stopping := stopping st;
     gateway := gateway st; handler_thread := handler_thread st;
     messages := messages st; sessions := sessions st;
     session_heap := session_heap st; handles := handles st;
     calls := calls st; calloc_results := calloc_results st;
     thread_errors := v |}.

(** ** The monad of the plugin: as that of the core, over [state] *)

Definition P (A : Type) : Type := state -> outcome (A * state).

Definition ret {A : Type} (a : A) : P A := fun st => Returns (a, st).

Definition bind {A B : Type} (m : P A) (k : A -> P B) : P B :=
  fun st =>
    match m st with
    | Returns (a, st') => k a st'
    | Faults => Faults
    | Diverges => Diverges
    | Exits status => Exits status
    end.

Declare Scope videocall_scope.

Notation "'let*' x := m 'in' k" := (bind m (fun x => k))
  (at level 10, x pattern, m at level 100, k at level 200, only parsing)
  : videocall_scope.

Local Open Scope videocall_scope.

Definition get : P state := fun st => Returns (st, st).
Definition modify (f : state -> state) : P unit :=
  fun st => Returns (tt, f st).
Definition fault {A : Type} : P A := fun _ => Faults.

Definition deref {A : Type} (o : option A) : P A :=
  match o with Some a => ret a | None => fault end.

(** A call through [gateway], which is NULL until
    [janus_videocall_init] sets it. *)
Definition call_gateway (c : gateway_call) : P unit :=
  let* st := get in
  if gateway st then modify (fun st => set_calls (calls st ++ [c]) st)
  else fault.

Definition calloc : P bool := fun st =>
  match calloc_results st with
  | [] => Returns (true, st)
  | b :: rest => Returns (b, set_calloc_results rest st)
  end.

(** Whether [g_thread_try_new] reports an error; an exhausted oracle
    means it does not. *)
Definition g_thread_try_new : P bool := fun st =>
  match thread_errors st with
  | [] => Returns (false, st)
  | b :: rest => Returns (b, set_thread_errors rest st)
  end.

(** ** Sessions through their pointers *)

Definition read_session (p : ptr) : P janus_videocall_session :=
  let* st := get in deref (session_heap st !! p).

Definition write_session (p : ptr) (s : janus_videocall_session) : P unit :=
  let* _ := read_session p in
  modify (fun st => set_session_heap (<[p := s]> (session_heap st)) st).

Definition g_free (p : ptr) : P unit :=
  let* _ := read_session p in
  modify (fun st => set_session_heap (delete p (session_heap st)) st).

Definition set_username (v : option string) (s : janus_videocall_session)
  : janus_videocall_session :=
  {| handle := handle s; username := v; audio_active := audio_active s;
     video_active := video_active s; bitrate := bitrate s; peer := peer s;
     destroy := destroy s |}.

Definition set_audio_active (v : bool) (s : janus_videocall_session)
  : janus_videocall_session :=
  {| handle := handle s; username := username s; audio_active := v;
     video_active := video_active s; bitrate := bitrate s; peer := peer s;
     destroy := destroy s |}.

Definition set_video_active (v : bool) (s : janus_videocall_session)
  : janus_videocall_session :=
  {| handle := handle s; username := username s;
     audio_active := audio_active s; video_active := v; bitrate := bitrate s;
     peer := peer s; destroy := destroy s |}.

Definition set_bitrate (v : Z) (s : janus_videocall_session)
  : janus_videocall_session :=
  {| handle := handle s; username := username s;
     audio_active := audio_active s; video_active := video_active s;
     bitrate := v; peer := peer s; destroy := destroy s |}.

Definition set_peer (v : option ptr) (s : janus_videocall_session)
  : janus_videocall_session :=
  {| handle := handle s; username := username s;
     audio_active := audio_active s; video_active := video_active s;
     bitrate := bitrate s; peer := v; destroy := destroy s |}.

Definition set_destroy (v : bool) (s : janus_videocall_session)
  : janus_videocall_session :=
  {| handle := handle s; username := username s;
     audio_active := audio_active s; video_active := video_active s;
     bitrate := bitrate s; peer := peer s; destroy := v |}.

(** [session->field = v], through the pointer. *)
Definition assign (p : ptr)
  (f : janus_videocall_session -> janus_videocall_session) : P unit :=
  let* s := read_session p in write_session p (f s).

(** [handle->plugin_handle]. *)
Definition plugin_handle_of (h : ptr) : P (option ptr) :=
  let* st := get in
  let* hd := deref (handles st !! h) in
  ret (plugin_handle hd).

(** [stopping || !initialized]. *)
Definition inactive (st : state) : bool :=
  negb (stopping st =? 0) || (initialized st =? 0).

(** [g_hash_table_lookup(sessions, name)]; NULL on a NULL table. *)
Definition g_hash_table_lookup (name : string) : P (option ptr) :=
  let* st := get in
  ret (match sessions st with
       | Some table => table !! name
       | None => None
       end).

Section Plugin.

Variable X : externals.
Variable R : rtcp_externals.

(** ** Set-up and tear-down (lines 115-170) *)

(** [janus_videocall_init]: the configuration file is parsed and printed,
    and nothing of it is used; the thread it starts is
    [janus_videocall_handler] below, whose turns are taken apart from
    this call. *)
Definition janus_videocall_init (callback : bool) (config_path : option string)
  : P Z :=
  let* st := get in
  if negb (stopping st =? 0) then ret (-1)
  else
    match callback, config_path with
    | true, Some path =>
        (* [filename] holds 255 bytes *)
        let filename := vsprintf X "%s/%s.cfg"
                          [ArgStr path; ArgStr JANUS_VIDEOCALL_PACKAGE] in
        if 255 <=? Z.of_nat (String.length filename) then fault
        else
          let* _ := modify (set_sessions (Some ∅)) in
          let* _ := modify (set_messages (Queue [])) in
          let* _ := modify (set_gateway true) in
          let* _ := modify (set_initialized 1) in
          let* error := g_thread_try_new in
          let* _ := modify (set_handler_thread (negb error)) in
          if error then
            let* _ := modify (set_initialized 0) in
            ret (-1)
          else ret 0
    | _, _ => ret (-1)
    end.

(** [janus_videocall_destroy]: [g_thread_join] returns once the handler
    has seen [stopping]; the table is destroyed without its sessions, and
    [messages] is freed but not reset. *)
Definition janus_videocall_destroy : P unit :=
  let* st := get in
  if initialized st =? 0 then ret tt
  else
    let* _ := modify (set_stopping 1) in
    let* _ := modify (set_handler_thread false) in
    let* _ := modify (set_sessions None) in
    let* _ := modify (set_messages Freed_queue) in
    let* _ := modify (set_initialized 0) in
    modify (set_stopping 0).

(** ** Sessions of the plugin (lines 192-239, 315-345) *)

(** The result is the new value of [*error]; [error] is the one it had. *)
Definition janus_videocall_create_session (h : ptr) (error : Z) : P Z :=
  let* st := get in
  if inactive st then ret (-1)
  else
    let* ok := calloc in
    if negb ok then ret (-2)
    else
      let* st := get in
      let p := fresh (dom (session_heap st)) in
      let* _ := modify (set_session_heap
                  (<[p := {| handle := h; username := None;
                             audio_active := true; video_active := true;
                             bitrate := 0; peer := None; destroy := false |}]>
                     (session_heap st))) in
      let* st := get in
      let* hd := deref (handles st !! h) in
      let* _ := modify (set_handles
                  (<[h := {| gateway_handle := gateway_handle hd;
                             plugin_handle := Some p |}]> (handles st))) in
      ret error.

(** The event sent to the other side of a call that ends (lines 328-335
    and 583-589). *)
Definition remote_hangup (name : option string) : json_t :=
  let call := json_object in
  let call := json_object_set call "videocall" (json_string "event") in
  let calling := json_object in
  let calling := json_object_set_new calling "event"
                   (Some (json_string "hangup")) in
  let calling := json_object_set_new calling "username" (json_string_of name) in
  let calling := json_object_set_new calling "reason"
                   (Some (json_string "Remote hangup")) in
  json_object_set_new call "result" (Some calling).

Definition janus_videocall_hangup_media (h : ptr) : P unit :=
  let* st := get in
  if inactive st then ret tt
  else
    let* found := plugin_handle_of h in
    match found with
    | None => ret tt
    | Some p =>
        let* session := read_session p in
        if destroy session then ret tt
        else
          let* _ :=
            match peer session with
            | Some q =>
                let call_text := json_dumps X (remote_hangup (username session)) in
                let* other := read_session q in
                call_gateway (push_event (handle other) None (Some call_text)
                                None None)
            | None => ret tt
            end in
          let* _ := assign p (set_peer None) in
          let* _ := assign p (set_audio_active true) in
          let* _ := assign p (set_video_active true) in
          assign p (set_bitrate 0)
    end.

Definition janus_videocall_destroy_session (h : ptr) (error : Z) : P Z :=
  let* st := get in
  if inactive st then ret (-1)
  else
    let* found := plugin_handle_of h in
    match found with
    | None => ret (-2)
    | Some p =>
        let* session := read_session p in
        if destroy session then
          let* _ := g_free p in ret error
        else
          let* _ := janus_videocall_hangup_media h in
          let* _ := assign p (set_destroy true) in
          let* session := read_session p in
          let* _ :=
            match username session with
            | Some name =>
                modify (fun st =>
                  set_sessions (match sessions st with
                                | Some table => Some (delete name table)
                                | None => None
                                end) st)
            | None => ret tt
            end in
          let* _ := g_free p in
          ret error
    end.

(** ** Messages and media from the gateway (lines 241-313) *)

(** [g_queue_push_tail(messages, msg)]; GLib ignores a NULL queue. *)
Definition janus_videocall_handle_message (h : ptr)
  (transaction message sdp_type sdp : option string) : P unit :=
  let* st := get in
  if inactive st then ret tt
  else
    let* ok := calloc in
    if negb ok then ret tt
    else
      let msg := {| message_handle := h; transaction := transaction;
                    message := message; sdp_type := sdp_type; sdp := sdp |} in
      let* st := get in
      match messages st with
      | No_queue => ret tt
      | Queue pending => modify (set_messages (Queue (pending ++ [msg])))
      | Freed_queue => fault
      end.

Definition janus_videocall_setup_media (h : ptr) : P unit :=
  let* st := get in
  if inactive st then ret tt
  else
    let* found := plugin_handle_of h in
    match found with
    | None => ret tt
    | Some p => let* _ := read_session p in ret tt
    end.

Definition janus_videocall_incoming_rtp (h : ptr) (video : Z) (buf : string)
  (len : Z) : P unit :=
  let* st := get in
  if inactive st then ret tt
  else if negb (gateway st) then ret tt
  else
    let* found := plugin_handle_of h in
    match found with
    | None => ret tt
    | Some p =>
        let* session := read_session p in
        match peer session with
        | None => ret tt
        | Some q =>
            if destroy session then ret tt
            else
              let* other := read_session q in
              if destroy other then ret tt
              else if ((video =? 0) && audio_active session)
                      || (negb (video =? 0) && video_active session)
              then call_gateway (relay_rtp (handle other) video buf len)
              else ret tt
        end
    end.

Definition janus_videocall_incoming_rtcp (h : ptr) (video : Z) (buf : string)
  (len : Z) : P unit :=
  let* st := get in
  if inactive st then ret tt
  else if negb (gateway st) then ret tt
  else
    let* found := plugin_handle_of h in
    match found with
    | None => ret tt
    | Some p =>
        let* session := read_session p in
        match peer session with
        | None => ret tt
        | Some q =>
            if destroy session then ret tt
            else
              let* other := read_session q in
              if destroy other then ret tt
              else
                let buf := if 0 <? bitrate session
                           then janus_rtcp_cap_remb R buf len (bitrate session)
                           else buf in
                call_gateway (relay_rtcp (handle other) video buf len)
        end
    end.

(** ** The handler thread (lines 348-632) *)

(** What a message comes to: a result to send back, a problem to report
    ([goto error]), or nothing at all ([continue]). *)
Inductive verdict : Type :=
  | Result (result : option json_t)
  | Problem (cause : string)
  | Nothing.

(** [sprintf(error_cause, format, ...); goto error]: the buffer holds
    512 bytes. *)
Definition error_cause (format : string) (args : list fmt_arg) : P verdict :=
  let cause := vsprintf X format args in
  if 512 <=? Z.of_nat (String.length cause) then fault
  else ret (Problem cause).

(** The names of the registered users (lines 401-408), in the order of
    [users]. *)
Fixpoint usernames (users : list ptr) (list : json_t) : P json_t :=
  match users with
  | [] => ret list
  | user :: rest =>
      let* u := read_session user in
      usernames rest
        (match username u with
         | Some name => json_array_append_new list (Some (json_string name))
         | None => list
         end)
  end.

(** [list].  GLib does not specify the order of
    [g_hash_table_get_values]; here it is that of the keys. *)
Definition request_list : P verdict :=
  let* st := get in
  let peers_list := match sessions st with
                    | Some table => (map_to_list table).*2
                    | None => []
                    end in
  let* list := usernames peers_list json_array in
  let result := json_object in
  let result := json_object_set_new result "list" (Some list) in
  ret (Result (Some result)).

(** [register]. *)
Definition request_register (p : ptr) (root : json_t) : P verdict :=
  let* session := read_session p in
  match username session with
  | Some name => error_cause "Already registered (%s)" [ArgStr name]
  | None =>
      match string_member root "username" with
      | None => error_cause "JSON error: missing element (username)" []
      | Some username_text =>
          let* taken := g_hash_table_lookup username_text in
          match taken with
          | Some _ =>
              error_cause "Username '%s' already taken" [ArgStr username_text]
          | None =>
              let* _ := assign p (set_username (Some username_text)) in
              let* _ := modify (fun st =>
                          set_sessions
                            (match sessions st with
                             | Some table => Some (<[username_text := p]> table)
                             | None => None
                             end) st) in
              let result := json_object in
              let result := json_object_set_new result "event"
                              (Some (json_string "registered")) in
              let result := json_object_set_new result "username"
                              (Some (json_string username_text)) in
              ret (Result (Some result))
          end
      end
  end.

(** The event sent to the other side when a call is placed or accepted
    (lines 478-483 and 508-513). *)
Definition call_event (kind : string) (name : option string) : json_t :=
  let call := json_object in
  let call := json_object_set call "videocall" (json_string "event") in
  let calling := json_object in
  let calling := json_object_set_new calling "event" (Some (json_string kind)) in
  let calling := json_object_set_new calling "username" (json_string_of name) in
  json_object_set_new call "result" (Some calling).

(** [call]. *)
Definition request_call (msg : janus_videocall_message) (p : ptr)
  (root : json_t) : P verdict :=
  let* session := read_session p in
  match peer session with
  | Some _ => error_cause "Already in a call" []
  | None =>
      match string_member root "username" with
      | None => error_cause "JSON error: missing element (username)" []
      | Some username_text =>
          let* found := g_hash_table_lookup username_text in
          match found with
          | None =>
              error_cause "Username '%s' doesn't exist" [ArgStr username_text]
          | Some q =>
              let* other := read_session q in
              match peer other with
              | Some _ =>
                  let result := json_object in
                  let result := json_object_set_new result "event"
                                  (Some (json_string "hangup")) in
                  let result := json_object_set_new result "username"
                                  (json_string_of (username session)) in
                  let result := json_object_set_new result "reason"
                                  (Some (json_string "User busy")) in
                  ret (Result (Some result))
              | None =>
                  match sdp msg with
                  | None => error_cause "Missing SDP" []
                  | Some _ =>
                      let* _ := assign p (set_peer (Some q)) in
                      let* _ := assign q (set_peer (Some p)) in
                      let* session := read_session p in
                      let* other := read_session q in
                      let call_text :=
                        json_dumps X (call_event "incomingcall"
                                        (username session)) in
                      let* _ := call_gateway
                                  (push_event (handle other) None
                                     (Some call_text) (sdp_type msg) (sdp msg)) in
                      let result := json_object in
                      let result := json_object_set_new result "event"
                                      (Some (json_string "calling")) in
                      ret (Result (Some result))
                  end
              end
          end
      end
  end.

(** [accept]. *)
Definition request_accept (msg : janus_videocall_message) (p : ptr)
  : P verdict :=
  let* session := read_session p in
  match peer session with
  | None => error_cause "No incoming call to accept" []
  | Some q =>
      match sdp msg with
      | None => error_cause "Missing SDP" []
      | Some _ =>
          let* other := read_session q in
          let call_text :=
            json_dumps X (call_event "accepted" (username session)) in
          let* _ := call_gateway
                      (push_event (handle other) None (Some call_text)
                         (sdp_type msg) (sdp msg)) in
          let result := json_object in
          let result := json_object_set_new result "event"
                          (Some (json_string "accepted")) in
          ret (Result (Some result))
      end
  end.

(** A member that is present and of the wrong kind. *)
Definition invalid (j : option json_t) (kind : json_t -> bool) : bool :=
  match j with Some v => negb (kind v) | None => false end.

(** [memset(buf, 0, n)]. *)
Fixpoint zeroed (n : nat) : string :=
  match n with
  | O => EmptyString
  | S k => String (ascii_of_nat 0) (zeroed k)
  end.

(** [set]. *)
Definition request_set (p : ptr) (root : json_t) : P verdict :=
  let audio := json_object_get root "audio" in
  if invalid audio json_is_boolean
  then error_cause "JSON error: invalid value (audio)" []
  else
    let video := json_object_get root "video" in
    if invalid video json_is_boolean
    then error_cause "JSON error: invalid value (video)" []
    else
      let rate := json_object_get root "bitrate" in
      if invalid rate json_is_integer
      then error_cause "JSON error: invalid value (bitrate)" []
      else
        let* _ := match audio with
                  | Some a => assign p (set_audio_active (json_is_true a))
                  | None => ret tt
                  end in
        let* _ := match video with
                  | Some v => assign p (set_video_active (json_is_true v))
                  | None => ret tt
                  end in
        let* _ :=
          match rate with
          | Some b =>
              let* _ := assign p (set_bitrate
                                    (to_guint64 (json_integer_value b))) in
              let* session := read_session p in
              if 0 <? bitrate session then
                let buf := janus_rtcp_remb R (zeroed 24) 24 (bitrate session) in
                call_gateway (relay_rtcp (handle session) 1 buf 24)
              else ret tt
          | None => ret tt
          end in
        let result := json_object in
        let result := json_object_set result "event" (json_string "set") in
        ret (Result (Some result)).

(** [hangup]. *)
Definition request_hangup (p : ptr) : P verdict :=
  let* session := read_session p in
  match peer session with
  | None => ret Nothing
  | Some q =>
      let* _ := read_session q in
      let* _ := assign p (set_peer None) in
      let* _ := assign q (set_peer None) in
      let* session := read_session p in
      let* other := read_session q in
      let result := json_object in
      let result := json_object_set_new result "event"
                      (Some (json_string "hangup")) in
      let result := json_object_set_new result "username"
                      (json_string_of (username session)) in
      let result := json_object_set_new result "reason"
                      (Some (json_string "We did the hangup")) in
      let call_text := json_dumps X (remote_hangup (username session)) in
      let* _ := call_gateway
                  (push_event (handle other) None (Some call_text) None None) in
      ret (Result (Some result))
  end.

(** Lines 369-598: the request of a message, for the session [p] of its
    handle. *)
Definition handle_request (msg : janus_videocall_message) (p : ptr)
  : P verdict :=
  match message msg with
  | None =>
      (* line 373 jumps to [error] past the initialisation of [root],
         which line 618 then reads *)
      fault
  | Some message_text =>
      match json_loads X (Some message_text) with
      | inl error =>
          error_cause "JSON error: on line %d: %s"
            [ArgInt (line error); ArgStr (text error)]
      | inr root =>
          if negb (json_is_object root)
          then error_cause "JSON error: not an object" []
          else
            match string_member root "request" with
            | None => error_cause "JSON error: invalid element (request)" []
            | Some request_text =>
                if strcasecmp request_text "list" =? 0 then request_list
                else if strcasecmp request_text "register" =? 0
                then request_register p root
                else if strcasecmp request_text "call" =? 0
                then request_call msg p root
                else if strcasecmp request_text "accept" =? 0
                then request_accept msg p
                else if strcasecmp request_text "set" =? 0
                then request_set p root
                else if strcasecmp request_text "hangup" =? 0
                then request_hangup p
                else error_cause "Unknown request (%s)" [ArgStr request_text]
            end
      end
  end.

(** The events sent back to the handle of the message (lines 601-611 and
    620-627). *)
Definition result_event (result : option json_t) : json_t :=
  let event := json_object in
  let event := json_object_set event "videocall" (json_string "event") in
  match result with
  | Some r => json_object_set event "result" r
  | None => event
  end.

Definition error_event (cause : string) : json_t :=
  let event := json_object in
  let event := json_object_set event "videocall" (json_string "event") in
  json_object_set event "error" (json_string cause).

(** One turn of the loop at lines 356-629. *)
Definition janus_videocall_handler_turn : P unit :=
  let* st := get in
  match messages st with
  | No_queue => ret tt
  | Freed_queue => fault
  | Queue [] => ret tt
  | Queue (msg :: rest) =>
      let* _ := modify (set_messages (Queue rest)) in
      let* found := plugin_handle_of (message_handle msg) in
      match found with
      | None => ret tt
      | Some p =>
          let* session := read_session p in
          if destroy session then ret tt
          else
            let* v := handle_request msg p in
            match v with
            | Nothing => ret tt
            | Result result =>
                let event_text := json_dumps X (result_event result) in
                call_gateway
                  (push_event (message_handle msg) (transaction msg)
                     (Some event_text) None None)
            | Problem cause =>
                let event_text := json_dumps X (error_event cause) in
                call_gateway
                  (push_event (message_handle msg) (transaction msg)
                     (Some event_text) None None)
            end
      end
  end.

(** The loop, watched for [turns] turns; it ends by itself only once the
    plugin is stopping or no longer initialized. *)
Fixpoint handler_loop (turns : nat) : P unit :=
  match turns with
  | O => ret tt
  | S n =>
      let* st := get in
      if inactive st then ret tt
      else
        let* _ := janus_videocall_handler_turn in
        handler_loop n
  end.

(** [janus_videocall_handler]: without its 512 bytes for [error_cause]
    the thread ends at once. *)
Definition janus_videocall_handler (turns : nat) : P unit :=
  let* ok := calloc in
  if negb ok then ret tt else handler_loop turns.

End Plugin.

End Videocall.

(** ** Vocabulary of the properties of the plugin *)

Module VideocallFacts.

Import Videocall.
Local Open Scope videocall_scope.
Local Open Scope list_scope.

(** The session [janus_videocall_create_session] fills in (lines
    203-208). *)
Definition new_session (h : ptr) : janus_videocall_session :=
  {| handle := h; username := None; audio_active := true;
     video_active := true; bitrate := 0; peer := None; destroy := false |}.

(** The table of registered users only names sessions that are alive and
    carry that name, and no session that is alive is marked destroyed. *)
Definition consistent (st : state) : Prop :=
  (forall table name p,
      sessions st = Some table -> table !! name = Some p ->
      exists s, session_heap st !! p = Some s /\ username s = Some name)
  /\ (forall p s, session_heap st !! p = Some s -> destroy s = false).

(** The calls the gateway makes into the plugin. *)
Inductive entry : Type :=
  | Init (callback : bool) (config_path : option string)
  | Destroy
  | Create_session (h : ptr) (error : Z)
  | Destroy_session (h : ptr) (error : Z)
  | Handle_message (h : ptr) (transaction message sdp_type sdp : option string)
  | Setup_media (h : ptr)
  | Incoming_rtp (h : ptr) (video : Z) (buf : string) (len : Z)
  | Incoming_rtcp (h : ptr) (video : Z) (buf : string) (len : Z)
  | Hangup_media (h : ptr)
  | Handler_turn.

Definition enter (X : externals) (R : rtcp_externals) (e : entry) : P unit :=
  match e with
  | Init callback config_path =>
      let* _ := janus_videocall_init X callback config_path in ret tt
  | Destroy => janus_videocall_destroy
  | Create_session h error =>
      let* _ := janus_videocall_create_session h error in ret tt
  | Destroy_session h error =>
      let* _ := janus_videocall_destroy_session X h error in ret tt
  | Handle_message h transaction message sdp_type sdp =>
      janus_videocall_handle_message h transaction message sdp_type sdp
  | Setup_media h => janus_videocall_setup_media h
  | Incoming_rtp h video buf len => janus_videocall_incoming_rtp h video buf len
  | Incoming_rtcp h video buf len =>
      janus_videocall_incoming_rtcp R h video buf len
  | Hangup_media h => janus_videocall_hangup_media X h
  | Handler_turn => janus_videocall_handler_turn X R
  end.

(** A run of the plugin: the gateway's calls and the turns of the handler
    thread, interleaved in some order. *)
Fixpoint run (X : externals) (R : rtcp_externals) (es : list entry) : P unit :=
  match es with
  | [] => ret tt
  | e :: rest => let* _ := enter X R e in run X R rest
  end.

(** The plugin before [janus_videocall_init]. *)
Definition loaded (handles : gmap ptr janus_pluginession) : state :=
  {| initialized := 0; stopping := 0; gateway := false;
     handler_thread := false; messages := No_queue; sessions := None;
     session_heap := ∅; handles := handles; calls := [];
     calloc_results := []; thread_errors := [] |}.

(** The reason fits the 512 bytes of [error_cause]. *)
Definition cause_fits (X : externals) (format : string) (args : list fmt_arg)
  : Prop :=
  Z.of_nat (String.length (vsprintf X format args)) < 512.

(** The event pushed back to the sender of a message. *)
Definition reply_to (X : externals) (msg : janus_videocall_message)
  (event : json_t) : gateway_call :=
  push_event (message_handle msg) (transaction msg)
    (Some (json_dumps X event)) None None.

(** What a turn of the handler does with the verdict on a message (lines
    601-628). *)
Definition conclude (X : externals) (msg : janus_videocall_message)
  (v : verdict) : P unit :=
  match v with
  | Nothing => ret tt
  | Result result => call_gateway (reply_to X msg (result_event result))
  | Problem cause => call_gateway (reply_to X msg (error_event cause))
  end.


(** The result of a request that ends a call, or finds the callee busy
    (lines 462-465 and 578-581). *)
Definition hangup_result (name : option string) (reason : string) : json_t :=
  let result := json_object in
  let result := json_object_set_new result "event"
                  (Some (json_string "hangup")) in
  let result := json_object_set_new result "username" (json_string_of name) in
  json_object_set_new result "reason" (Some (json_string reason)).

(** The event a result is wrapped in. *)
Definition event_of (result : json_t) : json_t :=
  JObject [("videocall", JString "event"); ("result", result)].

(** From [st] to [st'] the queue of messages is the same and the plugin
    has only made more calls to the gateway. *)
Definition grows (st st' : state) : Prop :=
  messages st' = messages st
  /\ exists more, calls st' = calls st ++ more.

(** A computation that, when it returns, has only made more calls. *)
Definition steady {A : Type} (m : P A) : Prop :=
  forall st a st', m st = Returns (a, st') -> grows st st'.

(** A request that, when it returns, has a result or a problem to send
    back. *)
Definition answers (m : P verdict) : Prop :=
  forall st v st', m st = Returns (v, st') -> grows st st' /\ v <> Nothing.

(** From [st] to [st'] the table of users is the same, and so are the
    sessions that are alive, their names and their marks. *)
Definition same_names (st st' : state) : Prop :=
  sessions st' = sessions st
  /\ forall p,
      (fun s => (username s, destroy s)) <$> session_heap st' !! p
      = (fun s => (username s, destroy s)) <$> session_heap st !! p.

(** A computation that, when it returns, has renamed nobody. *)
Definition neutral {A : Type} (m : P A) : Prop :=
  forall st a st', m st = Returns (a, st') -> same_names st st'.

(** A computation that, when it returns, has kept the table of users
    consistent. *)
Definition keeps {A : Type} (m : P A) : Prop :=
  forall st a st', consistent st -> m st = Returns (a, st') -> consistent st'.

End VideocallFacts.

(** ** More concrete requests, and the plugin in a few states

    The environment of [Demo] with a Jansson that knows some more
    documents, RTCP helpers that leave the packet alone, and states of
    the VideoCall plugin with the users alice and bob. *)

Module Scenes.

Local Open Scope list_scope.

Definition list_text : string :=
  Demo.json_text
    "{'janus':'message','transaction':'t6','body':{'request':'list'}}".
Definition list_json : json_t :=
  JObject [("janus", JString "message"); ("transaction", JString "t6");
           ("body", JObject [("request", JString "list")])].

Definition register_text : string :=
  Demo.json_text "{'request':'register','username':'carol'}".
Definition register_json : json_t :=
  JObject [("request", JString "register"); ("username", JString "carol")].

Definition call_text : string :=
  Demo.json_text "{'request':'call','username':'bob'}".
Definition call_json : json_t :=
  JObject [("request", JString "call"); ("username", JString "bob")].

Definition hangup_text : string := Demo.json_text "{'request':'hangup'}".
Definition hangup_json : json_t := JObject [("request", JString "hangup")].

Definition set_text : string :=
  Demo.json_text "{'request':'set','audio':false,'bitrate':64000}".
Definition set_json : json_t :=
  JObject [("request", JString "set"); ("audio", JFalse);
           ("bitrate", JInteger 64000)].

Definition pranswer_text : string :=
  Demo.json_text
    "{'janus':'message','transaction':'t7','body':{},'jsep':{'type':'pranswer','sdp':'garbage'}}".
Definition pranswer_json : json_t :=
  JObject [("janus", JString "message"); ("transaction", JString "t7");
           ("body", JObject []);
           ("jsep", JObject [("type", JString "pranswer");
                             ("sdp", JString "garbage")])].

Definition documents : list (string * json_t) :=
  [ (list_text, list_json);
    (pranswer_text, pranswer_json);
    (register_text, register_json);
    (call_text, call_json);
    (hangup_text, hangup_json);
    (set_text, set_json) ].

Definition loads (payload : option string) : json_error_t + json_t :=
  match payload with
  | Some s =>
      match Demo.find_document s documents with
      | Some j => inr j
      | None => Demo.loads payload
      end
  | None => Demo.loads payload
  end.

Definition X : externals :=
  {| json_loads := loads;
     json_dumps := Demo.dumps;
     vsprintf := Demo.sprintf;
     api_code := Demo.code_of;
     janus_get_api_error := fun _ => "error";
     janus_sdp_preparse := Demo.preparse;
     janus_sdp_parse := fun h _ => Demo.media_of h;
     janus_sdp_anonymize := fun sdp => Some sdp;
     janus_sdp_merge := fun _ sdp => Some sdp;
     janus_ice_setup_local := Demo.setup_local;
     janus_ice_setup_remote_candidate := fun h _ _ => Demo.media_of h |}.

Definition R : rtcp_externals :=
  {| janus_rtcp_remb := fun buf _ _ => buf;
     janus_rtcp_cap_remb := fun buf _ _ => buf |}.

(** A connection on its first call into the handler, with the request
    headers [hs]. *)
Definition new_connection (hs : list (string * string)) : MHD_Connection :=
  {| request_headers := hs; con_cls := None; queued := None |}.

(** The gateway of [Demo] when a request with the headers [hs] arrives on
    connection 1. *)
Definition arriving (hs : list (string * string)) : world :=
  set_connections {[ 1%positive := new_connection hs ]} (Demo.gateway None []).

(** An event for the session of [Demo]. *)
Definition event (text : string) : janus_http_event :=
  {| code := 200; payload := Some text; allocated := 1 |}.

(** The sessions of the plugin for alice (at address 11, on handle 1),
    bob (at 12, on handle 2) and somebody without a name (at 13, on
    handle 3). *)
Definition user (h : ptr) (name : option string) (peer : option ptr)
  : Videocall.janus_videocall_session :=
  {| Videocall.handle := h; Videocall.username := name;
     Videocall.audio_active := true; Videocall.video_active := true;
     Videocall.bitrate := 0; Videocall.peer := peer;
     Videocall.destroy := false |}.

(** The plugin running, with [queue] waiting for the handler; alice and
    bob have [peers] as their peers. *)
Definition running (queue : list Videocall.janus_videocall_message)
  (peers : option ptr * option ptr) : Videocall.state :=
  {| Videocall.initialized := 1;
     Videocall.stopping := 0;
     Videocall.gateway := true;
     Videocall.handler_thread := true;
     Videocall.messages := Videocall.Queue queue;
     Videocall.sessions := Some {[ "alice" := 11%positive;
                                   "bob" := 12%positive ]};
     Videocall.session_heap :=
       {[ 11%positive := user 1 (Some "alice") (fst peers);
          12%positive := user 2 (Some "bob") (snd peers);
          13%positive := user 3 None None ]};
     Videocall.handles :=
       {[ 1%positive := {| gateway_handle := Some 1%positive;
                           plugin_handle := Some 11%positive |};
          2%positive := {| gateway_handle := Some 2%positive;
                           plugin_handle := Some 12%positive |};
          3%positive := {| gateway_handle := Some 3%positive;
                           plugin_handle := Some 13%positive |};
          4%positive := {| gateway_handle := Some 4%positive;
                           plugin_handle := None |} ]};
     Videocall.calls := [];
     Videocall.calloc_results := [];
     Videocall.thread_errors := [] |}.

Definition in_call : option ptr * option ptr :=
  (Some 12%positive, Some 11%positive).

Definition idle : option ptr * option ptr := (None, None).

(** A message from handle [h]. *)
Definition request (h : ptr) (text : string) (sdp : option string)
  : Videocall.janus_videocall_message :=
  {| Videocall.message_handle := h; Videocall.transaction := Some "t";
     Videocall.message := Some text;
     Videocall.sdp_type := (fun _ => "offer") <$> sdp; Videocall.sdp := sdp |}.

(** The state a call of the plugin leaves behind ([st] itself when it
    does not return). *)
Definition after {A : Type} (m : Videocall.P A) (st : Videocall.state)
  : Videocall.state :=
  match m st with
  | Returns (_, st') => st'
  | _ => st
  end.

End Scenes.

(** * Properties *)

Local Open Scope list_scope.

(** ** Session identifiers *)

Lemma to_guint32_range (x : Z) : 0 <= to_guint32 x < 2 ^ 32.
Proof. unfold to_guint32. apply Z.mod_pos_bound. lia. Qed.

Lemma to_json_int_small (z : Z) :
  - 2 ^ 63 <= z < 2 ^ 63 -> to_json_int z = z.
Proof.
  intros H. unfold to_json_int.
  rewrite Z.mod_small by lia. lia.
Qed.

Lemma session_id_loop_returns (fuel : nat) :
  forall (w w' : world) (id : Z),
    session_id_loop fuel w = Returns (id, w') ->
    exists skipped x,
      random_ints w = skipped ++ x :: random_ints w'
      /\ Forall (rejected (sessions w)) skipped
      /\ id = to_guint32 x /\ id <> 0 /\ sessions w !! id = None
      /\ w' = set_random_ints (random_ints w') w.
Proof.
  induction fuel as [|n IH]; intros w w' id H; [discriminate|].
  cbn in H. unfold bind, g_random_int in H.
  destruct (random_ints w) as [|x rest] eqn:Hdraws; [discriminate|].
  cbn in H.
  assert (Hstep : forall sk y,
            rejected (sessions w) x ->
            rest = sk ++ y :: random_ints w' ->
            Forall (rejected (sessions w)) sk ->
            w' = set_random_ints (random_ints w') (set_random_ints rest w) ->
            x :: rest = (x :: sk) ++ y :: random_ints w'
            /\ Forall (rejected (sessions w)) (x :: sk)
            /\ w' = set_random_ints (random_ints w') w).
  { intros sk y Hx H1 H2 H6. split; [rewrite H1; reflexivity|].
    split; [constructor; assumption|].
    etransitivity; [exact H6|reflexivity]. }
  destruct (sessions w !! to_guint32 x) as [p|] eqn:Hfind; cbn in H.
  - apply IH in H as (sk & y & H1 & H2 & H3 & H4 & H5 & H6). cbn in *.
    destruct (Hstep sk y) as (G1 & G2 & G3); auto.
    { right. rewrite Hfind. eauto. }
    exists (x :: sk), y. auto 10.
  - destruct (to_guint32 x =? 0) eqn:Hz.
    + apply IH in H as (sk & y & H1 & H2 & H3 & H4 & H5 & H6). cbn in *.
      destruct (Hstep sk y) as (G1 & G2 & G3); auto.
      { left. lia. }
      exists (x :: sk), y. auto 10.
    + injection H as <- <-. exists [], x. cbn.
      split; [reflexivity|]. split; [constructor|].
      split; [reflexivity|]. split; [lia|]. split; [exact Hfind|reflexivity].
Qed.

Lemma session_id_loop_progress (skipped : list Z) :
  forall (fuel : nat) (w : world) (x : Z) (rest : list Z),
    random_ints w = skipped ++ x :: rest ->
    Forall (rejected (sessions w)) skipped ->
    ~ rejected (sessions w) x ->
    (List.length skipped < fuel)%nat ->
    session_id_loop fuel w = Returns (to_guint32 x, set_random_ints rest w).
Proof.
  induction skipped as [|y sk IH]; intros fuel w x rest Hd Hrej Hok Hfuel.
  - destruct fuel as [|n]; [cbn in Hfuel; lia|].
    cbn. unfold bind, g_random_int. rewrite Hd. cbn.
    destruct (sessions w !! to_guint32 x) eqn:Hfind.
    + exfalso. apply Hok. right. rewrite Hfind. eauto.
    + destruct (to_guint32 x =? 0) eqn:Hz; [|reflexivity].
      exfalso. apply Hok. left. lia.
  - destruct fuel as [|n]; [cbn in Hfuel; lia|].
    inversion Hrej as [|? ? Hy Hsk]; subst.
    cbn. unfold bind, g_random_int. rewrite Hd. cbn.
    assert (Hnext : session_id_loop n (set_random_ints (sk ++ x :: rest) w)
                    = Returns (to_guint32 x, set_random_ints rest w)).
    { rewrite (IH n (set_random_ints (sk ++ x :: rest) w) x rest); auto.
      cbn in Hfuel. lia. }
    destruct (sessions w !! to_guint32 y) eqn:Hfind; cbn.
    + exact Hnext.
    + destruct Hy as [Hy|[p Hy]]; [|congruence].
      rewrite Hy. cbn. exact Hnext.
Qed.

Lemma handle_id_loop_progress (skipped : list Z) :
  forall (fuel : nat) (w : world) (taken : gmap Z ptr) (x : Z)
         (rest : list Z),
    random_ints w = skipped ++ x :: rest ->
    Forall (rejected taken) skipped ->
    ~ rejected taken x ->
    (List.length skipped < fuel)%nat ->
    handle_id_loop fuel taken w
    = Returns (to_guint32 x, set_random_ints rest w).
Proof.
  induction skipped as [|y sk IH]; intros fuel w taken x rest Hd Hrej Hok Hfuel;
    (destruct fuel as [|n]; [cbn in Hfuel; lia|]);
    cbn; unfold bind, g_random_int; rewrite Hd; cbn.
  - destruct (to_guint32 x =? 0) eqn:Hz.
    { exfalso. apply Hok. left. lia. }
    rewrite bool_decide_eq_false_2; [reflexivity|].
    intros Hs. apply Hok. right. exact Hs.
  - inversion Hrej as [|? ? Hy Hsk]; subst.
    replace ((to_guint32 y =? 0)
             || bool_decide (is_Some (taken !! to_guint32 y))) with true.
    + erewrite IH; [reflexivity|reflexivity|assumption|assumption|].
      cbn in Hfuel. lia.
    + symmetry. destruct Hy as [Hy|Hy].
      * rewrite Hy. reflexivity.
      * rewrite (bool_decide_eq_true_2 _ Hy). apply orb_true_r.
Qed.

(** ** Verbs are told apart by their first letter *)

Lemma strcasecmp_first_differs (v : string) (c d : ascii) (a b : string) :
  strcasecmp v (String c a) = 0 ->
  char_code (tolower c) <> 0 ->
  char_code (tolower c) <> char_code (tolower d) ->
  strcasecmp v (String d b) <> 0.
Proof.
  intros H Hc Hcd. destruct v as [|x v']; cbn in *; [lia|].
  destruct (char_code (tolower x) =? char_code (tolower c)) eqn:E; [|lia].
  apply Z.eqb_eq in E. rewrite E.
  destruct (char_code (tolower c) =? char_code (tolower d)) eqn:E'; lia.
Qed.

Lemma message_is_no_other_verb (v : string) :
  strcasecmp v "message" = 0 ->
  (strcasecmp v "attach" =? 0) = false
  /\ (strcasecmp v "destroy" =? 0) = false
  /\ (strcasecmp v "detach" =? 0) = false.
Proof.
  intros H. repeat split; apply Z.eqb_neq;
    apply (strcasecmp_first_differs v _ _ _ _ H); vm_compute; discriminate.
Qed.

Lemma destroy_is_not_attach (v : string) :
  strcasecmp v "destroy" = 0 -> (strcasecmp v "attach" =? 0) = false.
Proof.
  intros H. apply Z.eqb_neq.
  apply (strcasecmp_first_differs v _ _ _ _ H); vm_compute; discriminate.
Qed.

(** ** Running the handler up to the dispatch *)

Arguments strcasecmp : simpl never.
Arguments g_strsplit : simpl never.
Arguments g_ascii_strtoll : simpl never.
Arguments to_guint64 : simpl never.
Arguments to_guint32 : simpl never.
Arguments to_json_int : simpl never.
Arguments strv_get : simpl never.
Arguments MHD_queue_response : simpl never.
Arguments queue_empty_response : simpl never.
Arguments janus_ws_success : simpl never.
Arguments janus_ws_error : simpl never.
Arguments janus_ws_notifier : simpl never.
Arguments janus_session_create : simpl never.
Arguments janus_session_destroy : simpl never.
Arguments janus_ws_request : simpl never.
Arguments janus_ws_dispatch : simpl never.
Arguments janus_ws_create : simpl never.
Arguments janus_ws_get : simpl never.
Arguments janus_ws_post : simpl never.
Arguments janus_ws_attach : simpl never.
Arguments janus_ws_destroy : simpl never.
Arguments janus_ws_detach : simpl never.
Arguments janus_ws_message : simpl never.
Arguments janus_ws_message_jsep : simpl never.
Arguments janus_ice_handle_create : simpl never.
Arguments janus_ice_handle_find : simpl never.
Arguments janus_ice_handle_attach_plugin : simpl never.
Arguments janus_ice_handle_destroy : simpl never.
Arguments janus_push_event : simpl never.
Arguments janus_handle_sdp : simpl never.
Arguments g_queue_pop_head : simpl never.
Arguments g_queue_push_tail : simpl never.
Arguments update_msg : simpl never.
Arguments send_reply : simpl never.
Arguments long_poll : simpl never.
Arguments candidates_wait : simpl never.
Arguments handle_id_loop : simpl never.
Arguments component : simpl never.
Arguments starts_with_slash : simpl never.

Ltac mstep := unfold bind, get, ret, deref, modify, fault; cbn.

Section Routing.

Variable X : externals.

Lemma janus_ws_handler_routed (w : world) (connection : ptr)
  (c : MHD_Connection) (msg : janus_http_msg) (url method : string)
  (path : option (list string)) (upload_data : string) (size : Z) :
  connections w !! connection = Some c ->
  con_cls c = Some msg ->
  method = "GET" \/ method = "POST" ->
  url_path (ws_path w) url = Some path ->
  janus_ws_handler X connection url method upload_data size w
  = janus_ws_request X connection msg method path upload_data size w.
Proof.
  intros Hc Hmsg Hmethod Hpath.
  unfold janus_ws_handler. mstep. rewrite Hc. cbn. rewrite Hmsg. cbn.
  assert (Hm : (strcasecmp method "GET" =? 0) || (strcasecmp method "POST" =? 0)
               || (strcasecmp method "OPTIONS" =? 0) = true
               /\ (strcasecmp method "OPTIONS" =? 0) = false).
  { destruct Hmethod as [-> | ->]; vm_compute; auto. }
  destruct Hm as [Hm1 Hm2]. rewrite Hm1, Hm2. cbn.
  unfold url_path in Hpath.
  destruct (strcasecmp url (ws_path w) =? 0); cbn.
  { injection Hpath as <-. reflexivity. }
  destruct (g_strsplit url (ws_path w)) as [basepath|]; [|discriminate]. cbn.
  destruct (strv_get basepath 1) as [[b1|]|]; try discriminate. cbn.
  destruct (starts_with_slash (Some b1)); [|discriminate]. cbn.
  destruct (g_strsplit b1 "/") as [pv|]; [|discriminate]. cbn.
  destruct (strv_get pv 1) as [[p1|]|]; try discriminate. cbn.
  injection Hpath as <-. reflexivity.
Qed.

End Routing.

(** ** [janus_session_create] and [janus_session_destroy] *)

Arguments session_id_loop : simpl never.

Lemma janus_session_create_returns (w w' : world) (res : option ptr) :
  janus_session_create w = Returns (res, w') ->
  exists skipped x,
    random_ints w = skipped ++ x :: random_ints w'
    /\ Forall (rejected (sessions w)) skipped
    /\ to_guint32 x <> 0
    /\ sessions w !! to_guint32 x = None
    /\ connections w' = connections w
    /\ handle_heap w' = handle_heap w
    /\ trace w' = trace w
    /\ match res with
       | Some p =>
           session_heap w !! p = None
           /\ sessions w' = <[to_guint32 x := p]> (sessions w)
           /\ session_heap w' = <[p := new_session (to_guint32 x)]> (session_heap w)
           /\ (calloc_results w = [] \/ exists rest, calloc_results w = true :: rest)
       | None =>
           sessions w' = sessions w
           /\ session_heap w' = session_heap w
           /\ calloc_results w = false :: calloc_results w'
       end.
Proof.
  unfold janus_session_create. mstep.
  destruct (session_id_loop (S (List.length (random_ints w))) w)
    as [[id w1]| | |] eqn:Hloop; try discriminate.
  apply session_id_loop_returns in Hloop
    as (sk & x & H1 & H2 & H3 & H4 & H5 & H6).
  assert (Hf : forall v, session_heap (set_sessions v w1) = session_heap w).
  { intros v. rewrite H6. reflexivity. }
  unfold calloc.
  destruct (calloc_results w1) as [|[|] rest] eqn:Hc; cbn; intros H;
    injection H as <- <-; exists sk, x; subst id; rewrite H6 in Hc; cbn in Hc;
    rewrite H6; cbn; repeat (split; try assumption; try reflexivity).
  - apply not_elem_of_dom, is_fresh.
  - left. assumption.
  - apply not_elem_of_dom, is_fresh.
  - right. eauto.
Qed.

Lemma janus_session_create_succeeds (w : world) (skipped : list Z) (x : Z)
  (rest : list Z) :
  random_ints w = skipped ++ x :: rest ->
  Forall (rejected (sessions w)) skipped ->
  ~ rejected (sessions w) x ->
  calloc_results w = [] ->
  janus_session_create w
  = Returns (Some (fresh (dom (session_heap w))),
             set_sessions
               (<[to_guint32 x := fresh (dom (session_heap w))]> (sessions w))
               (set_session_heap
                  (<[fresh (dom (session_heap w)) := new_session (to_guint32 x)]>
                     (session_heap w))
                  (set_random_ints rest w))).
Proof.
  intros H1 H2 H3 H4. unfold janus_session_create. mstep.
  rewrite (session_id_loop_progress skipped _ w x rest); auto.
  - unfold calloc. cbn. rewrite H4. reflexivity.
  - rewrite H1, length_app. cbn. lia.
Qed.

(** ** The final call of a request *)

Lemma method_tests :
  (strcasecmp "POST" "POST" =? 0) = true
  /\ (strcasecmp "POST" "GET" =? 0) = false
  /\ (strcasecmp "GET" "GET" =? 0) = true
  /\ (strcasecmp "GET" "POST" =? 0) = false.
Proof. vm_compute. auto. Qed.

Section FinalCall.

Variable X : externals.

Lemma janus_ws_handler_post (w : world) (connection : ptr)
  (c : MHD_Connection) (msg : janus_http_msg) (url body upload_data : string)
  (sp hp : option string) :
  connections w !! connection = Some c ->
  con_cls c = Some msg ->
  url_scope (ws_path w) url = Some (sp, hp) ->
  msg_payload msg = Some body ->
  janus_ws_handler X connection url "POST" upload_data 0 w
  = (let* r := janus_ws_dispatch X connection msg "POST" (Some body) sp hp in
     ret (r, 0)) w.
Proof.
  intros Hc Hmsg Hscope Hbody. unfold url_scope in Hscope.
  destruct (url_path (ws_path w) url) as [path|] eqn:Hpath; [|discriminate].
  rewrite (janus_ws_handler_routed X w connection c msg url "POST" path);
    auto.
  unfold janus_ws_request.
  destruct (bool_decide _ && bool_decide _ && bool_decide _); [discriminate|].
  injection Hscope as <- <-.
  destruct method_tests as (-> & _). cbn. rewrite Hbody. reflexivity.
Qed.

Lemma janus_ws_handler_get (w : world) (connection : ptr)
  (c : MHD_Connection) (msg : janus_http_msg) (url upload_data : string)
  (size : Z) (sp hp : option string) :
  connections w !! connection = Some c ->
  con_cls c = Some msg ->
  url_scope (ws_path w) url = Some (sp, hp) ->
  janus_ws_handler X connection url "GET" upload_data size w
  = (let* r := janus_ws_dispatch X connection msg "GET" None sp hp in
     ret (r, size)) w.
Proof.
  intros Hc Hmsg Hscope. unfold url_scope in Hscope.
  destruct (url_path (ws_path w) url) as [path|] eqn:Hpath; [|discriminate].
  rewrite (janus_ws_handler_routed X w connection c msg url "GET" path);
    auto.
  unfold janus_ws_request.
  destruct (bool_decide _ && bool_decide _ && bool_decide _); [discriminate|].
  injection Hscope as <- <-.
  destruct method_tests as (_ & _ & _ & ->). reflexivity.
Qed.

End FinalCall.

(** ** Replies *)

Lemma replied_only_refl (w : world) : replied_only w w.
Proof. repeat split. Qed.

Lemma replied_only_trans (w1 w2 w3 : world) :
  replied_only w1 w2 -> replied_only w2 w3 -> replied_only w1 w3.
Proof.
  unfold replied_only. intros (A1 & A2 & A3 & A4 & A5 & A6)
    (B1 & B2 & B3 & B4 & B5 & B6).
  repeat split; congruence.
Qed.

Lemma MHD_queue_response_first (w : world) (connection : ptr)
  (c : MHD_Connection) (status : Z) (r : MHD_Response) :
  connections w !! connection = Some c ->
  queued c = None ->
  MHD_queue_response connection status (Some r) w
  = Returns (MHD_YES,
             set_connections
               (<[connection := set_queued (Some (status, r)) c]>
                  (connections w)) w).
Proof.
  intros Hc Hq. unfold MHD_queue_response. mstep. rewrite Hc. cbn.
  rewrite Hq. reflexivity.
Qed.

Lemma MHD_queue_response_frame (w w' : world) (connection : ptr)
  (status : Z) (resp : option MHD_Response) (r : Z) :
  MHD_queue_response connection status resp w = Returns (r, w') ->
  replied_only w w' /\ calloc_results w' = calloc_results w.
Proof.
  unfold MHD_queue_response. mstep.
  destruct (connections w !! connection) as [c|]; [|discriminate]. cbn.
  destruct resp as [x|], (queued c) as [q|]; cbn; intros H;
    injection H as <- <-; repeat split.
Qed.

Section Replies.

Variable X : externals.

Lemma janus_ws_success_frame (w w' : world) (connection : ptr)
  (msg : janus_http_msg) (transaction payload : option string) (r : Z) :
  janus_ws_success connection msg transaction payload w = Returns (r, w') ->
  replied_only w w' /\ calloc_results w' = calloc_results w.
Proof.
  unfold janus_ws_success. destruct payload as [text|].
  - apply MHD_queue_response_frame.
  - cbn. intros H. injection H as <- <-. repeat split.
Qed.

Lemma janus_ws_error_frame (w w' : world) (connection : ptr)
  (msg : janus_http_msg) (transaction format : option string)
  (error : janus_error) (args : list fmt_arg) (r : Z) :
  janus_ws_error X connection msg transaction error format args w
    = Returns (r, w') ->
  replied_only w w'.
Proof.
  unfold janus_ws_error. destruct format as [f|].
  - mstep. unfold calloc.
    destruct (calloc_results w) as [|[|] rest]; cbn;
      try (destruct (512 <=? _); [discriminate|]);
      intros H; apply MHD_queue_response_frame in H as [H _];
      destruct H as (A1 & A2 & A3 & A4 & A5 & A6); repeat split; assumption.
  - intros H. apply MHD_queue_response_frame in H. apply H.
Qed.

Lemma janus_ws_error_sends (w : world) (connection : ptr)
  (c : MHD_Connection) (msg : janus_http_msg) (transaction : option string)
  (error : janus_error) (format : string) (args : list fmt_arg) :
  connections w !! connection = Some c ->
  queued c = None ->
  can_allocate w ->
  fits X format args ->
  exists w',
    janus_ws_error X connection msg transaction error (Some format) args w
    = Returns (MHD_YES, w')
    /\ replied_only w w'
    /\ connections w'
       = <[connection :=
             set_queued (Some (error_response X msg transaction error format args)) c]>
           (connections w).
Proof.
  intros Hc Hq Hmem Hfit. unfold janus_ws_error, calloc. mstep.
  unfold fits in Hfit. unfold can_allocate in Hmem.
  destruct (calloc_results w) as [|[|] rest]; try contradiction; cbn;
    (replace (512 <=? _) with false by lia);
    erewrite MHD_queue_response_first by (cbn; eassumption);
    eexists; (split; [reflexivity|]); cbn; repeat split.
Qed.

End Replies.

(** ** Session creation through the router *)

Section Create.

Variable X : externals.

(** C2.  A [create] request (a POST on the base path whose body is an
    object with a [transaction] and [janus = create]) that returns either
    reports a memory error and leaves the session table alone, or has
    allocated a session: its id is a draw of the random generator, taken
    after every earlier draw was thrown away for being zero or already in
    the table; the id is positive, fits 64 bits (32 in fact), was not in
    the table before and maps to the new session afterwards; and the reply
    is the success envelope carrying that id in [data.id].  Moreover the
    request does succeed as soon as memory is available and the generator
    eventually yields a usable draw. *)
Theorem create_allocates_fresh_session
  (w : world) (connection : ptr) (c : MHD_Connection) (msg : janus_http_msg)
  (url body transaction verb : string) (root : json_t) :
  connections w !! connection = Some c ->
  con_cls c = Some msg ->
  queued c = None ->
  url_scope (ws_path w) url = Some (None, None) ->
  msg_payload msg = Some body ->
  json_loads X (Some body) = inr root ->
  json_is_object root = true ->
  string_member root "transaction" = Some transaction ->
  string_member root "janus" = Some verb ->
  strcasecmp verb "create" = 0 ->
  (forall (r : Z * Z) (w' : world),
      janus_ws_handler X connection url "POST" "" 0 w = Returns (r, w') ->
      (exists (id : Z) (p : ptr) (skipped : list Z) (x : Z),
          random_ints w = skipped ++ x :: random_ints w'
          /\ Forall (rejected (sessions w)) skipped
          /\ id = to_guint32 x
          /\ 0 < id < 2 ^ 64
          /\ sessions w !! id = None
          /\ sessions w' = <[id := p]> (sessions w)
          /\ session_heap w' !! p = Some (new_session id)
          /\ response_of w' connection
             = Some (MHD_HTTP_OK,
                     json_response msg
                       (json_dumps X (success_reply "success" transaction (Some id))))
          /\ json_object_get (success_reply "success" transaction (Some id)) "data"
             = Some (JObject [("id", JInteger id)])
          /\ r = (MHD_YES, 0))
      \/ (sessions w' = sessions w
          /\ exists rest, calloc_results w = false :: rest))
  /\ (forall (skipped : list Z) (x : Z) (rest : list Z),
        random_ints w = skipped ++ x :: rest ->
        Forall (rejected (sessions w)) skipped ->
        ~ rejected (sessions w) x ->
        calloc_results w = [] ->
        exists w', janus_ws_handler X connection url "POST" "" 0 w
                   = Returns ((MHD_YES, 0), w')
                   /\ is_Some (sessions w' !! to_guint32 x)).
Proof.
  intros Hc Hmsg Hq Hscope Hbody Hloads Hobj Htx Hverb Hcreate.
  rewrite (janus_ws_handler_post X w connection c msg url body "" None None)
    by assumption.
  unfold janus_ws_dispatch, janus_ws_create.
  destruct method_tests as (Hpp & Hpg & _). rewrite Hpg, Hpp.
  rewrite bool_decide_eq_false_2 by discriminate.
  rewrite Hloads, Hobj, Htx, Hverb, Hcreate. cbn.
  split.
  - intros r w' H. unfold bind at 1 2 in H.
    destruct (janus_session_create w) as [[res w1]| | |] eqn:Hcr;
      try discriminate.
    apply janus_session_create_returns in Hcr
      as (sk & x & H1 & H2 & H3 & H4 & H5 & H6 & H7 & H8).
    destruct res as [p|].
    + destruct H8 as (H8 & H9 & H10 & H11).
      revert H. mstep. rewrite H10, lookup_insert_eq. cbn.
      unfold send_reply, janus_ws_success.
      rewrite (MHD_queue_response_first w1 connection c) by congruence.
      intros H. injection H as <- <-. left.
      pose proof (to_guint32_range x) as Hr.
      exists (to_guint32 x), p, sk, x. cbn.
      split; [exact H1|]. split; [exact H2|]. split; [reflexivity|].
      split; [lia|]. split; [exact H4|]. split; [exact H9|].
      split; [rewrite H10; apply lookup_insert_eq|].
      split; [unfold response_of; cbn; rewrite lookup_insert_eq; reflexivity|].
      split; [|reflexivity].
      unfold json_integer. rewrite to_json_int_small by lia. reflexivity.
    + destruct H8 as (H8 & H9 & H10). right.
      destruct (janus_ws_error X connection msg (Some transaction)
                  JANUS_ERROR_UNKNOWN (Some "Memory error") [] w1)
        as [[r1 w2]| | |] eqn:He; try discriminate.
      apply janus_ws_error_frame in He as (E1 & _).
      cbn in H. injection H as <- <-. split; [congruence|eauto].
  - intros sk x rest H1 H2 H3 H4.
    unfold bind at 1 2.
    rewrite (janus_session_create_succeeds w sk x rest) by assumption.
    mstep. rewrite lookup_insert_eq. cbn.
    unfold send_reply, janus_ws_success.
    rewrite (MHD_queue_response_first _ connection c) by assumption.
    eexists. split; [reflexivity|]. cbn. rewrite lookup_insert_eq. eauto.
Qed.

End Create.

(** ** A POST below the base path, up to the verb *)

Section SessionPost.

Variable X : externals.
Variables (w : world) (connection : ptr) (c : MHD_Connection)
  (msg : janus_http_msg) (url body transaction verb sp : string)
  (hp : option string) (root : json_t) (s : ptr) (ss : janus_session).

Hypothesis Hc : connections w !! connection = Some c.
Hypothesis Hmsg : con_cls c = Some msg.
Hypothesis Hscope : url_scope (ws_path w) url = Some (Some sp, hp).
Hypothesis Hsid : 1 <= path_id sp.
Hypothesis Hbody : msg_payload msg = Some body.
Hypothesis Hloads : json_loads X (Some body) = inr root.
Hypothesis Hobj : json_is_object root = true.
Hypothesis Htx : string_member root "transaction" = Some transaction.
Hypothesis Hverb : string_member root "janus" = Some verb.
Hypothesis Hsession : sessions w !! path_id sp = Some s.
Hypothesis Hheap : session_heap w !! s = Some ss.

Let msg' := set_msg_session_id (path_id sp) msg.
Let w1 := with_session_id connection c msg (path_id sp) w.

(** At session scope the handler reaches the chain of verbs with no
    handle. *)
Lemma session_post_reaches_verb :
  hp = None ->
  janus_ws_handler X connection url "POST" "" 0 w
  = (let* r :=
       if strcasecmp verb "attach" =? 0 then
         janus_ws_attach X connection msg' root transaction verb s None
       else if strcasecmp verb "destroy" =? 0 then
         janus_ws_destroy X connection msg' transaction verb (path_id sp) None
       else if strcasecmp verb "detach" =? 0 then
         janus_ws_detach X connection msg' transaction verb s None 0
       else if strcasecmp verb "message" =? 0 then
         janus_ws_message X connection msg' root transaction verb None
       else
         janus_ws_error X connection msg' (Some transaction)
           JANUS_ERROR_UNKNOWN_REQUEST (Some "Unknown request '%s'")
           [ArgStr verb] in
     ret (r, 0)) w1.
Proof.
  intros ->.
  rewrite (janus_ws_handler_post X w connection c msg url body "" (Some sp) None)
    by assumption.
  unfold janus_ws_dispatch. fold (path_id sp).
  replace (path_id sp <? 1) with false by lia.
  destruct method_tests as (_ & Hpg & _). rewrite Hpg.
  rewrite (bool_decide_eq_false_2 (is_Some None))
    by (intros [? ?]; discriminate).
  rewrite (bool_decide_eq_false_2 (Some body = None)) by discriminate.
  unfold update_msg. mstep. rewrite Hc. cbn.
  unfold janus_ws_post. rewrite Hloads, Hobj, Htx, Hverb. mstep.
  unfold janus_session_find. mstep. rewrite Hsession. cbn.
  reflexivity.
Qed.

(** At handle scope it reaches them with the handle found in the
    session. *)
Lemma handle_post_reaches_verb (h : string) (handle : ptr) :
  hp = Some h ->
  1 <= path_id h ->
  ice_handles ss !! path_id h = Some handle ->
  janus_ws_handler X connection url "POST" "" 0 w
  = (let* r :=
       if strcasecmp verb "attach" =? 0 then
         janus_ws_attach X connection msg' root transaction verb s (Some handle)
       else if strcasecmp verb "destroy" =? 0 then
         janus_ws_destroy X connection msg' transaction verb (path_id sp)
           (Some handle)
       else if strcasecmp verb "detach" =? 0 then
         janus_ws_detach X connection msg' transaction verb s (Some handle)
           (path_id h)
       else if strcasecmp verb "message" =? 0 then
         janus_ws_message X connection msg' root transaction verb (Some handle)
       else
         janus_ws_error X connection msg' (Some transaction)
           JANUS_ERROR_UNKNOWN_REQUEST (Some "Unknown request '%s'")
           [ArgStr verb] in
     ret (r, 0)) w1.
Proof.
  intros -> Hh Hfind.
  rewrite (janus_ws_handler_post X w connection c msg url body ""
             (Some sp) (Some h)) by assumption.
  unfold janus_ws_dispatch. fold (path_id sp). fold (path_id h).
  replace (path_id sp <? 1) with false by lia.
  replace (path_id h <? 1) with false by lia.
  rewrite andb_false_r.
  destruct method_tests as (_ & Hpg & _). rewrite Hpg.
  rewrite (bool_decide_eq_false_2 (Some body = None)) by discriminate.
  unfold update_msg. mstep. rewrite Hc. cbn.
  unfold janus_ws_post. rewrite Hloads, Hobj, Htx, Hverb. mstep.
  unfold janus_session_find. mstep. rewrite Hsession. cbn.
  replace (0 <? path_id h) with true by lia.
  unfold janus_ice_handle_find. mstep. rewrite Hheap. cbn.
  rewrite Hfind. cbn.
  reflexivity.
Qed.

End SessionPost.

(** ** [destroy] *)

Section Destroy.

Variable X : externals.

(** What a [destroy] request does to any session of the table: the flag
    is set and the entry removed, while the handles of the session, the
    handle objects and the record of calls into plugins stay as they
    were. *)
Lemma destroy_request_effect
  (w : world) (connection : ptr) (c : MHD_Connection) (msg : janus_http_msg)
  (url body transaction verb sp : string) (root : json_t) (s : ptr)
  (ss : janus_session) :
  connections w !! connection = Some c ->
  con_cls c = Some msg ->
  queued c = None ->
  url_scope (ws_path w) url = Some (Some sp, None) ->
  1 <= path_id sp ->
  msg_payload msg = Some body ->
  json_loads X (Some body) = inr root ->
  json_is_object root = true ->
  string_member root "transaction" = Some transaction ->
  string_member root "janus" = Some verb ->
  strcasecmp verb "destroy" = 0 ->
  sessions w !! path_id sp = Some s ->
  session_heap w !! s = Some ss ->
  exists w',
    janus_ws_handler X connection url "POST" "" 0 w = Returns ((MHD_YES, 0), w')
    /\ sessions w' = delete (path_id sp) (sessions w)
    /\ session_heap w' = <[s := set_destroy 1 ss]> (session_heap w)
    /\ handle_heap w' = handle_heap w
    /\ trace w' = trace w
    /\ response_of w' connection
       = Some (MHD_HTTP_OK,
               json_response (set_msg_session_id (path_id sp) msg)
                 (json_dumps X (success_reply "success" transaction None))).
Proof.
  intros Hc Hmsg Hq Hscope Hsid Hbody Hloads Hobj Htx Hverb Hd Hs Hh.
  rewrite (session_post_reaches_verb X w connection c msg url body transaction
             verb sp None root s) by first [assumption | reflexivity].
  rewrite (destroy_is_not_attach verb Hd), Hd. cbn.
  unfold janus_ws_destroy, janus_session_destroy, janus_session_find.
  mstep. rewrite Hs. cbn. rewrite Hh. cbn.
  unfold send_reply, janus_ws_success.
  erewrite MHD_queue_response_first;
    [|cbn; apply lookup_insert_eq|exact Hq].
  eexists. split; [reflexivity|]. cbn.
  unfold response_of. cbn. rewrite lookup_insert_eq. cbn.
  repeat split.
Qed.

End Destroy.

(** C1.  A [destroy] request on session 42, which the table holds and
    which owns handle 7 attached to the videocall plugin: the request
    succeeds, the session leaves the table with its flag set, yet its
    handle is still attached and the plugin's [destroy_session] was never
    called (no call at all left the core). *)
Theorem destroy_request_skips_detach :
  exists w',
    janus_ws_handler Demo.X 1%positive "/janus/42" "POST" "" 0
      (Demo.gateway_with_handle (Some Demo.destroy_text) [])
    = Returns ((MHD_YES, 0), w')
    /\ sessions w' !! 42 = None
    /\ destroy <$> session_heap w' !! 1%positive = Some 1
    /\ ice_handles <$> session_heap w' !! 1%positive
       = Some {[ 7 := 1%positive ]}
    /\ app <$> handle_heap w' !! 1%positive = Some (Some Demo.videocall)
    /\ trace w' = [].
Proof.
  eexists. split; [vm_compute; reflexivity|]. vm_compute. repeat split.
Qed.

(** ** [janus_push_event]: the early returns *)

Section PushEventGuards.

Variable X : externals.

(** C3, as amended.  When the handle and the plugin are given, the handle
    leads to a gateway handle that has a session, and the message parses
    as JSON that is not an object, [janus_push_event] returns
    INVALID_JSON_OBJECT and leaves the whole world, hence every queue, as
    it was. *)
Theorem push_event_rejects_non_object
  (w : world) (hd : janus_pluginession) (pl : janus_plugin)
  (transaction sdp_type sdp : option string) (text : string)
  (ih s : ptr) (ice_handle : janus_ice_handle) (j : json_t) :
  gateway_handle hd = Some ih ->
  handle_heap w !! ih = Some ice_handle ->
  session ice_handle = Some s ->
  json_loads X (Some text) = inr j ->
  json_is_object j = false ->
  janus_push_event X (Some hd) (Some pl) transaction (Some text) sdp_type sdp w
  = Returns (api_code X JANUS_ERROR_INVALID_JSON_OBJECT, w).
Proof.
  intros Hg Hh Hs Hl Ho. unfold janus_push_event. rewrite Hg. mstep.
  rewrite Hh. cbn. rewrite Hs, Hl, Ho. reflexivity.
Qed.

(** C10.  With a NULL handle, plugin or message, [janus_push_event]
    returns -1, which is the code of no error as long as error codes are
    not negative; with a handle whose gateway handle is NULL, or whose
    gateway handle has no session, it returns SESSION_NOT_FOUND.  In both
    cases the world, hence every queue, is left as it was. *)
Theorem push_event_null_arguments
  (w : world) (handle : option janus_pluginession)
  (plugin : option janus_plugin)
  (transaction message sdp_type sdp : option string) :
  (forall e, 0 <= api_code X e) ->
  (handle = None \/ plugin = None \/ message = None ->
   janus_push_event X handle plugin transaction message sdp_type sdp w
   = Returns (-1, w)
   /\ forall e, api_code X e <> -1)
  /\ (forall hd pl text,
        handle = Some hd -> plugin = Some pl -> message = Some text ->
        gateway_handle hd = None
        \/ (exists ih ice_handle,
               gateway_handle hd = Some ih
               /\ handle_heap w !! ih = Some ice_handle
               /\ session ice_handle = None) ->
        janus_push_event X handle plugin transaction message sdp_type sdp w
        = Returns (api_code X JANUS_ERROR_SESSION_NOT_FOUND, w)).
Proof.
  intros Hcodes. split.
  - intros Hnull. split.
    + unfold janus_push_event.
      destruct handle, plugin, message; try reflexivity.
      destruct Hnull as [H|[H|H]]; discriminate.
    + intros e. specialize (Hcodes e). lia.
  - intros hd pl text -> -> -> [Hg|(ih & ice & Hg & Hh & Hs)];
      unfold janus_push_event; rewrite Hg; [reflexivity|].
    mstep. rewrite Hh. cbn. rewrite Hs. reflexivity.
Qed.

End PushEventGuards.

(** C3, as stated, fails: the text [[1,2]] parses as JSON that is not an
    object, but with a NULL handle the call returns -1, not the
    INVALID_JSON_OBJECT code. *)
Lemma push_event_non_object_null_handle :
  json_loads Demo.X (Some "[1,2]") = inr (JArray [JInteger 1; JInteger 2])
  /\ json_is_object (JArray [JInteger 1; JInteger 2]) = false
  /\ janus_push_event Demo.X None (Some Demo.videocall) None (Some "[1,2]")
       None None (Demo.gateway None [])
     = Returns (-1, Demo.gateway None [])
  /\ -1 <> api_code Demo.X JANUS_ERROR_INVALID_JSON_OBJECT.
Proof. repeat split. discriminate. Qed.

(** ** [message] *)

Section Message.

Variable X : externals.
Variables (w : world) (connection : ptr) (c : MHD_Connection)
  (msg : janus_http_msg) (url body transaction verb sp h : string)
  (root : json_t) (s handle : ptr) (ss : janus_session)
  (ih : janus_ice_handle) (plugin_t : janus_plugin)
  (token : janus_pluginession).

Hypothesis Hc : connections w !! connection = Some c.
Hypothesis Hmsg : con_cls c = Some msg.
Hypothesis Hq : queued c = None.
Hypothesis Hscope : url_scope (ws_path w) url = Some (Some sp, Some h).
Hypothesis Hsid : 1 <= path_id sp.
Hypothesis Hhid : 1 <= path_id h.
Hypothesis Hbody : msg_payload msg = Some body.
Hypothesis Hloads : json_loads X (Some body) = inr root.
Hypothesis Hobj : json_is_object root = true.
Hypothesis Htx : string_member root "transaction" = Some transaction.
Hypothesis Hverb : string_member root "janus" = Some verb.
Hypothesis Hmessage : strcasecmp verb "message" = 0.
Hypothesis Hsession : sessions w !! path_id sp = Some s.
Hypothesis Hheap : session_heap w !! s = Some ss.
Hypothesis Hfind : ice_handles ss !! path_id h = Some handle.
Hypothesis Hhandle : handle_heap w !! handle = Some ih.
Hypothesis Happ : app ih = Some plugin_t.
Hypothesis Htoken : app_handle ih = Some token.
Hypothesis Hmem : can_allocate w.

Let msg' := set_msg_session_id (path_id sp) msg.
Let w1 := with_session_id connection c msg (path_id sp) w.

Lemma message_reaches_body :
  janus_ws_handler X connection url "POST" "" 0 w
  = (let* r :=
       match json_object_get root "body" with
       | None =>
           janus_ws_error X connection msg' (Some transaction)
             JANUS_ERROR_INVALID_JSON
             (Some "JSON error: missing mandatory element (body)") []
       | Some body =>
           if negb (json_is_object body) then
             janus_ws_error X connection msg' (Some transaction)
               JANUS_ERROR_INVALID_JSON_OBJECT (Some "Invalid body object") []
           else
             let* jsep := janus_ws_message_jsep X connection msg' root
                            transaction handle in
             match jsep with
             | inl r => ret r
             | inr (jsep_type, jsep_sdp_stripped) =>
                 let body_text := json_dumps X body in
                 let* w := get in
                 let* ih := deref (handle_heap w !! handle) in
                 let* _ := log (Call_handle_message plugin_t (app_handle ih)
                                  transaction body_text
                                  jsep_type jsep_sdp_stripped) in
                 send_reply X connection msg'
                   (success_reply "ack" transaction None)
             end
       end in
     ret (r, 0)) w1.
Proof.
  rewrite (handle_post_reaches_verb X w connection c msg url body transaction
             verb sp (Some h) root s ss Hc Hmsg Hscope Hsid Hbody Hloads Hobj
             Htx Hverb Hsession Hheap h handle eq_refl Hhid Hfind).
  destruct (message_is_no_other_verb verb Hmessage) as (-> & -> & ->).
  rewrite Hmessage. cbn.
  unfold janus_ws_message. mstep. rewrite Hhandle. cbn.
  rewrite Happ, Htoken. reflexivity.
Qed.

(** C7, what the code does.  A [message] POST at handle scope whose
    envelope has no [body] member is answered with an error envelope whose
    code is that of INVALID_JSON, and no call leaves the core: the
    plugin's [handle_message] is not invoked. *)
Theorem message_without_body_reports_invalid_json :
  json_object_get root "body" = None ->
  fits X "JSON error: missing mandatory element (body)" [] ->
  exists w',
    janus_ws_handler X connection url "POST" "" 0 w
    = Returns ((MHD_YES, 0), w')
    /\ response_of w' connection
       = Some (error_response X msg' (Some transaction)
                 JANUS_ERROR_INVALID_JSON
                 "JSON error: missing mandatory element (body)" [])
    /\ trace w' = trace w.
Proof.
  intros Hnobody Hfit. rewrite message_reaches_body, Hnobody.
  destruct (janus_ws_error_sends X w1 connection
              (set_con_cls (Some msg') c) msg' (Some transaction)
              JANUS_ERROR_INVALID_JSON
              "JSON error: missing mandatory element (body)" [])
    as (w' & Hrun & Hframe & Hconn); auto.
  { apply lookup_insert_eq. }
  unfold bind. rewrite Hrun. exists w'. split; [reflexivity|].
  split.
  - unfold response_of. rewrite Hconn, lookup_insert_eq. reflexivity.
  - destruct Hframe as (_ & _ & _ & -> & _). reflexivity.
Qed.

(** C8, as amended.  A [message] POST for a handle attached to a plugin,
    with a [body] object and a [jsep] object of
    type offer or answer whose [sdp] string the SDP pre-parse rejects is
    answered with an error envelope whose code is that of
    JSEP_INVALID_SDP, and no call leaves the core: neither
    [handle_message], nor the local ICE setup, nor the submission of
    remote candidates. *)
Theorem message_with_unparsable_sdp
  (payload jsep : json_t) (jsep_type jsep_sdp : string) :
  json_object_get root "body" = Some payload ->
  json_is_object payload = true ->
  json_object_get root "jsep" = Some jsep ->
  json_is_object jsep = true ->
  string_member jsep "type" = Some jsep_type ->
  strcasecmp jsep_type "offer" = 0 \/ strcasecmp jsep_type "answer" = 0 ->
  string_member jsep "sdp" = Some jsep_sdp ->
  janus_sdp_preparse X jsep_sdp = None ->
  fits X "JSEP error: invalid SDP" [] ->
  exists w',
    janus_ws_handler X connection url "POST" "" 0 w
    = Returns ((MHD_YES, 0), w')
    /\ response_of w' connection
       = Some (error_response X msg' (Some transaction)
                 JANUS_ERROR_JSEP_INVALID_SDP "JSEP error: invalid SDP" [])
    /\ trace w' = trace w
    /\ handle_heap w' = handle_heap w.
Proof.
  intros Hb Hbo Hj Hjo Hty Hkind Hsdp Hpre Hfit.
  rewrite message_reaches_body, Hb, Hbo. cbn.
  destruct (janus_ws_error_sends X w1 connection
              (set_con_cls (Some msg') c) msg' (Some transaction)
              JANUS_ERROR_JSEP_INVALID_SDP "JSEP error: invalid SDP" [])
    as (w' & Hrun & Hframe & Hconn); auto.
  { apply lookup_insert_eq. }
  assert (Hjsep : janus_ws_message_jsep X connection msg' root transaction
                    handle w1 = Returns (inl MHD_YES, w')).
  { unfold janus_ws_message_jsep. rewrite Hj, Hjo, Hty. cbn.
    assert (Hk : exists offer,
               (if strcasecmp jsep_type "offer" =? 0 then Some 1
                else if strcasecmp jsep_type "answer" =? 0 then Some 0
                else None) = Some offer).
    { destruct Hkind as [-> | Ha]; [eauto|].
      rewrite Ha. destruct (strcasecmp jsep_type "offer" =? 0); eauto. }
    destruct Hk as (offer & ->). rewrite Hsdp, Hpre.
    unfold bind. rewrite Hrun. reflexivity. }
  unfold bind at 1 2. rewrite Hjsep. exists w'. split; [reflexivity|].
  split.
  - unfold response_of. rewrite Hconn, lookup_insert_eq. reflexivity.
  - destruct Hframe as (_ & _ & -> & -> & _). split; reflexivity.
Qed.

End Message.

(** C8, as stated, fails: a [message] POST whose [jsep] has the type
    [pranswer] and an [sdp] the pre-parse rejects is refused for its type
    (lines 625-634) before the SDP is looked at: the code of the reply is
    that of JSEP_UNKNOWN_TYPE, not that of JSEP_INVALID_SDP. *)
Lemma unparsable_sdp_of_unknown_type :
  json_loads Scenes.X (Some Scenes.pranswer_text) = inr Scenes.pranswer_json
  /\ json_object_get Scenes.pranswer_json "jsep"
     = Some (JObject [("type", JString "pranswer"); ("sdp", JString "garbage")])
  /\ janus_sdp_preparse Scenes.X "garbage" = None
  /\ (exists w',
        janus_ws_handler Scenes.X 1%positive "/janus/42/7" "POST" "" 0
          (Demo.gateway_with_handle (Some Scenes.pranswer_text) [])
        = Returns ((MHD_YES, 0), w')
        /\ response_of w' 1%positive
           = Some (error_response Scenes.X
                     (set_msg_session_id 42
                        (Demo.request (Some Scenes.pranswer_text)))
                     (Some "t7") JANUS_ERROR_JSEP_UNKNOWN_TYPE
                     "JSEP error: unknown message type '%s'"
                     [ArgStr "pranswer"])
        /\ (fun r => data (snd r)) <$> response_of w' 1%positive
           = Some (Demo.json_text
                     "{'janus':'error','transaction':'t7','error':{'code':464,'reason':'"
                   +:+ "JSEP error: unknown message type 'pranswer'"
                   +:+ Demo.json_text "'}}"))
  /\ api_code Scenes.X JANUS_ERROR_JSEP_UNKNOWN_TYPE
     <> api_code Scenes.X JANUS_ERROR_JSEP_INVALID_SDP.
Proof.
  split; [vm_compute; reflexivity|].
  split; [vm_compute; reflexivity|].
  split; [vm_compute; reflexivity|].
  split.
  - eexists. split; [vm_compute; reflexivity|].
    split; vm_compute; reflexivity.
  - vm_compute. discriminate.
Qed.

(** ** The handle table of a session *)

Section HandleTable.

Variable X : externals.

Lemma janus_ice_handle_create_succeeds (w : world) (s : ptr)
  (ss : janus_session) (skipped : list Z) (x : Z) (rest : list Z) :
  session_heap w !! s = Some ss ->
  random_ints w = skipped ++ x :: rest ->
  Forall (rejected (ice_handles ss)) skipped ->
  ~ rejected (ice_handles ss) x ->
  calloc_results w = [] ->
  janus_ice_handle_create s w
  = Returns (Some (fresh (dom (handle_heap w))),
             set_session_heap
               (<[s := set_ice_handles
                         (<[to_guint32 x := fresh (dom (handle_heap w))]>
                            (ice_handles ss)) ss]>
                  (session_heap w))
               (set_handle_heap
                  (<[fresh (dom (handle_heap w)) := new_handle s (to_guint32 x)]>
                     (handle_heap w))
                  (set_random_ints rest w))).
Proof.
  intros Hs Hd Hsk Hx Hmem. unfold janus_ice_handle_create. mstep.
  rewrite Hs. cbn.
  rewrite (handle_id_loop_progress skipped _ w (ice_handles ss) x rest); auto.
  - unfold calloc. cbn. rewrite Hmem. reflexivity.
  - rewrite Hd, length_app. cbn. lia.
Qed.

Lemma janus_ice_handle_attach_plugin_fails (w : world) (s p : ptr)
  (ss : janus_session) (id : Z) (h : janus_ice_handle)
  (plugin : janus_plugin) (error : Z) (errors : list Z) :
  session_heap w !! s = Some ss ->
  ice_handles ss !! id = Some p ->
  handle_heap w !! p = Some h ->
  plugin_errors w = error :: errors ->
  error <> 0 ->
  janus_ice_handle_attach_plugin X s id plugin w
  = Returns (error,
             set_plugin_errors errors
               (set_trace
                  (trace w ++ [Call_create_session plugin
                                 {| gateway_handle := Some p;
                                    plugin_handle := None |}]) w)).
Proof.
  intros Hs Hid Hh He Hne.
  unfold janus_ice_handle_attach_plugin, janus_ice_handle_find. mstep.
  rewrite Hs. cbn. rewrite Hid. cbn. rewrite Hh. cbn.
  unfold plugin_error. cbn. rewrite He. cbn.
  replace (error =? 0) with false by lia. reflexivity.
Qed.

Lemma janus_ice_handle_destroy_unattached (w : world) (s p : ptr)
  (ss : janus_session) (id : Z) (h : janus_ice_handle) :
  session_heap w !! s = Some ss ->
  ice_handles ss !! id = Some p ->
  handle_heap w !! p = Some h ->
  app h = None ->
  janus_ice_handle_destroy X s id w
  = Returns (0,
             set_session_heap
               (<[s := set_ice_handles (delete id (ice_handles ss)) ss]>
                  (session_heap w)) w).
Proof.
  intros Hs Hid Hh Happ.
  unfold janus_ice_handle_destroy, janus_ice_handle_find. mstep.
  rewrite Hs. cbn. rewrite Hid. cbn. rewrite Hh. cbn. rewrite Happ. cbn.
  rewrite Hs. reflexivity.
Qed.

End HandleTable.

Lemma set_ice_handles_twice (t t' : gmap Z ptr) (ss : janus_session) :
  set_ice_handles t (set_ice_handles t' ss) = set_ice_handles t ss.
Proof. reflexivity. Qed.

Lemma set_ice_handles_same (ss : janus_session) :
  set_ice_handles (ice_handles ss) ss = ss.
Proof. destruct ss. reflexivity. Qed.

(** ** [attach] *)

Section Attach.

Variable X : externals.
Variables (w : world) (connection : ptr) (c : MHD_Connection)
  (msg : janus_http_msg) (url body transaction verb sp package : string)
  (root : json_t) (s : ptr) (ss : janus_session)
  (registry : gmap string janus_plugin) (plugin_t : janus_plugin)
  (skipped : list Z) (x : Z) (draws : list Z) (error : Z) (errors : list Z).

Hypothesis Hc : connections w !! connection = Some c.
Hypothesis Hmsg : con_cls c = Some msg.
Hypothesis Hq : queued c = None.
Hypothesis Hscope : url_scope (ws_path w) url = Some (Some sp, None).
Hypothesis Hsid : 1 <= path_id sp.
Hypothesis Hbody : msg_payload msg = Some body.
Hypothesis Hloads : json_loads X (Some body) = inr root.
Hypothesis Hobj : json_is_object root = true.
Hypothesis Htx : string_member root "transaction" = Some transaction.
Hypothesis Hverb : string_member root "janus" = Some verb.
Hypothesis Hattach : strcasecmp verb "attach" = 0.
Hypothesis Hsession : sessions w !! path_id sp = Some s.
Hypothesis Hheap : session_heap w !! s = Some ss.
Hypothesis Hpackage : string_member root "plugin" = Some package.
Hypothesis Hregistry : plugins w = Some registry.
Hypothesis Hplugin : registry !! package = Some plugin_t.
Hypothesis Hdraws : random_ints w = skipped ++ x :: draws.
Hypothesis Hskipped : Forall (rejected (ice_handles ss)) skipped.
Hypothesis Hfree : ~ rejected (ice_handles ss) x.
Hypothesis Hmem : calloc_results w = [].
Hypothesis Herrors : plugin_errors w = error :: errors.
Hypothesis Hfails : error <> 0.
Hypothesis Hfit : fits X "Couldn't attach to plugin: error '%d'" [ArgInt error].

Let msg' := set_msg_session_id (path_id sp) msg.
Let p := fresh (dom (handle_heap w)).

(** C6.  An [attach] request naming a registered plugin whose
    [create_session] reports an error: the handle created for the request
    is taken out of the session again, so the session object, its handle
    table included, is as it was before the request, and so is every
    other handle; [create_session] was the only call made into the
    plugin; and the reply is the envelope [janus = error] with the
    transaction of the request and an [error] object holding the code of
    PLUGIN_ATTACH and the reason, which quotes the plugin's error. *)
Theorem attach_failure_rolls_back :
  exists w',
    janus_ws_handler X connection url "POST" "" 0 w
    = Returns ((MHD_YES, 0), w')
    /\ session_heap w' = session_heap w
    /\ sessions w' = sessions w
    /\ trace w'
       = trace w ++ [Call_create_session plugin_t
                       {| gateway_handle := Some p; plugin_handle := None |}]
    /\ (forall q, q <> p -> handle_heap w' !! q = handle_heap w !! q)
    /\ response_of w' connection
       = Some (MHD_HTTP_OK,
               json_response msg'
                 (json_dumps X
                    (JObject
                       [("janus", JString "error");
                        ("transaction", JString transaction);
                        ("error",
                         JObject
                           [("code",
                             JInteger
                               (to_json_int
                                  (api_code X JANUS_ERROR_PLUGIN_ATTACH)));
                            ("reason",
                             JString
                               (vsprintf X
                                  "Couldn't attach to plugin: error '%d'"
                                  [ArgInt error]))])]))).
Proof.
  rewrite (session_post_reaches_verb X w connection c msg url body transaction
             verb sp None root s) by first [assumption | reflexivity].
  rewrite Hattach. cbn.
  unfold janus_ws_attach. rewrite Hpackage.
  unfold janus_plugin_find. mstep. rewrite Hregistry, Hplugin. cbn.
  erewrite (janus_ice_handle_create_succeeds _ s ss skipped x draws);
    try eassumption.
  cbn. rewrite lookup_insert_eq. cbn.
  assert (Hnotin : ice_handles ss !! to_guint32 x = None).
  { destruct (ice_handles ss !! to_guint32 x) eqn:E; [|reflexivity].
    exfalso. apply Hfree. right. rewrite E. eauto. }
  erewrite (janus_ice_handle_attach_plugin_fails X _ s p _ (to_guint32 x));
    [|cbn; apply lookup_insert_eq|cbn; apply lookup_insert_eq
     |cbn; apply lookup_insert_eq|cbn; exact Herrors|exact Hfails].
  replace (error =? 0) with false by lia. cbn.
  erewrite (janus_ice_handle_destroy_unattached X _ s p _ (to_guint32 x));
    [|cbn; apply lookup_insert_eq|cbn; apply lookup_insert_eq
     |cbn; apply lookup_insert_eq|reflexivity].
  cbn. rewrite delete_insert_id by exact Hnotin.
  rewrite insert_insert_eq, set_ice_handles_twice, set_ice_handles_same.
  rewrite (insert_id (session_heap w) s ss Hheap).
  edestruct (janus_ws_error_sends X) as (w' & Hrun & Hframe & Hconn);
    [| |
     |exact Hfit|].
  4: { rewrite Hrun. exists w'. split; [reflexivity|].
       destruct Hframe as (F1 & F2 & F3 & F4 & F5 & F6).
       cbn in *. repeat (split; [assumption|]). split.
       - intros q Hne. rewrite F3.
         rewrite lookup_insert_ne by (intros E; apply Hne; symmetry; exact E).
         reflexivity.
       - unfold response_of. rewrite Hconn, lookup_insert_eq. reflexivity. }
  - cbn. apply lookup_insert_eq.
  - exact Hq.
  - unfold can_allocate. cbn. rewrite Hmem. exact I.
Qed.

End Attach.

(** ** The long poll *)

Lemma world_eta (w : world) :
  w = {| ws_path := ws_path w; plugins := plugins w; sessions := sessions w;
         stop := stop w; session_heap := session_heap w;
         handle_heap := handle_heap w; connections := connections w;
         clock := clock w; trace := trace w; random_ints := random_ints w;
         calloc_results := calloc_results w;
         plugin_errors := plugin_errors w; sleeps := sleeps w |}.
Proof. destruct w. reflexivity. Qed.

Lemma calloc_succeeds (w : world) :
  can_allocate w ->
  calloc w = Returns (true, set_calloc_results (tail (calloc_results w)) w).
Proof.
  unfold can_allocate, calloc. intros H.
  destruct (calloc_results w) as [|[|] rest] eqn:E; try contradiction.
  - cbn. rewrite (world_eta w) at 1. unfold set_calloc_results.
    rewrite E. reflexivity.
  - reflexivity.
Qed.

Lemma quiet_tail (n : nat) (schedule : list (list async_event)) :
  quiet (S n) schedule -> quiet n (drop 1 schedule).
Proof.
  unfold quiet. destruct schedule as [|es rest]; cbn.
  - intros _. rewrite take_nil. constructor.
  - intros H. inversion H. rewrite drop_0. assumption.
Qed.

Lemma g_usleep_quiet (w : world) (usec : Z) (n : nat) :
  quiet (S n) (sleeps w) ->
  g_usleep usec w
  = Returns (tt, set_sleeps (drop 1 (sleeps w))
                   (set_clock (clock w + usec) w)).
Proof.
  unfold quiet, g_usleep. intros H. mstep.
  destruct (sleeps w) as [|es rest] eqn:E; cbn in *.
  - rewrite (world_eta w) at 1. unfold set_clock, set_sleeps. cbn.
    rewrite E. reflexivity.
  - inversion H; subst. rewrite drop_0. reflexivity.
Qed.

Lemma g_queue_pop_head_empty (w : world) (s : ptr) (ss : janus_session) :
  session_heap w !! s = Some ss ->
  messages ss = [] ->
  g_queue_pop_head s w = Returns (None, w).
Proof.
  intros Hs Hq. unfold g_queue_pop_head. mstep. rewrite Hs. cbn.
  rewrite Hq. reflexivity.
Qed.

Lemma g_queue_pop_head_cons (w : world) (s : ptr) (ss : janus_session)
  (e : janus_http_event) (rest : list janus_http_event) :
  session_heap w !! s = Some ss ->
  messages ss = e :: rest ->
  g_queue_pop_head s w
  = Returns (Some e,
             set_session_heap (<[s := set_messages rest ss]> (session_heap w)) w).
Proof.
  intros Hs Hq. unfold g_queue_pop_head. mstep. rewrite Hs. cbn.
  rewrite Hq. reflexivity.
Qed.

Lemma long_poll_unfold (fuel : nat) (s : ptr) (start end_ : Z) :
  long_poll fuel s start end_
  = if negb (end_ - start <? 30 * G_USEC_PER_SEC) then ret None
    else
      match fuel with
      | O => diverge
      | S n =>
          let* event := g_queue_pop_head s in
          let* w := get in
          if negb (stop w =? 0) || bool_decide (is_Some event) then ret event
          else
            let* _ := g_usleep 100000 in
            let* end_ := janus_get_monotonic_time in
            long_poll n s start end_
      end.
Proof. destruct fuel; reflexivity. Qed.

Arguments g_usleep : simpl never.

Section LongPoll.

Variables (s : ptr) (ss : janus_session) (start : Z).
Hypothesis Hempty : messages ss = [].

(** With [n] polls left before the 30 seconds are over, nothing queued
    and nobody else acting, the loop sleeps [n] more times and gives up. *)
Lemma long_poll_quiet (n : nat) :
  forall (fuel : nat) (w : world),
    (n <= fuel)%nat ->
    (n <= 300)%nat ->
    session_heap w !! s = Some ss ->
    stop w = 0 ->
    quiet n (sleeps w) ->
    clock w - start = 100000 * (300 - Z.of_nat n) ->
    long_poll fuel s start (clock w) w
    = Returns (None,
               set_sleeps (drop n (sleeps w))
                 (set_clock (clock w + 100000 * Z.of_nat n) w)).
Proof.
  induction n as [|m IH]; intros fuel w Hfuel Hn Hs Hstop Hquiet Hclock;
    rewrite long_poll_unfold; unfold G_USEC_PER_SEC.
  - replace (clock w - start <? 30 * 1000000) with false by lia. cbn.
    rewrite (world_eta w) at 1. unfold ret, set_sleeps, set_clock. cbn.
    repeat f_equal. lia.
  - replace (clock w - start <? 30 * 1000000) with true by lia. cbn.
    destruct fuel as [|f]; [lia|].
    unfold bind at 1. rewrite (g_queue_pop_head_empty w s ss Hs Hempty).
    mstep. rewrite Hstop. cbn.
    rewrite (g_usleep_quiet w 100000 m Hquiet).
    rewrite (IH f (set_sleeps (drop 1 (sleeps w))
                     (set_clock (clock w + 100000) w)));
      cbn; try lia; auto.
    + unfold set_sleeps, set_clock. cbn. rewrite drop_drop.
      do 3 f_equal. lia.
    + apply quiet_tail. exact Hquiet.
Qed.

End LongPoll.

(** The whole wait: 300 sleeps of 100 ms. *)
Lemma long_poll_times_out (w : world) (s : ptr) (ss : janus_session) :
  session_heap w !! s = Some ss ->
  messages ss = [] ->
  stop w = 0 ->
  0 <= clock w ->
  quiet 300 (sleeps w) ->
  long_poll 300 s (clock w) 0 w
  = Returns (None,
             set_sleeps (drop 300 (sleeps w))
               (set_clock (clock w + 30 * G_USEC_PER_SEC) w)).
Proof.
  intros Hs Hempty Hstop Hclock Hquiet.
  rewrite long_poll_unfold. unfold G_USEC_PER_SEC.
  replace (0 - clock w <? 30 * 1000000) with true by lia. cbn.
  unfold bind at 1. rewrite (g_queue_pop_head_empty w s ss Hs Hempty).
  mstep. rewrite Hstop. cbn.
  rewrite (g_usleep_quiet w 100000 299 Hquiet).
  unfold janus_get_monotonic_time.
  rewrite (long_poll_quiet s ss (clock w) Hempty 299); cbn; try lia; auto.
  2: { apply quiet_tail. exact Hquiet. }
  unfold set_sleeps, set_clock. cbn.
  rewrite drop_drop. do 3 f_equal. lia.
Qed.

Lemma long_poll_stopping (w : world) (s : ptr) (ss : janus_session) :
  session_heap w !! s = Some ss ->
  messages ss = [] ->
  stop w <> 0 ->
  long_poll 300 s (clock w) 0 w = Returns (None, w).
Proof.
  intros Hs Hempty Hstop. rewrite long_poll_unfold.
  destruct (negb (0 - clock w <? 30 * G_USEC_PER_SEC)); [reflexivity|].
  unfold bind at 1. rewrite (g_queue_pop_head_empty w s ss Hs Hempty).
  mstep. replace (stop w =? 0) with false by lia. reflexivity.
Qed.

Lemma janus_ws_notifier_timeout (w : world) (connection : ptr)
  (c : MHD_Connection) (msg : janus_http_msg) (s : ptr) (ss : janus_session) :
  connections w !! connection = Some c ->
  queued c = None ->
  sessions w !! msg_session_id msg = Some s ->
  session_heap w !! s = Some ss ->
  messages ss = [] ->
  stop w = 0 ->
  0 <= clock w ->
  quiet 300 (sleeps w) ->
  can_allocate w ->
  janus_ws_notifier connection msg w
  = Returns (MHD_YES,
             set_connections
               (<[connection :=
                    set_queued (Some (MHD_HTTP_OK, json_response msg keepalive)) c]>
                  (connections w))
               (set_calloc_results (tail (calloc_results w))
                  (set_sleeps (drop 300 (sleeps w))
                     (set_clock (clock w + 30 * G_USEC_PER_SEC) w)))).
Proof.
  intros Hc Hq Hfind Hs Hempty Hstop Hclock Hquiet Hmem.
  unfold janus_ws_notifier, janus_session_find. mstep. rewrite Hfind. cbn.
  rewrite (long_poll_times_out w s ss) by assumption.
  rewrite calloc_succeeds by exact Hmem. cbn.
  unfold janus_ws_success.
  erewrite MHD_queue_response_first by (cbn; eassumption).
  reflexivity.
Qed.

Lemma janus_ws_notifier_stopping (w : world) (connection : ptr)
  (c : MHD_Connection) (msg : janus_http_msg) (s : ptr) (ss : janus_session) :
  connections w !! connection = Some c ->
  queued c = None ->
  sessions w !! msg_session_id msg = Some s ->
  session_heap w !! s = Some ss ->
  messages ss = [] ->
  stop w <> 0 ->
  can_allocate w ->
  janus_ws_notifier connection msg w
  = Returns (MHD_YES,
             set_connections
               (<[connection :=
                    set_queued (Some (MHD_HTTP_OK, json_response msg keepalive)) c]>
                  (connections w))
               (set_calloc_results (tail (calloc_results w)) w)).
Proof.
  intros Hc Hq Hfind Hs Hempty Hstop Hmem.
  unfold janus_ws_notifier, janus_session_find. mstep. rewrite Hfind. cbn.
  rewrite (long_poll_stopping w s ss) by assumption.
  rewrite calloc_succeeds by exact Hmem. cbn.
  unfold janus_ws_success.
  erewrite MHD_queue_response_first by (cbn; eassumption).
  reflexivity.
Qed.

Lemma g_usleep_signal (w : world) (usec : Z) (rest : list (list async_event)) :
  sleeps w = [SIGINT] :: rest ->
  stop w = 0 ->
  g_usleep usec w
  = Returns (tt, set_stop 1 (set_sleeps rest (set_clock (clock w + usec) w))).
Proof.
  intros Hsl Hstop. unfold g_usleep. mstep. rewrite Hsl. cbn.
  unfold bind, janus_handle_signal. cbn. rewrite Hstop. reflexivity.
Qed.

Section Interrupted.

Variables (s : ptr) (ss : janus_session) (start : Z).
Hypothesis Hempty : messages ss = [].

Lemma long_poll_after_signal (fuel n : nat) (w : world) :
  (n <= fuel)%nat ->
  session_heap w !! s = Some ss ->
  stop w = 1 ->
  clock w - start = 100000 * (300 - Z.of_nat n) ->
  long_poll fuel s start (clock w) w = Returns (None, w).
Proof.
  intros Hfuel Hs Hstop Hclock. rewrite long_poll_unfold.
  unfold G_USEC_PER_SEC.
  destruct (clock w - start <? 30 * 1000000) eqn:E; [|reflexivity]. cbn.
  destruct fuel as [|f]; [lia|].
  unfold bind at 1. rewrite (g_queue_pop_head_empty w s ss Hs Hempty).
  mstep. rewrite Hstop. reflexivity.
Qed.

(** A SIGINT that arrives during the sleep after [k] quiet ones ends the
    wait there. *)
Lemma long_poll_interrupted (k : nat) :
  forall (fuel n : nat) (w : world) (rest : list (list async_event)),
    (n <= fuel)%nat ->
    (k < n <= 300)%nat ->
    session_heap w !! s = Some ss ->
    stop w = 0 ->
    sleeps w = replicate k [] ++ [SIGINT] :: rest ->
    clock w - start = 100000 * (300 - Z.of_nat n) ->
    long_poll fuel s start (clock w) w
    = Returns (None,
               set_stop 1
                 (set_sleeps rest
                    (set_clock (clock w + 100000 * (Z.of_nat k + 1)) w))).
Proof.
  induction k as [|k IH]; intros fuel n w rest Hfuel Hn Hs Hstop Hsl Hclock;
    rewrite long_poll_unfold; unfold G_USEC_PER_SEC;
    (replace (clock w - start <? 30 * 1000000) with true by lia); cbn;
    (destruct fuel as [|f]; [lia|]);
    unfold bind at 1; rewrite (g_queue_pop_head_empty w s ss Hs Hempty);
    mstep; rewrite Hstop; cbn.
  - rewrite (g_usleep_signal w 100000 rest Hsl Hstop).
    unfold janus_get_monotonic_time.
    rewrite (long_poll_after_signal f (n - 1)); cbn; try lia; auto.
  - rewrite (g_usleep_quiet w 100000 0).
    2: { unfold quiet. rewrite Hsl. cbn. rewrite take_0. repeat constructor. }
    unfold janus_get_monotonic_time.
    rewrite (IH f (n - 1)%nat _ rest); cbn; try lia; auto.
    + unfold set_stop, set_sleeps, set_clock. cbn. do 3 f_equal. lia.
    + rewrite Hsl. cbn. rewrite drop_0. reflexivity.
Qed.

End Interrupted.

Lemma long_poll_signalled (w : world) (s : ptr) (ss : janus_session)
  (k : nat) (rest : list (list async_event)) :
  session_heap w !! s = Some ss ->
  messages ss = [] ->
  stop w = 0 ->
  0 <= clock w ->
  (k < 300)%nat ->
  sleeps w = replicate k [] ++ [SIGINT] :: rest ->
  long_poll 300 s (clock w) 0 w
  = Returns (None,
             set_stop 1
               (set_sleeps rest
                  (set_clock (clock w + 100000 * (Z.of_nat k + 1)) w))).
Proof.
  intros Hs Hempty Hstop Hclock Hk Hsl.
  rewrite long_poll_unfold. unfold G_USEC_PER_SEC.
  replace (0 - clock w <? 30 * 1000000) with true by lia. cbn.
  unfold bind at 1. rewrite (g_queue_pop_head_empty w s ss Hs Hempty).
  mstep. rewrite Hstop. cbn.
  destruct k as [|k].
  - rewrite (g_usleep_signal w 100000 rest Hsl Hstop).
    unfold janus_get_monotonic_time.
    rewrite (long_poll_after_signal s ss (clock w) Hempty 299 299);
      cbn; try lia; auto.
  - rewrite (g_usleep_quiet w 100000 0).
    2: { unfold quiet. rewrite Hsl. cbn. rewrite take_0. repeat constructor. }
    unfold janus_get_monotonic_time.
    rewrite (long_poll_interrupted s ss (clock w) Hempty k 299 299 _ rest);
      cbn; try lia; auto.
    + unfold set_stop, set_sleeps, set_clock. cbn. do 3 f_equal. lia.
    + rewrite Hsl. cbn. rewrite drop_0. reflexivity.
Qed.

Lemma janus_ws_notifier_interrupted (w : world) (connection : ptr)
  (c : MHD_Connection) (msg : janus_http_msg) (s : ptr) (ss : janus_session)
  (k : nat) (rest : list (list async_event)) :
  connections w !! connection = Some c ->
  queued c = None ->
  sessions w !! msg_session_id msg = Some s ->
  session_heap w !! s = Some ss ->
  messages ss = [] ->
  stop w = 0 ->
  0 <= clock w ->
  (k < 300)%nat ->
  sleeps w = replicate k [] ++ [SIGINT] :: rest ->
  can_allocate w ->
  janus_ws_notifier connection msg w
  = Returns (MHD_YES,
             set_connections
               (<[connection :=
                    set_queued (Some (MHD_HTTP_OK, json_response msg keepalive)) c]>
                  (connections w))
               (set_calloc_results (tail (calloc_results w))
                  (set_stop 1
                     (set_sleeps rest
                        (set_clock (clock w + 100000 * (Z.of_nat k + 1)) w))))).
Proof.
  intros Hc Hq Hfind Hs Hempty Hstop Hclock Hk Hsl Hmem.
  unfold janus_ws_notifier, janus_session_find. mstep. rewrite Hfind. cbn.
  rewrite (long_poll_signalled w s ss k rest) by assumption.
  rewrite calloc_succeeds by exact Hmem. cbn.
  unfold janus_ws_success.
  erewrite MHD_queue_response_first by (cbn; eassumption).
  reflexivity.
Qed.

(** ** A GET on a session URL *)

Section Get.

Variable X : externals.
Variables (w : world) (connection : ptr) (c : MHD_Connection)
  (msg : janus_http_msg) (url sp upload_data : string) (size : Z)
  (s : ptr) (ss : janus_session).

Hypothesis Hc : connections w !! connection = Some c.
Hypothesis Hmsg : con_cls c = Some msg.
Hypothesis Hq : queued c = None.
Hypothesis Hscope : url_scope (ws_path w) url = Some (Some sp, None).
Hypothesis Hsid : 1 <= path_id sp.
Hypothesis Hsession : sessions w !! path_id sp = Some s.
Hypothesis Hheap : session_heap w !! s = Some ss.

Let msg' := set_msg_session_id (path_id sp) msg.
Let w1 := with_session_id connection c msg (path_id sp) w.

Lemma get_reaches_queue :
  janus_ws_handler X connection url "GET" upload_data size w
  = (let* r :=
       (let* event := g_queue_pop_head s in
        match event with
        | Some e =>
            janus_ws_success connection msg' (Some "application/json")
              (payload e)
        | None => janus_ws_notifier connection msg'
        end) in
     ret (r, size)) w1.
Proof.
  rewrite (janus_ws_handler_get X w connection c msg url upload_data size
             (Some sp) None) by assumption.
  unfold janus_ws_dispatch. fold (path_id sp).
  replace (path_id sp <? 1) with false by lia.
  destruct method_tests as (_ & _ & Hgg & _). rewrite Hgg.
  rewrite (bool_decide_eq_false_2 (is_Some None))
    by (intros [? ?]; discriminate).
  unfold update_msg. mstep. rewrite Hc. cbn.
  unfold janus_ws_get, janus_session_find. mstep. rewrite Hsession. cbn.
  reflexivity.
Qed.

(** A GET that finds an event at the head of the queue sends its payload
    and takes it off the queue. *)
Lemma get_delivers_head (e : janus_http_event) (rest : list janus_http_event)
  (text : string) :
  messages ss = e :: rest ->
  payload e = Some text ->
  exists w',
    janus_ws_handler X connection url "GET" upload_data size w
    = Returns ((MHD_YES, size), w')
    /\ response_of w' connection = Some (MHD_HTTP_OK, json_response msg' text)
    /\ session_heap w' = <[s := set_messages rest ss]> (session_heap w)
    /\ sessions w' = sessions w
    /\ ws_path w' = ws_path w
    /\ forall c2, c2 <> connection ->
         connections w' !! c2 = connections w !! c2.
Proof.
  intros Hqueue Hpayload. rewrite get_reaches_queue.
  unfold bind at 1 2.
  rewrite (g_queue_pop_head_cons w1 s ss e rest Hheap Hqueue).
  rewrite Hpayload. unfold janus_ws_success.
  erewrite MHD_queue_response_first;
    [|cbn; apply lookup_insert_eq|exact Hq].
  eexists. split; [reflexivity|].
  unfold response_of. cbn. rewrite lookup_insert_eq. cbn.
  repeat split. intros c2 Hne.
  rewrite !lookup_insert_ne by congruence. reflexivity.
Qed.

(** C4, as amended.  A GET on the URL of a session of the table: when
    the queue is not empty the payload of its head is sent as
    application/json and the event leaves the queue; when it is empty
    and nobody else acts the responder sleeps 300 times 100 ms, 30 seconds
    in all, and then sends the keep-alive; when a SIGINT arrives during
    one of these sleeps, or the gateway is already stopping, it sends the
    keep-alive at once.  The keep-alive body is the text
    [{"janus" : "keepalive"}], with a space on either side of the colon. *)
Theorem long_poll_get :
  (forall e rest text,
      messages ss = e :: rest ->
      payload e = Some text ->
      exists w',
        janus_ws_handler X connection url "GET" upload_data size w
        = Returns ((MHD_YES, size), w')
        /\ response_of w' connection
           = Some (MHD_HTTP_OK, json_response msg' text)
        /\ is_json (json_response msg' text)
        /\ queue_of w' s = rest)
  /\ (messages ss = [] ->
      can_allocate w ->
      0 <= clock w ->
      (stop w = 0 ->
       quiet 300 (sleeps w) ->
       exists w',
         janus_ws_handler X connection url "GET" upload_data size w
         = Returns ((MHD_YES, size), w')
         /\ response_of w' connection
            = Some (MHD_HTTP_OK, json_response msg' keepalive)
         /\ clock w' = clock w + 30 * G_USEC_PER_SEC
         /\ sleeps w' = drop 300 (sleeps w))
      /\ (forall k rest,
             stop w = 0 ->
             (k < 300)%nat ->
             sleeps w = replicate k [] ++ [SIGINT] :: rest ->
             exists w',
               janus_ws_handler X connection url "GET" upload_data size w
               = Returns ((MHD_YES, size), w')
               /\ response_of w' connection
                  = Some (MHD_HTTP_OK, json_response msg' keepalive)
               /\ clock w' = clock w + 100000 * (Z.of_nat k + 1))
      /\ (stop w <> 0 ->
          exists w',
            janus_ws_handler X connection url "GET" upload_data size w
            = Returns ((MHD_YES, size), w')
            /\ response_of w' connection
               = Some (MHD_HTTP_OK, json_response msg' keepalive)
            /\ clock w' = clock w))
  /\ keepalive
     = "{" +:+ dquote +:+ "janus" +:+ dquote +:+ " : "
           +:+ dquote +:+ "keepalive" +:+ dquote +:+ "}".
Proof.
  assert (Hc1 : connections w1 !! connection = Some (set_con_cls (Some msg') c))
    by apply lookup_insert_eq.
  split; [|split; [|reflexivity]].
  - intros e rest text Hqueue Hpayload. rewrite get_reaches_queue.
    unfold bind at 1 2.
    rewrite (g_queue_pop_head_cons w1 s ss e rest Hheap Hqueue).
    rewrite Hpayload. unfold janus_ws_success.
    erewrite MHD_queue_response_first by (cbn; eassumption).
    eexists. split; [reflexivity|].
    unfold response_of, queue_of. cbn. rewrite !lookup_insert_eq. cbn.
    repeat split. left. reflexivity.
  - intros Hempty Hmem Hclock.
    assert (Hpop : g_queue_pop_head s w1 = Returns (None, w1))
      by exact (g_queue_pop_head_empty w1 s ss Hheap Hempty).
    split; [|split].
    + intros Hstop Hquiet. rewrite get_reaches_queue.
      unfold bind at 1 2. rewrite Hpop.
      rewrite (janus_ws_notifier_timeout w1 connection (set_con_cls (Some msg') c)
                 msg' s ss);
        try assumption; try reflexivity.
      eexists. split; [reflexivity|].
      unfold response_of. cbn. rewrite lookup_insert_eq. repeat split.
    + intros k rest Hstop Hk Hsl. rewrite get_reaches_queue.
      unfold bind at 1 2. rewrite Hpop.
      rewrite (janus_ws_notifier_interrupted w1 connection (set_con_cls (Some msg') c)
                 msg' s ss k rest);
        try assumption; try reflexivity.
      eexists. split; [reflexivity|].
      unfold response_of. cbn. rewrite lookup_insert_eq. repeat split.
    + intros Hstop. rewrite get_reaches_queue.
      unfold bind at 1 2. rewrite Hpop.
      rewrite (janus_ws_notifier_stopping w1 connection (set_con_cls (Some msg') c)
                 msg' s ss);
        try assumption; try reflexivity.
      eexists. split; [reflexivity|].
      unfold response_of. cbn. rewrite lookup_insert_eq. repeat split.
Qed.

End Get.

(** C4, as stated, fails on the body of the keep-alive: a GET on session
    42, whose queue is empty, is answered after the wait with the text
    of [keepalive], which is not the text [{"janus":"keepalive"}]. *)
Lemma keepalive_body_has_spaces :
  exists w',
    janus_ws_handler Demo.X 1%positive "/janus/42" "GET" "" 0
      (Demo.gateway_with_handle None [])
    = Returns ((MHD_YES, 0), w')
    /\ (fun r => data (snd r)) <$> response_of w' 1%positive = Some keepalive
    /\ keepalive <> Demo.json_text "{'janus':'keepalive'}".
Proof.
  eexists. split; [vm_compute; reflexivity|].
  split; [vm_compute; reflexivity|].
  vm_compute. discriminate.
Qed.

(** ** SDP handling touches media contexts only *)

Lemma same_identity_refl (h : janus_ice_handle) : same_identity h h.
Proof. repeat split. Qed.

Lemma same_identity_trans (h1 h2 h3 : janus_ice_handle) :
  same_identity h1 h2 -> same_identity h2 h3 -> same_identity h1 h3.
Proof.
  unfold same_identity. intros (A1 & A2 & A3 & A4) (B1 & B2 & B3 & B4).
  repeat split; congruence.
Qed.

Lemma media_only_refl (w : world) : media_only w w.
Proof.
  repeat split. intros h ih H. exists ih. split; [exact H|].
  apply same_identity_refl.
Qed.

Lemma media_only_trans (w1 w2 w3 : world) :
  media_only w1 w2 -> media_only w2 w3 -> media_only w1 w3.
Proof.
  intros (A1 & A2 & A3 & A4 & A5 & A6 & A7) (B1 & B2 & B3 & B4 & B5 & B6 & B7).
  repeat split; try congruence.
  intros h ih H. destruct (A7 h ih H) as (ih2 & H2 & I2).
  destruct (B7 h ih2 H2) as (ih3 & H3 & I3).
  exists ih3. split; [exact H3|]. eapply same_identity_trans; eassumption.
Qed.

Lemma media_only_set_media (w : world) (h : ptr) (ih : janus_ice_handle)
  (m : ice_media) (t : list call) :
  handle_heap w !! h = Some ih ->
  media_only w
    (set_handle_heap (<[h := set_media m ih]> (handle_heap w)) (set_trace t w)).
Proof.
  intros Hh. repeat split. cbn. intros h0 ih0 H0.
  destruct (decide (h = h0)) as [<-|Hne].
  - rewrite lookup_insert_eq. exists (set_media m ih).
    split; [reflexivity|]. replace ih0 with ih by congruence. repeat split.
  - rewrite lookup_insert_ne by exact Hne. exists ih0.
    split; [exact H0|]. apply same_identity_refl.
Qed.

Lemma bind_returns {A B : Type} (m : M A) (k : A -> M B) (w w' : world) (b : B) :
  bind m k w = Returns (b, w') ->
  exists a w1, m w = Returns (a, w1) /\ k a w1 = Returns (b, w').
Proof.
  unfold bind. destruct (m w) as [[a w1]| | |]; try discriminate. eauto.
Qed.

Lemma media_only_set_clock (w : world) (t : Z) : media_only w (set_clock t w).
Proof.
  repeat split. intros h ih H. exists ih. split; [exact H|].
  apply same_identity_refl.
Qed.

Lemma g_usleep_idle (w : world) (usec : Z) :
  sleeps w = [] ->
  g_usleep usec w = Returns (tt, set_clock (clock w + usec) w).
Proof. intros H. unfold g_usleep. mstep. rewrite H. reflexivity. Qed.

Lemma candidates_wait_unfold (fuel : nat) (h : ptr) :
  candidates_wait fuel h
  = (let* w := get in
     let* ih := deref (handle_heap w !! h) in
     if cdone ih <? streams_num ih then
       match fuel with
       | O => diverge
       | S n =>
           let* _ := g_usleep 100000 in
           let* w := get in
           let* ih := deref (handle_heap w !! h) in
           if cdone ih <? 0 then ret false else candidates_wait n h
       end
     else ret true).
Proof. destruct fuel; reflexivity. Qed.

Lemma candidates_wait_frame (fuel : nat) (h : ptr) :
  forall (w w' : world) (r : bool),
    sleeps w = [] ->
    candidates_wait fuel h w = Returns (r, w') ->
    media_only w w'.
Proof.
  induction fuel as [|n IH]; intros w w' r Hidle;
    rewrite candidates_wait_unfold; mstep;
    (destruct (handle_heap w !! h) as [ih|]; [|discriminate]); cbn;
    (destruct (cdone ih <? streams_num ih); cbn;
     [|intros H; injection H as <- <-; apply media_only_refl]).
  - discriminate.
  - rewrite (g_usleep_idle w 100000 Hidle). cbn.
    destruct (handle_heap w !! h) as [ih2|]; [|discriminate]. cbn.
    destruct (cdone ih2 <? 0); cbn.
    + intros H. injection H as <- <-. apply media_only_set_clock.
    + intros H. apply IH in H; [|exact Hidle].
      eapply media_only_trans; [apply media_only_set_clock|exact H].
Qed.

Section SdpFrame.

Variable X : externals.

Lemma call_ice_setup_local_frame (h : ptr) (offer audio video : Z)
  (w w' : world) (r : unit) :
  call_ice_setup_local X h offer audio video w = Returns (r, w') ->
  media_only w w'.
Proof.
  unfold call_ice_setup_local, log. mstep.
  destruct (handle_heap w !! h) as [ih|] eqn:Hh; [|discriminate]. cbn.
  intros H. injection H as <- <-. apply media_only_set_media. exact Hh.
Qed.

Lemma call_ice_setup_remote_candidate_frame (h : ptr)
  (stream_id component_id : Z) (w w' : world) (r : unit) :
  call_ice_setup_remote_candidate X h stream_id component_id w
    = Returns (r, w') ->
  media_only w w'.
Proof.
  unfold call_ice_setup_remote_candidate, log. mstep.
  destruct (handle_heap w !! h) as [ih|] eqn:Hh; [|discriminate]. cbn.
  intros H. injection H as <- <-. apply media_only_set_media. exact Hh.
Qed.

Lemma setup_remote_candidates_frame (h : ptr) (w w' : world) (r : unit) :
  setup_remote_candidates X h w = Returns (r, w') ->
  media_only w w'.
Proof.
  unfold setup_remote_candidates. intros H. destruct r.
  apply bind_returns in H as (w0 & wa & H0 & H). injection H0 as <- <-.
  apply bind_returns in H as (ih & wb & H0 & H).
  assert (wb = w) as ->.
  { unfold deref in H0. destruct (handle_heap w !! h); [|discriminate].
    injection H0 as _ <-. reflexivity. }
  apply bind_returns in H as ([] & w1 & Haudio & H).
  assert (Ha : media_only w w1).
  { destruct (0 <? audio_id ih).
    - apply bind_returns in Haudio as ([] & wc & H1 & H2).
      eapply media_only_trans;
        eapply call_ice_setup_remote_candidate_frame; eassumption.
    - injection Haudio as <-. apply media_only_refl. }
  apply bind_returns in H as (w0 & wa & H0' & H). injection H0' as <- <-.
  apply bind_returns in H as (ih1 & wb & H0' & H).
  assert (wb = w1) as ->.
  { unfold deref in H0'. destruct (handle_heap w1 !! h); [|discriminate].
    injection H0' as _ <-. reflexivity. }
  eapply media_only_trans; [exact Ha|].
  destruct (0 <? video_id ih1).
  - apply bind_returns in H as ([] & wc & H1 & H2).
    eapply media_only_trans;
      eapply call_ice_setup_remote_candidate_frame; eassumption.
  - injection H as <-. apply media_only_refl.
Qed.

End SdpFrame.

(** ** [janus_push_event]: a successful push *)

Section PushEvent.

Variable X : externals.

Lemma janus_handle_sdp_frame (handle : option janus_pluginession)
  (plugin : option janus_plugin) (sdp_type sdp : option string)
  (w w' : world) (j : option json_t) :
  sleeps w = [] ->
  janus_handle_sdp X handle plugin sdp_type sdp w = Returns (j, w') ->
  media_only w w'.
Proof.
  intros Hidle. unfold janus_handle_sdp.
  assert (Hnone : forall (v : option json_t) (w0 : world),
             ret v w0 = Returns (j, w') -> media_only w0 w').
  { intros v w0 H. injection H as _ <-. apply media_only_refl. }
  destruct handle as [hd|]; [|apply Hnone].
  destruct plugin as [pl|]; [|apply Hnone].
  destruct sdp_type as [ty|]; [|apply Hnone].
  destruct sdp as [text|]; [|apply Hnone].
  destruct (if strcasecmp ty "offer" =? 0 then Some true
            else if strcasecmp ty "answer" =? 0 then Some false else None)
    as [offer|]; [|apply Hnone].
  intros H.
  apply bind_returns in H as (ice_handle & w0 & H0 & H).
  assert (w0 = w) as ->.
  { unfold deref in H0. destruct (gateway_handle hd); [|discriminate].
    injection H0 as _ <-. reflexivity. }
  destruct (match janus_sdp_preparse X text with
            | Some av => av
            | None => (0, 0)
            end) as [audio video].
  apply bind_returns in H as ([] & w1 & Hlocal & H).
  assert (H1 : media_only w w1).
  { destruct offer.
    - eapply call_ice_setup_local_frame. exact Hlocal.
    - injection Hlocal as <-. apply media_only_refl. }
  apply bind_returns in H as (wg & w1' & Hg & H). injection Hg as <- <-.
  apply bind_returns in H as (done & w2 & Hwait & H).
  assert (Hidle1 : sleeps w1 = []).
  { destruct H1 as (_ & _ & _ & -> & _). exact Hidle. }
  assert (H2 : media_only w1 w2).
  { eapply candidates_wait_frame; [exact Hidle1|exact Hwait]. }
  assert (H12 : media_only w w2) by (eapply media_only_trans; eassumption).
  destruct done; cbn in H.
  2: { injection H as _ <-. exact H12. }
  destruct (janus_sdp_anonymize X text) as [stripped|].
  2: { injection H as _ <-. exact H12. }
  apply bind_returns in H as (wg & w2' & Hg & H). injection Hg as <- <-.
  apply bind_returns in H as (ih & w2' & Hd & H).
  assert (w2' = w2) as ->.
  { unfold deref in Hd. destruct (handle_heap w2 !! ice_handle); [|discriminate].
    injection Hd as _ <-. reflexivity. }
  destruct (janus_sdp_merge X ih stripped) as [merged|].
  2: { injection H as _ <-. exact H12. }
  apply bind_returns in H as ([] & w3 & Hremote & H).
  injection H as _ <-.
  eapply media_only_trans; [exact H12|].
  destruct offer.
  - injection Hremote as <-. apply media_only_refl.
  - eapply setup_remote_candidates_frame. exact Hremote.
Qed.

(** A push that returns JANUS_OK has put exactly one event, the envelope
    of the message, at the tail of the queue of the handle's session. *)
Lemma janus_push_event_ok (w w' : world) (hd : janus_pluginession)
  (pl : janus_plugin) (transaction sdp_type sdp : option string)
  (text : string) (ih s : ptr) (ice_handle : janus_ice_handle)
  (ss : janus_session) :
  sleeps w = [] ->
  gateway_handle hd = Some ih ->
  handle_heap w !! ih = Some ice_handle ->
  session ice_handle = Some s ->
  session_heap w !! s = Some ss ->
  (forall e, api_code X e = api_code X JANUS_OK -> e = JANUS_OK) ->
  janus_push_event X (Some hd) (Some pl) transaction (Some text) sdp_type sdp w
    = Returns (api_code X JANUS_OK, w') ->
  exists (event : json_t) (jsep : option json_t) (ice_handle' : janus_ice_handle),
    json_loads X (Some text) = inr event
    /\ handle_heap w' !! ih = Some ice_handle'
    /\ same_identity ice_handle ice_handle'
    /\ session_heap w'
       = <[s := set_messages
                  (messages ss
                   ++ [{| code := 200;
                          payload := Some (json_dumps X
                                             (event_reply (handle_id ice_handle)
                                                transaction (get_package pl)
                                                event jsep));
                          allocated := 1 |}]) ss]>
           (session_heap w)
    /\ sessions w' = sessions w
    /\ connections w' = connections w
    /\ stop w' = stop w
    /\ sleeps w' = [].
Proof.
  intros Hidle Hg Hh Hs Hss Hcodes. unfold janus_push_event. rewrite Hg.
  mstep. rewrite Hh. cbn. rewrite Hs.
  assert (Hbad : forall e (w0 : world),
             e <> JANUS_OK ->
             ret (api_code X e) w0 = Returns (api_code X JANUS_OK, w') ->
             False).
  { intros e w0 He H. injection H as H _. apply He, Hcodes, H. }
  destruct (json_loads X (Some text)) as [err|event].
  { intros H. exfalso. eapply Hbad; [|exact H]. discriminate. }
  destruct (json_is_object event); cbn.
  2: { intros H. exfalso. eapply Hbad; [|exact H]. discriminate. }
  intros H.
  match type of H with
  | match ?m with _ => _ end = _ =>
      destruct m as [[jsep w1]| | |] eqn:Hj; try discriminate
  end.
  assert (H1 : media_only w w1).
  { destruct sdp_type as [ty|], sdp as [sdp_text|];
      try (injection Hj as _ <-; apply media_only_refl).
    destruct (janus_handle_sdp X (Some hd) (Some pl) (Some ty) (Some sdp_text) w)
      as [[j w2]| | |] eqn:Hsdp; try discriminate.
    injection Hj as _ <-.
    eapply janus_handle_sdp_frame; [exact Hidle|exact Hsdp]. }
  destruct jsep as [[]|jsep].
  { exfalso. eapply Hbad; [|exact H]. discriminate. }
  destruct H1 as (F1 & F2 & F3 & F4 & F5 & F6 & F7).
  destruct (F7 ih ice_handle Hh) as (ice' & Hh' & Hid).
  rewrite Hh' in H. cbn in H. unfold calloc in H.
  assert (Hpush : forall w0,
             session_heap w0 = session_heap w1 ->
             sessions w0 = sessions w1 ->
             connections w0 = connections w1 ->
             stop w0 = stop w1 ->
             sleeps w0 = sleeps w1 ->
             handle_heap w0 = handle_heap w1 ->
             match
               g_queue_push_tail s
                 {| code := 200;
                    payload := Some (json_dumps X
                                       (event_reply (handle_id ice') transaction
                                          (get_package pl) event jsep));
                    allocated := 1 |} w0
             with
             | Returns (_, w'2) => Returns (api_code X JANUS_OK, w'2)
             | Faults => Faults
             | Diverges => Diverges
             | Exits st => Exits st
             end = Returns (api_code X JANUS_OK, w') ->
             exists (event0 : json_t) (jsep0 : option json_t)
                    (ice_handle' : janus_ice_handle),
               inr event = (inr event0 : json_error_t + json_t)
               /\ handle_heap w' !! ih = Some ice_handle'
               /\ same_identity ice_handle ice_handle'
               /\ session_heap w'
                  = <[s := set_messages
                             (messages ss
                              ++ [{| code := 200;
                                     payload := Some (json_dumps X
                                                        (event_reply
                                                           (handle_id ice_handle)
                                                           transaction
                                                           (get_package pl)
                                                           event0 jsep0));
                                     allocated := 1 |}]) ss]>
                      (session_heap w)
               /\ sessions w' = sessions w
               /\ connections w' = connections w
               /\ stop w' = stop w
               /\ sleeps w' = []).
  { intros w0 E1 E2 E3 E4 E5 E6. unfold g_queue_push_tail. mstep.
    rewrite E1, F2, Hss. cbn. intros Hr. injection Hr as <-.
    exists event, jsep, ice'. cbn.
    destruct Hid as (I1 & I2 & I3 & I4).
    split; [reflexivity|]. split; [congruence|].
    split; [repeat split; assumption|].
    split; [rewrite I2; reflexivity|].
    repeat split; congruence. }
  destruct (calloc_results w1) as [|[|] rest] eqn:Hcal; cbn in H.
  - apply (Hpush w1); auto.
  - apply (Hpush (set_calloc_results rest w1)); auto.
  - exfalso. eapply Hbad; [|exact H]. discriminate.
Qed.

End PushEvent.

(** ** Delivery order *)

Section Fifo.

Variable X : externals.
Variables (w0 w1 w2 w3 : world)
  (hd : janus_pluginession) (pl : janus_plugin)
  (tx1 tx2 tx3 ty1 ty2 ty3 sdp1 sdp2 sdp3 : option string)
  (m1 m2 m3 : string)
  (ih s : ptr) (ice_handle : janus_ice_handle) (ss : janus_session)
  (c1 c2 c3 : ptr) (conn1 conn2 conn3 : MHD_Connection)
  (msg1 msg2 msg3 : janus_http_msg)
  (url sp upload_data : string) (size : Z).

Hypothesis Hidle : sleeps w0 = [].
Hypothesis Hcodes : forall e, api_code X e = api_code X JANUS_OK -> e = JANUS_OK.
Hypothesis Hg : gateway_handle hd = Some ih.
Hypothesis Hh : handle_heap w0 !! ih = Some ice_handle.
Hypothesis Hs : session ice_handle = Some s.
Hypothesis Hss : session_heap w0 !! s = Some ss.
Hypothesis Hempty : messages ss = [].
Hypothesis Hpush1 :
  janus_push_event X (Some hd) (Some pl) tx1 (Some m1) ty1 sdp1 w0
  = Returns (api_code X JANUS_OK, w1).
Hypothesis Hpush2 :
  janus_push_event X (Some hd) (Some pl) tx2 (Some m2) ty2 sdp2 w1
  = Returns (api_code X JANUS_OK, w2).
Hypothesis Hpush3 :
  janus_push_event X (Some hd) (Some pl) tx3 (Some m3) ty3 sdp3 w2
  = Returns (api_code X JANUS_OK, w3).
Hypothesis Hscope : url_scope (ws_path w3) url = Some (Some sp, None).
Hypothesis Hsid : 1 <= path_id sp.
Hypothesis Hsession : sessions w3 !! path_id sp = Some s.
Hypothesis Hc1 : connections w3 !! c1 = Some conn1.
Hypothesis Hc2 : connections w3 !! c2 = Some conn2.
Hypothesis Hc3 : connections w3 !! c3 = Some conn3.
Hypothesis Hmsg1 : con_cls conn1 = Some msg1.
Hypothesis Hmsg2 : con_cls conn2 = Some msg2.
Hypothesis Hmsg3 : con_cls conn3 = Some msg3.
Hypothesis Hq1 : queued conn1 = None.
Hypothesis Hq2 : queued conn2 = None.
Hypothesis Hq3 : queued conn3 = None.
Hypothesis H12 : c1 <> c2.
Hypothesis H13 : c1 <> c3.
Hypothesis H23 : c2 <> c3.

Let event_text (transaction : option string) (event : json_t)
  (jsep : option json_t) : string :=
  json_dumps X (event_reply (handle_id ice_handle) transaction
                  (get_package pl) event jsep).

Let pushed (text : string) : janus_http_event :=
  {| code := 200; payload := Some text; allocated := 1 |}.

Let reply (msg : janus_http_msg) (text : string) : option (Z * MHD_Response) :=
  Some (MHD_HTTP_OK,
        json_response (set_msg_session_id (path_id sp) msg) text).

(** C5.  Three pushes through [janus_push_event] that return JANUS_OK on
    a session whose queue was empty, with no other thread acting, leave
    the three envelopes in the queue in the order of the pushes; three
    GETs on the session, one after the other, are answered with the
    first, the second and the third envelope, and leave the queue
    empty. *)
Theorem events_delivered_in_order :
  exists (e1 e2 e3 : json_t) (j1 j2 j3 : option json_t) (w4 w5 w6 : world),
    json_loads X (Some m1) = inr e1
    /\ json_loads X (Some m2) = inr e2
    /\ json_loads X (Some m3) = inr e3
    /\ queue_of w3 s = [pushed (event_text tx1 e1 j1);
                        pushed (event_text tx2 e2 j2);
                        pushed (event_text tx3 e3 j3)]
    /\ janus_ws_handler X c1 url "GET" upload_data size w3
       = Returns ((MHD_YES, size), w4)
    /\ response_of w4 c1 = reply msg1 (event_text tx1 e1 j1)
    /\ janus_ws_handler X c2 url "GET" upload_data size w4
       = Returns ((MHD_YES, size), w5)
    /\ response_of w5 c2 = reply msg2 (event_text tx2 e2 j2)
    /\ janus_ws_handler X c3 url "GET" upload_data size w5
       = Returns ((MHD_YES, size), w6)
    /\ response_of w6 c3 = reply msg3 (event_text tx3 e3 j3)
    /\ queue_of w6 s = [].
Proof.
  destruct (janus_push_event_ok X w0 w1 hd pl tx1 ty1 sdp1 m1 ih s ice_handle ss
              Hidle Hg Hh Hs Hss Hcodes Hpush1)
    as (e1 & j1 & ice1 & L1 & A1 & (I1 & I1' & _) & Q1 & S1 & C1 & _ & Z1).
  assert (Hss1 : session_heap w1 !! s
                 = Some (set_messages
                           (messages ss ++ [pushed (event_text tx1 e1 j1)]) ss)).
  { rewrite Q1. apply lookup_insert_eq. }
  destruct (janus_push_event_ok X w1 w2 hd pl tx2 ty2 sdp2 m2 ih s ice1 _
              Z1 Hg A1 (eq_trans I1 Hs) Hss1 Hcodes Hpush2)
    as (e2 & j2 & ice2 & L2 & A2 & (I2 & I2' & _) & Q2 & S2 & C2 & _ & Z2).
  assert (Hss2 : session_heap w2 !! s
                 = Some (set_messages
                           ((messages ss ++ [pushed (event_text tx1 e1 j1)])
                            ++ [pushed (event_text tx2 e2 j2)]) ss)).
  { rewrite Q2, lookup_insert_eq. cbn. unfold event_text, pushed.
    rewrite I1'. reflexivity. }
  destruct (janus_push_event_ok X w2 w3 hd pl tx3 ty3 sdp3 m3 ih s ice2 _
              Z2 Hg A2 (eq_trans I2 (eq_trans I1 Hs)) Hss2 Hcodes Hpush3)
    as (e3 & j3 & ice3 & L3 & A3 & (I3 & I3' & _) & Q3 & S3 & C3 & _ & Z3).
  assert (Hss3 : session_heap w3 !! s
                 = Some (set_messages
                           [pushed (event_text tx1 e1 j1);
                            pushed (event_text tx2 e2 j2);
                            pushed (event_text tx3 e3 j3)] ss)).
  { rewrite Q3, lookup_insert_eq. cbn. rewrite Hempty. cbn.
    unfold event_text, pushed. rewrite I2', I1'. reflexivity. }
  destruct (get_delivers_head X w3 c1 conn1 msg1 url sp upload_data size s _
              Hc1 Hmsg1 Hq1 Hscope Hsid Hsession Hss3
              (pushed (event_text tx1 e1 j1)) _ (event_text tx1 e1 j1)
              eq_refl eq_refl)
    as (w4 & G4 & R4 & Q4 & S4 & P4 & C4).
  assert (Hss4 : session_heap w4 !! s
                 = Some (set_messages
                           [pushed (event_text tx2 e2 j2);
                            pushed (event_text tx3 e3 j3)] ss)).
  { rewrite Q4. apply lookup_insert_eq. }
  assert (Hc2' : connections w4 !! c2 = Some conn2).
  { rewrite C4 by congruence. exact Hc2. }
  assert (Hscope4 : url_scope (ws_path w4) url = Some (Some sp, None)).
  { rewrite P4. exact Hscope. }
  assert (Hsession4 : sessions w4 !! path_id sp = Some s).
  { rewrite S4. exact Hsession. }
  destruct (get_delivers_head X w4 c2 conn2 msg2 url sp upload_data size s _
              Hc2' Hmsg2 Hq2 Hscope4 Hsid Hsession4 Hss4
              (pushed (event_text tx2 e2 j2)) _ (event_text tx2 e2 j2)
              eq_refl eq_refl)
    as (w5 & G5 & R5 & Q5 & S5 & P5 & C5).
  assert (Hss5 : session_heap w5 !! s
                 = Some (set_messages [pushed (event_text tx3 e3 j3)] ss)).
  { rewrite Q5. apply lookup_insert_eq. }
  assert (Hc3' : connections w5 !! c3 = Some conn3).
  { rewrite C5, C4 by congruence. exact Hc3. }
  assert (Hscope5 : url_scope (ws_path w5) url = Some (Some sp, None)).
  { rewrite P5. exact Hscope4. }
  assert (Hsession5 : sessions w5 !! path_id sp = Some s).
  { rewrite S5. exact Hsession4. }
  destruct (get_delivers_head X w5 c3 conn3 msg3 url sp upload_data size s _
              Hc3' Hmsg3 Hq3 Hscope5 Hsid Hsession5 Hss5
              (pushed (event_text tx3 e3 j3)) _ (event_text tx3 e3 j3)
              eq_refl eq_refl)
    as (w6 & G6 & R6 & Q6 & S6 & P6 & C6).
  exists e1, e2, e3, j1, j2, j3, w4, w5, w6.
  repeat (split; [assumption|]).
  split.
  { unfold queue_of. rewrite Hss3. reflexivity. }
  repeat (split; [assumption|]).
  unfold queue_of. rewrite Q6, lookup_insert_eq. reflexivity.
Qed.

End Fifo.

(** ** Cross-origin headers *)

Create HintDb pres.

Lemma preserves_ret {A : Type} (P : world -> Prop) (a : A) :
  preserves P (ret a).
Proof. intros w b w' HP H. injection H as _ <-. exact HP. Qed.

Lemma preserves_bind {A B : Type} (P : world -> Prop) (m : M A)
  (k : A -> M B) :
  preserves P m -> (forall a, preserves P (k a)) -> preserves P (bind m k).
Proof.
  intros Hm Hk w b w' HP H.
  apply bind_returns in H as (a & w1 & H1 & H2).
  eapply Hk; [|exact H2]. eapply Hm; eassumption.
Qed.

Lemma preserves_get (P : world -> Prop) : preserves P get.
Proof. intros w b w' HP H. injection H as _ <-. exact HP. Qed.

Lemma preserves_fault {A : Type} (P : world -> Prop) : preserves P (@fault A).
Proof. intros w b w' HP H. discriminate. Qed.

Lemma preserves_diverge {A : Type} (P : world -> Prop) :
  preserves P (@diverge A).
Proof. intros w b w' HP H. discriminate. Qed.

Lemma preserves_deref {A : Type} (P : world -> Prop) (o : option A) :
  preserves P (deref o).
Proof.
  destruct o; [apply preserves_ret|apply preserves_fault].
Qed.

(** A step that leaves the connections alone keeps [responses_ok]. *)
Lemma responses_ok_same (w w' : world) :
  connections w' = connections w -> responses_ok w -> responses_ok w'.
Proof. unfold responses_ok. intros ->. auto. Qed.

Lemma preserves_modify (f : world -> world) :
  (forall w, connections (f w) = connections w) ->
  preserves responses_ok (modify f).
Proof.
  intros Hf w b w' HP H. injection H as _ <-.
  eapply responses_ok_same; [apply Hf|exact HP].
Qed.

Lemma preserves_pure {A : Type} (m : M A) :
  (forall w a w', m w = Returns (a, w') -> connections w' = connections w) ->
  preserves responses_ok m.
Proof.
  intros Hm w a w' HP H. eapply responses_ok_same; [eapply Hm, H|exact HP].
Qed.

Lemma preserves_calloc : preserves responses_ok calloc.
Proof.
  apply preserves_pure. unfold calloc. intros w a w'.
  destruct (calloc_results w); intros H; injection H as _ <-; reflexivity.
Qed.

Lemma preserves_plugin_error : preserves responses_ok plugin_error.
Proof.
  apply preserves_pure. unfold plugin_error. intros w a w'.
  destruct (plugin_errors w); intros H; injection H as _ <-; reflexivity.
Qed.

Lemma preserves_g_random_int : preserves responses_ok g_random_int.
Proof.
  apply preserves_pure. unfold g_random_int. intros w a w'.
  destruct (random_ints w); [discriminate|].
  intros H; injection H as _ <-; reflexivity.
Qed.

Lemma preserves_janus_get_monotonic_time :
  preserves responses_ok janus_get_monotonic_time.
Proof.
  apply preserves_pure. intros w a w' H. injection H as _ <-. reflexivity.
Qed.

Lemma preserves_janus_handle_signal :
  preserves responses_ok janus_handle_signal.
Proof.
  apply preserves_pure. unfold janus_handle_signal. intros w a w'. cbn.
  destruct (2 <? stop w + 1); [discriminate|].
  intros H; injection H as _ <-; reflexivity.
Qed.

Lemma preserves_log (c : call) : preserves responses_ok (log c).
Proof. apply preserves_modify. reflexivity. Qed.

#[local] Hint Resolve preserves_calloc preserves_plugin_error
  preserves_g_random_int preserves_janus_get_monotonic_time
  preserves_janus_handle_signal preserves_log : pres.

(** One step of a proof that a computation keeps [responses_ok]. *)
Ltac pres_step :=
  lazymatch goal with
  | |- preserves _ (ret _) => apply preserves_ret
  | |- preserves _ (bind _ _) => apply preserves_bind; [|intros]
  | |- preserves _ get => apply preserves_get
  | |- preserves _ fault => apply preserves_fault
  | |- preserves _ diverge => apply preserves_diverge
  | |- preserves _ (deref _) => apply preserves_deref
  | |- preserves _ (modify _) => apply preserves_modify; intros; reflexivity
  | |- preserves _ (match ?x with _ => _ end) => destruct x
  | |- _ => solve [eauto with pres]
  end.

Ltac pres := cbv beta zeta; repeat pres_step.

Lemma has_cors_cors_headers (msg : janus_http_msg) (text : string)
  (extra : list (string * string)) :
  has_cors {| headers := extra ++ cors_headers msg; data := text |}.
Proof.
  unfold has_cors, cors_headers. cbn. apply in_or_app. right. left.
  reflexivity.
Qed.

Lemma preserves_MHD_queue_response (connection : ptr) (status : Z)
  (response : option MHD_Response) :
  match response with
  | Some r => has_cors r \/ (status, r) = bare_500
  | None => True
  end ->
  preserves responses_ok (MHD_queue_response connection status response).
Proof.
  intros Hr w a w' HP. unfold MHD_queue_response. mstep.
  destruct (connections w !! connection) as [c|] eqn:Hc; [|discriminate].
  cbn. destruct response as [r|], (queued c) as [q|] eqn:Hq; cbn;
    intros H; injection H as _ <-; try exact HP.
  intros c2 conn2 r2. cbn.
  destruct (decide (connection = c2)) as [<-|Hne].
  - rewrite lookup_insert_eq. intros E. injection E as <-. cbn.
    intros E. injection E as <-. exact Hr.
  - rewrite lookup_insert_ne by exact Hne. apply HP.
Qed.

Lemma preserves_queue_empty_response (connection : ptr)
  (msg : janus_http_msg) (status : Z) :
  preserves responses_ok (queue_empty_response connection msg status).
Proof.
  apply preserves_MHD_queue_response. left.
  apply (has_cors_cors_headers msg "" []).
Qed.

Lemma preserves_update_msg (connection : ptr) (msg : janus_http_msg) :
  preserves responses_ok (update_msg connection msg).
Proof.
  intros w a w' HP. unfold update_msg. mstep.
  destruct (connections w !! connection) as [c|] eqn:Hc; [|discriminate].
  cbn. intros H. injection H as _ <-.
  intros c2 conn2 r2. cbn.
  destruct (decide (connection = c2)) as [<-|Hne].
  - rewrite lookup_insert_eq. intros E. injection E as <-. cbn.
    apply (HP connection c r2 Hc).
  - rewrite lookup_insert_ne by exact Hne. apply HP.
Qed.

Lemma preserves_g_queue_pop_head (s : ptr) :
  preserves responses_ok (g_queue_pop_head s).
Proof. unfold g_queue_pop_head. pres. Qed.

Lemma preserves_g_queue_push_tail (s : ptr) (e : janus_http_event) :
  preserves responses_ok (g_queue_push_tail s e).
Proof. unfold g_queue_push_tail. pres. Qed.

Lemma preserves_run_asyncs (es : list async_event) :
  preserves responses_ok (run_asyncs es).
Proof.
  induction es as [|e rest IH]; cbn; [apply preserves_ret|].
  apply preserves_bind; [|intros; exact IH].
  destruct e; cbn; pres.
Qed.

Lemma preserves_g_usleep (usec : Z) : preserves responses_ok (g_usleep usec).
Proof.
  unfold g_usleep. pres. apply preserves_run_asyncs.
Qed.

#[local] Hint Resolve preserves_queue_empty_response preserves_update_msg
  preserves_g_queue_pop_head preserves_g_queue_push_tail
  preserves_g_usleep : pres.

Lemma preserves_janus_session_find (id : Z) :
  preserves responses_ok (janus_session_find id).
Proof. unfold janus_session_find. pres. Qed.

#[local] Hint Resolve preserves_janus_session_find : pres.

Lemma preserves_session_id_loop (fuel : nat) :
  preserves responses_ok (session_id_loop fuel).
Proof.
  induction fuel as [|n IH]; [apply preserves_diverge|].
  change (session_id_loop (S n))
    with (let* drawn := g_random_int in
          let* found := janus_session_find drawn in
          let session_id := match found with Some _ => 0 | None => drawn end in
          if session_id =? 0 then session_id_loop n else ret session_id).
  pres.
Qed.

Lemma preserves_handle_id_loop (fuel : nat) (taken : gmap Z ptr) :
  preserves responses_ok (handle_id_loop fuel taken).
Proof.
  induction fuel as [|n IH]; [apply preserves_diverge|].
  change (handle_id_loop (S n) taken)
    with (let* drawn := g_random_int in
          if (drawn =? 0) || bool_decide (is_Some (taken !! drawn))
          then handle_id_loop n taken
          else ret drawn).
  pres.
Qed.

Lemma preserves_long_poll (fuel : nat) (s : ptr) (start : Z) :
  forall end_, preserves responses_ok (long_poll fuel s start end_).
Proof.
  induction fuel as [|n IH]; intros end_; rewrite long_poll_unfold; pres.
Qed.

#[local] Hint Resolve preserves_session_id_loop preserves_handle_id_loop
  preserves_long_poll : pres.

Lemma preserves_janus_session_create :
  preserves responses_ok janus_session_create.
Proof. unfold janus_session_create. pres. Qed.

Lemma preserves_janus_session_destroy (id : Z) :
  preserves responses_ok (janus_session_destroy id).
Proof. unfold janus_session_destroy. pres. Qed.

Lemma preserves_janus_ws_success (connection : ptr) (msg : janus_http_msg)
  (transaction payload : option string) :
  preserves responses_ok (janus_ws_success connection msg transaction payload).
Proof.
  unfold janus_ws_success. pres.
  apply preserves_MHD_queue_response. left.
  apply (has_cors_cors_headers msg _ [("Content-Type", "application/json")]).
Qed.

Lemma preserves_janus_ws_notifier (connection : ptr) (msg : janus_http_msg) :
  preserves responses_ok (janus_ws_notifier connection msg).
Proof.
  unfold janus_ws_notifier. pres;
    first [apply preserves_janus_ws_success
          |apply preserves_MHD_queue_response; exact I].
Qed.

#[local] Hint Resolve preserves_janus_session_create
  preserves_janus_session_destroy preserves_janus_ws_success
  preserves_janus_ws_notifier : pres.

Section Cors.

Variable X : externals.

Lemma preserves_janus_ws_error (connection : ptr) (msg : janus_http_msg)
  (transaction format : option string) (error : janus_error)
  (args : list fmt_arg) :
  preserves responses_ok
    (janus_ws_error X connection msg transaction error format args).
Proof.
  unfold janus_ws_error. pres;
    apply preserves_MHD_queue_response;
    first [right; reflexivity
          |left;
           apply (has_cors_cors_headers msg _
                    [("Content-Type", "application/json")])].
Qed.

Lemma preserves_send_reply (connection : ptr) (msg : janus_http_msg)
  (reply : json_t) :
  preserves responses_ok (send_reply X connection msg reply).
Proof. unfold send_reply. pres. Qed.

Hint Resolve preserves_janus_ws_error preserves_send_reply : pres.

Lemma preserves_janus_ice_handle_find (s : ptr) (id : Z) :
  preserves responses_ok (janus_ice_handle_find s id).
Proof. unfold janus_ice_handle_find. pres. Qed.

Hint Resolve preserves_janus_ice_handle_find : pres.

Lemma preserves_janus_ice_handle_create (s : ptr) :
  preserves responses_ok (janus_ice_handle_create s).
Proof. unfold janus_ice_handle_create. pres. Qed.

Lemma preserves_janus_ice_handle_attach_plugin (s : ptr) (id : Z)
  (plugin : janus_plugin) :
  preserves responses_ok (janus_ice_handle_attach_plugin X s id plugin).
Proof. unfold janus_ice_handle_attach_plugin. pres. Qed.

Lemma preserves_janus_ice_handle_destroy (s : ptr) (id : Z) :
  preserves responses_ok (janus_ice_handle_destroy X s id).
Proof. unfold janus_ice_handle_destroy. pres. Qed.

Lemma preserves_call_ice_setup_local (h : ptr) (offer audio video : Z) :
  preserves responses_ok (call_ice_setup_local X h offer audio video).
Proof. unfold call_ice_setup_local. pres. Qed.

Lemma preserves_call_ice_setup_remote_candidate (h : ptr) (a b : Z) :
  preserves responses_ok (call_ice_setup_remote_candidate X h a b).
Proof. unfold call_ice_setup_remote_candidate. pres. Qed.

Lemma preserves_call_sdp_parse (h : ptr) (sdp : string) :
  preserves responses_ok (call_sdp_parse X h sdp).
Proof. unfold call_sdp_parse. pres. Qed.

Hint Resolve preserves_janus_ice_handle_create
  preserves_janus_ice_handle_attach_plugin preserves_janus_ice_handle_destroy
  preserves_call_ice_setup_local preserves_call_ice_setup_remote_candidate
  preserves_call_sdp_parse : pres.

Lemma preserves_setup_remote_candidates (h : ptr) :
  preserves responses_ok (setup_remote_candidates X h).
Proof. unfold setup_remote_candidates. pres. Qed.

Lemma preserves_janus_plugin_find (package : option string) :
  preserves responses_ok (janus_plugin_find package).
Proof. unfold janus_plugin_find. pres. Qed.

Hint Resolve preserves_setup_remote_candidates preserves_janus_plugin_find
  : pres.

Lemma preserves_janus_ws_create (connection : ptr) (msg : janus_http_msg)
  (method : string) (payload : option string) :
  preserves responses_ok (janus_ws_create X connection msg method payload).
Proof. unfold janus_ws_create. pres. Qed.

Lemma preserves_janus_ws_get (connection : ptr) (msg : janus_http_msg)
  (session_id : Z) (session_path : string) (handle_path : option string) :
  preserves responses_ok
    (janus_ws_get connection msg session_id session_path handle_path).
Proof.
  unfold janus_ws_get. pres.
  apply preserves_MHD_queue_response. left.
  apply (has_cors_cors_headers msg "" [("Location", _)]).
Qed.

Lemma preserves_janus_ws_attach (connection : ptr) (msg : janus_http_msg)
  (root : json_t) (transaction_text message_text : string) (s : ptr)
  (handle : option ptr) :
  preserves responses_ok
    (janus_ws_attach X connection msg root transaction_text message_text
       s handle).
Proof. unfold janus_ws_attach. pres. Qed.

Lemma preserves_janus_ws_destroy (connection : ptr) (msg : janus_http_msg)
  (transaction_text message_text : string) (session_id : Z)
  (handle : option ptr) :
  preserves responses_ok
    (janus_ws_destroy X connection msg transaction_text message_text
       session_id handle).
Proof. unfold janus_ws_destroy. pres. Qed.

Lemma preserves_janus_ws_detach (connection : ptr) (msg : janus_http_msg)
  (transaction_text message_text : string) (s : ptr) (handle : option ptr)
  (handle_id : Z) :
  preserves responses_ok
    (janus_ws_detach X connection msg transaction_text message_text
       s handle handle_id).
Proof. unfold janus_ws_detach. pres. Qed.

Lemma preserves_janus_ws_message_jsep (connection : ptr)
  (msg : janus_http_msg) (root : json_t) (transaction_text : string)
  (handle : ptr) :
  preserves responses_ok
    (janus_ws_message_jsep X connection msg root transaction_text handle).
Proof. unfold janus_ws_message_jsep. pres. Qed.

Hint Resolve preserves_janus_ws_message_jsep : pres.

Lemma preserves_janus_ws_message (connection : ptr) (msg : janus_http_msg)
  (root : json_t) (transaction_text message_text : string)
  (handle : option ptr) :
  preserves responses_ok
    (janus_ws_message X connection msg root transaction_text message_text
       handle).
Proof. unfold janus_ws_message. pres. Qed.

Hint Resolve preserves_janus_ws_create preserves_janus_ws_get
  preserves_janus_ws_attach preserves_janus_ws_destroy
  preserves_janus_ws_detach preserves_janus_ws_message : pres.

Lemma preserves_janus_ws_post (connection : ptr) (msg : janus_http_msg)
  (payload : option string) (session_id handle_id : Z) :
  preserves responses_ok
    (janus_ws_post X connection msg payload session_id handle_id).
Proof. unfold janus_ws_post. pres. Qed.

Hint Resolve preserves_janus_ws_post : pres.

Lemma preserves_janus_ws_dispatch (connection : ptr) (msg : janus_http_msg)
  (method : string) (payload session_path handle_path : option string) :
  preserves responses_ok
    (janus_ws_dispatch X connection msg method payload session_path
       handle_path).
Proof. unfold janus_ws_dispatch. pres. Qed.

Hint Resolve preserves_janus_ws_dispatch : pres.

Lemma preserves_janus_ws_request (connection : ptr) (msg : janus_http_msg)
  (method : string) (path : option (list string)) (upload_data : string)
  (size : Z) :
  preserves responses_ok
    (janus_ws_request X connection msg method path upload_data size).
Proof.
  unfold janus_ws_request. pres;
    apply preserves_MHD_queue_response; exact I.
Qed.

Hint Resolve preserves_janus_ws_request : pres.

(** Whatever the request, the responses the handler queues carry the
    cross-origin header, the bare 500 of [janus_ws_error] apart. *)
Lemma preserves_janus_ws_handler (connection : ptr) (url method : string)
  (upload_data : string) (size : Z) :
  preserves responses_ok
    (janus_ws_handler X connection url method upload_data size).
Proof.
  unfold janus_ws_handler. pres;
    try (apply preserves_MHD_queue_response; exact I).
Qed.

End Cors.

(** C9.  A GET on the base path is answered through [janus_ws_error];
    when the allocation of the reason string fails there, the response
    queued is a 500 that carries no header at all, so no
    Access-Control-Allow-Origin either. *)
Theorem internal_error_lacks_cors :
  exists w' r,
    janus_ws_handler Demo.X 1%positive "/janus" "GET" "" 0
      (set_calloc_results [false] (Demo.gateway None []))
    = Returns ((MHD_YES, 0), w')
    /\ response_of w' 1%positive = Some (MHD_HTTP_INTERNAL_SERVER_ERROR, r)
    /\ headers r = []
    /\ ~ has_cors r.
Proof.
  eexists. eexists. split; [vm_compute; reflexivity|].
  split; [vm_compute; reflexivity|].
  split; [reflexivity|]. intros [].
Qed.

(** ** The theorems at concrete requests *)

(** Closed side conditions, by evaluation. *)
Ltac run :=
  lazymatch goal with
  | |- @eq _ _ _ => vm_compute; reflexivity
  | |- Z.le _ _ => vm_compute; discriminate
  | |- Z.lt _ _ => vm_compute; reflexivity
  | |- fits _ _ _ => vm_compute; reflexivity
  | |- can_allocate _ => exact I
  | |- not (@eq _ _ _) => vm_compute; discriminate
  end.

Lemma create_allocates_fresh_session_witness :
  exists w',
    janus_ws_handler Demo.X 1%positive "/janus" "POST" "" 0
      (Demo.gateway (Some Demo.create_text) [0; 77])
    = Returns ((MHD_YES, 0), w')
    /\ is_Some (sessions w' !! to_guint32 77).
Proof.
  refine (proj2 (create_allocates_fresh_session Demo.X
                   (Demo.gateway (Some Demo.create_text) [0; 77])
                   1%positive
                   (Demo.connection_with (Some Demo.create_text))
                   (Demo.request (Some Demo.create_text))
                   "/janus" Demo.create_text "t1" "create" Demo.create_json
                   _ _ _ _ _ _ _ _ _ _) [0] 77 [] _ _ _ _); try run.
  - repeat constructor.
  - intros [H|[p H]]; vm_compute in H; discriminate.
Defined.

Lemma push_event_rejects_non_object_witness :
  janus_push_event Demo.X (Some (Demo.token 1)) (Some Demo.videocall) None
    (Some "[1,2]") None None (Demo.gateway_with_handle None [])
  = Returns (api_code Demo.X JANUS_ERROR_INVALID_JSON_OBJECT,
             Demo.gateway_with_handle None []).
Proof.
  apply (push_event_rejects_non_object Demo.X
           (Demo.gateway_with_handle None []) (Demo.token 1) Demo.videocall
           None None None "[1,2]" 1%positive 1%positive
           (Demo.attached_handle 1 7 1) (JArray [JInteger 1; JInteger 2]));
    run.
Defined.

Lemma push_event_null_arguments_witness :
  janus_push_event Demo.X None (Some Demo.videocall) None (Some "[1,2]")
    None None (Demo.gateway_with_handle None [])
  = Returns (-1, Demo.gateway_with_handle None [])
  /\ forall e, api_code Demo.X e <> -1.
Proof.
  apply (push_event_null_arguments Demo.X (Demo.gateway_with_handle None [])
           None (Some Demo.videocall) None (Some "[1,2]") None None).
  - intros e. destruct e; vm_compute; discriminate.
  - left. reflexivity.
Defined.

Lemma long_poll_get_witness :
  exists w',
    janus_ws_handler Demo.X 1%positive "/janus/42" "GET" "" 0
      (Demo.gateway_with_handle None [])
    = Returns ((MHD_YES, 0), w')
    /\ response_of w' 1%positive
       = Some (MHD_HTTP_OK,
               json_response (set_msg_session_id (path_id "42") (Demo.request None))
                 keepalive)
    /\ clock w' = clock (Demo.gateway_with_handle None []) + 30 * G_USEC_PER_SEC
    /\ sleeps w' = drop 300 (sleeps (Demo.gateway_with_handle None [])).
Proof.
  refine (proj1 (proj1 (proj2 (long_poll_get Demo.X
                                 (Demo.gateway_with_handle None [])
                                 1%positive (Demo.connection_with None)
                                 (Demo.request None) "/janus/42" "42" "" 0
                                 1%positive (Demo.session42 [])
                                 _ _ _ _ _ _ _)) _ _ _) _ _); try run.
  unfold quiet. cbn. constructor.
Defined.

Lemma events_delivered_in_order_witness :
  exists (w4 w5 w6 : world),
    janus_ws_handler Demo.X 1%positive "/janus/42" "GET" "" 0
      (Demo.after (Demo.push "{'n':3}")
         (Demo.after (Demo.push "{'n':2}")
            (Demo.after (Demo.push "{'n':1}")
               (Demo.gateway_with_handle None []))))
    = Returns ((MHD_YES, 0), w4)
    /\ janus_ws_handler Demo.X 2%positive "/janus/42" "GET" "" 0 w4
       = Returns ((MHD_YES, 0), w5)
    /\ janus_ws_handler Demo.X 3%positive "/janus/42" "GET" "" 0 w5
       = Returns ((MHD_YES, 0), w6)
    /\ queue_of w6 1%positive = [].
Proof.
  destruct (events_delivered_in_order Demo.X
              (Demo.gateway_with_handle None [])
              (Demo.after (Demo.push "{'n':1}")
                 (Demo.gateway_with_handle None []))
              (Demo.after (Demo.push "{'n':2}")
                 (Demo.after (Demo.push "{'n':1}")
                    (Demo.gateway_with_handle None [])))
              (Demo.after (Demo.push "{'n':3}")
                 (Demo.after (Demo.push "{'n':2}")
                    (Demo.after (Demo.push "{'n':1}")
                       (Demo.gateway_with_handle None []))))
              (Demo.token 1) Demo.videocall None None None None None None
              None None None
              (Demo.json_text "{'n':1}") (Demo.json_text "{'n':2}")
              (Demo.json_text "{'n':3}")
              1%positive 1%positive (Demo.attached_handle 1 7 1)
              (Demo.session42 [])
              1%positive 2%positive 3%positive
              (Demo.connection_with None) (Demo.connection_with None)
              (Demo.connection_with None)
              (Demo.request None) (Demo.request None) (Demo.request None)
              "/janus/42" "42" "" 0)
    as (e1 & e2 & e3 & j1 & j2 & j3 & w4 & w5 & w6
        & _ & _ & _ & _ & G4 & _ & G5 & _ & G6 & _ & Q6); try run.
  - intros e H. destruct e; vm_compute in H; first [reflexivity|discriminate].
  - exists w4, w5, w6. auto.
Defined.

Lemma attach_failure_rolls_back_witness :
  exists w',
    janus_ws_handler Demo.X 1%positive "/janus/42" "POST" "" 0
      (Demo.session_gateway (Some Demo.attach_text) [] [9] [5])
    = Returns ((MHD_YES, 0), w')
    /\ session_heap w'
       = session_heap (Demo.session_gateway (Some Demo.attach_text) [] [9] [5])
    /\ trace w'
       = [Call_create_session Demo.videocall
            {| gateway_handle := Some 2%positive; plugin_handle := None |}]
    /\ (fun r => data (snd r)) <$> response_of w' 1%positive
       = Some (Demo.json_text
                 "{'janus':'error','transaction':'t3','error':{'code':461,'reason':'"
               +:+ "Couldn't attach to plugin: error '5'"
               +:+ Demo.json_text "'}}").
Proof.
  destruct (attach_failure_rolls_back Demo.X
              (Demo.session_gateway (Some Demo.attach_text) [] [9] [5])
              1%positive (Demo.connection_with (Some Demo.attach_text))
              (Demo.request (Some Demo.attach_text)) "/janus/42"
              Demo.attach_text "t3" "attach" "42" "janus.plugin.videocall"
              Demo.attach_json 1%positive (Demo.session42 [])
              {[ "janus.plugin.videocall" := Demo.videocall ]} Demo.videocall
              [] 9 [] 5 [])
    as (w' & G & Q & _ & T & _ & R); try run.
  - constructor.
  - intros [H|[p H]]; vm_compute in H; discriminate.
  - exists w'. split; [exact G|]. split; [exact Q|].
    split; [rewrite T; reflexivity|]. rewrite R. vm_compute. reflexivity.
Defined.

Lemma message_without_body_reports_invalid_json_witness :
  exists w',
    janus_ws_handler Demo.X 1%positive "/janus/42/7" "POST" "" 0
      (Demo.gateway_with_handle (Some Demo.message_text) [])
    = Returns ((MHD_YES, 0), w')
    /\ (fun r => data (snd r)) <$> response_of w' 1%positive
       = Some (Demo.json_text
                 "{'janus':'error','transaction':'t4','error':{'code':454,'reason':'JSON error: missing mandatory element (body)'}}")
    /\ trace w' = [].
Proof.
  destruct (message_without_body_reports_invalid_json Demo.X
              (Demo.gateway_with_handle (Some Demo.message_text) [])
              1%positive (Demo.connection_with (Some Demo.message_text))
              (Demo.request (Some Demo.message_text)) "/janus/42/7"
              Demo.message_text "t4" "message" "42" "7" Demo.message_json
              1%positive 1%positive (Demo.session42 [])
              (Demo.attached_handle 1 7 1) Demo.videocall (Demo.token 1))
    as (w' & G & R & T); try run.
  exists w'. split; [exact G|]. split; [|exact T].
  rewrite R. vm_compute. reflexivity.
Defined.

Lemma message_with_unparsable_sdp_witness :
  exists w',
    janus_ws_handler Demo.X 1%positive "/janus/42/7" "POST" "" 0
      (Demo.gateway_with_handle (Some Demo.offer_text) [])
    = Returns ((MHD_YES, 0), w')
    /\ (fun r => data (snd r)) <$> response_of w' 1%positive
       = Some (Demo.json_text
                 "{'janus':'error','transaction':'t5','error':{'code':465,'reason':'JSEP error: invalid SDP'}}")
    /\ trace w' = [].
Proof.
  destruct (message_with_unparsable_sdp Demo.X
              (Demo.gateway_with_handle (Some Demo.offer_text) [])
              1%positive (Demo.connection_with (Some Demo.offer_text))
              (Demo.request (Some Demo.offer_text)) "/janus/42/7"
              Demo.offer_text "t5" "message" "42" "7" Demo.offer_json
              1%positive 1%positive (Demo.session42 [])
              (Demo.attached_handle 1 7 1) Demo.videocall (Demo.token 1))
    with (payload := JObject []) (jsep := Demo.jsep_json)
         (jsep_type := "offer") (jsep_sdp := "garbage")
    as (w' & G & R & T & _); try run.
  - left. vm_compute. reflexivity.
  - exists w'. split; [exact G|]. split; [|exact T].
    rewrite R. vm_compute. reflexivity.
Defined.

(** * More of the request handler *)

(** ** Methods and the first call *)

Lemma can_allocate_calloc (w : world) :
  can_allocate w ->
  exists w1, calloc w = Returns (true, w1)
    /\ replied_only w w1 /\ connections w1 = connections w
    /\ ws_path w1 = ws_path w /\ plugins w1 = plugins w
    /\ sleeps w1 = sleeps w /\ clock w1 = clock w.
Proof.
  unfold can_allocate, calloc. destruct (calloc_results w) as [|[|] rest] eqn:E.
  - intros _. exists w. repeat split.
  - intros _. eexists. split; [reflexivity|]. repeat split.
  - contradiction.
Qed.

Section Methods.

Variable X : externals.

(** A method other than GET, POST and OPTIONS, in any case of letters, is
    answered 501 with an empty body and the cross-origin headers, on the
    first call already and whatever the URL; nothing else changes. *)
Theorem unsupported_method_not_implemented
  (w : world) (connection : ptr) (c : MHD_Connection)
  (url method upload_data : string) (size : Z) :
  connections w !! connection = Some c ->
  queued c = None ->
  can_allocate w ->
  supported method = false ->
  exists w',
    janus_ws_handler X connection url method upload_data size w
    = Returns ((MHD_YES, size), w')
    /\ response_of w' connection
       = Some (MHD_HTTP_NOT_IMPLEMENTED, empty_response (request_context c))
    /\ replied_only w w'.
Proof.
  intros Hc Hq Hmem Hm. unfold janus_ws_handler, request_context. mstep.
  rewrite Hc. cbn.
  destruct (con_cls c) as [msg|] eqn:Hmsg; cbn.
  - unfold supported in Hm. rewrite Hm. cbn.
    unfold queue_empty_response.
    erewrite MHD_queue_response_first by eassumption. cbn.
    eexists. split; [reflexivity|]. unfold response_of. cbn.
    rewrite lookup_insert_eq. repeat split.
  - destruct (can_allocate_calloc w Hmem) as (w1 & -> & Hr & Hw1 & _). cbn.
    unfold update_msg. mstep. rewrite Hw1, Hc. cbn.
    unfold supported in Hm. rewrite Hm. cbn.
    unfold queue_empty_response.
    erewrite MHD_queue_response_first;
      [|cbn; apply lookup_insert_eq|exact Hq].
    cbn. eexists. split; [reflexivity|]. unfold response_of. cbn.
    rewrite lookup_insert_eq. split; [reflexivity|].
    destruct Hr as (A1 & A2 & A3 & A4 & A5 & A6). repeat split; assumption.
Qed.

End Methods.

(** ** The request headers *)

Lemma strcasecmp_cons (c d : ascii) (a b : string) :
  strcasecmp (String c a) (String d b)
  = if char_code (tolower c) =? char_code (tolower d)
    then strcasecmp a b
    else char_code (tolower c) - char_code (tolower d).
Proof. reflexivity. Qed.

Lemma strcasecmp_nil_cons (d : ascii) (b : string) :
  strcasecmp "" (String d b) = 0 - char_code (tolower d).
Proof. reflexivity. Qed.

Lemma strcasecmp_prefix_differs (p : string) :
  no_nul p = true ->
  forall (v : string) (c d : ascii) (a b : string),
    strcasecmp v (p +:+ String c a) = 0 ->
    char_code (tolower c) <> 0 ->
    char_code (tolower c) <> char_code (tolower d) ->
    strcasecmp v (p +:+ String d b) <> 0.
Proof.
  induction p as [|x p IH]; intros Hp v c d a b H Hc Hcd.
  - apply (strcasecmp_first_differs v c d a b H Hc Hcd).
  - cbn in Hp. apply andb_true_iff in Hp as [Hx Hp].
    apply negb_true_iff, Z.eqb_neq in Hx.
    change (String x p +:+ String d b) with (String x (p +:+ String d b)).
    change (String x p +:+ String c a) with (String x (p +:+ String c a)) in H.
    destruct v as [|y v].
    + rewrite strcasecmp_nil_cons in *. lia.
    + rewrite strcasecmp_cons in *.
      destruct (Z.eqb_spec (char_code (tolower y)) (char_code (tolower x)));
        [|lia].
      apply (IH Hp v c d a b H Hc Hcd).
Qed.

Lemma header_names_differ (k : string) :
  (strcasecmp k "Content-Type" = 0 ->
   (strcasecmp k "Access-Control-Request-Method" =? 0) = false
   /\ (strcasecmp k "Access-Control-Request-Headers" =? 0) = false)
  /\ (strcasecmp k "Access-Control-Request-Method" = 0 ->
      (strcasecmp k "Access-Control-Request-Headers" =? 0) = false).
Proof.
  split.
  - intros H. split; apply Z.eqb_neq;
      apply (strcasecmp_first_differs k _ _ _ _ H); vm_compute; discriminate.
  - intros H. apply Z.eqb_neq.
    apply (strcasecmp_prefix_differs "Access-Control-Request-" eq_refl
             k "M" "H" "ethod" "eaders" H); vm_compute; discriminate.
Qed.

Lemma MHD_get_connection_values_fields (hs : list (string * string)) :
  forall msg : janus_http_msg,
    MHD_get_connection_values hs msg
    = {| contenttype := header_value "Content-Type" hs (contenttype msg);
         acrh := header_value "Access-Control-Request-Headers" hs (acrh msg);
         acrm := header_value "Access-Control-Request-Method" hs (acrm msg);
         msg_payload := msg_payload msg;
         msg_len := msg_len msg;
         msg_session_id := msg_session_id msg |}.
Proof.
  unfold MHD_get_connection_values, header_value.
  induction hs as [|[k v] hs IH]; intros msg; cbn [fold_left fst snd].
  - destruct msg; reflexivity.
  - rewrite IH. unfold janus_ws_headers.
    destruct (header_names_differ k) as [Hct Hm].
    destruct (strcasecmp k "Content-Type" =? 0) eqn:E1.
    + apply Z.eqb_eq in E1. destruct (Hct E1) as [-> ->]. reflexivity.
    + destruct (strcasecmp k "Access-Control-Request-Method" =? 0) eqn:E2.
      * apply Z.eqb_eq in E2. rewrite (Hm E2). reflexivity.
      * destruct (strcasecmp k "Access-Control-Request-Headers" =? 0);
          reflexivity.
Qed.

(** [janus_ws_headers], called on each request header in turn, keeps of
    them the content type and the two cross-origin request headers: for
    each, the value of the last header of that name, in any case of
    letters; no other header changes the context. *)
Theorem request_headers_read (hs : list (string * string))
  (msg : janus_http_msg) :
  MHD_get_connection_values hs msg
  = {| contenttype := header_value "Content-Type" hs (contenttype msg);
       acrh := header_value "Access-Control-Request-Headers" hs (acrh msg);
       acrm := header_value "Access-Control-Request-Method" hs (acrm msg);
       msg_payload := msg_payload msg;
       msg_len := msg_len msg;
       msg_session_id := msg_session_id msg |}.
Proof. apply MHD_get_connection_values_fields. Qed.

Section FirstCall.

Variable X : externals.
Variables (w : world) (connection : ptr) (c : MHD_Connection)
  (url method upload_data : string) (size : Z) (path : option (list string)).

Hypothesis Hc : connections w !! connection = Some c.
Hypothesis Hfirst : con_cls c = None.
Hypothesis Hmem : can_allocate w.
Hypothesis Hpath : url_path (ws_path w) url = Some path.

(** The call up to the method test, on a first call. *)
Lemma first_call_prologue :
  exists w1,
    replied_only w w1
    /\ ws_path w1 = ws_path w
    /\ connections w1
       = <[connection := set_con_cls (Some (request_context c)) c]>
           (connections w)
    /\ forall k : bool * janus_http_msg * Z -> M (Z * Z),
         (let* first :=
            (let* ok := calloc in
             if negb ok then
               let* _ := MHD_queue_response connection
                           MHD_HTTP_INTERNAL_SERVER_ERROR None in
               fault
             else
               let msg := MHD_get_connection_values (request_headers c) zero_msg in
               let* _ := update_msg connection msg in
               ret (true, msg, MHD_YES)) in
          k first) w
         = k (true, request_context c, MHD_YES) w1.
Proof.
  destruct (can_allocate_calloc w Hmem)
    as (w0 & Hcal & Hr & Hconn & Hpath0 & _).
  exists (set_connections
            (<[connection := set_con_cls (Some (request_context c)) c]>
               (connections w0)) w0).
  split; [|split; [|split]].
  - destruct Hr as (A1 & A2 & A3 & A4 & A5 & A6). repeat split; assumption.
  - exact Hpath0.
  - cbn. rewrite Hconn. reflexivity.
  - intros k. unfold bind at 1 2. rewrite Hcal. cbn.
    unfold update_msg. mstep. rewrite Hconn, Hc. cbn.
    unfold request_context. rewrite Hfirst. reflexivity.
Qed.

(** After the method test: the URL is inspected, and a first call ends
    there. *)
Lemma first_call_epilogue (w1 : world) (ret1 : Z) (msg : janus_http_msg) :
  ws_path w1 = ws_path w ->
  (let* w := get in
   if negb (strcasecmp url (ws_path w) =? 0) then
     let* basepath := deref (g_strsplit url (ws_path w)) in
     let* b1 := deref (strv_get basepath 1) in
     let* ret2 := if negb (starts_with_slash b1)
                  then queue_empty_response connection msg MHD_HTTP_NOT_FOUND
                  else ret ret1 in
     ret (ret2, size)
   else ret (ret1, size)) w1
  = Returns ((ret1, size), w1).
Proof.
  intros Hp. mstep. rewrite Hp. unfold url_path in Hpath.
  destruct (strcasecmp url (ws_path w) =? 0); cbn; [reflexivity|].
  destruct (g_strsplit url (ws_path w)) as [basepath|]; [|discriminate]. cbn.
  destruct (strv_get basepath 1) as [[b1|]|]; try discriminate. cbn.
  destruct (starts_with_slash (Some b1)); [|discriminate]. reflexivity.
Qed.

(** The first call of a GET or a POST (the method in any case of
    letters) on a URL of the gateway only builds the request context from
    the headers: it queues no response, leaves the upload data for the
    next call, and touches neither sessions nor handles. *)
Theorem first_call_reads_headers :
  supported method = true ->
  (strcasecmp method "OPTIONS" =? 0) = false ->
  exists w',
    janus_ws_handler X connection url method upload_data size w
    = Returns ((MHD_YES, size), w')
    /\ connections w'
       = <[connection := set_con_cls (Some (request_context c)) c]>
           (connections w)
    /\ replied_only w w'.
Proof.
  intros Hs Ho. destruct first_call_prologue as (w1 & Hr & Hp & Hconn & Hk).
  exists w1. split; [|split; assumption].
  unfold janus_ws_handler. unfold bind at 1 2. unfold get at 1. cbn.
  rewrite Hc. unfold deref at 1, ret at 1. cbn -[bind]. rewrite Hfirst.
  rewrite Hk. cbn -[bind get]. unfold supported in Hs. rewrite Hs, Ho.
  cbn -[bind get]. unfold bind at 1, ret at 1. cbn -[bind get].
  apply (first_call_epilogue w1 MHD_YES (request_context c) Hp).
Qed.

(** The first call of an OPTIONS request on a URL of the gateway is
    answered at once: 200, an empty body, [Access-Control-Allow-Origin: *],
    and the methods and headers the request asked for in
    [Access-Control-Request-Method] and [Access-Control-Request-Headers]
    echoed as allowed. *)
Theorem options_preflight :
  queued c = None ->
  strcasecmp method "OPTIONS" = 0 ->
  exists w',
    janus_ws_handler X connection url method upload_data size w
    = Returns ((MHD_YES, size), w')
    /\ response_of w' connection
       = Some (MHD_HTTP_OK,
               {| headers :=
                    [("Access-Control-Allow-Origin", "*")]
                    ++ match header_value "Access-Control-Request-Method"
                               (request_headers c) None with
                       | Some m => [("Access-Control-Allow-Methods", m)]
                       | None => []
                       end
                    ++ match header_value "Access-Control-Request-Headers"
                               (request_headers c) None with
                       | Some h => [("Access-Control-Allow-Headers", h)]
                       | None => []
                       end;
                  data := "" |})
    /\ replied_only w w'.
Proof.
  intros Hq Ho. destruct first_call_prologue as (w1 & Hr & Hp & Hconn & Hk).
  unfold janus_ws_handler. unfold bind at 1 2. unfold get at 1. cbn.
  rewrite Hc. unfold deref at 1, ret at 1. cbn -[bind]. rewrite Hfirst.
  rewrite Hk. cbn -[bind get]. rewrite Ho, !orb_true_r.
  cbn -[bind get]. unfold bind at 1. unfold queue_empty_response.
  erewrite MHD_queue_response_first;
    [|rewrite Hconn; apply lookup_insert_eq|exact Hq].
  rewrite (first_call_epilogue _ MHD_YES (request_context c)) by exact Hp.
  eexists. split; [reflexivity|]. split.
  - unfold response_of. cbn. rewrite lookup_insert_eq. cbn.
    unfold request_context. rewrite Hfirst.
    rewrite MHD_get_connection_values_fields. reflexivity.
  - destruct Hr as (A1 & A2 & A3 & A4 & A5 & A6). repeat split; assumption.
Qed.

End FirstCall.

(** ** The body of a POST *)

Lemma append_cons (c : ascii) (s t : string) :
  String c s +:+ t = String c (s +:+ t).
Proof. reflexivity. Qed.

Lemma append_empty_r (s : string) : s +:+ "" = s.
Proof.
  induction s as [|c s IH]; [reflexivity|]. rewrite append_cons, IH. reflexivity.
Qed.

Lemma append_assoc (a b c : string) : (a +:+ b) +:+ c = a +:+ (b +:+ c).
Proof.
  induction a as [|x a IH]; [reflexivity|]. rewrite !append_cons, IH.
  reflexivity.
Qed.

Lemma length_append (a b : string) :
  String.length (a +:+ b) = (String.length a + String.length b)%nat.
Proof.
  induction a as [|x a IH]; [reflexivity|]. rewrite append_cons. cbn.
  rewrite IH. reflexivity.
Qed.

Lemma substring_whole (s : string) : String.substring 0 (String.length s) s = s.
Proof. induction s as [|c s IH]; cbn; [reflexivity|]. rewrite IH. reflexivity. Qed.

Lemma received_body (chunks : list string) :
  forall msg : janus_http_msg,
    body_so_far (received msg chunks)
    = body_so_far msg +:+ foldr String.append "" chunks
    /\ msg_len (received msg chunks)
       = msg_len msg + Z.of_nat (String.length (foldr String.append "" chunks)).
Proof.
  unfold received.
  induction chunks as [|d rest IH]; intros msg; cbn [fold_left foldr].
  - rewrite append_empty_r. cbn. split; [reflexivity|lia].
  - destruct (IH (with_chunk msg d)) as [-> ->].
    rewrite length_append.
    change (body_so_far (with_chunk msg d)) with (body_so_far msg +:+ d).
    change (msg_len (with_chunk msg d))
      with (msg_len msg + Z.of_nat (String.length d)).
    rewrite append_assoc. split; [reflexivity|lia].
Qed.

Lemma received_payload (chunks : list string) (msg : janus_http_msg) :
  chunks <> [] ->
  msg_payload (received msg chunks) = Some (body_so_far (received msg chunks)).
Proof.
  intros Hne.
  assert (H : forall chunks msg,
             msg_payload msg = Some (body_so_far msg) ->
             msg_payload (received msg chunks)
             = Some (body_so_far (received msg chunks))).
  { clear. unfold received. induction chunks as [|d rest IH]; intros msg Hm;
      cbn [fold_left]; [exact Hm|]. apply IH. reflexivity. }
  destruct chunks as [|d rest]; [contradiction|].
  unfold received. cbn [fold_left]. apply H. reflexivity.
Qed.

Section Body.

Variable X : externals.

Lemma url_scope_path (base url : string) (sp hp : option string) :
  url_scope base url = Some (sp, hp) ->
  exists path,
    url_path base url = Some path
    /\ component path 1 = sp
    /\ match sp with Some _ => component path 2 | None => None end = hp
    /\ bool_decide (is_Some sp) && bool_decide (is_Some hp)
       && bool_decide (is_Some (component path 3)) = false.
Proof.
  unfold url_scope. destruct (url_path base url) as [path|]; [|discriminate].
  destruct (bool_decide _ && bool_decide _ && bool_decide _) eqn:E;
    [discriminate|].
  intros H. injection H as <- <-. exists path. repeat split. exact E.
Qed.

(** One call with upload data appends it to the body kept in the request
    context and asks for more. *)
Lemma janus_ws_handler_chunk (w : world) (connection : ptr)
  (c : MHD_Connection) (msg : janus_http_msg) (url chunk : string)
  (sp hp : option string) :
  connections w !! connection = Some c ->
  con_cls c = Some msg ->
  url_scope (ws_path w) url = Some (sp, hp) ->
  chunk <> "" ->
  calloc_results w = [] ->
  janus_ws_handler X connection url "POST" chunk
    (Z.of_nat (String.length chunk)) w
  = Returns ((MHD_YES, 0),
             set_connections
               (<[connection := set_con_cls (Some (with_chunk msg chunk)) c]>
                  (connections w)) w).
Proof.
  intros Hc Hmsg Hscope Hne Hmem.
  destruct (url_scope_path _ _ _ _ Hscope) as (path & Hpath & <- & <- & E).
  rewrite (janus_ws_handler_routed X w connection c msg url "POST" path);
    auto.
  unfold janus_ws_request. rewrite E.
  destruct method_tests as (-> & _). cbn.
  replace (Z.of_nat (String.length chunk) =? 0) with false
    by (symmetry; apply Z.eqb_neq; destruct chunk; [contradiction|cbn; lia]).
  cbn. unfold bind at 1. unfold calloc. rewrite Hmem.
  cbn. unfold update_msg. mstep. rewrite Hc. cbn.
  rewrite Nat2Z.id, substring_whole. reflexivity.
Qed.

(** The body of a POST reaches the handler in pieces, one call for each:
    every call appends its piece to the body kept in the request context,
    answers [MHD_YES] with the upload size reset to zero, and queues no
    response; the final call, without upload data, then handles the
    request with the concatenation of the pieces as its body. *)
Theorem body_arrives_in_pieces
  (w : world) (connection : ptr) (c : MHD_Connection) (msg : janus_http_msg)
  (url : string) (chunks : list string) (sp hp : option string) :
  connections w !! connection = Some c ->
  con_cls c = Some msg ->
  msg_payload msg = None ->
  url_scope (ws_path w) url = Some (sp, hp) ->
  calloc_results w = [] ->
  chunks <> [] ->
  Forall (fun chunk => chunk <> "") chunks ->
  exists w',
    deliver X connection url chunks w
    = Returns (map (fun _ => (MHD_YES, 0)) chunks, w')
    /\ w' = set_connections
              (<[connection := set_con_cls (Some (received msg chunks)) c]>
                 (connections w)) w
    /\ response_of w' connection = queued c
    /\ msg_payload (received msg chunks)
       = Some (foldr String.append "" chunks)
    /\ msg_len (received msg chunks)
       = msg_len msg
         + Z.of_nat (String.length (foldr String.append "" chunks))
    /\ janus_ws_handler X connection url "POST" "" 0 w'
       = (let* r := janus_ws_dispatch X connection (received msg chunks) "POST"
                      (Some (foldr String.append "" chunks)) sp hp in
          ret (r, 0)) w'.
Proof.
  intros Hc Hmsg Hnone Hscope Hmem Hne Hall.
  assert (Hrun : forall chunks w c msg,
             connections w !! connection = Some c ->
             con_cls c = Some msg ->
             url_scope (ws_path w) url = Some (sp, hp) ->
             calloc_results w = [] ->
             Forall (fun chunk => chunk <> "") chunks ->
             chunks <> [] ->
             deliver X connection url chunks w
             = Returns (map (fun _ => (MHD_YES, 0)) chunks,
                        set_connections
                          (<[connection :=
                               set_con_cls (Some (received msg chunks)) c]>
                             (connections w)) w)).
  { clear. induction chunks as [|d rest IH]; intros w c msg Hc Hmsg Hscope Hmem Hall Hne;
      [contradiction|].
    apply Forall_cons in Hall as [Hd Hall].
    cbn [deliver]. unfold bind at 1.
    rewrite (janus_ws_handler_chunk w connection c msg url d sp hp) by assumption.
    destruct rest as [|d2 rest]; [reflexivity|].
    unfold bind at 1.
    rewrite (IH _ (set_con_cls (Some (with_chunk msg d)) c) (with_chunk msg d));
      try assumption; try discriminate; try reflexivity.
    - cbn. rewrite insert_insert_eq. reflexivity.
    - cbn. apply lookup_insert_eq. }
  pose proof (received_payload chunks msg Hne) as Hp.
  destruct (received_body chunks msg) as [Hb Hl].
  rewrite Hb in Hp. unfold body_so_far in Hp at 1. rewrite Hnone in Hp.
  cbn in Hp.
  eexists. split; [apply (Hrun chunks w c msg); assumption|].
  split; [reflexivity|].
  split; [unfold response_of; cbn; rewrite lookup_insert_eq; reflexivity|].
  split; [exact Hp|]. split; [exact Hl|].
  apply (janus_ws_handler_post X _ connection
           (set_con_cls (Some (received msg chunks)) c)).
  - cbn. apply lookup_insert_eq.
  - reflexivity.
  - exact Hscope.
  - exact Hp.
Qed.

End Body.

(** ** Paths that name nothing *)

Section NotFound.

Variable X : externals.
Variables (w : world) (connection : ptr) (c : MHD_Connection)
  (msg : janus_http_msg) (url : string).

Hypothesis Hc : connections w !! connection = Some c.
Hypothesis Hmsg : con_cls c = Some msg.
Hypothesis Hq : queued c = None.

(** The world once a 404 with the cross-origin headers is queued. *)
Let not_found : world :=
  set_connections
    (<[connection :=
         set_queued (Some (MHD_HTTP_NOT_FOUND, empty_response msg)) c]>
       (connections w)) w.

Lemma dispatch_invalid_identifier (method : string) (payload : option string)
  (sp : string) (hp : option string) :
  path_id sp < 1 \/ (exists h, hp = Some h /\ path_id h < 1) ->
  exists w',
    janus_ws_dispatch X connection msg method payload (Some sp) hp w
    = Returns (MHD_YES, w')
    /\ response_of w' connection
       = Some (MHD_HTTP_NOT_FOUND, empty_response msg)
    /\ replied_only w w'.
Proof.
  intros Hbad. unfold janus_ws_dispatch. fold (path_id sp).
  destruct (path_id sp <? 1) eqn:Hsid.
  - unfold queue_empty_response.
    erewrite MHD_queue_response_first by eassumption.
    eexists. split; [reflexivity|]. unfold response_of. cbn.
    rewrite lookup_insert_eq. repeat split.
  - destruct Hbad as [Hbad|(h & -> & Hbad)]; [lia|].
    fold (path_id h). unfold update_msg. mstep. rewrite Hc. cbn.
    replace (path_id h <? 1) with true by lia.
    unfold queue_empty_response.
    erewrite MHD_queue_response_first;
      [|cbn; apply lookup_insert_eq|exact Hq].
    eexists. split; [reflexivity|]. unfold response_of. cbn.
    rewrite lookup_insert_eq. repeat split.
Qed.

(** A session or handle component that does not denote a positive
    number (letters, an empty number, zero) is answered 404 with the
    cross-origin headers, for a GET and for a POST alike; a POST body is
    not even parsed, and no session or handle changes. *)
Theorem invalid_identifier_not_found (sp : string) (hp : option string) :
  url_scope (ws_path w) url = Some (Some sp, hp) ->
  path_id sp < 1 \/ (exists h, hp = Some h /\ path_id h < 1) ->
  (forall (upload_data : string) (size : Z),
      exists w',
        janus_ws_handler X connection url "GET" upload_data size w
        = Returns ((MHD_YES, size), w')
        /\ response_of w' connection
           = Some (MHD_HTTP_NOT_FOUND, empty_response msg)
        /\ replied_only w w')
  /\ (forall body : string,
        msg_payload msg = Some body ->
        exists w',
          janus_ws_handler X connection url "POST" "" 0 w
          = Returns ((MHD_YES, 0), w')
          /\ response_of w' connection
             = Some (MHD_HTTP_NOT_FOUND, empty_response msg)
          /\ replied_only w w').
Proof.
  intros Hscope Hbad. split.
  - intros upload_data size.
    rewrite (janus_ws_handler_get X w connection c msg url upload_data size
               (Some sp) hp) by assumption.
    destruct (dispatch_invalid_identifier "GET" None sp hp Hbad)
      as (w' & Hrun & Hresp & Hframe).
    exists w'. unfold bind. rewrite Hrun. auto.
  - intros body Hbody.
    rewrite (janus_ws_handler_post X w connection c msg url body ""
               (Some sp) hp) by assumption.
    destruct (dispatch_invalid_identifier "POST" (Some body) sp hp Hbad)
      as (w' & Hrun & Hresp & Hframe).
    exists w'. unfold bind. rewrite Hrun. auto.
Qed.

End NotFound.

(** ** Error replies of the router *)

Section Router.

Variable X : externals.
Variables (w : world) (connection : ptr) (c : MHD_Connection)
  (msg : janus_http_msg) (url body sp : string) (hp : option string).

Hypothesis Hc : connections w !! connection = Some c.
Hypothesis Hmsg : con_cls c = Some msg.
Hypothesis Hq : queued c = None.
Hypothesis Hscope : url_scope (ws_path w) url = Some (Some sp, hp).
Hypothesis Hsid : 1 <= path_id sp.
Hypothesis Hhid : forall h, hp = Some h -> 1 <= path_id h.
Hypothesis Hmem : can_allocate w.

Let msg' := set_msg_session_id (path_id sp) msg.
Let w1 := with_session_id connection c msg (path_id sp) w.

Lemma post_reaches_router :
  msg_payload msg = Some body ->
  janus_ws_handler X connection url "POST" "" 0 w
  = (let* r := janus_ws_post X connection msg' (Some body) (path_id sp)
                 (match hp with Some h => path_id h | None => 0 end) in
     ret (r, 0)) w1.
Proof.
  intros Hbody.
  rewrite (janus_ws_handler_post X w connection c msg url body "" (Some sp) hp)
    by assumption.
  unfold janus_ws_dispatch. fold (path_id sp).
  replace (path_id sp <? 1) with false by lia.
  destruct method_tests as (_ & Hpg & _). rewrite Hpg.
  rewrite (bool_decide_eq_false_2 (Some body = None)) by discriminate.
  unfold update_msg. mstep. rewrite Hc. cbn.
  destruct hp as [h|].
  - fold (path_id h). specialize (Hhid h eq_refl).
    replace (path_id h <? 1) with false by lia.
    rewrite andb_false_r. reflexivity.
  - rewrite (bool_decide_eq_false_2 (is_Some None))
      by (intros [? ?]; discriminate).
    reflexivity.
Qed.

(** An error reply sent once the session id is stored in the context. *)
Lemma janus_ws_error_replies (transaction : option string)
  (error : janus_error) (format : string) (args : list fmt_arg) :
  fits X format args ->
  exists w',
    janus_ws_error X connection msg' transaction error (Some format) args w1
    = Returns (MHD_YES, w')
    /\ response_of w' connection
       = Some (error_response X msg' transaction error format args)
    /\ replied_only w w'.
Proof.
  intros Hfit.
  destruct (janus_ws_error_sends X w1 connection
              (set_con_cls (Some msg') c) msg' transaction error format args)
    as (w' & Hrun & Hframe & Hconn); try assumption.
  - cbn. apply lookup_insert_eq.
  - exists w'. split; [exact Hrun|]. split.
    + unfold response_of. rewrite Hconn, lookup_insert_eq. reflexivity.
    + destruct Hframe as (A1 & A2 & A3 & A4 & A5 & A6). repeat split; assumption.
Qed.

(** A POST below the base path is checked in this order, before the
    session is even looked up: the body must parse as JSON
    (INVALID_JSON, with the parser's line and text), be an object
    (INVALID_JSON_OBJECT), and hold a string [transaction] and a string
    [janus] (MISSING_MANDATORY_ELEMENT).  Each failure is answered 200
    with the error envelope; the envelope carries the transaction only
    when the request had one; nothing but the response changes. *)
Theorem request_envelope_checked :
  msg_payload msg = Some body ->
  (forall error : json_error_t,
      json_loads X (Some body) = inl error ->
      fits X "JSON error: on line %d: %s"
        [ArgInt (line error); ArgStr (text error)] ->
      exists w',
        janus_ws_handler X connection url "POST" "" 0 w
        = Returns ((MHD_YES, 0), w')
        /\ response_of w' connection
           = Some (error_response X msg' None JANUS_ERROR_INVALID_JSON
                     "JSON error: on line %d: %s"
                     [ArgInt (line error); ArgStr (text error)])
        /\ replied_only w w')
  /\ (forall root : json_t,
        json_loads X (Some body) = inr root ->
        (json_is_object root = false ->
         fits X "JSON error: not an object" [] ->
         exists w',
           janus_ws_handler X connection url "POST" "" 0 w
           = Returns ((MHD_YES, 0), w')
           /\ response_of w' connection
              = Some (error_response X msg' None
                        JANUS_ERROR_INVALID_JSON_OBJECT
                        "JSON error: not an object" [])
           /\ replied_only w w')
        /\ (json_is_object root = true ->
            string_member root "transaction" = None ->
            fits X "JSON error: missing mandatory element (transaction)" [] ->
            exists w',
              janus_ws_handler X connection url "POST" "" 0 w
              = Returns ((MHD_YES, 0), w')
              /\ response_of w' connection
                 = Some (error_response X msg' None
                           JANUS_ERROR_MISSING_MANDATORY_ELEMENT
                           "JSON error: missing mandatory element (transaction)"
                           [])
              /\ replied_only w w')
        /\ (forall transaction : string,
              json_is_object root = true ->
              string_member root "transaction" = Some transaction ->
              string_member root "janus" = None ->
              fits X "JSON error: missing mandatory element (janus)" [] ->
              exists w',
                janus_ws_handler X connection url "POST" "" 0 w
                = Returns ((MHD_YES, 0), w')
                /\ response_of w' connection
                   = Some (error_response X msg' (Some transaction)
                             JANUS_ERROR_MISSING_MANDATORY_ELEMENT
                             "JSON error: missing mandatory element (janus)" [])
                /\ replied_only w w')).
Proof.
  intros Hbody. rewrite (post_reaches_router Hbody). unfold janus_ws_post.
  split; [|intros root Hroot; split; [|split]].
  - intros error Hloads Hfit. rewrite Hloads.
    destruct (janus_ws_error_replies None JANUS_ERROR_INVALID_JSON _ _ Hfit)
      as (w' & Hrun & Hresp & Hframe).
    exists w'. unfold bind. rewrite Hrun. auto.
  - intros Hobj Hfit. rewrite Hroot, Hobj. cbn.
    destruct (janus_ws_error_replies None JANUS_ERROR_INVALID_JSON_OBJECT
                _ _ Hfit) as (w' & Hrun & Hresp & Hframe).
    exists w'. unfold bind. rewrite Hrun. auto.
  - intros Hobj Htx Hfit. rewrite Hroot, Hobj, Htx. cbn.
    destruct (janus_ws_error_replies None
                JANUS_ERROR_MISSING_MANDATORY_ELEMENT _ _ Hfit)
      as (w' & Hrun & Hresp & Hframe).
    exists w'. unfold bind. rewrite Hrun. auto.
  - intros transaction Hobj Htx Hverb Hfit. rewrite Hroot, Hobj, Htx, Hverb. cbn.
    destruct (janus_ws_error_replies (Some transaction)
                JANUS_ERROR_MISSING_MANDATORY_ELEMENT _ _ Hfit)
      as (w' & Hrun & Hresp & Hframe).
    exists w'. unfold bind. rewrite Hrun. auto.
Qed.

End Router.

Lemma detach_is_no_other_verb (v : string) :
  strcasecmp v "detach" = 0 ->
  (strcasecmp v "attach" =? 0) = false
  /\ (strcasecmp v "destroy" =? 0) = false.
Proof.
  intros H. split; apply Z.eqb_neq.
  - apply (strcasecmp_first_differs v _ _ _ _ H); vm_compute; discriminate.
  - apply (strcasecmp_prefix_differs "de" eq_refl v "t" "s" "ach" "troy" H);
      vm_compute; discriminate.
Qed.

Section SessionScope.

Variable X : externals.
Variables (w : world) (connection : ptr) (c : MHD_Connection)
  (msg : janus_http_msg) (url body transaction verb sp : string)
  (root : json_t).

Hypothesis Hc : connections w !! connection = Some c.
Hypothesis Hmsg : con_cls c = Some msg.
Hypothesis Hq : queued c = None.
Hypothesis Hscope : url_scope (ws_path w) url = Some (Some sp, None).
Hypothesis Hsid : 1 <= path_id sp.
Hypothesis Hmem : can_allocate w.
Hypothesis Hbody : msg_payload msg = Some body.
Hypothesis Hloads : json_loads X (Some body) = inr root.
Hypothesis Hobj : json_is_object root = true.
Hypothesis Htx : string_member root "transaction" = Some transaction.
Hypothesis Hverb : string_member root "janus" = Some verb.

Let msg' := set_msg_session_id (path_id sp) msg.
Let w1 := with_session_id connection c msg (path_id sp) w.

Lemma no_handle (h : string) : @None string = Some h -> 1 <= path_id h.
Proof. discriminate. Qed.

(** A session id that is not in the table: a POST is answered 200 with
    the SESSION_NOT_FOUND envelope, which echoes the transaction and
    names the id; a GET is answered 404.  Neither changes anything
    else. *)
Theorem unknown_session :
  sessions w !! path_id sp = None ->
  (fits X "No such session %lu" [ArgInt (path_id sp)] ->
   exists w',
     janus_ws_handler X connection url "POST" "" 0 w
     = Returns ((MHD_YES, 0), w')
     /\ response_of w' connection
        = Some (error_response X msg' (Some transaction)
                  JANUS_ERROR_SESSION_NOT_FOUND "No such session %lu"
                  [ArgInt (path_id sp)])
     /\ replied_only w w')
  /\ (forall (upload_data : string) (size : Z),
        exists w',
          janus_ws_handler X connection url "GET" upload_data size w
          = Returns ((MHD_YES, size), w')
          /\ response_of w' connection
             = Some (MHD_HTTP_NOT_FOUND, empty_response msg)
          /\ replied_only w w').
Proof.
  intros Hnone. split.
  - intros Hfit.
    rewrite (post_reaches_router X w connection c msg url body sp None
               Hc Hmsg Hscope Hsid no_handle Hbody).
    unfold janus_ws_post. rewrite Hloads, Hobj, Htx, Hverb. cbn.
    unfold bind at 1 2. unfold janus_session_find. mstep. rewrite Hnone.
    destruct (janus_ws_error_replies X w connection c msg sp Hq Hmem
                (Some transaction) JANUS_ERROR_SESSION_NOT_FOUND _ _ Hfit)
      as (w' & Hrun & Hresp & Hframe).
    exists w'. rewrite Hrun. auto.
  - intros upload_data size.
    rewrite (janus_ws_handler_get X w connection c msg url upload_data size
               (Some sp) None) by assumption.
    unfold janus_ws_dispatch. fold (path_id sp).
    replace (path_id sp <? 1) with false by lia.
    destruct method_tests as (_ & _ & Hgg & _). rewrite Hgg.
    rewrite (bool_decide_eq_false_2 (is_Some None))
      by (intros [? ?]; discriminate).
    unfold update_msg. mstep. rewrite Hc. cbn.
    unfold janus_ws_get, janus_session_find. mstep. rewrite Hnone.
    unfold queue_empty_response.
    erewrite MHD_queue_response_first;
      [|cbn; apply lookup_insert_eq|exact Hq].
    eexists. split; [reflexivity|]. unfold response_of. cbn.
    rewrite lookup_insert_eq. repeat split.
Qed.

Variables (s : ptr) (ss : janus_session).
Hypothesis Hsession : sessions w !! path_id sp = Some s.
Hypothesis Hheap : session_heap w !! s = Some ss.

(** [detach] and [message] address a handle: sent to the URL of a
    session they are refused with INVALID_REQUEST_PATH, the reply
    echoing the transaction and quoting the verb, and no plugin is
    called. *)
Theorem handle_verbs_need_a_handle :
  strcasecmp verb "detach" = 0 \/ strcasecmp verb "message" = 0 ->
  fits X "Unhandled request '%s' at this path" [ArgStr verb] ->
  exists w',
    janus_ws_handler X connection url "POST" "" 0 w
    = Returns ((MHD_YES, 0), w')
    /\ response_of w' connection
       = Some (error_response X msg' (Some transaction)
                 JANUS_ERROR_INVALID_REQUEST_PATH
                 "Unhandled request '%s' at this path" [ArgStr verb])
    /\ replied_only w w'.
Proof.
  intros Hv Hfit.
  rewrite (session_post_reaches_verb X w connection c msg url body transaction
             verb sp None root s Hc Hmsg Hscope Hsid Hbody Hloads Hobj Htx
             Hverb Hsession eq_refl).
  destruct (janus_ws_error_replies X w connection c msg sp Hq Hmem
              (Some transaction) JANUS_ERROR_INVALID_REQUEST_PATH _ _ Hfit)
    as (w' & Hrun & Hresp & Hframe).
  exists w'. split; [|auto]. unfold bind at 1.
  destruct Hv as [Hv|Hv].
  - destruct (detach_is_no_other_verb verb Hv) as [-> ->]. rewrite Hv. cbn.
    unfold janus_ws_detach. rewrite Hrun. reflexivity.
  - destruct (message_is_no_other_verb verb Hv) as (-> & -> & ->).
    rewrite Hv. cbn.
    unfold janus_ws_message. rewrite Hrun. reflexivity.
Qed.

(** A verb that is none of [attach], [destroy], [detach] and [message]
    is answered with the UNKNOWN_REQUEST envelope quoting it.  The
    reason is formatted into a buffer of 512 bytes without a bound: a
    verb long enough makes [vsprintf] write past its end. *)
Theorem unknown_verb :
  strcasecmp verb "attach" <> 0 ->
  strcasecmp verb "destroy" <> 0 ->
  strcasecmp verb "detach" <> 0 ->
  strcasecmp verb "message" <> 0 ->
  (fits X "Unknown request '%s'" [ArgStr verb] ->
   exists w',
     janus_ws_handler X connection url "POST" "" 0 w
     = Returns ((MHD_YES, 0), w')
     /\ response_of w' connection
        = Some (error_response X msg' (Some transaction)
                  JANUS_ERROR_UNKNOWN_REQUEST "Unknown request '%s'"
                  [ArgStr verb])
     /\ replied_only w w')
  /\ (~ fits X "Unknown request '%s'" [ArgStr verb] ->
      janus_ws_handler X connection url "POST" "" 0 w = Faults).
Proof.
  intros H1 H2 H3 H4.
  rewrite (session_post_reaches_verb X w connection c msg url body transaction
             verb sp None root s Hc Hmsg Hscope Hsid Hbody Hloads Hobj Htx
             Hverb Hsession eq_refl).
  apply Z.eqb_neq in H1, H2, H3, H4. rewrite H1, H2, H3, H4.
  split.
  - intros Hfit.
    destruct (janus_ws_error_replies X w connection c msg sp Hq Hmem
                (Some transaction) JANUS_ERROR_UNKNOWN_REQUEST _ _ Hfit)
      as (w' & Hrun & Hresp & Hframe).
    exists w'. unfold bind at 1. rewrite Hrun. auto.
  - intros Hbig. unfold fits in Hbig. unfold bind at 1.
    unfold janus_ws_error. unfold bind at 1.
    destruct (can_allocate_calloc
                (with_session_id connection c msg (path_id sp) w) Hmem)
      as (w2 & -> & _). cbn.
    replace (512 <=? _) with true by lia. reflexivity.
Qed.

End SessionScope.

Section BasePath.

Variable X : externals.
Variables (w : world) (connection : ptr) (c : MHD_Connection)
  (msg : janus_http_msg) (url : string).

Hypothesis Hc : connections w !! connection = Some c.
Hypothesis Hmsg : con_cls c = Some msg.
Hypothesis Hq : queued c = None.
Hypothesis Hscope : url_scope (ws_path w) url = Some (None, None).
Hypothesis Hmem : can_allocate w.

Lemma janus_ws_error_answers (transaction : option string)
  (error : janus_error) (format : string) (args : list fmt_arg) :
  fits X format args ->
  exists w',
    janus_ws_error X connection msg transaction error (Some format) args w
    = Returns (MHD_YES, w')
    /\ response_of w' connection
       = Some (error_response X msg transaction error format args)
    /\ replied_only w w'.
Proof.
  intros Hfit.
  destruct (janus_ws_error_sends X w connection c msg transaction error
              format args Hc Hq Hmem Hfit) as (w' & Hrun & Hframe & Hconn).
  exists w'. split; [exact Hrun|]. split; [|exact Hframe].
  unfold response_of. rewrite Hconn, lookup_insert_eq. reflexivity.
Qed.

(** The base path only creates sessions: a GET is answered with the
    USE_POST envelope, and a POST whose verb is not [create] with
    INVALID_REQUEST_PATH, echoing the transaction; neither creates a
    session. *)
Theorem base_path_only_creates :
  (forall (upload_data : string) (size : Z),
      fits X "Use POST to create a session" [] ->
      exists w',
        janus_ws_handler X connection url "GET" upload_data size w
        = Returns ((MHD_YES, size), w')
        /\ response_of w' connection
           = Some (error_response X msg None JANUS_ERROR_USE_POST
                     "Use POST to create a session" [])
        /\ replied_only w w')
  /\ (forall (body transaction verb : string) (root : json_t),
        msg_payload msg = Some body ->
        json_loads X (Some body) = inr root ->
        json_is_object root = true ->
        string_member root "transaction" = Some transaction ->
        string_member root "janus" = Some verb ->
        strcasecmp verb "create" <> 0 ->
        fits X "Unhandled request '%s' at this path" [ArgStr verb] ->
        exists w',
          janus_ws_handler X connection url "POST" "" 0 w
          = Returns ((MHD_YES, 0), w')
          /\ response_of w' connection
             = Some (error_response X msg (Some transaction)
                       JANUS_ERROR_INVALID_REQUEST_PATH
                       "Unhandled request '%s' at this path" [ArgStr verb])
          /\ replied_only w w').
Proof.
  split.
  - intros upload_data size Hfit.
    rewrite (janus_ws_handler_get X w connection c msg url upload_data size
               None None) by assumption.
    unfold janus_ws_dispatch, janus_ws_create.
    destruct method_tests as (_ & _ & -> & _).
    destruct (janus_ws_error_answers None JANUS_ERROR_USE_POST _ _ Hfit)
      as (w' & Hrun & Hresp & Hframe).
    exists w'. unfold bind. rewrite Hrun. auto.
  - intros body transaction verb root Hbody Hloads Hobj Htx Hverb Hv Hfit.
    rewrite (janus_ws_handler_post X w connection c msg url body "" None None)
      by assumption.
    unfold janus_ws_dispatch, janus_ws_create.
    destruct method_tests as (Hpp & Hpg & _). rewrite Hpg, Hpp.
    rewrite bool_decide_eq_false_2 by discriminate.
    rewrite Hloads, Hobj, Htx, Hverb. cbn.
    apply Z.eqb_neq in Hv. rewrite Hv. cbn.
    destruct (janus_ws_error_answers (Some transaction)
                JANUS_ERROR_INVALID_REQUEST_PATH _ _ Hfit)
      as (w' & Hrun & Hresp & Hframe).
    exists w'. unfold bind. rewrite Hrun. auto.
Qed.

End BasePath.

Section Redirect.

Variable X : externals.
Variables (w : world) (connection : ptr) (c : MHD_Connection)
  (msg : janus_http_msg) (url sp h upload_data : string) (size : Z).

Hypothesis Hc : connections w !! connection = Some c.
Hypothesis Hmsg : con_cls c = Some msg.
Hypothesis Hq : queued c = None.
Hypothesis Hscope : url_scope (ws_path w) url = Some (Some sp, Some h).
Hypothesis Hsid : 1 <= path_id sp.
Hypothesis Hhid : 1 <= path_id h.

(** A GET on the URL of a handle is redirected (302) to the URL of its
    session, whether or not the session exists.  The target is formatted
    into a buffer of 50 bytes without a bound: a session component long
    enough (a number written with leading zeros, say) makes [g_sprintf]
    write past its end. *)
Theorem get_on_handle_redirects :
  (Z.of_nat (String.length (ws_path w +:+ "/" +:+ sp)) < 50 ->
   exists w',
     janus_ws_handler X connection url "GET" upload_data size w
     = Returns ((MHD_YES, size), w')
     /\ response_of w' connection
        = Some (MHD_HTTP_FOUND,
                {| headers := ("Location", ws_path w +:+ "/" +:+ sp)
                                :: cors_headers msg;
                   data := "" |})
     /\ replied_only w w')
  /\ (50 <= Z.of_nat (String.length (ws_path w +:+ "/" +:+ sp)) ->
      janus_ws_handler X connection url "GET" upload_data size w = Faults).
Proof.
  rewrite (janus_ws_handler_get X w connection c msg url upload_data size
             (Some sp) (Some h)) by assumption.
  unfold janus_ws_dispatch. fold (path_id sp). fold (path_id h).
  replace (path_id sp <? 1) with false by lia.
  replace (path_id h <? 1) with false by lia. rewrite andb_false_r.
  destruct method_tests as (_ & _ & Hgg & _). rewrite Hgg.
  unfold update_msg. mstep. rewrite Hc. cbn.
  unfold janus_ws_get. mstep.
  split; intros Hlen.
  - replace (50 <=? _) with false by lia.
    erewrite MHD_queue_response_first;
      [|cbn; apply lookup_insert_eq|exact Hq].
    eexists. split; [reflexivity|]. unfold response_of. cbn.
    rewrite lookup_insert_eq. repeat split.
  - replace (50 <=? _) with true by lia. reflexivity.
Qed.

End Redirect.

(** ** An event that arrives during a long poll *)

Lemma g_usleep_enqueue (w : world) (usec : Z) (s : ptr) (ss : janus_session)
  (e : janus_http_event) (rest : list (list async_event)) :
  sleeps w = [ENQUEUE s e] :: rest ->
  session_heap w !! s = Some ss ->
  g_usleep usec w
  = Returns (tt, set_session_heap
                   (<[s := set_messages (messages ss ++ [e]) ss]>
                      (session_heap w))
                   (set_sleeps rest (set_clock (clock w + usec) w))).
Proof.
  intros Hsl Hs. unfold g_usleep. mstep. rewrite Hsl. cbn.
  unfold bind. cbn.
  match goal with
  | |- context [alter ?f s (session_heap w)] =>
      assert (Halter : alter f s (session_heap w)
                       = <[s := set_messages (messages ss ++ [e]) ss]>
                           (session_heap w))
  end.
  { apply map_eq. intros i. destruct (decide (i = s)) as [->|Hne].
    - rewrite lookup_alter_eq, lookup_insert_eq, Hs. reflexivity.
    - rewrite lookup_alter_ne, lookup_insert_ne by congruence. reflexivity. }
  rewrite Halter. reflexivity.
Qed.

Section Woken.

Variables (s : ptr) (ss : janus_session) (start : Z) (e : janus_http_event).
Hypothesis Hempty : messages ss = [].

(** What the queue holds once [e] has arrived and been taken. *)
Lemma taken_again :
  set_messages [] (set_messages (messages ss ++ [e]) ss) = ss.
Proof. destruct ss. cbn in *. subst. reflexivity. Qed.

Lemma long_poll_finds (fuel n : nat) (w : world) :
  (n <= fuel)%nat ->
  (0 < n)%nat ->
  session_heap w !! s = Some (set_messages (messages ss ++ [e]) ss) ->
  clock w - start = 100000 * (300 - Z.of_nat n) ->
  long_poll fuel s start (clock w) w
  = Returns (Some e, set_session_heap (<[s := ss]> (session_heap w)) w).
Proof.
  intros Hfuel Hn Hs Hclock. rewrite long_poll_unfold.
  unfold G_USEC_PER_SEC.
  replace (clock w - start <? 30 * 1000000) with true by lia. cbn.
  destruct fuel as [|f]; [lia|].
  unfold bind at 1.
  rewrite (g_queue_pop_head_cons w s _ e [] Hs)
    by (cbn; rewrite Hempty; reflexivity).
  rewrite taken_again. mstep.
  rewrite orb_true_r. reflexivity.
Qed.

(** An event that another thread queues during the sleep after [k] quiet
    ones is found by the poll that follows that sleep. *)
Lemma long_poll_woken (k : nat) :
  forall (fuel n : nat) (w : world) (rest : list (list async_event)),
    (n <= fuel)%nat ->
    (k + 1 < n <= 300)%nat ->
    session_heap w !! s = Some ss ->
    stop w = 0 ->
    sleeps w = replicate k [] ++ [ENQUEUE s e] :: rest ->
    clock w - start = 100000 * (300 - Z.of_nat n) ->
    long_poll fuel s start (clock w) w
    = Returns (Some e,
               set_sleeps rest
                 (set_clock (clock w + 100000 * (Z.of_nat k + 1)) w)).
Proof.
  induction k as [|k IH]; intros fuel n w rest Hfuel Hn Hs Hstop Hsl Hclock;
    rewrite long_poll_unfold; unfold G_USEC_PER_SEC;
    (replace (clock w - start <? 30 * 1000000) with true by lia); cbn;
    (destruct fuel as [|f]; [lia|]);
    unfold bind at 1; rewrite (g_queue_pop_head_empty w s ss Hs Hempty);
    mstep; rewrite Hstop; cbn.
  - rewrite (g_usleep_enqueue w 100000 s ss e rest Hsl Hs).
    unfold janus_get_monotonic_time.
    rewrite (long_poll_finds f (n - 1)); cbn; try lia.
    + rewrite insert_insert_eq, insert_id by exact Hs. reflexivity.
    + apply lookup_insert_eq.
  - rewrite (g_usleep_quiet w 100000 0).
    2: { unfold quiet. rewrite Hsl. cbn. rewrite take_0. repeat constructor. }
    unfold janus_get_monotonic_time.
    rewrite (IH f (n - 1)%nat _ rest); cbn; try lia; auto.
    + unfold set_sleeps, set_clock. cbn. do 3 f_equal. lia.
    + rewrite Hsl. cbn. rewrite drop_0. reflexivity.
Qed.

(** An event that arrives during the last sleep of the 30 seconds is not
    looked for any more: the wait ends without it. *)
Lemma long_poll_late (k : nat) :
  forall (fuel n : nat) (w : world) (rest : list (list async_event)),
    (n <= fuel)%nat ->
    n = S k ->
    (n <= 300)%nat ->
    session_heap w !! s = Some ss ->
    stop w = 0 ->
    sleeps w = replicate k [] ++ [ENQUEUE s e] :: rest ->
    clock w - start = 100000 * (300 - Z.of_nat n) ->
    long_poll fuel s start (clock w) w
    = Returns (None,
               set_session_heap
                 (<[s := set_messages (messages ss ++ [e]) ss]>
                    (session_heap w))
                 (set_sleeps rest
                    (set_clock (clock w + 100000 * (Z.of_nat k + 1)) w))).
Proof.
  induction k as [|k IH]; intros fuel n w rest Hfuel Hnk Hn Hs Hstop Hsl Hclock;
    rewrite long_poll_unfold; unfold G_USEC_PER_SEC;
    (replace (clock w - start <? 30 * 1000000) with true by lia); cbn;
    (destruct fuel as [|f]; [lia|]);
    unfold bind at 1; rewrite (g_queue_pop_head_empty w s ss Hs Hempty);
    mstep; rewrite Hstop; cbn.
  - rewrite (g_usleep_enqueue w 100000 s ss e rest Hsl Hs).
    unfold janus_get_monotonic_time. rewrite long_poll_unfold.
    unfold G_USEC_PER_SEC. cbn.
    replace (clock w + 100000 - start <? 30 * 1000000) with false by lia.
    reflexivity.
  - rewrite (g_usleep_quiet w 100000 0).
    2: { unfold quiet. rewrite Hsl. cbn. rewrite take_0. repeat constructor. }
    unfold janus_get_monotonic_time.
    rewrite (IH f (n - 1)%nat _ rest); cbn; try lia; auto.
    + unfold set_session_heap, set_sleeps, set_clock. cbn. do 3 f_equal. lia.
    + rewrite Hsl. cbn. rewrite drop_0. reflexivity.
Qed.

End Woken.

Lemma long_poll_arrival (w : world) (s : ptr) (ss : janus_session)
  (e : janus_http_event) (k : nat) (rest : list (list async_event)) :
  session_heap w !! s = Some ss ->
  messages ss = [] ->
  stop w = 0 ->
  0 <= clock w ->
  sleeps w = replicate k [] ++ [ENQUEUE s e] :: rest ->
  ((k < 299)%nat ->
   long_poll 300 s (clock w) 0 w
   = Returns (Some e,
              set_sleeps rest
                (set_clock (clock w + 100000 * (Z.of_nat k + 1)) w)))
  /\ (k = 299%nat ->
      long_poll 300 s (clock w) 0 w
      = Returns (None,
                 set_session_heap
                   (<[s := set_messages (messages ss ++ [e]) ss]>
                      (session_heap w))
                   (set_sleeps rest
                      (set_clock (clock w + 30 * G_USEC_PER_SEC) w)))).
Proof.
  intros Hs Hempty Hstop Hclock Hsl.
  assert (Hfirst : long_poll 300 s (clock w) 0 w
                   = (let* _ := g_usleep 100000 in
                      let* end_ := janus_get_monotonic_time in
                      long_poll 299 s (clock w) end_) w).
  { rewrite long_poll_unfold. unfold G_USEC_PER_SEC.
    replace (0 - clock w <? 30 * 1000000) with true by lia. cbn.
    unfold bind at 1. rewrite (g_queue_pop_head_empty w s ss Hs Hempty).
    mstep. rewrite Hstop. reflexivity. }
  rewrite Hfirst. unfold G_USEC_PER_SEC. mstep.
  split; intros Hk.
  - destruct k as [|k].
    + rewrite (g_usleep_enqueue w 100000 s ss e rest Hsl Hs).
      unfold janus_get_monotonic_time.
      rewrite (long_poll_finds s ss (clock w) e Hempty 299 299); cbn; try lia.
      * rewrite insert_insert_eq, insert_id by exact Hs. reflexivity.
      * apply lookup_insert_eq.
    + rewrite (g_usleep_quiet w 100000 0).
      2: { unfold quiet. rewrite Hsl. cbn. rewrite take_0. repeat constructor. }
      unfold janus_get_monotonic_time.
      rewrite (long_poll_woken s ss (clock w) e Hempty k 299 299 _ rest);
        cbn; try lia; auto.
      * unfold set_sleeps, set_clock. cbn. do 3 f_equal. lia.
      * rewrite Hsl. cbn. rewrite drop_0. reflexivity.
  - subst k.
    rewrite (g_usleep_quiet w 100000 0).
    2: { unfold quiet. rewrite Hsl. cbn. rewrite ?take_0. repeat constructor. }
    unfold janus_get_monotonic_time.
    rewrite (long_poll_late s ss (clock w) e Hempty 298 299 299 _ rest);
      cbn; try lia; auto.
    + unfold set_session_heap, set_sleeps, set_clock. cbn. do 3 f_equal. lia.
    + rewrite Hsl. cbn. rewrite ?drop_0. reflexivity.
Qed.

Section Arrival.

Variable X : externals.
Variables (w : world) (connection : ptr) (c : MHD_Connection)
  (msg : janus_http_msg) (url sp upload_data : string) (size : Z)
  (s : ptr) (ss : janus_session) (e : janus_http_event) (text : string)
  (k : nat) (rest : list (list async_event)).

Hypothesis Hc : connections w !! connection = Some c.
Hypothesis Hmsg : con_cls c = Some msg.
Hypothesis Hq : queued c = None.
Hypothesis Hscope : url_scope (ws_path w) url = Some (Some sp, None).
Hypothesis Hsid : 1 <= path_id sp.
Hypothesis Hsession : sessions w !! path_id sp = Some s.
Hypothesis Hheap : session_heap w !! s = Some ss.
Hypothesis Hempty : messages ss = [].
Hypothesis Hstop : stop w = 0.
Hypothesis Hclock : 0 <= clock w.
Hypothesis Hpayload : payload e = Some text.
Hypothesis Hsleeps : sleeps w = replicate k [] ++ [ENQUEUE s e] :: rest.

Let msg' := set_msg_session_id (path_id sp) msg.

(** A GET that finds the queue empty keeps polling it every 100 ms.  An
    event another thread queues during one of the first 299 sleeps is
    served right after that sleep, and leaves the queue.  One that
    arrives during the 300th sleep comes too late for this GET: the
    keep-alive is sent after the 30 seconds and the event stays queued
    for the next GET. *)
Theorem get_wakes_on_event :
  ((k < 299)%nat ->
   exists w',
     janus_ws_handler X connection url "GET" upload_data size w
     = Returns ((MHD_YES, size), w')
     /\ response_of w' connection
        = Some (MHD_HTTP_OK, json_response msg' text)
     /\ clock w' = clock w + 100000 * (Z.of_nat k + 1)
     /\ queue_of w' s = []
     /\ sleeps w' = rest)
  /\ (k = 299%nat ->
      can_allocate w ->
      exists w',
        janus_ws_handler X connection url "GET" upload_data size w
        = Returns ((MHD_YES, size), w')
        /\ response_of w' connection
           = Some (MHD_HTTP_OK, json_response msg' keepalive)
        /\ clock w' = clock w + 30 * G_USEC_PER_SEC
        /\ queue_of w' s = [e]
        /\ sleeps w' = rest).
Proof.
  assert (Hrun :
            janus_ws_handler X connection url "GET" upload_data size w
            = (let* r :=
                 (let* event :=
                    long_poll 300 s
                      (clock (with_session_id connection c msg (path_id sp) w))
                      0 in
                  let* served :=
                    match event with
                    | Some {| payload := Some text |} => ret (Some text)
                    | _ => let* ok := calloc in
                           if negb ok then ret None else ret (Some keepalive)
                    end in
                  match served with
                  | None => MHD_queue_response connection
                              MHD_HTTP_INTERNAL_SERVER_ERROR None
                  | Some text =>
                      janus_ws_success connection msg' None (Some text)
                  end) in
               ret (r, size))
                (with_session_id connection c msg (path_id sp) w)).
  { rewrite (get_reaches_queue X w connection c msg url sp upload_data size s)
      by assumption.
    unfold bind at 1 2.
    rewrite (g_queue_pop_head_empty _ s ss) by assumption.
    unfold janus_ws_notifier, janus_session_find. mstep. rewrite Hsession.
    reflexivity. }
  rewrite Hrun. clear Hrun.
  destruct (long_poll_arrival
              (with_session_id connection c msg (path_id sp) w) s ss e k rest)
    as [Hearly Hlate]; try assumption.
  split; intros Hk.
  - unfold bind at 1 2. rewrite (Hearly Hk).
    destruct e as [code0 payload0 allocated0]. cbn in Hpayload. subst payload0.
    mstep. unfold janus_ws_success.
    erewrite MHD_queue_response_first;
      [|cbn; apply lookup_insert_eq|exact Hq].
    eexists. split; [reflexivity|]. unfold response_of, queue_of. cbn.
    rewrite lookup_insert_eq, Hheap, Hempty. repeat split.
  - intros Hmem. unfold bind at 1 2. rewrite (Hlate Hk).
    unfold bind at 1 2. rewrite calloc_succeeds by exact Hmem. cbn.
    unfold janus_ws_success.
    erewrite MHD_queue_response_first;
      [|cbn; apply lookup_insert_eq|exact Hq].
    eexists. split; [reflexivity|]. unfold response_of, queue_of. cbn.
    rewrite !lookup_insert_eq. cbn. rewrite Hempty. repeat split.
Qed.

End Arrival.

(** ** A message for a plugin *)

Section Forward.

Variable X : externals.
Variables (w : world) (connection : ptr) (c : MHD_Connection)
  (msg : janus_http_msg) (url body transaction verb sp h : string)
  (root payload : json_t) (s handle : ptr) (ss : janus_session)
  (ih : janus_ice_handle) (plugin_t : janus_plugin)
  (token : janus_pluginession).

Hypothesis Hc : connections w !! connection = Some c.
Hypothesis Hmsg : con_cls c = Some msg.
Hypothesis Hq : queued c = None.
Hypothesis Hscope : url_scope (ws_path w) url = Some (Some sp, Some h).
Hypothesis Hsid : 1 <= path_id sp.
Hypothesis Hhid : 1 <= path_id h.
Hypothesis Hbody : msg_payload msg = Some body.
Hypothesis Hloads : json_loads X (Some body) = inr root.
Hypothesis Hobj : json_is_object root = true.
Hypothesis Htx : string_member root "transaction" = Some transaction.
Hypothesis Hverb : string_member root "janus" = Some verb.
Hypothesis Hmessage : strcasecmp verb "message" = 0.
Hypothesis Hsession : sessions w !! path_id sp = Some s.
Hypothesis Hheap : session_heap w !! s = Some ss.
Hypothesis Hfind : ice_handles ss !! path_id h = Some handle.
Hypothesis Hhandle : handle_heap w !! handle = Some ih.
Hypothesis Happ : app ih = Some plugin_t.
Hypothesis Htoken : app_handle ih = Some token.
Hypothesis Hpayload : json_object_get root "body" = Some payload.
Hypothesis Hpobj : json_is_object payload = true.

Let msg' := set_msg_session_id (path_id sp) msg.



End Forward.

(** ** Events pushed by plugins *)

Lemma event_reply_members (sender : Z) (transaction : option string)
  (package : string) (event : json_t) (jsep : option json_t) :
  json_object_get (event_reply sender transaction package event jsep) "janus"
  = Some (JString "event")
  /\ json_object_get (event_reply sender transaction package event jsep) "sender"
     = Some (json_integer sender)
  /\ json_object_get (event_reply sender transaction package event jsep)
       "transaction"
     = JString <$> transaction
  /\ json_object_get (event_reply sender transaction package event jsep)
       "plugindata"
     = Some (JObject [("plugin", JString package); ("data", event)])
  /\ json_object_get (event_reply sender transaction package event jsep) "jsep"
     = jsep.
Proof. destruct transaction, jsep; repeat split; reflexivity. Qed.

Section Pushed.

Variable X : externals.

(** A push that returns JANUS_OK has appended one event to the queue of
    the handle's session and touched no other queue, nor the session
    table, nor any connection.  The event is the serialized envelope
    [janus = event], [sender] = the id of the handle, the transaction
    when the plugin gave one, and [plugindata] holding the plugin's
    package and the parsed message. *)
Theorem push_event_enqueues_envelope
  (w w' : world) (hd : janus_pluginession) (pl : janus_plugin)
  (transaction sdp_type sdp : option string) (text : string) (ih s : ptr)
  (ice_handle : janus_ice_handle) (ss : janus_session) :
  sleeps w = [] ->
  gateway_handle hd = Some ih ->
  handle_heap w !! ih = Some ice_handle ->
  session ice_handle = Some s ->
  session_heap w !! s = Some ss ->
  (forall e, api_code X e = api_code X JANUS_OK -> e = JANUS_OK) ->
  janus_push_event X (Some hd) (Some pl) transaction (Some text) sdp_type sdp w
    = Returns (api_code X JANUS_OK, w') ->
  exists (envelope event : json_t),
    queue_of w' s
    = messages ss ++ [{| code := 200;
                         payload := Some (json_dumps X envelope);
                         allocated := 1 |}]
    /\ json_loads X (Some text) = inr event
    /\ json_object_get envelope "janus" = Some (JString "event")
    /\ json_object_get envelope "sender"
       = Some (json_integer (handle_id ice_handle))
    /\ json_object_get envelope "transaction" = JString <$> transaction
    /\ json_object_get envelope "plugindata"
       = Some (JObject [("plugin", JString (get_package pl)); ("data", event)])
    /\ (forall s2, s2 <> s -> session_heap w' !! s2 = session_heap w !! s2)
    /\ sessions w' = sessions w
    /\ connections w' = connections w.
Proof.
  intros Hidle Hg Hh Hs Hss Hcodes Hpush.
  destruct (janus_push_event_ok X w w' hd pl transaction sdp_type sdp text ih s
              ice_handle ss Hidle Hg Hh Hs Hss Hcodes Hpush)
    as (event & jsep & ice' & Hloads & _ & _ & Hheap & Hsessions & Hconn & _).
  destruct (event_reply_members (handle_id ice_handle) transaction
              (get_package pl) event jsep) as (M1 & M2 & M3 & M4 & _).
  exists (event_reply (handle_id ice_handle) transaction (get_package pl)
            event jsep), event.
  split; [unfold queue_of; rewrite Hheap, lookup_insert_eq; reflexivity|].
  repeat (split; [assumption|]). split; [|auto].
  intros s2 Hne. rewrite Hheap, lookup_insert_ne by congruence. reflexivity.
Qed.

(** A push that returns anything but JANUS_OK has queued nothing: every
    session, the session table and the connections are as before. *)
Theorem push_event_failure_queues_nothing
  (w w' : world) (handle : option janus_pluginession)
  (plugin : option janus_plugin)
  (transaction message sdp_type sdp : option string) (r : Z) :
  sleeps w = [] ->
  janus_push_event X handle plugin transaction message sdp_type sdp w
    = Returns (r, w') ->
  r <> api_code X JANUS_OK ->
  session_heap w' = session_heap w
  /\ sessions w' = sessions w
  /\ connections w' = connections w.
Proof.
  intros Hidle Hpush Hr. unfold janus_push_event in Hpush.
  assert (Hsame : forall (v : Z) (w0 : world),
             ret v w0 = Returns (r, w') -> w' = w0).
  { intros v w0 H. injection H as _ <-. reflexivity. }
  destruct handle as [hd|]; [|apply Hsame in Hpush; subst; auto].
  destruct plugin as [pl|]; [|apply Hsame in Hpush; subst; auto].
  destruct message as [text|]; [|apply Hsame in Hpush; subst; auto].
  destruct (gateway_handle hd) as [ih|]; [|apply Hsame in Hpush; subst; auto].
  revert Hpush. mstep.
  destruct (handle_heap w !! ih) as [ice_handle|]; [|discriminate]. cbn.
  destruct (session ice_handle) as [s|];
    [|intros H; apply Hsame in H; subst; auto].
  destruct (json_loads X (Some text)) as [err|event];
    [intros H; apply Hsame in H; subst; auto|].
  destruct (json_is_object event); cbn;
    [|intros H; apply Hsame in H; subst; auto].
  intros H.
  match type of H with
  | match ?m with _ => _ end = _ =>
      destruct m as [[jsep w1]| | |] eqn:Hj; try discriminate
  end.
  assert (H1 : media_only w w1).
  { destruct sdp_type as [ty|], sdp as [sdp_text|];
      try (injection Hj as _ <-; apply media_only_refl).
    destruct (janus_handle_sdp X (Some hd) (Some pl) (Some ty) (Some sdp_text) w)
      as [[j w2]| | |] eqn:Hsdp; try discriminate.
    injection Hj as _ <-.
    eapply janus_handle_sdp_frame; [exact Hidle|exact Hsdp]. }
  destruct H1 as (F1 & F2 & F3 & _).
  destruct jsep as [[]|jsep].
  { apply Hsame in H. subst. auto. }
  destruct (handle_heap w1 !! ih) as [ice'|]; [|discriminate]. cbn in H.
  unfold calloc in H.
  assert (Hok : forall w0,
             match
               g_queue_push_tail s
                 {| code := 200;
                    payload := Some (json_dumps X
                                       (event_reply (handle_id ice') transaction
                                          (get_package pl) event jsep));
                    allocated := 1 |} w0
             with
             | Returns (_, w'2) => Returns (api_code X JANUS_OK, w'2)
             | Faults => Faults
             | Diverges => Diverges
             | Exits st => Exits st
             end = Returns (r, w') -> False).
  { intros w0 H0.
    destruct (g_queue_push_tail s _ w0) as [[[] w2]| | |]; try discriminate.
    injection H0 as H0 _. congruence. }
  destruct (calloc_results w1) as [|[|] rest]; cbn in H.
  - exfalso. exact (Hok _ H).
  - exfalso. exact (Hok _ H).
  - apply Hsame in H. subst. cbn. auto.
Qed.

End Pushed.

(** ** The SDP of an event *)

Section EventSdp.

Variable X : externals.
Variables (w : world) (hd : janus_pluginession) (pl : janus_plugin)
  (ty text : string) (ih : ptr) (ice_handle : janus_ice_handle).

Hypothesis Hg : gateway_handle hd = Some ih.
Hypothesis Hh : handle_heap w !! ih = Some ice_handle.

(** The handle once [janus_ice_setup_local] has run for no audio and no
    video line. *)
Let set_up : janus_ice_handle :=
  set_media (janus_ice_setup_local X ice_handle 0 0 0) ice_handle.

(** [janus_handle_sdp] gives up on a type that is neither [offer] nor
    [answer], before anything is done.  It does not give up on an SDP the
    pre-parser rejects: the test at line 1001 compares the pointer the
    pre-parser returns with [< 0], so an offer goes on with the audio and
    video counts left at zero, ICE is set up for them, and the SDP is
    anonymized, merged and returned as the [jsep] of the event. *)
Theorem handle_sdp_goes_on_after_failed_preparse :
  (strcasecmp ty "offer" <> 0 ->
   strcasecmp ty "answer" <> 0 ->
   janus_handle_sdp X (Some hd) (Some pl) (Some ty) (Some text) w
   = Returns (None, w))
  /\ (forall stripped merged : string,
        strcasecmp ty "offer" = 0 ->
        janus_sdp_preparse X text = None ->
        streams_num set_up <= cdone set_up ->
        janus_sdp_anonymize X text = Some stripped ->
        janus_sdp_merge X set_up stripped = Some merged ->
        janus_handle_sdp X (Some hd) (Some pl) (Some ty) (Some text) w
        = Returns (Some (JObject [("type", JString ty); ("sdp", JString merged)]),
                   set_handle_heap (<[ih := set_up]> (handle_heap w))
                     (set_trace (trace w ++ [Call_ice_setup_local ih 0 0 0]) w))).
Proof.
  unfold janus_handle_sdp. split.
  - intros H1 H2. apply Z.eqb_neq in H1, H2. rewrite H1, H2. reflexivity.
  - intros stripped merged Hoffer Hpre Hdone Hanon Hmerge.
    rewrite Hoffer, Hg, Hpre. cbn.
    unfold call_ice_setup_local, log. mstep. rewrite Hh. cbn.
    assert (Hd : (media_cdone (janus_ice_setup_local X ice_handle 0 0 0)
                  <? media_streams_num (janus_ice_setup_local X ice_handle 0 0 0))
                 = false) by (apply Z.ltb_ge; exact Hdone).
    rewrite candidates_wait_unfold. mstep. rewrite lookup_insert_eq. cbn.
    rewrite Hd. cbn. rewrite Hanon. cbn. rewrite lookup_insert_eq. cbn.
    fold set_up. rewrite Hmerge. reflexivity.
Qed.

End EventSdp.

(** ** The life of a session *)

(** A session just created and then destroyed leaves the session table
    as it was before the creation, and a second destroy finds nothing
    (-1).  The session object itself is never freed: it stays in memory
    with its [destroy] flag set. *)
Theorem create_then_destroy (w w1 : world) (p : ptr) :
  janus_session_create w = Returns (Some p, w1) ->
  exists (id : Z) (w2 : world),
    sessions w1 !! id = Some p
    /\ janus_session_destroy id w1 = Returns (0, w2)
    /\ sessions w2 = sessions w
    /\ session_heap w2 !! p = Some (set_destroy 1 (new_session id))
    /\ janus_session_destroy id w2 = Returns (-1, w2).
Proof.
  intros Hcreate.
  apply janus_session_create_returns in Hcreate
    as (sk & x & _ & _ & _ & Hfree & _ & _ & _ & Hnew & Htable & Hheap & _).
  exists (to_guint32 x).
  unfold janus_session_destroy, janus_session_find. mstep.
  rewrite Htable, lookup_insert_eq. cbn.
  rewrite Hheap, lookup_insert_eq. cbn.
  eexists. split; [reflexivity|]. split; [reflexivity|]. cbn.
  rewrite Htable, delete_insert_id by exact Hfree.
  split; [reflexivity|]. split; [apply lookup_insert_eq|].
  rewrite Hfree. reflexivity.
Qed.

(** ** The cross-origin header, on every path *)

Section EveryResponse.

Variable X : externals.

(** Whatever the request and the state of the gateway, the responses
    queued on the connections after a call of the handler carry
    [Access-Control-Allow-Origin: *] provided those queued before did,
    with one exception: the 500 without any header that [janus_ws_error]
    queues when it cannot allocate the reason string. *)
Theorem responses_carry_cors
  (w w' : world) (connection : ptr) (url method upload_data : string)
  (size : Z) (r : Z * Z) :
  responses_ok w ->
  janus_ws_handler X connection url method upload_data size w
    = Returns (r, w') ->
  forall (c : ptr) (conn : MHD_Connection) (response : Z * MHD_Response),
    connections w' !! c = Some conn ->
    queued conn = Some response ->
    has_cors (snd response) \/ response = bare_500.
Proof.
  intros Hok Hrun.
  exact (preserves_janus_ws_handler X connection url method upload_data size
           w r w' Hok Hrun).
Qed.

End EveryResponse.

(** * Properties of the VideoCall plugin *)

Ltac vstep :=
  unfold Videocall.bind, Videocall.get, Videocall.ret, Videocall.deref,
    Videocall.modify, Videocall.fault; cbn.

Lemma videocall_bind_returns {A B : Type} (m : Videocall.P A)
  (k : A -> Videocall.P B) (st st' : Videocall.state) (b : B) :
  Videocall.bind m k st = Returns (b, st') ->
  exists a st1, m st = Returns (a, st1) /\ k a st1 = Returns (b, st').
Proof.
  unfold Videocall.bind. destruct (m st) as [[a st1]| | |]; try discriminate.
  eauto.
Qed.

Section Lifecycle.

Import Videocall VideocallFacts.

Variable X : externals.
Variable R : rtcp_externals.

(** Before [janus_videocall_init], after [janus_videocall_destroy] and
    while the plugin is stopping, every entry point returns at once: the
    session calls report -1 in [*error], a message is dropped without
    being queued, media is not relayed, and the handler loop ends. *)
Theorem inactive_plugin_is_inert (st : state) (h : ptr) (error video len : Z)
  (transaction message sdp_type sdp : option string) (buf : string)
  (turns : nat) :
  inactive st = true ->
  janus_videocall_create_session h error st = Returns (-1, st)
  /\ janus_videocall_destroy_session X h error st = Returns (-1, st)
  /\ janus_videocall_handle_message h transaction message sdp_type sdp st
     = Returns (tt, st)
  /\ janus_videocall_setup_media h st = Returns (tt, st)
  /\ janus_videocall_incoming_rtp h video buf len st = Returns (tt, st)
  /\ janus_videocall_incoming_rtcp R h video buf len st = Returns (tt, st)
  /\ janus_videocall_hangup_media X h st = Returns (tt, st)
  /\ handler_loop X R turns st = Returns (tt, st).
Proof.
  intros H.
  unfold janus_videocall_create_session, janus_videocall_destroy_session,
    janus_videocall_handle_message, janus_videocall_setup_media,
    janus_videocall_incoming_rtp, janus_videocall_incoming_rtcp,
    janus_videocall_hangup_media.
  vstep. rewrite H. repeat (split; [reflexivity|]).
  destruct turns; [reflexivity|]. cbn. vstep. rewrite H. reflexivity.
Qed.

(** [janus_videocall_init] refuses (-1, nothing changed) a NULL
    callback, a NULL configuration path, and a plugin that is still
    stopping.  Otherwise, if the handler thread can be started, it
    returns 0 and the plugin is running with an empty table of users and
    an empty queue; [janus_videocall_destroy] then brings it back to a
    state where every entry point is inert, without freeing any
    session. *)
Theorem init_then_destroy (st : state) (path : string) :
  (forall (callback : bool) (config_path : option string),
      callback = false \/ config_path = None \/ stopping st <> 0 ->
      janus_videocall_init X callback config_path st = Returns (-1, st))
  /\ (stopping st = 0 ->
      Z.of_nat (String.length
                  (vsprintf X "%s/%s.cfg"
                     [ArgStr path; ArgStr JANUS_VIDEOCALL_PACKAGE])) < 255 ->
      thread_errors st = [] ->
      exists st1 st2,
        janus_videocall_init X true (Some path) st = Returns (0, st1)
        /\ inactive st1 = false
        /\ sessions st1 = Some ∅
        /\ messages st1 = Queue []
        /\ gateway st1 = true
        /\ janus_videocall_destroy st1 = Returns (tt, st2)
        /\ inactive st2 = true
        /\ sessions st2 = None
        /\ messages st2 = Freed_queue
        /\ session_heap st2 = session_heap st
        /\ handles st2 = handles st).
Proof.
  split.
  - intros callback config_path H. unfold janus_videocall_init. vstep.
    destruct (stopping st =? 0) eqn:E; [|reflexivity]. cbn.
    apply Z.eqb_eq in E.
    destruct H as [->|[->|H]]; [reflexivity| |contradiction].
    destruct callback; reflexivity.
  - intros Hs Hfit Hthread. unfold janus_videocall_init. vstep.
    rewrite Hs. cbn.
    replace (255 <=? _) with false by lia.
    unfold g_thread_try_new. cbn. rewrite Hthread. cbn.
    eexists. eexists. split; [reflexivity|].
    unfold janus_videocall_destroy. vstep.
    repeat split. unfold inactive. cbn. rewrite Hs. reflexivity.
Qed.

End Lifecycle.

(** ** Sessions of the plugin *)

Lemma fresh_is_free {A : Type} (heap : gmap ptr A) :
  heap !! fresh (dom heap) = None.
Proof. apply not_elem_of_dom, is_fresh. Qed.

Section PluginSessions.

Import Videocall VideocallFacts.

Variable X : externals.

Lemma read_session_live (st : state) (p : ptr) (s : janus_videocall_session) :
  session_heap st !! p = Some s -> read_session p st = Returns (s, st).
Proof. intros H. unfold read_session. vstep. rewrite H. reflexivity. Qed.

Lemma read_session_freed (st : state) (p : ptr) :
  session_heap st !! p = None -> read_session p st = Faults.
Proof. intros H. unfold read_session. vstep. rewrite H. reflexivity. Qed.

Lemma assign_live (st : state) (p : ptr) (s : janus_videocall_session)
  (f : janus_videocall_session -> janus_videocall_session) :
  session_heap st !! p = Some s ->
  assign p f st
  = Returns (tt, set_session_heap (<[p := f s]> (session_heap st)) st).
Proof.
  intros H. unfold assign, write_session, read_session. vstep.
  rewrite H. cbn. rewrite H. reflexivity.
Qed.

Lemma g_free_live (st : state) (p : ptr) (s : janus_videocall_session) :
  session_heap st !! p = Some s ->
  g_free p st
  = Returns (tt, set_session_heap (delete p (session_heap st)) st).
Proof.
  intros H. unfold g_free, read_session. vstep. rewrite H. reflexivity.
Qed.

Lemma plugin_handle_of_known (st : state) (h : ptr) (hd : janus_pluginession) :
  handles st !! h = Some hd ->
  plugin_handle_of h st = Returns (plugin_handle hd, st).
Proof. intros H. unfold plugin_handle_of. vstep. rewrite H. reflexivity. Qed.

Lemma error_cause_fits (format : string) (args : list fmt_arg) (st0 : Videocall.state) :
  cause_fits X format args ->
  error_cause X format args st0
  = Returns (Problem (vsprintf X format args), st0).
Proof.
  unfold cause_fits, error_cause. intros H.
  replace (512 <=? _) with false by lia. reflexivity.
Qed.

Lemma call_gateway_appends (c : gateway_call) (st0 : Videocall.state) :
  gateway st0 = true ->
  call_gateway c st0 = Returns (tt, set_calls (calls st0 ++ [c]) st0).
Proof. intros H. unfold call_gateway. vstep. rewrite H. reflexivity. Qed.

(** [janus_videocall_create_session] allocates a session with audio and
    video active, no bitrate cap, no peer and no name, and stores its
    address in the handle.  [janus_videocall_destroy_session] on it then
    frees the session and leaves the plugin as it was before, except that
    the handle still holds the address of the freed session: a second
    [janus_videocall_destroy_session] on the handle, or a
    [janus_videocall_setup_media], reads freed memory. *)
Theorem create_then_destroy_session (st : state) (h : ptr)
  (hd : janus_pluginession) (error : Z) :
  inactive st = false ->
  handles st !! h = Some hd ->
  calloc_results st = [] ->
  exists st1 st2,
    janus_videocall_create_session h error st = Returns (error, st1)
    /\ session_heap st1
       = <[fresh (dom (session_heap st)) := new_session h]> (session_heap st)
    /\ handles st1
       = <[h := {| gateway_handle := gateway_handle hd;
                   plugin_handle := Some (fresh (dom (session_heap st))) |}]>
           (handles st)
    /\ janus_videocall_destroy_session X h error st1 = Returns (error, st2)
    /\ session_heap st2 = session_heap st
    /\ sessions st2 = sessions st
    /\ calls st2 = calls st
    /\ handles st2 = handles st1
    /\ janus_videocall_destroy_session X h error st2 = Faults
    /\ janus_videocall_setup_media h st2 = Faults.
Proof.
  intros Hact Hh Hmem.
  pose proof (fresh_is_free (session_heap st)) as Hfree.
  unfold janus_videocall_create_session. vstep. rewrite Hact. cbn.
  unfold calloc. rewrite Hmem. cbn. rewrite Hh. cbn.
  eexists. eexists. split; [reflexivity|]. cbn.
  split; [reflexivity|]. split; [reflexivity|].
  unfold janus_videocall_destroy_session, janus_videocall_hangup_media,
    janus_videocall_setup_media, assign, write_session, g_free, read_session,
    plugin_handle_of.
  unfold inactive in *.
  split.
  { repeat (progress (vstep; rewrite ?lookup_insert_eq, ?Hact)).
    reflexivity. }
  cbn. rewrite !insert_insert_eq, delete_insert_id by exact Hfree.
  repeat (split; [reflexivity|]).
  split; repeat (progress (vstep; rewrite ?lookup_insert_eq, ?Hact, ?Hfree));
    reflexivity.
Qed.

End PluginSessions.

(** ** A turn of the handler thread *)

Arguments Videocall.read_session : simpl never.
Arguments Videocall.assign : simpl never.
Arguments Videocall.g_free : simpl never.
Arguments Videocall.plugin_handle_of : simpl never.
Arguments Videocall.call_gateway : simpl never.
Arguments Videocall.g_hash_table_lookup : simpl never.
Arguments Videocall.error_cause : simpl never.
Arguments Videocall.request_list : simpl never.
Arguments Videocall.request_register : simpl never.
Arguments Videocall.request_call : simpl never.
Arguments Videocall.request_accept : simpl never.
Arguments Videocall.request_set : simpl never.
Arguments Videocall.request_hangup : simpl never.
Arguments Videocall.handle_request : simpl never.
Arguments Videocall.janus_videocall_hangup_media : simpl never.

Lemma request_names_differ (v : string) :
  (strcasecmp v "register" = 0 -> (strcasecmp v "list" =? 0) = false)
  /\ (strcasecmp v "call" = 0 ->
      (strcasecmp v "list" =? 0) = false
      /\ (strcasecmp v "register" =? 0) = false)
  /\ (strcasecmp v "accept" = 0 ->
      (strcasecmp v "list" =? 0) = false
      /\ (strcasecmp v "register" =? 0) = false
      /\ (strcasecmp v "call" =? 0) = false)
  /\ (strcasecmp v "set" = 0 ->
      (strcasecmp v "list" =? 0) = false
      /\ (strcasecmp v "register" =? 0) = false
      /\ (strcasecmp v "call" =? 0) = false
      /\ (strcasecmp v "accept" =? 0) = false)
  /\ (strcasecmp v "hangup" = 0 ->
      (strcasecmp v "list" =? 0) = false
      /\ (strcasecmp v "register" =? 0) = false
      /\ (strcasecmp v "call" =? 0) = false
      /\ (strcasecmp v "accept" =? 0) = false
      /\ (strcasecmp v "set" =? 0) = false).
Proof.
  split; [|split; [|split; [|split]]]; intros H; repeat split;
    apply Z.eqb_neq;
    apply (strcasecmp_first_differs v _ _ _ _ H); vm_compute; discriminate.
Qed.

Ltac vlook :=
  cbn;
  first [ eassumption
        | apply lookup_insert_eq
        | rewrite lookup_insert_ne by congruence; vlook ].

Ltac vgo :=
  repeat (first [ erewrite read_session_live by vlook
                | erewrite assign_live by vlook
                | erewrite plugin_handle_of_known by vlook
                | erewrite g_free_live by vlook
                | erewrite error_cause_fits by eassumption
                | erewrite call_gateway_appends
                    by (cbn; first [eassumption | reflexivity]) ];
          vstep).

Section Turn.

Import Videocall VideocallFacts.
Local Open Scope videocall_scope.

Variable X : externals.
Variable R : rtcp_externals.
Variables (st : state) (msg : janus_videocall_message)
  (rest : list janus_videocall_message) (hd : janus_pluginession) (p : ptr)
  (s : janus_videocall_session) (text request : string) (root : json_t).

Hypothesis Hact : inactive st = false.
Hypothesis Hgw : gateway st = true.
Hypothesis Hqueue : messages st = Queue (msg :: rest).
Hypothesis Hh : handles st !! message_handle msg = Some hd.
Hypothesis Hp : plugin_handle hd = Some p.
Hypothesis Hs : session_heap st !! p = Some s.
Hypothesis Hlive : destroy s = false.
Hypothesis Htext : message msg = Some text.
Hypothesis Hloads : json_loads X (Some text) = inr root.
Hypothesis Hobj : json_is_object root = true.
Hypothesis Hrequest : string_member root "request" = Some request.

Lemma turn_reaches_request :
  janus_videocall_handler_turn X R st
  = (let* v :=
       if strcasecmp request "list" =? 0 then request_list
       else if strcasecmp request "register" =? 0 then request_register X p root
       else if strcasecmp request "call" =? 0 then request_call X msg p root
       else if strcasecmp request "accept" =? 0 then request_accept X msg p
       else if strcasecmp request "set" =? 0 then request_set X R p root
       else if strcasecmp request "hangup" =? 0 then request_hangup X p
       else error_cause X "Unknown request (%s)" [ArgStr request] in
     conclude X msg v) (set_messages (Queue rest) st).
Proof.
  unfold janus_videocall_handler_turn. vstep. rewrite Hqueue. cbn.
  rewrite (plugin_handle_of_known _ _ hd) by exact Hh. rewrite Hp.
  rewrite (read_session_live _ p s) by exact Hs. rewrite Hlive.
  unfold handle_request. rewrite Htext, Hloads, Hobj. cbn.
  rewrite Hrequest.
  unfold conclude, reply_to. reflexivity.
Qed.




(** [set] with a boolean [audio] and an integer [bitrate] above zero, by
    a session in a call: the session takes both values, a REMB packet
    for the bitrate is relayed on the sender's own handle, and the sender
    is answered [set].  From then on the audio the sender's side
    receives is relayed to the peer only if [audio] was true, and the
    REMB of its RTCP packets is capped to the bitrate before they are
    relayed. *)
Theorem set_controls_the_relay (a : json_t) (n : Z) (q : ptr)
  (other : janus_videocall_session) (buf : string) (len : Z) :
  strcasecmp request "set" = 0 ->
  json_object_get root "audio" = Some a ->
  json_is_boolean a = true ->
  json_object_get root "video" = None ->
  json_object_get root "bitrate" = Some (JInteger n) ->
  0 < to_guint64 n ->
  peer s = Some q ->
  session_heap st !! q = Some other ->
  destroy other = false ->
  p <> q ->
  exists st',
    janus_videocall_handler_turn X R st = Returns (tt, st')
    /\ session_heap st'
       = <[p := set_bitrate (to_guint64 n)
                  (set_audio_active (json_is_true a) s)]> (session_heap st)
    /\ calls st'
       = calls st
         ++ [relay_rtcp (handle s) 1
               (janus_rtcp_remb R (zeroed 24) 24 (to_guint64 n)) 24;
             reply_to X msg (event_of (JObject [("event", JString "set")]))]
    /\ janus_videocall_incoming_rtp (message_handle msg) 0 buf len st'
       = Returns (tt, if json_is_true a
                      then set_calls
                             (calls st' ++ [relay_rtp (handle other) 0 buf len])
                             st'
                      else st')
    /\ janus_videocall_incoming_rtcp R (message_handle msg) 1 buf len st'
       = Returns (tt, set_calls
                        (calls st'
                         ++ [relay_rtcp (handle other) 1
                               (janus_rtcp_cap_remb R buf len (to_guint64 n))
                               len])
                        st').
Proof.
  intros Hv Haudio Hbool Hvideo Hrate Hpos Hpeer Hq Hlive2 Hne.
  rewrite turn_reaches_request.
  destruct (request_names_differ request) as (_ & _ & _ & Hr & _).
  destruct (Hr Hv) as (-> & -> & -> & ->). rewrite Hv. cbn [Z.eqb].
  unfold request_set. rewrite Haudio, Hvideo, Hrate.
  unfold invalid. rewrite Hbool. cbn. vstep. vgo.
  replace (0 <? to_guint64 n) with true by lia. cbn. vgo.
  eexists. split; [reflexivity|]. cbn. rewrite insert_insert_eq.
  split; [reflexivity|]. split; [rewrite <- app_assoc; reflexivity|].
  unfold janus_videocall_incoming_rtp, janus_videocall_incoming_rtcp.
  unfold inactive in *. vstep. rewrite Hact, Hgw. cbn. vgo.
  rewrite Hp. cbn. vgo. rewrite Hpeer, Hlive. cbn. vgo. rewrite Hlive2. cbn.
  replace (0 <? to_guint64 n) with true by lia.
  split; [destruct (json_is_true a)|]; cbn; vgo; reflexivity.
Qed.

End Turn.

(** ** The end of a call seen from the gateway *)

Section InCall.

Import Videocall VideocallFacts.
Local Open Scope videocall_scope.

Variable X : externals.
Variable R : rtcp_externals.
Variables (st : state) (h h2 : ptr) (hd hd2 : janus_pluginession)
  (p q : ptr) (s other : janus_videocall_session).

Hypothesis Hact : inactive st = false.
Hypothesis Hgateway : gateway st = true.
Hypothesis Hh : handles st !! h = Some hd.
Hypothesis Hp : plugin_handle hd = Some p.
Hypothesis Hs : session_heap st !! p = Some s.
Hypothesis Hlive : destroy s = false.
Hypothesis Hpeer : peer s = Some q.
Hypothesis Hh2 : handles st !! h2 = Some hd2.
Hypothesis Hq : plugin_handle hd2 = Some q.
Hypothesis Hother : session_heap st !! q = Some other.
Hypothesis Hlive2 : destroy other = false.
Hypothesis Hback : peer other = Some p.
Hypothesis Hne : p <> q.

(** The call to the other side that ends the call. *)
Let notice : gateway_call :=
  push_event (handle other) None
    (Some (json_dumps X (remote_hangup (username s)))) None None.


(** [janus_videocall_destroy_session] on one side of a call tells the
    other side as [janus_videocall_hangup_media] does, takes the session
    out of the table of users and frees it; the session of the other
    side still has it as its peer.  The next RTP or RTCP packet from the
    other side makes the plugin read the freed session. *)
Theorem destroy_session_leaves_peer_dangling
  (error video len : Z) (buf : string) :
  exists st',
    janus_videocall_destroy_session X h error st = Returns (error, st')
    /\ calls st' = calls st ++ [notice]
    /\ session_heap st' = delete p (session_heap st)
    /\ sessions st'
       = match sessions st, username s with
         | Some table, Some name => Some (delete name table)
         | table, _ => table
         end
    /\ session_heap st' !! q = Some other
    /\ janus_videocall_incoming_rtp h2 video buf len st' = Faults
    /\ janus_videocall_incoming_rtcp R h2 video buf len st' = Faults.
Proof.
  unfold janus_videocall_destroy_session, janus_videocall_hangup_media.
  vstep. rewrite Hact. cbn. vgo. rewrite Hp. cbn. vgo. rewrite Hlive. cbn.
  rewrite Hact. cbn. vgo. rewrite Hp. cbn. vgo. rewrite Hlive, Hpeer. cbn.
  vgo.
  assert (Hgone : delete p (session_heap st) !! q = Some other).
  { rewrite lookup_delete_ne by exact Hne. exact Hother. }
  assert (Hfreed : delete p (session_heap st) !! p = None)
    by apply lookup_delete_eq.
  destruct (username s) as [name|] eqn:Hname; cbn; vgo;
    (eexists; split; [reflexivity|]); cbn;
    rewrite !insert_insert_eq, delete_insert_eq;
    (split; [reflexivity|]); (split; [reflexivity|]);
    (split; [destruct (sessions st); reflexivity|]);
    (split; [exact Hgone|]);
    unfold janus_videocall_incoming_rtp, janus_videocall_incoming_rtcp;
    unfold inactive in *; vstep; rewrite Hact, Hgateway; cbn; vgo;
    rewrite Hq; cbn; vgo; rewrite Hback, Hlive2; cbn;
    rewrite (read_session_freed _ p) by (cbn; exact Hfreed);
    split; reflexivity.
Qed.

End InCall.

(** ** Every request gets its answer *)

Section Answers.

Import Videocall VideocallFacts.
Local Open Scope videocall_scope.

Variable X : externals.
Variable R : rtcp_externals.

Lemma grows_refl (st : state) : grows st st.
Proof. split; [reflexivity|]. exists []. rewrite app_nil_r. reflexivity. Qed.

Lemma grows_trans (st1 st2 st3 : state) :
  grows st1 st2 -> grows st2 st3 -> grows st1 st3.
Proof.
  intros [A1 [m1 B1]] [A2 [m2 B2]]. split; [congruence|].
  exists (m1 ++ m2). rewrite B2, B1, app_assoc. reflexivity.
Qed.

Lemma steady_ret {A : Type} (a : A) : steady (ret a).
Proof. intros st b st' H. injection H as _ <-. apply grows_refl. Qed.

Lemma steady_fault {A : Type} : steady (@fault A).
Proof. intros st b st' H. discriminate. Qed.

Lemma steady_get : steady get.
Proof. intros st b st' H. injection H as _ <-. apply grows_refl. Qed.

Lemma steady_bind {A B : Type} (m : P A) (k : A -> P B) :
  steady m -> (forall a, steady (k a)) -> steady (bind m k).
Proof.
  intros Hm Hk st b st' H.
  apply videocall_bind_returns in H as (a & st1 & H1 & H2).
  eapply grows_trans; [eapply Hm, H1|eapply Hk, H2].
Qed.

Lemma steady_deref {A : Type} (o : option A) : steady (deref o).
Proof. destruct o; [apply steady_ret|apply steady_fault]. Qed.

Lemma steady_modify (f : state -> state) :
  (forall st, messages (f st) = messages st /\ calls (f st) = calls st) ->
  steady (modify f).
Proof.
  intros Hf st b st' H. injection H as _ <-. destruct (Hf st) as [A B].
  split; [exact A|]. exists []. rewrite app_nil_r. exact B.
Qed.

Lemma call_gateway_returns (c : gateway_call) (st st' : state) (a : unit) :
  call_gateway c st = Returns (a, st') ->
  st' = set_calls (calls st ++ [c]) st.
Proof.
  unfold call_gateway. vstep. destruct (gateway st); [|discriminate].
  intros H. injection H as _ <-. reflexivity.
Qed.

Lemma steady_call_gateway (c : gateway_call) : steady (call_gateway c).
Proof.
  intros st b st' H. apply call_gateway_returns in H as ->.
  split; [reflexivity|]. exists [c]. reflexivity.
Qed.

Ltac steady_step :=
  lazymatch goal with
  | |- steady (ret _) => apply steady_ret
  | |- steady fault => apply steady_fault
  | |- steady get => apply steady_get
  | |- steady (deref _) => apply steady_deref
  | |- steady (bind _ _) => apply steady_bind; [|intros]
  | |- steady (modify _) => apply steady_modify; intros; split; reflexivity
  | |- steady (call_gateway _) => apply steady_call_gateway
  | |- steady (match ?x with _ => _ end) => destruct x
  | |- _ => solve [eauto]
  end.

Ltac steady := cbv beta zeta; repeat steady_step.

Lemma steady_read_session (p : ptr) : steady (read_session p).
Proof. unfold read_session. steady. Qed.

Hint Resolve steady_read_session : core.

Lemma steady_assign (p : ptr)
  (f : janus_videocall_session -> janus_videocall_session) :
  steady (assign p f).
Proof. unfold assign, write_session. steady. Qed.

Lemma steady_g_hash_table_lookup (name : string) :
  steady (g_hash_table_lookup name).
Proof. unfold g_hash_table_lookup. steady. Qed.

Hint Resolve steady_assign steady_g_hash_table_lookup : core.

Lemma steady_usernames (users : list ptr) :
  forall list, steady (usernames users list).
Proof.
  induction users as [|user rest IH]; intros list; cbn [usernames]; steady.
Qed.

Hint Resolve steady_usernames : core.

Lemma answers_result (result : option json_t) : answers (ret (Result result)).
Proof.
  intros st v st' H. injection H as <- <-. split; [apply grows_refl|].
  discriminate.
Qed.

Lemma answers_error_cause (format : string) (args : list fmt_arg) :
  answers (error_cause X format args).
Proof.
  intros st v st'. unfold error_cause.
  destruct (512 <=? _); [discriminate|].
  intros H. injection H as <- <-. split; [apply grows_refl|]. discriminate.
Qed.

Lemma answers_bind {A : Type} (m : P A) (k : A -> P verdict) :
  steady m -> (forall a, answers (k a)) -> answers (bind m k).
Proof.
  intros Hm Hk st b st' H.
  apply videocall_bind_returns in H as (a & st1 & H1 & H2).
  destruct (Hk a st1 b st' H2) as [Hg Hv].
  split; [|exact Hv]. eapply grows_trans; [eapply Hm, H1|exact Hg].
Qed.

Ltac answers_step :=
  lazymatch goal with
  | |- answers (ret (Result _)) => apply answers_result
  | |- answers (error_cause _ _ _) => apply answers_error_cause
  | |- answers (bind _ _) => apply answers_bind; [steady|intros]
  | |- answers (match ?x with _ => _ end) => destruct x
  end.

Ltac answers := cbv beta zeta; repeat answers_step.

Lemma answers_request_list : answers request_list.
Proof. unfold request_list. answers. Qed.

Lemma answers_request_register (p : ptr) (root : json_t) :
  answers (request_register X p root).
Proof. unfold request_register. answers. Qed.

Lemma answers_request_call (msg : janus_videocall_message) (p : ptr)
  (root : json_t) :
  answers (request_call X msg p root).
Proof. unfold request_call. answers. Qed.

Lemma answers_request_accept (msg : janus_videocall_message) (p : ptr) :
  answers (request_accept X msg p).
Proof. unfold request_accept. answers. Qed.

Lemma answers_request_set (p : ptr) (root : json_t) :
  answers (request_set X R p root).
Proof. unfold request_set. answers. Qed.

(** [hangup] is the one request that may come to nothing: when the
    session is in no call. *)
Lemma request_hangup_returns (p : ptr) (st st' : state) (v : verdict) :
  request_hangup X p st = Returns (v, st') ->
  grows st st'
  /\ (v = Nothing ->
      st' = st
      /\ exists s, session_heap st !! p = Some s /\ peer s = None).
Proof.
  unfold request_hangup. intros H.
  apply videocall_bind_returns in H as (s & st1 & H1 & H2).
  unfold read_session in H1. revert H1. vstep.
  destruct (session_heap st !! p) as [s0|] eqn:Hs; [|discriminate].
  intros H1. injection H1 as <- <-.
  destruct (peer s0) as [q|] eqn:Hpeer.
  - assert (Ha : answers
                   (let* _ := read_session q in
                    let* _ := assign p (set_peer None) in
                    let* _ := assign q (set_peer None) in
                    let* session := read_session p in
                    let* other := read_session q in
                    let* _ := call_gateway
                                (push_event (handle other) None
                                   (Some (json_dumps X
                                            (remote_hangup (username session))))
                                   None None) in
                    ret (Result
                           (Some (hangup_result (username session)
                                    "We did the hangup"))))) by answers.
    destruct (Ha st v st' H2) as [Hg Hv]. split; [exact Hg|].
    intros ->. contradiction.
  - injection H2 as <- <-. split; [apply grows_refl|].
    intros _. split; [reflexivity|]. eauto.
Qed.

(** A turn of the handler on a message whose handle has a live session:
    the message leaves the queue and, when the turn returns, the last
    call the plugin has made is a [push_event] to the handle of the
    message, carrying the transaction of the message and no SDP.  The
    one exception is [hangup] by a session that is in no call, which is
    dropped without a word. *)
Theorem every_request_is_answered
  (st st' : state) (msg : janus_videocall_message)
  (rest : list janus_videocall_message) (hd : janus_pluginession) (p : ptr)
  (s : janus_videocall_session) :
  messages st = Queue (msg :: rest) ->
  handles st !! message_handle msg = Some hd ->
  plugin_handle hd = Some p ->
  session_heap st !! p = Some s ->
  destroy s = false ->
  janus_videocall_handler_turn X R st = Returns (tt, st') ->
  messages st' = Queue rest
  /\ ((exists (before : list gateway_call) (text : string),
         calls st'
         = calls st ++ before
           ++ [push_event (message_handle msg) (transaction msg) (Some text)
                 None None])
      \/ (calls st' = calls st
          /\ peer s = None
          /\ exists (text request : string) (root : json_t),
               message msg = Some text
               /\ json_loads X (Some text) = inr root
               /\ string_member root "request" = Some request
               /\ strcasecmp request "hangup" = 0)).
Proof.
  intros Hqueue Hh Hp Hs Hlive. unfold janus_videocall_handler_turn.
  vstep. rewrite Hqueue. cbn.
  rewrite (plugin_handle_of_known _ _ hd) by exact Hh. rewrite Hp.
  rewrite (read_session_live _ p s) by exact Hs. rewrite Hlive.
  set (st0 := set_messages (Queue rest) st).
  assert (Hend : forall (v : verdict) (st1 : state),
             grows st0 st1 -> v <> Nothing ->
             conclude X msg v st1 = Returns (tt, st') ->
             messages st' = Queue rest
             /\ exists before text,
                 calls st'
                 = calls st ++ before
                   ++ [push_event (message_handle msg) (transaction msg)
                         (Some text) None None]).
  { intros v st1 [Hm [more Hc]] Hv Hrun.
    destruct v as [result|cause|]; [| |contradiction];
      apply call_gateway_returns in Hrun as ->; cbn;
      (split; [rewrite Hm; reflexivity|]);
      exists more; eexists; rewrite Hc, <- app_assoc; reflexivity. }
  intros Hrun.
  match type of Hrun with
  | match ?m with _ => _ end = _ =>
      destruct m as [[v st1]| | |] eqn:Hreq; try discriminate
  end.
  change (conclude X msg v st1 = Returns (tt, st')) in Hrun.
  unfold handle_request in Hreq.
  destruct (message msg) as [text|] eqn:Htext; [|discriminate].
  assert (Hans : forall m : P verdict,
             answers m -> m st0 = Returns (v, st1) ->
             messages st' = Queue rest
             /\ ((exists before text0,
                    calls st'
                    = calls st ++ before
                      ++ [push_event (message_handle msg) (transaction msg)
                            (Some text0) None None])
                 \/ (calls st' = calls st
                     /\ peer s = None
                     /\ exists (text0 request : string) (root : json_t),
                          Some text = Some text0
                          /\ json_loads X (Some text0) = inr root
                          /\ string_member root "request" = Some request
                          /\ strcasecmp request "hangup" = 0))).
  { intros m Hm Hr. destruct (Hm st0 v st1 Hr) as [Hg Hv].
    destruct (Hend v st1 Hg Hv Hrun) as [A B]. auto. }
  destruct (json_loads X (Some text)) as [err|root] eqn:Hloads.
  { eapply Hans; [apply answers_error_cause|exact Hreq]. }
  destruct (json_is_object root); cbn in Hreq.
  2: { eapply Hans; [apply answers_error_cause|exact Hreq]. }
  destruct (string_member root "request") as [request|] eqn:Hrequest.
  2: { eapply Hans; [apply answers_error_cause|exact Hreq]. }
  destruct (strcasecmp request "list" =? 0).
  { eapply Hans; [apply answers_request_list|exact Hreq]. }
  destruct (strcasecmp request "register" =? 0).
  { eapply Hans; [apply answers_request_register|exact Hreq]. }
  destruct (strcasecmp request "call" =? 0).
  { eapply Hans; [apply answers_request_call|exact Hreq]. }
  destruct (strcasecmp request "accept" =? 0).
  { eapply Hans; [apply answers_request_accept|exact Hreq]. }
  destruct (strcasecmp request "set" =? 0).
  { eapply Hans; [apply answers_request_set|exact Hreq]. }
  destruct (strcasecmp request "hangup" =? 0) eqn:Hhangup.
  2: { eapply Hans; [apply answers_error_cause|exact Hreq]. }
  apply request_hangup_returns in Hreq as [Hg Hnothing].
  destruct v as [result|cause|].
  - assert (Hv : Result result <> Nothing) by discriminate.
    destruct (Hend _ st1 Hg Hv Hrun) as [A B]. auto.
  - assert (Hv : Problem cause <> Nothing) by discriminate.
    destruct (Hend _ st1 Hg Hv Hrun) as [A B]. auto.
  - destruct (Hnothing eq_refl) as (-> & s0 & Hs0 & Hpeer).
    injection Hrun as <-. split; [reflexivity|]. right.
    split; [reflexivity|].
    assert (s0 = s) as -> by (cbn in Hs0; congruence).
    split; [exact Hpeer|].
    exists text, request, root. apply Z.eqb_eq in Hhangup. auto.
Qed.

End Answers.

(** ** The table of users *)

Section UserTable.

Import Videocall VideocallFacts.
Local Open Scope videocall_scope.

Variable X : externals.
Variable R : rtcp_externals.

Lemma same_names_refl (st : state) : same_names st st.
Proof. split; reflexivity. Qed.

Lemma same_names_trans (st1 st2 st3 : state) :
  same_names st1 st2 -> same_names st2 st3 -> same_names st1 st3.
Proof.
  intros [A1 B1] [A2 B2]. split; [congruence|].
  intros p. rewrite B2. apply B1.
Qed.

Lemma same_names_lookup (st st' : state) (p : ptr)
  (s : janus_videocall_session) :
  same_names st st' -> session_heap st !! p = Some s ->
  exists s', session_heap st' !! p = Some s'
             /\ username s' = username s /\ destroy s' = destroy s.
Proof.
  intros [_ H] Hs. specialize (H p). rewrite Hs in H.
  destruct (session_heap st' !! p) as [s'|]; [|discriminate].
  injection H as H1 H2. eauto.
Qed.

Lemma same_names_sym (st st' : state) : same_names st st' -> same_names st' st.
Proof. intros [A B]. split; [congruence|]. intros p. symmetry. apply B. Qed.

Lemma consistent_same_names (st st' : state) :
  consistent st -> same_names st st' -> consistent st'.
Proof.
  intros [H1 H2] Hsame. split.
  - intros table name p Ht Hn. destruct Hsame as [Heq Hheap].
    rewrite Heq in Ht. destruct (H1 table name p Ht Hn) as (s & Hs & Hu).
    destruct (same_names_lookup st st' p s (conj Heq Hheap) Hs)
      as (s' & Hs' & Hu' & _).
    exists s'. split; [exact Hs'|congruence].
  - intros p s' Hs'.
    destruct (same_names_lookup st' st p s' (same_names_sym _ _ Hsame) Hs')
      as (s & Hs & _ & Hd).
    rewrite <- Hd. eapply H2, Hs.
Qed.

Lemma neutral_ret {A : Type} (a : A) : neutral (ret a).
Proof. intros st b st' H. injection H as _ <-. apply same_names_refl. Qed.

Lemma neutral_fault {A : Type} : neutral (@fault A).
Proof. intros st b st' H. discriminate. Qed.

Lemma neutral_get : neutral get.
Proof. intros st b st' H. injection H as _ <-. apply same_names_refl. Qed.

Lemma neutral_bind {A B : Type} (m : P A) (k : A -> P B) :
  neutral m -> (forall a, neutral (k a)) -> neutral (bind m k).
Proof.
  intros Hm Hk st b st' H.
  apply videocall_bind_returns in H as (a & st1 & H1 & H2).
  eapply same_names_trans; [eapply Hm, H1|eapply Hk, H2].
Qed.

Lemma neutral_deref {A : Type} (o : option A) : neutral (deref o).
Proof. destruct o; [apply neutral_ret|apply neutral_fault]. Qed.

Lemma neutral_modify (f : state -> state) :
  (forall st, sessions (f st) = sessions st
              /\ session_heap (f st) = session_heap st) ->
  neutral (modify f).
Proof.
  intros Hf st b st' H. injection H as _ <-. destruct (Hf st) as [A B].
  split; [exact A|]. intros p. rewrite B. reflexivity.
Qed.

Lemma neutral_call_gateway (c : gateway_call) : neutral (call_gateway c).
Proof.
  unfold call_gateway. apply neutral_bind; [apply neutral_get|intros st0].
  destruct (gateway st0); [|apply neutral_fault].
  apply neutral_modify. intros st. split; reflexivity.
Qed.

Lemma neutral_calloc : neutral calloc.
Proof.
  intros st b st'. unfold calloc.
  destruct (calloc_results st); intros H; injection H as _ <-;
    split; reflexivity.
Qed.

Lemma neutral_g_thread_try_new : neutral g_thread_try_new.
Proof.
  intros st b st'. unfold g_thread_try_new.
  destruct (thread_errors st); intros H; injection H as _ <-;
    split; reflexivity.
Qed.

Lemma neutral_error_cause (format : string) (args : list fmt_arg) :
  neutral (error_cause X format args).
Proof.
  unfold error_cause. destruct (512 <=? _);
    [apply neutral_fault|apply neutral_ret].
Qed.

Lemma neutral_assign (p : ptr)
  (f : janus_videocall_session -> janus_videocall_session) :
  (forall s, username (f s) = username s /\ destroy (f s) = destroy s) ->
  neutral (assign p f).
Proof.
  intros Hf st b st'.
  destruct (session_heap st !! p) as [s|] eqn:Hs.
  - rewrite (assign_live st p s f Hs). intros H. injection H as _ <-.
    split; [reflexivity|]. intros q. cbn.
    destruct (decide (q = p)) as [->|Hne].
    + rewrite lookup_insert_eq, Hs. cbn. destruct (Hf s) as [-> ->].
      reflexivity.
    + rewrite lookup_insert_ne by congruence. reflexivity.
  - unfold assign. unfold bind at 1.
    rewrite (read_session_freed st p Hs). discriminate.
Qed.

Ltac neutral_step :=
  lazymatch goal with
  | |- neutral (ret _) => apply neutral_ret
  | |- neutral fault => apply neutral_fault
  | |- neutral get => apply neutral_get
  | |- neutral (deref _) => apply neutral_deref
  | |- neutral (bind _ _) => apply neutral_bind; [|intros]
  | |- neutral (modify _) => apply neutral_modify; intros; split; reflexivity
  | |- neutral (call_gateway _) => apply neutral_call_gateway
  | |- neutral calloc => apply neutral_calloc
  | |- neutral g_thread_try_new => apply neutral_g_thread_try_new
  | |- neutral (error_cause _ _ _) => apply neutral_error_cause
  | |- neutral (assign _ _) =>
      apply neutral_assign; intros; split; reflexivity
  | |- neutral (match ?x with _ => _ end) => destruct x
  | |- _ => solve [eauto]
  end.

Ltac neutral := cbv beta zeta; repeat neutral_step.

Lemma neutral_read_session (p : ptr) : neutral (read_session p).
Proof. unfold read_session. neutral. Qed.

Lemma neutral_plugin_handle_of (h : ptr) : neutral (plugin_handle_of h).
Proof. unfold plugin_handle_of. neutral. Qed.

Lemma neutral_g_hash_table_lookup (name : string) :
  neutral (g_hash_table_lookup name).
Proof. unfold g_hash_table_lookup. neutral. Qed.

Hint Resolve neutral_read_session neutral_plugin_handle_of
  neutral_g_hash_table_lookup : core.

Lemma neutral_usernames (users : list ptr) :
  forall list, neutral (usernames users list).
Proof.
  induction users as [|user rest IH]; intros list; cbn [usernames]; neutral.
Qed.

Hint Resolve neutral_usernames : core.

Lemma neutral_hangup_media (h : ptr) :
  neutral (janus_videocall_hangup_media X h).
Proof. unfold janus_videocall_hangup_media. neutral. Qed.

Lemma neutral_handle_message (h : ptr)
  (transaction message sdp_type sdp : option string) :
  neutral (janus_videocall_handle_message h transaction message sdp_type sdp).
Proof. unfold janus_videocall_handle_message. neutral. Qed.

Lemma neutral_setup_media (h : ptr) : neutral (janus_videocall_setup_media h).
Proof. unfold janus_videocall_setup_media. neutral. Qed.

Lemma neutral_incoming_rtp (h : ptr) (video : Z) (buf : string) (len : Z) :
  neutral (janus_videocall_incoming_rtp h video buf len).
Proof. unfold janus_videocall_incoming_rtp. neutral. Qed.

Lemma neutral_incoming_rtcp (h : ptr) (video : Z) (buf : string) (len : Z) :
  neutral (janus_videocall_incoming_rtcp R h video buf len).
Proof. unfold janus_videocall_incoming_rtcp. neutral. Qed.

Lemma neutral_request_list : neutral request_list.
Proof. unfold request_list. neutral. Qed.

Lemma neutral_request_call (msg : janus_videocall_message) (p : ptr)
  (root : json_t) :
  neutral (request_call X msg p root).
Proof. unfold request_call. neutral. Qed.

Lemma neutral_request_accept (msg : janus_videocall_message) (p : ptr) :
  neutral (request_accept X msg p).
Proof. unfold request_accept. neutral. Qed.

Lemma neutral_request_set (p : ptr) (root : json_t) :
  neutral (request_set X R p root).
Proof. unfold request_set. neutral. Qed.

Lemma neutral_request_hangup (p : ptr) : neutral (request_hangup X p).
Proof. unfold request_hangup. neutral. Qed.

Lemma keeps_neutral {A : Type} (m : P A) : neutral m -> keeps m.
Proof.
  intros Hm st a st' Hc H. eapply consistent_same_names; [exact Hc|].
  eapply Hm, H.
Qed.

Lemma keeps_bind {A B : Type} (m : P A) (k : A -> P B) :
  keeps m -> (forall a, keeps (k a)) -> keeps (bind m k).
Proof.
  intros Hm Hk st b st' Hc H.
  apply videocall_bind_returns in H as (a & st1 & H1 & H2).
  eapply Hk; [|exact H2]. eapply Hm; [exact Hc|exact H1].
Qed.

Lemma keeps_set_sessions_empty : keeps (modify (set_sessions (Some ∅))).
Proof.
  intros st a st' [H1 H2] H. injection H as _ <-. split.
  - intros table name p Ht Hn. cbn in Ht. injection Ht as <-.
    rewrite lookup_empty in Hn. discriminate.
  - exact H2.
Qed.

Lemma keeps_set_sessions_none : keeps (modify (set_sessions None)).
Proof.
  intros st a st' [H1 H2] H. injection H as _ <-. split.
  - intros table name p Ht Hn. discriminate.
  - exact H2.
Qed.

Lemma keeps_init (callback : bool) (config_path : option string) :
  keeps (janus_videocall_init X callback config_path).
Proof.
  unfold janus_videocall_init.
  apply keeps_bind; [apply keeps_neutral, neutral_get|intros st0].
  destruct (negb (stopping st0 =? 0)); [apply keeps_neutral, neutral_ret|].
  destruct callback; [|apply keeps_neutral, neutral_ret].
  destruct config_path as [path|]; [|apply keeps_neutral, neutral_ret].
  cbv zeta. destruct (255 <=? _); [apply keeps_neutral, neutral_fault|].
  apply keeps_bind; [apply keeps_set_sessions_empty|intros _].
  apply keeps_neutral. neutral.
Qed.

Lemma keeps_destroy : keeps janus_videocall_destroy.
Proof.
  unfold janus_videocall_destroy.
  apply keeps_bind; [apply keeps_neutral, neutral_get|intros st0].
  destruct (initialized st0 =? 0); [apply keeps_neutral, neutral_ret|].
  apply keeps_bind; [apply keeps_neutral; neutral|intros _].
  apply keeps_bind; [apply keeps_neutral; neutral|intros _].
  apply keeps_bind; [apply keeps_set_sessions_none|intros _].
  apply keeps_neutral. neutral.
Qed.

(** A new session is at an address no user has. *)
Lemma consistent_calloc (st : state) (s : janus_videocall_session) :
  consistent st -> username s = None -> destroy s = false ->
  consistent
    (set_session_heap (<[fresh (dom (session_heap st)) := s]> (session_heap st))
       st).
Proof.
  intros [H1 H2] Hu Hd.
  pose proof (fresh_is_free (session_heap st)) as Hfree. split.
  - intros table name p Ht Hn. cbn in *.
    destruct (H1 table name p Ht Hn) as (s0 & Hs0 & Hu0).
    exists s0. split; [|exact Hu0].
    rewrite lookup_insert_ne; [exact Hs0|]. intros <-. congruence.
  - intros p s0. cbn.
    destruct (decide (p = fresh (dom (session_heap st)))) as [->|Hne].
    + rewrite lookup_insert_eq. intros H. injection H as <-. exact Hd.
    + rewrite lookup_insert_ne by congruence. apply H2.
Qed.

Lemma keeps_create_session (h : ptr) (error : Z) :
  keeps (janus_videocall_create_session h error).
Proof.
  intros st a st' Hc. unfold janus_videocall_create_session. vstep.
  destruct (inactive st); [intros H; injection H as _ <-; exact Hc|].
  assert (Hrest : forall st0 : state, same_names st st0 -> consistent st0).
  { intros st0. apply consistent_same_names, Hc. }
  unfold calloc.
  destruct (calloc_results st) as [|[|] rest]; cbn;
    try (destruct (handles st !! h) as [hd|]; [|discriminate]);
    intros H; injection H as _ <-;
    try (apply Hrest; split; reflexivity);
    (eapply consistent_same_names;
     [exact (consistent_calloc st (new_session h) Hc eq_refl eq_refl)|];
     split; reflexivity).
Qed.

(** What is left of [janus_videocall_destroy_session] after the media of
    the session is hung up. *)
Lemma keeps_destroy_session_end (p : ptr) (error : Z) :
  keeps (let* _ := assign p (set_destroy true) in
         let* session := read_session p in
         let* _ :=
           match username session with
           | Some name =>
               modify (fun st =>
                 set_sessions (match sessions st with
                               | Some table => Some (delete name table)
                               | None => None
                               end) st)
           | None => ret tt
           end in
         let* _ := g_free p in
         ret error).
Proof.
  intros st a st' [H1 H2].
  destruct (session_heap st !! p) as [s|] eqn:Hs.
  2: { unfold assign. unfold bind at 1 2.
       rewrite (read_session_freed st p Hs). discriminate. }
  unfold bind at 1. rewrite (assign_live st p s _ Hs).
  unfold bind at 1. erewrite read_session_live by apply lookup_insert_eq.
  assert (Hheap : forall q s0,
             delete p (session_heap st) !! q = Some s0 ->
             q <> p /\ session_heap st !! q = Some s0).
  { intros q s0. destruct (decide (q = p)) as [->|Hne].
    - rewrite lookup_delete_eq. discriminate.
    - rewrite lookup_delete_ne by congruence. auto. }
  cbn [set_destroy username]. destruct (username s) as [name|] eqn:Hname.
  - vstep. erewrite g_free_live by (cbn; apply lookup_insert_eq). cbn.
    intros H. injection H as _ <-. split; cbn.
    + intros table name' q Ht Hn. rewrite delete_insert_eq.
      destruct (sessions st) as [table0|] eqn:Htable; [|discriminate].
      injection Ht as <-.
      destruct (decide (name' = name)) as [->|Hne].
      { rewrite lookup_delete_eq in Hn. discriminate. }
      rewrite lookup_delete_ne in Hn by congruence.
      destruct (H1 table0 name' q eq_refl Hn) as (s0 & Hs0 & Hu0).
      exists s0. split; [|exact Hu0].
      rewrite lookup_delete_ne; [exact Hs0|]. intros <-. congruence.
    + intros q s0. rewrite delete_insert_eq. intros Hq.
      apply Hheap in Hq as [_ Hq]. eapply H2, Hq.
  - vstep. erewrite g_free_live by (cbn; apply lookup_insert_eq). cbn.
    intros H. injection H as _ <-. split; cbn.
    + intros table name' q Ht Hn. rewrite delete_insert_eq.
      destruct (H1 table name' q Ht Hn) as (s0 & Hs0 & Hu0).
      exists s0. split; [|exact Hu0].
      rewrite lookup_delete_ne; [exact Hs0|]. intros <-. congruence.
    + intros q s0. rewrite delete_insert_eq. intros Hq.
      apply Hheap in Hq as [_ Hq]. eapply H2, Hq.
Qed.

Lemma keeps_destroy_session (h : ptr) (error : Z) :
  keeps (janus_videocall_destroy_session X h error).
Proof.
  intros st a st' Hc. unfold janus_videocall_destroy_session.
  unfold bind at 1. unfold get at 1.
  destruct (inactive st); [intros H; injection H as _ <-; exact Hc|].
  intros H. apply videocall_bind_returns in H as (found & st1 & Hf & H).
  pose proof (consistent_same_names _ _ Hc (neutral_plugin_handle_of h _ _ _ Hf))
    as Hc1.
  destruct found as [p|]; [|injection H as _ <-; exact Hc1].
  apply videocall_bind_returns in H as (s & st2 & Hr & H).
  assert (st2 = st1 /\ session_heap st1 !! p = Some s) as [-> Hs].
  { unfold read_session in Hr. revert Hr. vstep.
    destruct (session_heap st1 !! p); [|discriminate].
    intros E. injection E as <- <-. auto. }
  rewrite (proj2 Hc1 p s Hs) in H.
  apply videocall_bind_returns in H as ([] & st3 & Hh & H).
  pose proof (consistent_same_names _ _ Hc1 (neutral_hangup_media h _ _ _ Hh))
    as Hc3.
  eapply keeps_destroy_session_end; [exact Hc3|exact H].
Qed.

Lemma keeps_request_register (p : ptr) (root : json_t) :
  keeps (request_register X p root).
Proof.
  intros st a st' Hc. unfold request_register.
  destruct (session_heap st !! p) as [s|] eqn:Hs.
  2: { unfold bind at 1. rewrite (read_session_freed st p Hs). discriminate. }
  unfold bind at 1. rewrite (read_session_live st p s Hs).
  destruct (username s) as [name|] eqn:Hname.
  { intros H. eapply consistent_same_names; [exact Hc|].
    eapply neutral_error_cause, H. }
  destruct (string_member root "username") as [username_text|].
  2: { intros H. eapply consistent_same_names; [exact Hc|].
       eapply neutral_error_cause, H. }
  unfold bind at 1. unfold g_hash_table_lookup. vstep.
  destruct (match sessions st with
            | Some table => table !! username_text
            | None => None
            end) as [q|] eqn:Htaken.
  { intros H. eapply consistent_same_names; [exact Hc|].
    eapply neutral_error_cause, H. }
  rewrite (assign_live st p s _ Hs). cbn.
  intros H. injection H as _ <-. destruct Hc as [H1 H2]. split; cbn.
  - intros table name q Ht Hn.
    destruct (sessions st) as [table0|] eqn:Htable; [|discriminate].
    injection Ht as <-.
    destruct (decide (name = username_text)) as [->|Hne].
    + rewrite lookup_insert_eq in Hn. injection Hn as <-.
      rewrite lookup_insert_eq. eauto.
    + rewrite lookup_insert_ne in Hn by congruence.
      destruct (H1 table0 name q eq_refl Hn) as (s0 & Hs0 & Hu0).
      exists s0. split; [|exact Hu0].
      rewrite lookup_insert_ne; [exact Hs0|]. intros <-. congruence.
  - intros q s0. destruct (decide (q = p)) as [->|Hne].
    + rewrite lookup_insert_eq. intros H. injection H as <-. cbn.
      eapply H2, Hs.
    + rewrite lookup_insert_ne by congruence. apply H2.
Qed.

Lemma keeps_handle_request (msg : janus_videocall_message) (p : ptr) :
  keeps (handle_request X R msg p).
Proof.
  unfold handle_request.
  destruct (message msg) as [message_text|];
    [|apply keeps_neutral, neutral_fault].
  destruct (json_loads X (Some message_text)) as [error|root];
    [apply keeps_neutral, neutral_error_cause|].
  destruct (negb (json_is_object root));
    [apply keeps_neutral, neutral_error_cause|].
  destruct (string_member root "request") as [request_text|];
    [|apply keeps_neutral, neutral_error_cause].
  destruct (_ =? 0); [apply keeps_neutral, neutral_request_list|].
  destruct (_ =? 0); [apply keeps_request_register|].
  destruct (_ =? 0); [apply keeps_neutral, neutral_request_call|].
  destruct (_ =? 0); [apply keeps_neutral, neutral_request_accept|].
  destruct (_ =? 0); [apply keeps_neutral, neutral_request_set|].
  destruct (_ =? 0); [apply keeps_neutral, neutral_request_hangup|].
  apply keeps_neutral, neutral_error_cause.
Qed.

Lemma keeps_handler_turn : keeps (janus_videocall_handler_turn X R).
Proof.
  unfold janus_videocall_handler_turn.
  apply keeps_bind; [apply keeps_neutral, neutral_get|intros st0].
  destruct (messages st0) as [|[|msg rest]|];
    [apply keeps_neutral, neutral_ret..| |apply keeps_neutral, neutral_fault].
  apply keeps_bind; [apply keeps_neutral; neutral|intros _].
  apply keeps_bind; [apply keeps_neutral, neutral_plugin_handle_of|].
  intros [p|]; [|apply keeps_neutral, neutral_ret].
  apply keeps_bind; [apply keeps_neutral, neutral_read_session|intros s].
  destruct (destroy s); [apply keeps_neutral, neutral_ret|].
  apply keeps_bind; [apply keeps_handle_request|intros v].
  apply keeps_neutral. neutral.
Qed.

Lemma keeps_enter (e : entry) : keeps (enter X R e).
Proof.
  destruct e; cbn [enter].
  - apply keeps_bind; [apply keeps_init|intros; apply keeps_neutral, neutral_ret].
  - apply keeps_destroy.
  - apply keeps_bind;
      [apply keeps_create_session|intros; apply keeps_neutral, neutral_ret].
  - apply keeps_bind;
      [apply keeps_destroy_session|intros; apply keeps_neutral, neutral_ret].
  - apply keeps_neutral, neutral_handle_message.
  - apply keeps_neutral, neutral_setup_media.
  - apply keeps_neutral, neutral_incoming_rtp.
  - apply keeps_neutral, neutral_incoming_rtcp.
  - apply keeps_neutral, neutral_hangup_media.
  - apply keeps_handler_turn.
Qed.

(** Whatever the gateway calls and whenever the handler takes its turns,
    each run to its end before the next: as long as nothing faults, every
    name in the table of users is that of a session that is alive and
    carries that name, and no session that is alive is marked as
    destroyed.  A [list] or a [call] therefore never follows the table to
    freed memory. *)
Theorem user_table_names_live_sessions (es : list entry) (st st' : state) :
  consistent st ->
  run X R es st = Returns (tt, st') ->
  consistent st'.
Proof.
  revert st. induction es as [|e rest IH]; intros st Hc H.
  - injection H as <-. exact Hc.
  - cbn [run] in H. apply videocall_bind_returns in H as (a & st1 & H1 & H2).
    eapply IH; [|exact H2]. eapply keeps_enter; [exact Hc|exact H1].
Qed.

End UserTable.

(** * The further theorems at concrete inputs *)

(** ** The further theorems at concrete requests *)

Lemma unsupported_method_not_implemented_witness :
  exists w',
    janus_ws_handler Demo.X 1%positive "/janus/42" "PUT" "" 0
      (Demo.gateway None [])
    = Returns ((MHD_YES, 0), w')
    /\ fst <$> response_of w' 1%positive = Some MHD_HTTP_NOT_IMPLEMENTED.
Proof.
  destruct (unsupported_method_not_implemented Demo.X (Demo.gateway None [])
              1%positive (Demo.connection_with None) "/janus/42" "PUT" "" 0)
    as (w' & G & Q & _); try run.
  exists w'. split; [exact G|]. rewrite Q. reflexivity.
Defined.

Lemma first_call_reads_headers_witness :
  exists w',
    janus_ws_handler Demo.X 1%positive "/janus/42" "get" "" 0
      (Scenes.arriving [("content-type", "application/json")])
    = Returns ((MHD_YES, 0), w')
    /\ (con_cls <$> connections w' !! 1%positive)
       = Some (Some {| contenttype := Some "application/json"; acrh := None;
                       acrm := None; msg_payload := None; msg_len := 0;
                       msg_session_id := 0 |}).
Proof.
  destruct (first_call_reads_headers Demo.X
              (Scenes.arriving [("content-type", "application/json")])
              1%positive
              (Scenes.new_connection [("content-type", "application/json")])
              "/janus/42" "get" "" 0 (Some [""; "42"]))
    as (w' & G & Q & _); try run.
  exists w'. split; [exact G|]. rewrite Q. vm_compute. reflexivity.
Defined.

Lemma options_preflight_witness :
  exists w',
    janus_ws_handler Demo.X 1%positive "/janus" "OPTIONS" "" 0
      (Scenes.arriving [("Access-Control-Request-Method", "POST")])
    = Returns ((MHD_YES, 0), w')
    /\ response_of w' 1%positive
       = Some (MHD_HTTP_OK,
               {| headers := [("Access-Control-Allow-Origin", "*");
                              ("Access-Control-Allow-Methods", "POST")];
                  data := "" |}).
Proof.
  destruct (options_preflight Demo.X
              (Scenes.arriving [("Access-Control-Request-Method", "POST")])
              1%positive
              (Scenes.new_connection [("Access-Control-Request-Method", "POST")])
              "/janus" "OPTIONS" "" 0 None)
    as (w' & G & Q & _); try run.
  exists w'. split; [exact G|]. rewrite Q. vm_compute. reflexivity.
Defined.

Lemma body_arrives_in_pieces_witness :
  exists w',
    deliver Demo.X 1%positive "/janus" ["{'janus':"; "'create'}"]
      (Demo.gateway None [])
    = Returns ([(MHD_YES, 0); (MHD_YES, 0)], w')
    /\ (con_cls <$> connections w' !! 1%positive)
       = Some (Some (set_msg_payload (Some "{'janus':'create'}") 18
                       zero_msg)).
Proof.
  destruct (body_arrives_in_pieces Demo.X (Demo.gateway None []) 1%positive
              (Demo.connection_with None) (Demo.request None) "/janus"
              ["{'janus':"; "'create'}"] None None)
    as (w' & G & Q & _); try run.
  - repeat constructor; discriminate.
  - exists w'. split; [exact G|]. rewrite Q. vm_compute. reflexivity.
Defined.

Lemma invalid_identifier_not_found_witness :
  exists w',
    janus_ws_handler Demo.X 1%positive "/janus/abc" "GET" "" 0
      (Demo.gateway None [])
    = Returns ((MHD_YES, 0), w')
    /\ fst <$> response_of w' 1%positive = Some MHD_HTTP_NOT_FOUND.
Proof.
  unshelve epose proof
    (proj1 (invalid_identifier_not_found Demo.X (Demo.gateway None [])
              1%positive (Demo.connection_with None) (Demo.request None)
              "/janus/abc" _ _ _ "abc" None _ _) "" 0)
    as (w' & G & Q & _); try run.
  - left. run.
  - exists w'. split; [exact G|]. rewrite Q. reflexivity.
Defined.

Lemma request_envelope_checked_witness :
  exists w',
    janus_ws_handler Demo.X 1%positive "/janus/42" "POST" "" 0
      (Demo.gateway_with_handle (Some "[1,2]") [])
    = Returns ((MHD_YES, 0), w')
    /\ (fun r => data (snd r)) <$> response_of w' 1%positive
       = Some (Demo.json_text
                 "{'janus':'error','error':{'code':455,'reason':'JSON error: not an object'}}").
Proof.
  unshelve epose proof
    (proj1 (proj2 (request_envelope_checked Demo.X
                     (Demo.gateway_with_handle (Some "[1,2]") [])
                     1%positive (Demo.connection_with (Some "[1,2]"))
                     (Demo.request (Some "[1,2]")) "/janus/42" "[1,2]" "42"
                     None _ _ _ _ _ _ _ _)
              (JArray [JInteger 1; JInteger 2]) _) _ _)
    as (w' & G & Q & _); try run.
  - discriminate.
  - exists w'. split; [exact G|]. rewrite Q. vm_compute. reflexivity.
Defined.

Lemma unknown_session_witness :
  exists w',
    janus_ws_handler Demo.X 1%positive "/janus/43" "POST" "" 0
      (Demo.gateway_with_handle (Some Demo.destroy_text) [])
    = Returns ((MHD_YES, 0), w')
    /\ (fun r => data (snd r)) <$> response_of w' 1%positive
       = Some (Demo.json_text
                 "{'janus':'error','transaction':'t2','error':{'code':458,'reason':'No such session 43'}}").
Proof.
  unshelve epose proof
    (proj1 (unknown_session Demo.X
              (Demo.gateway_with_handle (Some Demo.destroy_text) [])
              1%positive (Demo.connection_with (Some Demo.destroy_text))
              (Demo.request (Some Demo.destroy_text)) "/janus/43"
              Demo.destroy_text "t2" "destroy" "43" Demo.destroy_json
              _ _ _ _ _ _ _ _ _ _ _ _) _)
    as (w' & G & Q & _); try run.
  exists w'. split; [exact G|]. rewrite Q. vm_compute. reflexivity.
Defined.

Lemma handle_verbs_need_a_handle_witness :
  exists w',
    janus_ws_handler Demo.X 1%positive "/janus/42" "POST" "" 0
      (Demo.gateway_with_handle (Some Demo.message_text) [])
    = Returns ((MHD_YES, 0), w')
    /\ (fun r => data (snd r)) <$> response_of w' 1%positive
       = Some (Demo.json_text
                 "{'janus':'error','transaction':'t4','error':{'code':457,'reason':'Unhandled request "
               +:+ "'message' at this path"
               +:+ Demo.json_text "'}}").
Proof.
  unshelve epose proof
    (handle_verbs_need_a_handle Demo.X
       (Demo.gateway_with_handle (Some Demo.message_text) [])
       1%positive (Demo.connection_with (Some Demo.message_text))
       (Demo.request (Some Demo.message_text)) "/janus/42"
       Demo.message_text "t4" "message" "42" Demo.message_json
       _ _ _ _ _ _ _ _ _ _ _ 1%positive _ _ _)
    as (w' & G & Q & _); try run.
  - right. run.
  - exists w'. split; [exact G|]. rewrite Q. vm_compute. reflexivity.
Defined.

Lemma unknown_verb_witness :
  exists w',
    janus_ws_handler Demo.X 1%positive "/janus/42" "POST" "" 0
      (Demo.gateway_with_handle (Some Demo.create_text) [])
    = Returns ((MHD_YES, 0), w')
    /\ (fun r => data (snd r)) <$> response_of w' 1%positive
       = Some (Demo.json_text
                 "{'janus':'error','transaction':'t1','error':{'code':453,'reason':'Unknown request "
               +:+ "'create'"
               +:+ Demo.json_text "'}}").
Proof.
  unshelve epose proof
    (proj1 (unknown_verb Demo.X
              (Demo.gateway_with_handle (Some Demo.create_text) [])
              1%positive (Demo.connection_with (Some Demo.create_text))
              (Demo.request (Some Demo.create_text)) "/janus/42"
              Demo.create_text "t1" "create" "42" Demo.create_json
              _ _ _ _ _ _ _ _ _ _ _ 1%positive _ _ _ _ _) _)
    as (w' & G & Q & _); try run.
  exists w'. split; [exact G|]. rewrite Q. vm_compute. reflexivity.
Defined.

Lemma base_path_only_creates_witness :
  exists w',
    janus_ws_handler Demo.X 1%positive "/janus" "GET" "" 0
      (Demo.gateway None [])
    = Returns ((MHD_YES, 0), w')
    /\ (fun r => data (snd r)) <$> response_of w' 1%positive
       = Some (Demo.json_text
                 "{'janus':'error','error':{'code':451,'reason':'Use POST to create a session'}}").
Proof.
  unshelve epose proof
    (proj1 (base_path_only_creates Demo.X (Demo.gateway None []) 1%positive
              (Demo.connection_with None) (Demo.request None) "/janus"
              _ _ _ _ _) "" 0 _)
    as (w' & G & Q & _); try run.
  exists w'. split; [exact G|]. rewrite Q. vm_compute. reflexivity.
Defined.

Lemma get_on_handle_redirects_witness :
  exists w',
    janus_ws_handler Demo.X 1%positive "/janus/42/7" "GET" "" 0
      (Demo.gateway_with_handle None [])
    = Returns ((MHD_YES, 0), w')
    /\ response_of w' 1%positive
       = Some (MHD_HTTP_FOUND,
               {| headers := [("Location", "/janus/42");
                              ("Access-Control-Allow-Origin", "*")];
                  data := "" |}).
Proof.
  unshelve epose proof
    (proj1 (get_on_handle_redirects Demo.X (Demo.gateway_with_handle None [])
              1%positive (Demo.connection_with None) (Demo.request None)
              "/janus/42/7" "42" "7" "" 0 _ _ _ _ _ _) _)
    as (w' & G & Q & _); try run.
  exists w'. split; [exact G|]. rewrite Q. vm_compute. reflexivity.
Defined.

Lemma get_wakes_on_event_witness :
  exists w',
    janus_ws_handler Demo.X 1%positive "/janus/42" "GET" "" 0
      (set_sleeps [[]; []; [ENQUEUE 1%positive (Scenes.event "hello")]]
         (Demo.gateway_with_handle None []))
    = Returns ((MHD_YES, 0), w')
    /\ (fun r => data (snd r)) <$> response_of w' 1%positive = Some "hello"
    /\ clock w' = 301000.
Proof.
  unshelve epose proof
    (proj1 (get_wakes_on_event Demo.X
              (set_sleeps [[]; []; [ENQUEUE 1%positive (Scenes.event "hello")]]
                 (Demo.gateway_with_handle None []))
              1%positive (Demo.connection_with None) (Demo.request None)
              "/janus/42" "42" "" 0 1%positive (Demo.session42 [])
              (Scenes.event "hello") "hello" 2 []
              _ _ _ _ _ _ _ _ _ _ _ _) _)
    as (w' & G & Q & C & _); try run.
  - lia.
  - exists w'. split; [exact G|]. rewrite Q, C. split; vm_compute; reflexivity.
Defined.


Lemma push_event_enqueues_envelope_witness :
  exists envelope,
    queue_of (Demo.after (Demo.push "{'n':1}")
                (Demo.gateway_with_handle None [])) 1%positive
    = [{| code := 200; payload := Some (Demo.dumps envelope);
          allocated := 1 |}]
    /\ json_object_get envelope "sender" = Some (JInteger 7).
Proof.
  unshelve epose proof
    (push_event_enqueues_envelope Demo.X (Demo.gateway_with_handle None [])
       (Demo.after (Demo.push "{'n':1}") (Demo.gateway_with_handle None []))
       (Demo.token 1) Demo.videocall None None None
       (Demo.json_text "{'n':1}") 1%positive 1%positive
       (Demo.attached_handle 1 7 1) (Demo.session42 []) _ _ _ _ _ _ _)
    as (envelope & event & Q & _ & _ & S & _); try run.
  - intros e H. destruct e; vm_compute in H; first [reflexivity|discriminate].
  - exists envelope. split; [exact Q|exact S].
Defined.

Lemma push_event_failure_queues_nothing_witness :
  session_heap (Demo.after (Demo.push "[1,2]")
                  (Demo.gateway_with_handle None []))
  = session_heap (Demo.gateway_with_handle None []).
Proof.
  unshelve epose proof
    (push_event_failure_queues_nothing Demo.X
       (Demo.gateway_with_handle None [])
       (Demo.after (Demo.push "[1,2]") (Demo.gateway_with_handle None []))
       (Some (Demo.token 1)) (Some Demo.videocall) None (Some "[1,2]") None
       None 455 _ _ _)
    as (H & _); [run..|].
  exact H.
Defined.

Lemma handle_sdp_goes_on_after_failed_preparse_witness :
  janus_handle_sdp Demo.X (Some (Demo.token 1)) (Some Demo.videocall)
    (Some "pranswer") (Some "v=0") (Demo.gateway_with_handle None [])
  = Returns (None, Demo.gateway_with_handle None []).
Proof.
  unshelve epose proof
    (proj1 (handle_sdp_goes_on_after_failed_preparse Demo.X
              (Demo.gateway_with_handle None []) (Demo.token 1)
              Demo.videocall "pranswer" "v=0" 1%positive
              (Demo.attached_handle 1 7 1) _ _) _ _)
    as H; [run..|].
  exact H.
Defined.

Lemma create_then_destroy_witness :
  exists id w2,
    janus_session_destroy id
      (Demo.after janus_session_create (Demo.gateway None [0; 77]))
    = Returns (0, w2)
    /\ sessions w2 = sessions (Demo.gateway None [0; 77]).
Proof.
  unshelve epose proof
    (create_then_destroy (Demo.gateway None [0; 77])
       (Demo.after janus_session_create (Demo.gateway None [0; 77]))
       1%positive _)
    as (id & w2 & _ & D & S & _); try run.
  exists id, w2. split; [exact D|exact S].
Defined.

Lemma responses_carry_cors_witness :
  has_cors {| headers := [("Location", "/janus/42");
                          ("Access-Control-Allow-Origin", "*")];
              data := "" |}
  \/ (MHD_HTTP_FOUND,
      {| headers := [("Location", "/janus/42");
                     ("Access-Control-Allow-Origin", "*")];
         data := "" |}) = bare_500.
Proof.
  unshelve epose proof
    (responses_carry_cors Demo.X (Demo.gateway_with_handle None [])
       (Demo.after
          (janus_ws_handler Demo.X 1%positive "/janus/42/7" "GET" "" 0)
          (Demo.gateway_with_handle None []))
       1%positive "/janus/42/7" "GET" "" 0 (MHD_YES, 0) _ _ 1%positive
       (set_queued
          (Some (MHD_HTTP_FOUND,
                 {| headers := [("Location", "/janus/42");
                                ("Access-Control-Allow-Origin", "*")];
                    data := "" |}))
          (set_con_cls (Some (set_msg_session_id 42 (Demo.request None)))
             (Demo.connection_with None)))
       (MHD_HTTP_FOUND,
        {| headers := [("Location", "/janus/42");
                       ("Access-Control-Allow-Origin", "*")];
           data := "" |}) _ _)
    as H; [try run..|].
  - intros c conn r Hc Hq.
    assert (Hnone : queued conn = None).
    { destruct (decide (c = 1%positive)) as [->|Hne];
        [|destruct (decide (c = 2%positive)) as [->|Hne2];
          [|destruct (decide (c = 3%positive)) as [->|Hne3]]].
      - vm_compute in Hc. injection Hc as <-. reflexivity.
      - vm_compute in Hc. injection Hc as <-. reflexivity.
      - vm_compute in Hc. injection Hc as <-. reflexivity.
      - unfold Demo.gateway_with_handle, Demo.session_gateway in Hc.
        cbn [connections] in Hc.
        rewrite !lookup_insert_ne in Hc by congruence.
        rewrite lookup_singleton_ne in Hc by congruence. discriminate. }
    congruence.
  - exact H.
Defined.

(** ** The theorems about the plugin at concrete states *)

Lemma inactive_plugin_is_inert_witness :
  Videocall.janus_videocall_create_session 1%positive 0
    (VideocallFacts.loaded ∅)
  = Returns (-1, VideocallFacts.loaded ∅).
Proof.
  unshelve epose proof
    (inactive_plugin_is_inert Scenes.X Scenes.R (VideocallFacts.loaded ∅)
       1%positive 0 0 0 None None None None "" 0 _)
    as (H & _); [run..|].
  exact H.
Defined.

Lemma init_then_destroy_witness :
  exists st1 st2,
    Videocall.janus_videocall_init Scenes.X true (Some "/etc/janus")
      (VideocallFacts.loaded ∅)
    = Returns (0, st1)
    /\ Videocall.janus_videocall_destroy st1 = Returns (tt, st2)
    /\ Videocall.inactive st2 = true.
Proof.
  unshelve epose proof
    (proj2 (init_then_destroy Scenes.X (VideocallFacts.loaded ∅) "/etc/janus")
       _ _ _)
    as (st1 & st2 & I & _ & _ & _ & _ & D & A & _); try run.
  exists st1, st2. auto.
Defined.

Lemma create_then_destroy_session_witness :
  exists st1 st2,
    Videocall.janus_videocall_create_session 4%positive 0
      (Scenes.running [] Scenes.idle)
    = Returns (0, st1)
    /\ Videocall.janus_videocall_destroy_session Scenes.X 4%positive 0 st1
       = Returns (0, st2)
    /\ Videocall.session_heap st2
       = Videocall.session_heap (Scenes.running [] Scenes.idle)
    /\ Videocall.janus_videocall_setup_media 4%positive st2 = Faults.
Proof.
  unshelve epose proof
    (create_then_destroy_session Scenes.X (Scenes.running [] Scenes.idle)
       4%positive {| gateway_handle := Some 4%positive; plugin_handle := None |}
       0 _ _ _)
    as (st1 & st2 & C & _ & _ & D & H & _ & _ & _ & _ & S); try run.
  exists st1, st2. auto.
Defined.




Lemma set_controls_the_relay_witness :
  exists st',
    Videocall.janus_videocall_handler_turn Scenes.X Scenes.R
      (Scenes.running [Scenes.request 1 Scenes.set_text None] Scenes.in_call)
    = Returns (tt, st')
    /\ Videocall.janus_videocall_incoming_rtp 1%positive 0 "audio" 5 st'
       = Returns (tt, st').
Proof.
  unshelve epose proof
    (set_controls_the_relay Scenes.X Scenes.R
       (Scenes.running [Scenes.request 1 Scenes.set_text None] Scenes.in_call)
       (Scenes.request 1 Scenes.set_text None) []
       {| gateway_handle := Some 1%positive;
          plugin_handle := Some 11%positive |}
       11%positive (Scenes.user 1 (Some "alice") (Some 12%positive))
       Scenes.set_text "set" Scenes.set_json _ _ _ _ _ _ _ _ _ _ _
       JFalse 64000 12%positive (Scenes.user 2 (Some "bob") (Some 11%positive))
       "audio" 5 _ _ _ _ _ _ _ _ _ _)
    as (st' & T & _ & _ & A & _); [run..|].
  exists st'. split; [exact T|exact A].
Defined.


Lemma destroy_session_leaves_peer_dangling_witness :
  exists st',
    Videocall.janus_videocall_destroy_session Scenes.X 1%positive 0
      (Scenes.running [] Scenes.in_call)
    = Returns (0, st')
    /\ Videocall.janus_videocall_incoming_rtp 2%positive 0 "audio" 5 st'
       = Faults.
Proof.
  unshelve epose proof
    (destroy_session_leaves_peer_dangling Scenes.X Scenes.R
       (Scenes.running [] Scenes.in_call) 1%positive 2%positive
       {| gateway_handle := Some 1%positive;
          plugin_handle := Some 11%positive |}
       {| gateway_handle := Some 2%positive;
          plugin_handle := Some 12%positive |}
       11%positive 12%positive
       (Scenes.user 1 (Some "alice") (Some 12%positive))
       (Scenes.user 2 (Some "bob") (Some 11%positive))
       _ _ _ _ _ _ _ _ _ _ _ _ _ 0 0 5 "audio")
    as (st' & D & _ & _ & _ & _ & F & _); [run..|].
  exists st'. split; [exact D|exact F].
Defined.

Lemma every_request_is_answered_witness :
  Videocall.messages
    (Scenes.after (Videocall.janus_videocall_handler_turn Scenes.X Scenes.R)
       (Scenes.running [Scenes.request 3 "nonsense" None] Scenes.idle))
  = Videocall.Queue []
  /\ exists before text,
       Videocall.calls
         (Scenes.after
            (Videocall.janus_videocall_handler_turn Scenes.X Scenes.R)
            (Scenes.running [Scenes.request 3 "nonsense" None] Scenes.idle))
       = before ++ [Videocall.push_event 3%positive (Some "t") (Some text)
                      None None].
Proof.
  unshelve epose proof
    (every_request_is_answered Scenes.X Scenes.R
       (Scenes.running [Scenes.request 3 "nonsense" None] Scenes.idle)
       (Scenes.after
          (Videocall.janus_videocall_handler_turn Scenes.X Scenes.R)
          (Scenes.running [Scenes.request 3 "nonsense" None] Scenes.idle))
       (Scenes.request 3 "nonsense" None) []
       {| gateway_handle := Some 3%positive;
          plugin_handle := Some 13%positive |}
       13%positive (Scenes.user 3 None None) _ _ _ _ _ _)
    as (Q & [(before & text & C)|(_ & _ & text & request & root & M & L & _)]);
    [run..| |].
  - split; [exact Q|]. exists before, text. exact C.
  - injection M as <-. vm_compute in L. discriminate.
Defined.

Lemma user_table_names_live_sessions_witness :
  VideocallFacts.consistent
    (Scenes.after
       (VideocallFacts.run Scenes.X Scenes.R
          [VideocallFacts.Create_session 4 0;
           VideocallFacts.Handle_message 3 (Some "t")
             (Some Scenes.register_text) None None;
           VideocallFacts.Handler_turn;
           VideocallFacts.Destroy_session 3 0])
       (Scenes.running [] Scenes.idle)).
Proof.
  unshelve epose proof
    (user_table_names_live_sessions Scenes.X Scenes.R
       [VideocallFacts.Create_session 4 0;
        VideocallFacts.Handle_message 3 (Some "t")
          (Some Scenes.register_text) None None;
        VideocallFacts.Handler_turn;
        VideocallFacts.Destroy_session 3 0]
       (Scenes.running [] Scenes.idle)
       (Scenes.after
          (VideocallFacts.run Scenes.X Scenes.R
             [VideocallFacts.Create_session 4 0;
              VideocallFacts.Handle_message 3 (Some "t")
                (Some Scenes.register_text) None None;
              VideocallFacts.Handler_turn;
              VideocallFacts.Destroy_session 3 0])
          (Scenes.running [] Scenes.idle)) _ _)
    as H; [|run|exact H].
  split.
  - intros table name p Ht Hn. cbn in Ht. injection Ht as <-.
    destruct (decide (name = "alice")) as [->|Ha].
    { vm_compute in Hn. injection Hn as <-. eexists. split; reflexivity. }
    destruct (decide (name = "bob")) as [->|Hb].
    { vm_compute in Hn. injection Hn as <-. eexists. split; reflexivity. }
    rewrite lookup_insert_ne in Hn by congruence.
    rewrite lookup_singleton_ne in Hn by congruence. discriminate.
  - intros p s Hs.
    destruct (decide (p = 11%positive)) as [->|H1];
      [vm_compute in Hs; injection Hs as <-; reflexivity|].
    destruct (decide (p = 12%positive)) as [->|H2];
      [vm_compute in Hs; injection Hs as <-; reflexivity|].
    destruct (decide (p = 13%positive)) as [->|H3];
      [vm_compute in Hs; injection Hs as <-; reflexivity|].
    cbn in Hs. rewrite !lookup_insert_ne in Hs by congruence.
    rewrite lookup_singleton_ne in Hs by congruence. discriminate.
Defined.
